(** * The DirectInput joystick driver (src/win/wjoydxnu.c)

    A shallow embedding of the driver: the capability map filled in by
    [object_enum_callback], the layout builder
    [fill_joystick_info_using_caps_and_names], the enumeration callback
    [joystick_enum_callback], the public facade, the background thread's
    loop body and the handlers that turn buffered DirectInput items into
    snapshot updates and events.

    C [int] and [DWORD] values are integers of [Z]; the two conversions the
    driver relies on ([DWORD] to [int]) are written out.  C arrays are lists
    of the declared length; an access outside the array is undefined
    behaviour in C and makes the model return [None].  A [char *] is an
    [option string], [None] being the null pointer.  The C [float] and
    [double] values are IEEE 754 binary32 and binary64 numbers
    ([spec_float] with the operations of [SpecFloat], rounding to nearest
    even). *)

From Stdlib Require Import ZArith List Bool Lia SpecFloat.
From stdpp Require Import base option list strings.

Local Open Scope Z_scope.

(** ** Limits *)

Definition MAX_JOYSTICKS : Z := 8.
Definition MAX_SLIDERS : Z := 2.
Definition MAX_POVS : Z := 4.
Definition MAX_BUTTONS : Z := 32.
Definition DEVICE_BUFFER_SIZE : Z := 10.
Definition JOY_POVFORWARD_WRAP : Z := 36000.

(** Modelled from the spec: the array sizes of the generic joystick record
    (_AL_MAX_JOYSTICK_AXES, _AL_MAX_JOYSTICK_STICKS, _AL_MAX_JOYSTICK_BUTTONS)
    are declared in a header that is not part of the sources.  The spec gives
    2 + MAX_SLIDERS + MAX_HATS sticks, at most three axes per stick and 32
    buttons; [joydx_init] asserts the first and the last bound. *)
Definition _AL_MAX_JOYSTICK_AXES : Z := 3.
Definition _AL_MAX_JOYSTICK_STICKS : Z := 8.
Definition _AL_MAX_JOYSTICK_BUTTONS : Z := 32.

(** Modelled from the spec: the hat angles of mmsystem.h, in hundredths of a
    degree (0 = up, 9000 = right, 18000 = down, 27000 = left). *)
Definition JOY_POVFORWARD : Z := 0.
Definition JOY_POVRIGHT : Z := 9000.
Definition JOY_POVBACKWARD : Z := 18000.
Definition JOY_POVLEFT : Z := 27000.

(** Modelled from the spec: the raw offset table of the HID backend, the
    field offsets of dinput.h's DIJOYSTATE: six axes of four bytes, two
    sliders, four hats, then one byte per button. *)
Definition DIJOFS_X : Z := 0.
Definition DIJOFS_Y : Z := 4.
Definition DIJOFS_Z : Z := 8.
Definition DIJOFS_RX : Z := 12.
Definition DIJOFS_RY : Z := 16.
Definition DIJOFS_RZ : Z := 20.
Definition DIJOFS_SLIDER (n : Z) : Z := 24 + 4 * n.
Definition DIJOFS_POV (n : Z) : Z := 32 + 4 * n.
Definition DIJOFS_BUTTON (n : Z) : Z := 48 + n.
Definition DIJOFS_BUTTON0 : Z := DIJOFS_BUTTON 0.
Definition DIJOFS_BUTTON1 : Z := DIJOFS_BUTTON 1.

(** Modelled from the spec: WAIT_OBJECT_0 of winbase.h, the value the
    multi-wait returns for the first handle of the array. *)
Definition WAIT_OBJECT_0 : Z := 0.

(** ** Machine integers *)

(** The conversion of a [DWORD] to [int] (two's complement, 32 bits). *)
Definition int_of_DWORD (v : Z) : Z :=
  let w := v mod 2 ^ 32 in
  if w <? 2 ^ 31 then w else w - 2 ^ 32.

(** The [DWORD] that holds the [int] [v]. *)
Definition DWORD_of_int (v : Z) : Z := v mod 2 ^ 32.

(** ** C floating point *)

Module CFloat.

(** An [int] converted to [double]: exact, 32 bits fit in 53. *)
Definition double_of_int (v : Z) : spec_float :=
  binary_normalize 53 1024 v 0 false.

(** Division of two [double]s. *)
Definition ddiv (x y : spec_float) : spec_float := SFdiv 53 1024 x y.

(** The conversion of a [double] to [float], done by the assignment to a
    [float] variable. *)
Definition float_of_double (d : spec_float) : spec_float :=
  match d with
  | S754_finite s m e => binary_round 24 128 s m e
  | _ => d
  end.

(** The [double] literal [k.0] stored in a [float]. *)
Definition float_lit (k : Z) : spec_float :=
  float_of_double (double_of_int k).

(** [x != y] on floats: a NaN differs from everything, the two zeros are
    equal. *)
Definition fne (x y : spec_float) : bool := negb (SFeqb x y).

(** -1.0 <= x <= +1.0. *)
Definition in_unit (x : spec_float) : bool :=
  SFleb (float_lit (-1)) x && SFleb x (float_lit 1).

End CFloat.

Import CFloat.

(** ** Arrays *)

(** [a[i]], read. *)
Definition array_get {A} (a : list A) (i : Z) : option A :=
  if 0 <=? i then a !! Z.to_nat i else None.

(** [a[i] = v]. *)
Definition array_set {A} (a : list A) (i : Z) (v : A) : option (list A) :=
  if (0 <=? i) && (i <? Z.of_nat (length a))
  then Some (<[Z.to_nat i := v]> a) else None.

(** [for (i = lo; i < lo + n; i++) body], threading the state and stopping
    at the first undefined step. *)
Fixpoint for_loop {St} (n : nat) (i : Z) (body : Z → St → option St)
    (s : St) : option St :=
  match n with
  | O => Some s
  | S k => s' ← body i s; for_loop k (i + 1) body s'
  end.

(** ** The capability map *)

Record CAPS_AND_NAMES := {
  have_x : bool;  name_x : option string;
  have_y : bool;  name_y : option string;
  have_z : bool;  name_z : option string;
  have_rx : bool; name_rx : option string;
  have_ry : bool; name_ry : option string;
  have_rz : bool; name_rz : option string;
  num_sliders : Z; name_slider : list (option string);
  num_povs : Z;    name_pov : list (option string);
  num_buttons : Z; name_button : list (option string)
}.

(** The structure after [memset (..., 0, ...)]. *)
Definition zero_caps : CAPS_AND_NAMES := {|
  have_x := false;  name_x := None;
  have_y := false;  name_y := None;
  have_z := false;  name_z := None;
  have_rx := false; name_rx := None;
  have_ry := false; name_ry := None;
  have_rz := false; name_rz := None;
  num_sliders := 0; name_slider := replicate (Z.to_nat MAX_SLIDERS) None;
  num_povs := 0;    name_pov := replicate (Z.to_nat MAX_POVS) None;
  num_buttons := 0; name_button := replicate (Z.to_nat MAX_BUTTONS) None
|}.

(** The object types [object_enum_callback] tells apart by their GUID. *)
Inductive GUIDTYPE :=
  | GUID_XAxis | GUID_YAxis | GUID_ZAxis
  | GUID_RxAxis | GUID_RyAxis | GUID_RzAxis
  | GUID_Slider | GUID_POV | GUID_Button | GUID_Unknown.

(** One enumerated object: its type and the result of
    [ustrdup (uconvert_ascii (tszName, tmp))], null when the allocation
    failed. *)
Record DIDEVICEOBJECTINSTANCE := {
  guidType : GUIDTYPE;
  tszName : option string
}.

(** Assignments to the members of the capability map: [can->have_x = true;
    can->name_x = nm] and the like. *)
Definition set_have_x (nm : option string) (can : CAPS_AND_NAMES)
  : CAPS_AND_NAMES :=
  {| have_x := true; name_x := nm; have_y := have_y can;
     name_y := name_y can; have_z := have_z can; name_z := name_z can;
     have_rx := have_rx can; name_rx := name_rx can; have_ry := have_ry can;
     name_ry := name_ry can; have_rz := have_rz can; name_rz := name_rz can;
     num_sliders := num_sliders can; name_slider := name_slider can;
     num_povs := num_povs can; name_pov := name_pov can;
     num_buttons := num_buttons can; name_button := name_button can |}.

Definition set_have_y (nm : option string) (can : CAPS_AND_NAMES)
  : CAPS_AND_NAMES :=
  {| have_x := have_x can; name_x := name_x can; have_y := true;
     name_y := nm; have_z := have_z can; name_z := name_z can;
     have_rx := have_rx can; name_rx := name_rx can; have_ry := have_ry can;
     name_ry := name_ry can; have_rz := have_rz can; name_rz := name_rz can;
     num_sliders := num_sliders can; name_slider := name_slider can;
     num_povs := num_povs can; name_pov := name_pov can;
     num_buttons := num_buttons can; name_button := name_button can |}.

Definition set_have_z (nm : option string) (can : CAPS_AND_NAMES)
  : CAPS_AND_NAMES :=
  {| have_x := have_x can; name_x := name_x can; have_y := have_y can;
     name_y := name_y can; have_z := true; name_z := nm;
     have_rx := have_rx can; name_rx := name_rx can; have_ry := have_ry can;
     name_ry := name_ry can; have_rz := have_rz can; name_rz := name_rz can;
     num_sliders := num_sliders can; name_slider := name_slider can;
     num_povs := num_povs can; name_pov := name_pov can;
     num_buttons := num_buttons can; name_button := name_button can |}.

Definition set_have_rx (nm : option string) (can : CAPS_AND_NAMES)
  : CAPS_AND_NAMES :=
  {| have_x := have_x can; name_x := name_x can; have_y := have_y can;
     name_y := name_y can; have_z := have_z can; name_z := name_z can;
     have_rx := true; name_rx := nm; have_ry := have_ry can;
     name_ry := name_ry can; have_rz := have_rz can; name_rz := name_rz can;
     num_sliders := num_sliders can; name_slider := name_slider can;
     num_povs := num_povs can; name_pov := name_pov can;
     num_buttons := num_buttons can; name_button := name_button can |}.

Definition set_have_ry (nm : option string) (can : CAPS_AND_NAMES)
  : CAPS_AND_NAMES :=
  {| have_x := have_x can; name_x := name_x can; have_y := have_y can;
     name_y := name_y can; have_z := have_z can; name_z := name_z can;
     have_rx := have_rx can; name_rx := name_rx can; have_ry := true;
     name_ry := nm; have_rz := have_rz can; name_rz := name_rz can;
     num_sliders := num_sliders can; name_slider := name_slider can;
     num_povs := num_povs can; name_pov := name_pov can;
     num_buttons := num_buttons can; name_button := name_button can |}.

Definition set_have_rz (nm : option string) (can : CAPS_AND_NAMES)
  : CAPS_AND_NAMES :=
  {| have_x := have_x can; name_x := name_x can; have_y := have_y can;
     name_y := name_y can; have_z := have_z can; name_z := name_z can;
     have_rx := have_rx can; name_rx := name_rx can; have_ry := have_ry can;
     name_ry := name_ry can; have_rz := true; name_rz := nm;
     num_sliders := num_sliders can; name_slider := name_slider can;
     num_povs := num_povs can; name_pov := name_pov can;
     num_buttons := num_buttons can; name_button := name_button can |}.

Definition set_sliders (n : Z) (l : list (option string)) (can : CAPS_AND_NAMES)
  : CAPS_AND_NAMES :=
  {| have_x := have_x can; name_x := name_x can; have_y := have_y can;
     name_y := name_y can; have_z := have_z can; name_z := name_z can;
     have_rx := have_rx can; name_rx := name_rx can; have_ry := have_ry can;
     name_ry := name_ry can; have_rz := have_rz can; name_rz := name_rz can;
     num_sliders := n; name_slider := l; num_povs := num_povs can;
     name_pov := name_pov can; num_buttons := num_buttons can;
     name_button := name_button can |}.

Definition set_povs (n : Z) (l : list (option string)) (can : CAPS_AND_NAMES)
  : CAPS_AND_NAMES :=
  {| have_x := have_x can; name_x := name_x can; have_y := have_y can;
     name_y := name_y can; have_z := have_z can; name_z := name_z can;
     have_rx := have_rx can; name_rx := name_rx can; have_ry := have_ry can;
     name_ry := name_ry can; have_rz := have_rz can; name_rz := name_rz can;
     num_sliders := num_sliders can; name_slider := name_slider can;
     num_povs := n; name_pov := l; num_buttons := num_buttons can;
     name_button := name_button can |}.

Definition set_buttons (n : Z) (l : list (option string)) (can : CAPS_AND_NAMES)
  : CAPS_AND_NAMES :=
  {| have_x := have_x can; name_x := name_x can; have_y := have_y can;
     name_y := name_y can; have_z := have_z can; name_z := name_z can;
     have_rx := have_rx can; name_rx := name_rx can; have_ry := have_ry can;
     name_ry := name_ry can; have_rz := have_rz can; name_rz := name_rz can;
     num_sliders := num_sliders can; name_slider := name_slider can;
     num_povs := num_povs can; name_pov := name_pov can; num_buttons := n;
     name_button := l |}.

Definition object_enum_callback (lpddoi : DIDEVICEOBJECTINSTANCE)
    (can : CAPS_AND_NAMES) : option CAPS_AND_NAMES :=
  let nm := tszName lpddoi in
  match guidType lpddoi with
  | GUID_XAxis => Some (if have_x can then can else set_have_x nm can)
  | GUID_YAxis => Some (if have_y can then can else set_have_y nm can)
  | GUID_ZAxis => Some (if have_z can then can else set_have_z nm can)
  | GUID_RxAxis => Some (if have_rx can then can else set_have_rx nm can)
  | GUID_RyAxis => Some (if have_ry can then can else set_have_ry nm can)
  | GUID_RzAxis => Some (if have_rz can then can else set_have_rz nm can)
  | GUID_Slider =>
      if num_sliders can <? MAX_SLIDERS then
        l ← array_set (name_slider can) (num_sliders can) nm;
        Some (set_sliders (num_sliders can + 1) l can)
      else Some can
  | GUID_POV =>
      if num_povs can <? MAX_POVS then
        l ← array_set (name_pov can) (num_povs can) nm;
        Some (set_povs (num_povs can + 1) l can)
      else Some can
  | GUID_Button =>
      if num_buttons can <? MAX_BUTTONS then
        l ← array_set (name_button can) (num_buttons can) nm;
        Some (set_buttons (num_buttons can + 1) l can)
      else Some can
  | GUID_Unknown => Some can
  end.

(** [IDirectInputDevice2_EnumObjects] with [object_enum_callback]: the
    callback always answers DIENUM_CONTINUE, so every object is visited. *)
Fixpoint enum_objects (objs : list DIDEVICEOBJECTINSTANCE)
    (can : CAPS_AND_NAMES) : option CAPS_AND_NAMES :=
  match objs with
  | [] => Some can
  | o :: rest => can' ← object_enum_callback o can; enum_objects rest can'
  end.

(** ** The generic joystick record *)

(** Modelled from the spec: the generic joystick record ([AL_JOYSTICK] with
    its [_AL_JOYSTICK_INFO], [AL_JOYSTATE] and the joystick event) is
    declared in headers that are not part of the sources.  The records below
    have the members the driver reads and writes, in the shapes the spec
    gives: ordered sticks with a name and up to three named axes, named
    buttons; per stick an array of axis positions, per button an integer
    intensity. *)

(** The flag word of a stick, kept as the two bits the driver sets (the
    numeric values of AL_JOYFLAG_DIGITAL and AL_JOYFLAG_ANALOGUE are not in
    the sources). *)
Record JOYFLAGS := { AL_JOYFLAG_DIGITAL : bool; AL_JOYFLAG_ANALOGUE : bool }.

Definition flags_none : JOYFLAGS :=
  {| AL_JOYFLAG_DIGITAL := false; AL_JOYFLAG_ANALOGUE := false |}.
Definition flags_digital : JOYFLAGS :=
  {| AL_JOYFLAG_DIGITAL := true; AL_JOYFLAG_ANALOGUE := false |}.
Definition flags_digital_analogue : JOYFLAGS :=
  {| AL_JOYFLAG_DIGITAL := true; AL_JOYFLAG_ANALOGUE := true |}.

(** Modelled from the spec: [info->stick[i]], a stick with 1 to 3 named axes
    and a name; an element of [stick_axis] is the [name] of the axis. *)
Record STICK_INFO := {
  stick_flags : JOYFLAGS;
  num_axes : Z;
  stick_axis : list (option string);
  stick_name : option string
}.

(** Modelled from the spec: [_AL_JOYSTICK_INFO], the logical schema: the
    ordered sticks and the ordered buttons; an element of [info_button] is
    the [name] of the button. *)
Record JOYSTICK_INFO := {
  num_sticks : Z;
  info_stick : list STICK_INFO;
  info_num_buttons : Z;
  info_button : list (option string)
}.

Definition zero_stick : STICK_INFO := {|
  stick_flags := flags_none;
  num_axes := 0;
  stick_axis := replicate (Z.to_nat _AL_MAX_JOYSTICK_AXES) None;
  stick_name := None
|}.

Definition zero_info : JOYSTICK_INFO := {|
  num_sticks := 0;
  info_stick := replicate (Z.to_nat _AL_MAX_JOYSTICK_STICKS) zero_stick;
  info_num_buttons := 0;
  info_button := replicate (Z.to_nat _AL_MAX_JOYSTICK_BUTTONS) None
|}.

(** Modelled from the spec: [AL_JOYSTATE], the state snapshot:
    [state_stick[s]] is the array [stick[s].axis] of positions (floats),
    [state_button[b]] the intensity of button [b]. *)
Record AL_JOYSTATE := {
  state_stick : list (list spec_float);
  state_button : list Z
}.

Definition zero_joystate : AL_JOYSTATE := {|
  state_stick :=
    replicate (Z.to_nat _AL_MAX_JOYSTICK_STICKS)
      (replicate (Z.to_nat _AL_MAX_JOYSTICK_AXES) (S754_zero false));
  state_button := replicate (Z.to_nat _AL_MAX_JOYSTICK_BUTTONS) 0
|}.

(** ** The event source (external) *)

(** Modelled from the spec: the published event types. *)
Inductive EVENT_TYPE :=
  | AL_EVENT_JOYSTICK_AXIS
  | AL_EVENT_JOYSTICK_BUTTON_DOWN
  | AL_EVENT_JOYSTICK_BUTTON_UP.

(** Modelled from the spec: the [joystick] member of [AL_EVENT], with the
    fields the driver fills: "event type, timestamp, stick, axis, position
    (or button index, for button events)". *)
Record AL_EVENT := {
  ev_type : EVENT_TYPE;
  ev_timestamp : spec_float;
  ev_stick : Z;
  ev_axis : Z;
  ev_pos : spec_float;
  ev_button : Z
}.

(** Modelled from the spec: the event source and the clock are framework
    code outside the sources.  The driver sees them through four calls:
    "needs-event-of-type?" ([es_needs]), "allocate-event-slot", which fails
    when the queue is full ([es_free] counts the slots left), "emit-event"
    ([es_emitted] is the history of the emitted events, oldest first) and the
    clock read for the timestamp ([es_clock k] is the value of the [k]-th
    read, [es_clock_reads] the number of reads so far). *)
Record AL_EVENT_SOURCE := {
  es_needs : EVENT_TYPE → bool;
  es_free : nat;
  es_emitted : list AL_EVENT;
  es_clock : nat → spec_float;
  es_clock_reads : nat
}.

Definition _al_event_source_needs_to_generate_event
    (es : AL_EVENT_SOURCE) (t : EVENT_TYPE) : bool := es_needs es t.

(** A slot, or nothing when the queue is full. *)
Definition _al_event_source_get_unused_event (es : AL_EVENT_SOURCE)
  : option unit := if es_free es is O then None else Some ().

Definition al_current_time (es : AL_EVENT_SOURCE)
  : spec_float * AL_EVENT_SOURCE :=
  (es_clock es (es_clock_reads es),
   {| es_needs := es_needs es; es_free := es_free es;
      es_emitted := es_emitted es; es_clock := es_clock es;
      es_clock_reads := S (es_clock_reads es) |}).

(** The filled slot goes to the queue. *)
Definition _al_event_source_emit_event (es : AL_EVENT_SOURCE) (e : AL_EVENT)
  : AL_EVENT_SOURCE :=
  {| es_needs := es_needs es; es_free := pred (es_free es);
     es_emitted := es_emitted es ++ [e]; es_clock := es_clock es;
     es_clock_reads := es_clock_reads es |}.

(** Modelled from the spec: "initializes its event source for the full set
    of joystick event types"; a source that was just initialised is
    registered with no queue, so it needs no event yet. *)
Definition _al_event_source_init (es : AL_EVENT_SOURCE) : AL_EVENT_SOURCE :=
  {| es_needs := λ _, false; es_free := es_free es;
     es_emitted := es_emitted es; es_clock := es_clock es;
     es_clock_reads := es_clock_reads es |}.

(** Modelled from the spec: "tears down the event source". *)
Definition _al_event_source_free (es : AL_EVENT_SOURCE) : AL_EVENT_SOURCE :=
  {| es_needs := λ _, false; es_free := O;
     es_emitted := es_emitted es; es_clock := es_clock es;
     es_clock_reads := es_clock_reads es |}.

Definition zero_es : AL_EVENT_SOURCE :=
  {| es_needs := λ _, false; es_free := O; es_emitted := [];
     es_clock := λ _, S754_zero false; es_clock_reads := O |}.

(** ** The device record *)

(** Modelled from the spec: [AL_JOYSTICK], the [parent] of the device
    record, with the members the driver uses. *)
Record AL_JOYSTICK := {
  info : JOYSTICK_INFO;
  num : Z;
  es : AL_EVENT_SOURCE
}.

Record AXIS_MAPPING := { m_stick : Z; m_axis : Z }.

(** A COM interface pointer and a win32 handle; 0 is the null pointer. *)
Definition LPDIRECTINPUTDEVICE2 := Z.
Definition HANDLE := Z.
Definition NULL : Z := 0.

Record AL_JOYSTICK_DIRECTX := {
  parent : AL_JOYSTICK;
  caps_and_names : CAPS_AND_NAMES;
  gotten : bool;
  joystate : AL_JOYSTATE;
  device : LPDIRECTINPUTDEVICE2;
  x_mapping : AXIS_MAPPING;
  y_mapping : AXIS_MAPPING;
  z_mapping : AXIS_MAPPING;
  rx_mapping : AXIS_MAPPING;
  ry_mapping : AXIS_MAPPING;
  rz_mapping : AXIS_MAPPING;
  slider_mapping : list AXIS_MAPPING;
  pov_mapping_stick : list Z
}.

Definition zero_mapping : AXIS_MAPPING := {| m_stick := 0; m_axis := 0 |}.

(** [memset (&joydx_joystick[n], 0, sizeof ...)]. *)
Definition zero_joystick : AL_JOYSTICK_DIRECTX := {|
  parent := {| info := zero_info; num := 0; es := zero_es |};
  caps_and_names := zero_caps;
  gotten := false;
  joystate := zero_joystate;
  device := NULL;
  x_mapping := zero_mapping; y_mapping := zero_mapping;
  z_mapping := zero_mapping; rx_mapping := zero_mapping;
  ry_mapping := zero_mapping; rz_mapping := zero_mapping;
  slider_mapping := replicate (Z.to_nat MAX_SLIDERS) zero_mapping;
  pov_mapping_stick := replicate (Z.to_nat MAX_POVS) 0
|}.

(** Assignments to one member of the device record. *)
Definition set_info (i : JOYSTICK_INFO) (joy : AL_JOYSTICK_DIRECTX)
  : AL_JOYSTICK_DIRECTX :=
  {|
     parent := {| info := i; num := num (parent joy); es := es (parent joy) |};
     caps_and_names := caps_and_names joy; gotten := gotten joy;
     joystate := joystate joy; device := device joy;
     x_mapping := x_mapping joy; y_mapping := y_mapping joy;
     z_mapping := z_mapping joy; rx_mapping := rx_mapping joy;
     ry_mapping := ry_mapping joy; rz_mapping := rz_mapping joy;
     slider_mapping := slider_mapping joy;
     pov_mapping_stick := pov_mapping_stick joy |}.

Definition set_num (n : Z) (joy : AL_JOYSTICK_DIRECTX)
  : AL_JOYSTICK_DIRECTX :=
  {|
     parent := {| info := info (parent joy); num := n; es := es (parent joy) |};
     caps_and_names := caps_and_names joy; gotten := gotten joy;
     joystate := joystate joy; device := device joy;
     x_mapping := x_mapping joy; y_mapping := y_mapping joy;
     z_mapping := z_mapping joy; rx_mapping := rx_mapping joy;
     ry_mapping := ry_mapping joy; rz_mapping := rz_mapping joy;
     slider_mapping := slider_mapping joy;
     pov_mapping_stick := pov_mapping_stick joy |}.

Definition set_es (e : AL_EVENT_SOURCE) (joy : AL_JOYSTICK_DIRECTX)
  : AL_JOYSTICK_DIRECTX :=
  {|
     parent := {| info := info (parent joy); num := num (parent joy); es := e |};
     caps_and_names := caps_and_names joy; gotten := gotten joy;
     joystate := joystate joy; device := device joy;
     x_mapping := x_mapping joy; y_mapping := y_mapping joy;
     z_mapping := z_mapping joy; rx_mapping := rx_mapping joy;
     ry_mapping := ry_mapping joy; rz_mapping := rz_mapping joy;
     slider_mapping := slider_mapping joy;
     pov_mapping_stick := pov_mapping_stick joy |}.

Definition set_caps (c : CAPS_AND_NAMES) (joy : AL_JOYSTICK_DIRECTX)
  : AL_JOYSTICK_DIRECTX :=
  {| parent := parent joy; caps_and_names := c; gotten := gotten joy;
     joystate := joystate joy; device := device joy;
     x_mapping := x_mapping joy; y_mapping := y_mapping joy;
     z_mapping := z_mapping joy; rx_mapping := rx_mapping joy;
     ry_mapping := ry_mapping joy; rz_mapping := rz_mapping joy;
     slider_mapping := slider_mapping joy;
     pov_mapping_stick := pov_mapping_stick joy |}.

Definition set_gotten (g : bool) (joy : AL_JOYSTICK_DIRECTX)
  : AL_JOYSTICK_DIRECTX :=
  {| parent := parent joy; caps_and_names := caps_and_names joy; gotten := g;
     joystate := joystate joy; device := device joy;
     x_mapping := x_mapping joy; y_mapping := y_mapping joy;
     z_mapping := z_mapping joy; rx_mapping := rx_mapping joy;
     ry_mapping := ry_mapping joy; rz_mapping := rz_mapping joy;
     slider_mapping := slider_mapping joy;
     pov_mapping_stick := pov_mapping_stick joy |}.

Definition set_joystate (s : AL_JOYSTATE) (joy : AL_JOYSTICK_DIRECTX)
  : AL_JOYSTICK_DIRECTX :=
  {| parent := parent joy; caps_and_names := caps_and_names joy;
     gotten := gotten joy; joystate := s; device := device joy;
     x_mapping := x_mapping joy; y_mapping := y_mapping joy;
     z_mapping := z_mapping joy; rx_mapping := rx_mapping joy;
     ry_mapping := ry_mapping joy; rz_mapping := rz_mapping joy;
     slider_mapping := slider_mapping joy;
     pov_mapping_stick := pov_mapping_stick joy |}.

Definition set_device (d : LPDIRECTINPUTDEVICE2) (joy : AL_JOYSTICK_DIRECTX)
  : AL_JOYSTICK_DIRECTX :=
  {| parent := parent joy; caps_and_names := caps_and_names joy;
     gotten := gotten joy; joystate := joystate joy; device := d;
     x_mapping := x_mapping joy; y_mapping := y_mapping joy;
     z_mapping := z_mapping joy; rx_mapping := rx_mapping joy;
     ry_mapping := ry_mapping joy; rz_mapping := rz_mapping joy;
     slider_mapping := slider_mapping joy;
     pov_mapping_stick := pov_mapping_stick joy |}.

Definition set_x_mapping (m : AXIS_MAPPING) (joy : AL_JOYSTICK_DIRECTX)
  : AL_JOYSTICK_DIRECTX :=
  {| parent := parent joy; caps_and_names := caps_and_names joy;
     gotten := gotten joy; joystate := joystate joy; device := device joy;
     x_mapping := m; y_mapping := y_mapping joy; z_mapping := z_mapping joy;
     rx_mapping := rx_mapping joy; ry_mapping := ry_mapping joy;
     rz_mapping := rz_mapping joy; slider_mapping := slider_mapping joy;
     pov_mapping_stick := pov_mapping_stick joy |}.

Definition set_y_mapping (m : AXIS_MAPPING) (joy : AL_JOYSTICK_DIRECTX)
  : AL_JOYSTICK_DIRECTX :=
  {| parent := parent joy; caps_and_names := caps_and_names joy;
     gotten := gotten joy; joystate := joystate joy; device := device joy;
     x_mapping := x_mapping joy; y_mapping := m; z_mapping := z_mapping joy;
     rx_mapping := rx_mapping joy; ry_mapping := ry_mapping joy;
     rz_mapping := rz_mapping joy; slider_mapping := slider_mapping joy;
     pov_mapping_stick := pov_mapping_stick joy |}.

Definition set_z_mapping (m : AXIS_MAPPING) (joy : AL_JOYSTICK_DIRECTX)
  : AL_JOYSTICK_DIRECTX :=
  {| parent := parent joy; caps_and_names := caps_and_names joy;
     gotten := gotten joy; joystate := joystate joy; device := device joy;
     x_mapping := x_mapping joy; y_mapping := y_mapping joy; z_mapping := m;
     rx_mapping := rx_mapping joy; ry_mapping := ry_mapping joy;
     rz_mapping := rz_mapping joy; slider_mapping := slider_mapping joy;
     pov_mapping_stick := pov_mapping_stick joy |}.

Definition set_rx_mapping (m : AXIS_MAPPING) (joy : AL_JOYSTICK_DIRECTX)
  : AL_JOYSTICK_DIRECTX :=
  {| parent := parent joy; caps_and_names := caps_and_names joy;
     gotten := gotten joy; joystate := joystate joy; device := device joy;
     x_mapping := x_mapping joy; y_mapping := y_mapping joy;
     z_mapping := z_mapping joy; rx_mapping := m;
     ry_mapping := ry_mapping joy; rz_mapping := rz_mapping joy;
     slider_mapping := slider_mapping joy;
     pov_mapping_stick := pov_mapping_stick joy |}.

Definition set_ry_mapping (m : AXIS_MAPPING) (joy : AL_JOYSTICK_DIRECTX)
  : AL_JOYSTICK_DIRECTX :=
  {| parent := parent joy; caps_and_names := caps_and_names joy;
     gotten := gotten joy; joystate := joystate joy; device := device joy;
     x_mapping := x_mapping joy; y_mapping := y_mapping joy;
     z_mapping := z_mapping joy; rx_mapping := rx_mapping joy;
     ry_mapping := m; rz_mapping := rz_mapping joy;
     slider_mapping := slider_mapping joy;
     pov_mapping_stick := pov_mapping_stick joy |}.

Definition set_rz_mapping (m : AXIS_MAPPING) (joy : AL_JOYSTICK_DIRECTX)
  : AL_JOYSTICK_DIRECTX :=
  {| parent := parent joy; caps_and_names := caps_and_names joy;
     gotten := gotten joy; joystate := joystate joy; device := device joy;
     x_mapping := x_mapping joy; y_mapping := y_mapping joy;
     z_mapping := z_mapping joy; rx_mapping := rx_mapping joy;
     ry_mapping := ry_mapping joy; rz_mapping := m;
     slider_mapping := slider_mapping joy;
     pov_mapping_stick := pov_mapping_stick joy |}.

Definition set_slider_mapping (ms : list AXIS_MAPPING) (joy : AL_JOYSTICK_DIRECTX)
  : AL_JOYSTICK_DIRECTX :=
  {| parent := parent joy; caps_and_names := caps_and_names joy;
     gotten := gotten joy; joystate := joystate joy; device := device joy;
     x_mapping := x_mapping joy; y_mapping := y_mapping joy;
     z_mapping := z_mapping joy; rx_mapping := rx_mapping joy;
     ry_mapping := ry_mapping joy; rz_mapping := rz_mapping joy;
     slider_mapping := ms; pov_mapping_stick := pov_mapping_stick joy |}.

Definition set_pov_mapping_stick (mp : list Z) (joy : AL_JOYSTICK_DIRECTX)
  : AL_JOYSTICK_DIRECTX :=
  {| parent := parent joy; caps_and_names := caps_and_names joy;
     gotten := gotten joy; joystate := joystate joy; device := device joy;
     x_mapping := x_mapping joy; y_mapping := y_mapping joy;
     z_mapping := z_mapping joy; rx_mapping := rx_mapping joy;
     ry_mapping := ry_mapping joy; rz_mapping := rz_mapping joy;
     slider_mapping := slider_mapping joy; pov_mapping_stick := mp |}.

(** ** The layout builder *)

(** [OR (A, B)]: [A] unless it is null. *)
Definition OR (a : option string) (b : string) : option string :=
  match a with Some _ => a | None => Some b end.

Definition default_name_x : string := "X".
Definition default_name_y : string := "Y".
Definition default_name_z : string := "Z".
Definition default_name_rx : string := "RX".
Definition default_name_ry : string := "RY".
Definition default_name_rz : string := "RZ".
Definition default_name_stick : string := "stick".
Definition default_name_slider : string := "slider".
Definition default_name_hat : string := "hat".
Definition default_name_button : list string :=
  ["B1"; "B2"; "B3"; "B4"; "B5"; "B6"; "B7"; "B8";
   "B9"; "B10"; "B11"; "B12"; "B13"; "B14"; "B15"; "B16";
   "B17"; "B18"; "B19"; "B20"; "B21"; "B22"; "B23"; "B24";
   "B25"; "B26"; "B27"; "B28"; "B29"; "B30"; "B31"; "B32"].

Definition N_STICK (i : JOYSTICK_INFO) : Z := num_sticks i.

Definition set_stick (n : Z) (s : STICK_INFO) (i : JOYSTICK_INFO)
  : option JOYSTICK_INFO :=
  l ← array_set (info_stick i) n s;
  Some {| num_sticks := num_sticks i; info_stick := l;
          info_num_buttons := info_num_buttons i;
          info_button := info_button i |}.

Definition incr_num_sticks (i : JOYSTICK_INFO) : JOYSTICK_INFO :=
  {| num_sticks := num_sticks i + 1; info_stick := info_stick i;
     info_num_buttons := info_num_buttons i; info_button := info_button i |}.

(** The body of one [if (can->have_...)] block: flags, the axis name in slot
    [N_AXIS] of stick [N_STICK], the mapping of the axis, [N_AXIS++]. *)
Definition fill_axis (name : option string) (default : string)
    (set_mapping : AXIS_MAPPING → AL_JOYSTICK_DIRECTX → AL_JOYSTICK_DIRECTX)
    (joy : AL_JOYSTICK_DIRECTX) : option AL_JOYSTICK_DIRECTX :=
  let i := info (parent joy) in
  st ← array_get (info_stick i) (N_STICK i);
  let n_axis := num_axes st in
  axes ← array_set (stick_axis st) n_axis (OR name default);
  i' ← set_stick (N_STICK i)
         {| stick_flags := flags_digital_analogue; num_axes := n_axis + 1;
            stick_axis := axes; stick_name := stick_name st |} i;
  Some (set_mapping {| m_stick := N_STICK i; m_axis := n_axis |}
          (set_info i' joy)).

(** [info->stick[N_STICK].name = default_name_stick; N_STICK++]. *)
Definition close_stick (joy : AL_JOYSTICK_DIRECTX)
  : option AL_JOYSTICK_DIRECTX :=
  let i := info (parent joy) in
  st ← array_get (info_stick i) (N_STICK i);
  i' ← set_stick (N_STICK i)
         {| stick_flags := stick_flags st; num_axes := num_axes st;
            stick_axis := stick_axis st;
            stick_name := Some default_name_stick |} i;
  Some (set_info (incr_num_sticks i') joy).

Definition when (b : bool)
    (f : AL_JOYSTICK_DIRECTX → option AL_JOYSTICK_DIRECTX)
    (joy : AL_JOYSTICK_DIRECTX) : option AL_JOYSTICK_DIRECTX :=
  if b then f joy else Some joy.

(** One round of the slider loop. *)
Definition fill_slider (can : CAPS_AND_NAMES) (k : Z)
    (joy : AL_JOYSTICK_DIRECTX) : option AL_JOYSTICK_DIRECTX :=
  let i := info (parent joy) in
  st ← array_get (info_stick i) (N_STICK i);
  axes ← array_set (stick_axis st) 0 (Some "");
  name ← array_get (name_slider can) k;
  i' ← set_stick (N_STICK i)
         {| stick_flags := flags_digital_analogue; num_axes := 1;
            stick_axis := axes;
            stick_name := OR name default_name_slider |} i;
  ms ← array_set (slider_mapping joy) k {| m_stick := N_STICK i; m_axis := 0 |};
  Some (set_info (incr_num_sticks i') (set_slider_mapping ms joy)).

(** One round of the POV loop. *)
Definition fill_pov (can : CAPS_AND_NAMES) (k : Z)
    (joy : AL_JOYSTICK_DIRECTX) : option AL_JOYSTICK_DIRECTX :=
  let i := info (parent joy) in
  st ← array_get (info_stick i) (N_STICK i);
  axes0 ← array_set (stick_axis st) 0 (Some "left/right");
  axes ← array_set axes0 1 (Some "up/down");
  name ← array_get (name_pov can) k;
  i' ← set_stick (N_STICK i)
         {| stick_flags := flags_digital; num_axes := 2;
            stick_axis := axes;
            stick_name := OR name default_name_hat |} i;
  mp ← array_set (pov_mapping_stick joy) k (N_STICK i);
  Some (set_info (incr_num_sticks i') (set_pov_mapping_stick mp joy)).

(** The part of the function between the [#define] and the [#undef] of
    [N_STICK] and [N_AXIS]: the sticks. *)
Definition fill_sticks (joy : AL_JOYSTICK_DIRECTX)
  : option AL_JOYSTICK_DIRECTX :=
  let can := caps_and_names joy in
  (* the X, Y, Z axes make up the first stick *)
  joy ← when (have_x can || have_y can || have_z can) (λ joy,
    joy ← when (have_x can) (fill_axis (name_x can) default_name_x set_x_mapping) joy;
    joy ← when (have_y can) (fill_axis (name_y can) default_name_y set_y_mapping) joy;
    joy ← when (have_z can) (fill_axis (name_z can) default_name_z set_z_mapping) joy;
    close_stick joy) joy;
  (* the Rx, Ry, Rz axes make up the next stick *)
  joy ← when (have_rx can || have_ry can || have_rz can) (λ joy,
    joy ← when (have_rx can) (fill_axis (name_rx can) default_name_rx set_rx_mapping) joy;
    joy ← when (have_ry can) (fill_axis (name_ry can) default_name_ry set_ry_mapping) joy;
    joy ← when (have_rz can) (fill_axis (name_rz can) default_name_rz set_rz_mapping) joy;
    close_stick joy) joy;
  (* sliders are assigned to one stick each *)
  joy ← for_loop (Z.to_nat (num_sliders can)) 0 (fill_slider can) joy;
  (* POV devices are assigned to one stick each *)
  for_loop (Z.to_nat (num_povs can)) 0 (fill_pov can) joy.

Definition set_info_button (l : list (option string)) (i : JOYSTICK_INFO)
  : JOYSTICK_INFO :=
  {| num_sticks := num_sticks i; info_stick := info_stick i;
     info_num_buttons := info_num_buttons i; info_button := l |}.

Definition set_info_num_buttons (n : Z) (i : JOYSTICK_INFO) : JOYSTICK_INFO :=
  {| num_sticks := num_sticks i; info_stick := info_stick i;
     info_num_buttons := n; info_button := info_button i |}.

(** One round of the button loop. *)
Definition fill_button (can : CAPS_AND_NAMES) (k : Z)
    (joy : AL_JOYSTICK_DIRECTX) : option AL_JOYSTICK_DIRECTX :=
  let i := info (parent joy) in
  name ← array_get (name_button can) k;
  default ← array_get default_name_button k;
  l ← array_set (info_button i) k (OR name default);
  Some (set_info (set_info_button l i) joy).

(** The rest: the buttons. *)
Definition fill_buttons (joy : AL_JOYSTICK_DIRECTX)
  : option AL_JOYSTICK_DIRECTX :=
  let can := caps_and_names joy in
  joy ← for_loop (Z.to_nat (num_buttons can)) 0 (fill_button can) joy;
  Some (set_info (set_info_num_buttons (num_buttons can) (info (parent joy)))
          joy).

Definition fill_joystick_info_using_caps_and_names
    (joy : AL_JOYSTICK_DIRECTX) : option AL_JOYSTICK_DIRECTX :=
  joy ← fill_sticks joy; fill_buttons joy.

(** ** Event generation *)

(** [joy->joystate.stick[stick].axis[axis]], read and written. *)
Definition get_axis_pos (stick axis : Z) (st : AL_JOYSTATE)
  : option spec_float :=
  axes ← array_get (state_stick st) stick; array_get axes axis.

Definition set_axis_pos (stick axis : Z) (pos : spec_float) (st : AL_JOYSTATE)
  : option AL_JOYSTATE :=
  axes ← array_get (state_stick st) stick;
  axes' ← array_set axes axis pos;
  l ← array_set (state_stick st) stick axes';
  Some {| state_stick := l; state_button := state_button st |}.

(** [joy->joystate.button[button] = v]. *)
Definition set_button (button v : Z) (st : AL_JOYSTATE) : option AL_JOYSTATE :=
  l ← array_set (state_button st) button v;
  Some {| state_stick := state_stick st; state_button := l |}.

Definition generate_axis_event (joy : AL_JOYSTICK_DIRECTX) (stick axis : Z)
    (pos : spec_float) : AL_JOYSTICK_DIRECTX :=
  let es0 := es (parent joy) in
  if negb (_al_event_source_needs_to_generate_event es0 AL_EVENT_JOYSTICK_AXIS)
  then joy
  else
    match _al_event_source_get_unused_event es0 with
    | None => joy
    | Some _ =>
        let '(now, es1) := al_current_time es0 in
        set_es (_al_event_source_emit_event es1
                  {| ev_type := AL_EVENT_JOYSTICK_AXIS; ev_timestamp := now;
                     ev_stick := stick; ev_axis := axis; ev_pos := pos;
                     ev_button := 0 |}) joy
    end.

Definition generate_button_event (joy : AL_JOYSTICK_DIRECTX) (button : Z)
    (event_type : EVENT_TYPE) : AL_JOYSTICK_DIRECTX :=
  let es0 := es (parent joy) in
  if negb (_al_event_source_needs_to_generate_event es0 event_type)
  then joy
  else
    match _al_event_source_get_unused_event es0 with
    | None => joy
    | Some _ =>
        let '(now, es1) := al_current_time es0 in
        set_es (_al_event_source_emit_event es1
                  {| ev_type := event_type; ev_timestamp := now;
                     ev_stick := 0; ev_axis := 0; ev_pos := float_lit 0;
                     ev_button := button |}) joy
    end.

(** ** The handlers *)

(** [(int)value / 32767.0], stored in the [float] [pos]. *)
Definition axis_pos (value : Z) : spec_float :=
  float_of_double (ddiv (double_of_int (int_of_DWORD value))
                        (double_of_int 32767)).

Definition handle_axis_event (joy : AL_JOYSTICK_DIRECTX)
    (axis_mapping : AXIS_MAPPING) (value : Z) : option AL_JOYSTICK_DIRECTX :=
  let stick := m_stick axis_mapping in
  let axis := m_axis axis_mapping in
  if (stick <? 0) || (stick >=? num_sticks (info (parent joy))) then Some joy
  else
    st ← array_get (info_stick (info (parent joy))) stick;
    if (axis <? 0) || (axis >=? num_axes st) then Some joy
    else
      let pos := axis_pos value in
      js ← set_axis_pos stick axis pos (joystate joy);
      Some (generate_axis_event (set_joystate js joy) stick axis pos).

(** The value of axis 0 (left/right) of a hat at angle [value]. *)
Definition pov_p0 (value : Z) : spec_float :=
  (* left *)
  if (value >? JOY_POVBACKWARD) && (value <? JOY_POVFORWARD_WRAP)
  then float_lit (-1)
  (* right *)
  else if (value >? JOY_POVFORWARD) && (value <? JOY_POVBACKWARD)
  then float_lit 1
  else float_lit 0.

(** The value of axis 1 (up/down) of a hat at angle [value]. *)
Definition pov_p1 (value : Z) : spec_float :=
  (* forward *)
  if ((value >? JOY_POVLEFT) && (value <=? JOY_POVFORWARD_WRAP))
     || ((value >=? JOY_POVFORWARD) && (value <? JOY_POVRIGHT))
  then float_lit (-1)
  (* backward *)
  else if (value >? JOY_POVRIGHT) && (value <? JOY_POVLEFT)
  then float_lit 1
  else float_lit 0.

Definition handle_pov_event (joy : AL_JOYSTICK_DIRECTX) (stick : Z)
    (_value : Z) : option AL_JOYSTICK_DIRECTX :=
  let value := int_of_DWORD _value in
  if (stick <? 0) || (stick >=? num_sticks (info (parent joy))) then Some joy
  else
    old_p0 ← get_axis_pos stick 0 (joystate joy);
    old_p1 ← get_axis_pos stick 1 (joystate joy);
    let p0 := pov_p0 value in
    js ← set_axis_pos stick 0 p0 (joystate joy);
    let p1 := pov_p1 value in
    js ← set_axis_pos stick 1 p1 js;
    let joy := set_joystate js joy in
    let joy := if fne old_p0 p0 then generate_axis_event joy stick 0 p0
               else joy in
    let joy := if fne old_p1 p1 then generate_axis_event joy stick 1 p1
               else joy in
    Some joy.

Definition handle_button_event (joy : AL_JOYSTICK_DIRECTX) (button : Z)
    (down : bool) : option AL_JOYSTICK_DIRECTX :=
  if (button <? 0) && (button >=? info_num_buttons (info (parent joy)))
  then Some joy
  else if down then
    js ← set_button button 32767 (joystate joy);
    Some (generate_button_event (set_joystate js joy) button
            AL_EVENT_JOYSTICK_BUTTON_DOWN)
  else
    js ← set_button button 0 (joystate joy);
    Some (generate_button_event (set_joystate js joy) button
            AL_EVENT_JOYSTICK_BUTTON_UP).

(** ** The per-device drain *)

(** The result codes of the HID backend (dinput.h) the driver tells apart;
    every other error is [DIERR_OTHER].  [FAILED] holds of the errors. *)
Inductive HRESULT :=
  | DI_OK | DI_BUFFEROVERFLOW | DI_POLLEDDEVICE
  | DIERR_NOTACQUIRED | DIERR_INPUTLOST | DIERR_OTHER.

Definition FAILED (hr : HRESULT) : bool :=
  match hr with
  | DI_OK | DI_BUFFEROVERFLOW | DI_POLLEDDEVICE => false
  | _ => true
  end.

Definition HRESULT_eqb (a b : HRESULT) : bool :=
  match a, b with
  | DI_OK, DI_OK | DI_BUFFEROVERFLOW, DI_BUFFEROVERFLOW
  | DI_POLLEDDEVICE, DI_POLLEDDEVICE | DIERR_NOTACQUIRED, DIERR_NOTACQUIRED
  | DIERR_INPUTLOST, DIERR_INPUTLOST | DIERR_OTHER, DIERR_OTHER => true
  | _, _ => false
  end.

(** One buffered item (DIDEVICEOBJECTDATA of dinput.h): the raw offset and
    the raw value, both [DWORD]s; the time stamp and the sequence number are
    not read by the driver. *)
Record DIDEVICEOBJECTDATA := { dwOfs : Z; dwData : Z }.

(** Modelled from the spec: the HID backend "drains up to N deltas" into
    the caller's buffer of [num_items] cells. *)
Definition IDirectInputDevice2_GetDeviceData
    (pending : list DIDEVICEOBJECTDATA) (num_items : Z)
  : list DIDEVICEOBJECTDATA := take (Z.to_nat num_items) pending.

(** The body of the loop over the buffer, the [switch (dwOfs)]. *)
Definition dispatch_item (item : DIDEVICEOBJECTDATA)
    (joy : AL_JOYSTICK_DIRECTX) : option AL_JOYSTICK_DIRECTX :=
  let ofs := int_of_DWORD (dwOfs item) in
  let data := dwData item in
  if ofs =? DIJOFS_X then handle_axis_event joy (x_mapping joy) data
  else if ofs =? DIJOFS_Y then handle_axis_event joy (y_mapping joy) data
  else if ofs =? DIJOFS_Z then handle_axis_event joy (z_mapping joy) data
  else if ofs =? DIJOFS_RX then handle_axis_event joy (rx_mapping joy) data
  else if ofs =? DIJOFS_RY then handle_axis_event joy (ry_mapping joy) data
  else if ofs =? DIJOFS_RZ then handle_axis_event joy (rz_mapping joy) data
  else if ofs =? DIJOFS_SLIDER 0 then
    m ← array_get (slider_mapping joy) 0; handle_axis_event joy m data
  else if ofs =? DIJOFS_SLIDER 1 then
    m ← array_get (slider_mapping joy) 1; handle_axis_event joy m data
  else if ofs =? DIJOFS_POV 0 then
    s ← array_get (pov_mapping_stick joy) 0; handle_pov_event joy s data
  else if ofs =? DIJOFS_POV 1 then
    s ← array_get (pov_mapping_stick joy) 1; handle_pov_event joy s data
  else if ofs =? DIJOFS_POV 2 then
    s ← array_get (pov_mapping_stick joy) 2; handle_pov_event joy s data
  else if ofs =? DIJOFS_POV 3 then
    s ← array_get (pov_mapping_stick joy) 3; handle_pov_event joy s data
  else
    (* buttons *)
    if (ofs >=? DIJOFS_BUTTON0)
       && (ofs <? DIJOFS_BUTTON (info_num_buttons (info (parent joy))))
    then
      let num := (ofs - DIJOFS_BUTTON0) ÷ (DIJOFS_BUTTON1 - DIJOFS_BUTTON0) in
      handle_button_event joy num (negb (Z.land data 128 =? 0))
    else Some joy.

Fixpoint dispatch_items (buffer : list DIDEVICEOBJECTDATA)
    (joy : AL_JOYSTICK_DIRECTX) : option AL_JOYSTICK_DIRECTX :=
  match buffer with
  | [] => Some joy
  | item :: rest => joy' ← dispatch_item item joy; dispatch_items rest joy'
  end.

(** [hr] and [pending] are the answer of the backend to [GetDeviceData]:
    its result code and the items it holds for the device.  The second
    component of the result tells whether
    [wnd_schedule_proc (_al_win_joystick_dinput_acquire)] was called. *)
Definition update_joystick (joy : AL_JOYSTICK_DIRECTX) (hr : HRESULT)
    (pending : list DIDEVICEOBJECTDATA)
  : option (AL_JOYSTICK_DIRECTX * bool) :=
  let buffer := IDirectInputDevice2_GetDeviceData pending DEVICE_BUFFER_SIZE in
  let num_items := length buffer in
  if negb (HRESULT_eqb hr DI_OK) && negb (HRESULT_eqb hr DI_BUFFEROVERFLOW)
  then
    if HRESULT_eqb hr DIERR_NOTACQUIRED || HRESULT_eqb hr DIERR_INPUTLOST
    then Some (joy, true)
    else Some (joy, false)
  else if num_items is O then Some (joy, false)
  else joy' ← dispatch_items buffer joy; Some (joy', false).

(** ** The driver *)

Record DRIVER := {
  joystick_dinput : Z;
  joydx_num_joysticks : Z;
  joydx_joystick : list AL_JOYSTICK_DIRECTX;
  joydx_thread : HANDLE;
  joydx_thread_wakers : list HANDLE;
  (* the resources held from the operating system and the HID backend:
     handles created and not closed, interface references not released *)
  open_handles : list HANDLE;
  open_references : list Z;
  (* calls of [_al_win_joystick_dinput_acquire] scheduled on the window
     thread *)
  acquire_scheduled : nat
}.

(** The static initialisers. *)
Definition initial_driver : DRIVER := {|
  joystick_dinput := NULL;
  joydx_num_joysticks := 0;
  joydx_joystick := replicate (Z.to_nat MAX_JOYSTICKS) zero_joystick;
  joydx_thread := NULL;
  joydx_thread_wakers := replicate (Z.to_nat (1 + MAX_JOYSTICKS)) NULL;
  open_handles := [];
  open_references := [];
  acquire_scheduled := O
|}.

Definition set_joydx_num_joysticks (n : Z) (d : DRIVER) : DRIVER :=
  {| joystick_dinput := joystick_dinput d; joydx_num_joysticks := n;
     joydx_joystick := joydx_joystick d; joydx_thread := joydx_thread d;
     joydx_thread_wakers := joydx_thread_wakers d;
     open_handles := open_handles d; open_references := open_references d;
     acquire_scheduled := acquire_scheduled d |}.

Definition set_joydx_joystick (l : list AL_JOYSTICK_DIRECTX) (d : DRIVER)
  : DRIVER :=
  {| joystick_dinput := joystick_dinput d;
     joydx_num_joysticks := joydx_num_joysticks d;
     joydx_joystick := l; joydx_thread := joydx_thread d;
     joydx_thread_wakers := joydx_thread_wakers d;
     open_handles := open_handles d; open_references := open_references d;
     acquire_scheduled := acquire_scheduled d |}.

Definition set_joydx_thread_wakers (l : list HANDLE) (d : DRIVER) : DRIVER :=
  {| joystick_dinput := joystick_dinput d;
     joydx_num_joysticks := joydx_num_joysticks d;
     joydx_joystick := joydx_joystick d; joydx_thread := joydx_thread d;
     joydx_thread_wakers := l;
     open_handles := open_handles d; open_references := open_references d;
     acquire_scheduled := acquire_scheduled d |}.

Definition set_open_handles (l : list HANDLE) (d : DRIVER) : DRIVER :=
  {| joystick_dinput := joystick_dinput d;
     joydx_num_joysticks := joydx_num_joysticks d;
     joydx_joystick := joydx_joystick d; joydx_thread := joydx_thread d;
     joydx_thread_wakers := joydx_thread_wakers d;
     open_handles := l; open_references := open_references d;
     acquire_scheduled := acquire_scheduled d |}.

Definition set_open_references (l : list Z) (d : DRIVER) : DRIVER :=
  {| joystick_dinput := joystick_dinput d;
     joydx_num_joysticks := joydx_num_joysticks d;
     joydx_joystick := joydx_joystick d; joydx_thread := joydx_thread d;
     joydx_thread_wakers := joydx_thread_wakers d;
     open_handles := open_handles d; open_references := l;
     acquire_scheduled := acquire_scheduled d |}.

Definition set_acquire_scheduled (n : nat) (d : DRIVER) : DRIVER :=
  {| joystick_dinput := joystick_dinput d;
     joydx_num_joysticks := joydx_num_joysticks d;
     joydx_joystick := joydx_joystick d; joydx_thread := joydx_thread d;
     joydx_thread_wakers := joydx_thread_wakers d;
     open_handles := open_handles d; open_references := open_references d;
     acquire_scheduled := n |}.

Definition set_joystick_dinput (p : Z) (d : DRIVER) : DRIVER :=
  {| joystick_dinput := p;
     joydx_num_joysticks := joydx_num_joysticks d;
     joydx_joystick := joydx_joystick d; joydx_thread := joydx_thread d;
     joydx_thread_wakers := joydx_thread_wakers d;
     open_handles := open_handles d; open_references := open_references d;
     acquire_scheduled := acquire_scheduled d |}.

Definition set_joydx_thread (h : HANDLE) (d : DRIVER) : DRIVER :=
  {| joystick_dinput := joystick_dinput d;
     joydx_num_joysticks := joydx_num_joysticks d;
     joydx_joystick := joydx_joystick d; joydx_thread := h;
     joydx_thread_wakers := joydx_thread_wakers d;
     open_handles := open_handles d; open_references := open_references d;
     acquire_scheduled := acquire_scheduled d |}.

(** [STOP_EVENT] is cell 0 of the wakers, [JOYSTICK_WAKER (n)] cell 1 + n. *)
Definition JOYSTICK_WAKER (n : Z) (d : DRIVER) : option HANDLE :=
  array_get (joydx_thread_wakers d) (1 + n).

Definition set_JOYSTICK_WAKER (n : Z) (h : HANDLE) (d : DRIVER)
  : option DRIVER :=
  l ← array_set (joydx_thread_wakers d) (1 + n) h;
  Some (set_joydx_thread_wakers l d).

(** [joydx_joystick[n] = joy]. *)
Definition set_joystick (n : Z) (joy : AL_JOYSTICK_DIRECTX) (d : DRIVER)
  : option DRIVER :=
  l ← array_set (joydx_joystick d) n joy;
  Some (set_joydx_joystick l d).

(** The first occurrence of [x] leaves the list. *)
Fixpoint remove_one (x : Z) (l : list Z) : list Z :=
  match l with
  | [] => []
  | y :: l' => if x =? y then l' else y :: remove_one x l'
  end.

(** A handle that was created; the null handle is a failed creation. *)
Definition created (h : HANDLE) (d : DRIVER) : DRIVER :=
  if h =? NULL then d else set_open_handles (h :: open_handles d) d.

(** [CloseHandle (h)]; closing the null handle fails and changes nothing. *)
Definition CloseHandle (h : HANDLE) (d : DRIVER) : DRIVER :=
  if h =? NULL then d
  else set_open_handles (remove_one h (open_handles d)) d.

(** A reference to a COM interface that was handed out (a call that
    succeeds hands out a pointer that is not null), and its release. *)
Definition referenced (p : Z) (d : DRIVER) : DRIVER :=
  if p =? NULL then d else set_open_references (p :: open_references d) d.

Definition Release (p : Z) (d : DRIVER) : DRIVER :=
  if p =? NULL then d
  else set_open_references (remove_one p (open_references d)) d.

(** ** Enumeration *)

(** What the HID backend and the operating system answer while one
    controller is set up: the result code of each call of
    [joystick_enum_callback], the interface pointers handed out by
    [CreateDevice] and [QueryInterface], the objects [EnumObjects] reports
    and the handles [CreateEvent] and [CreateWaitableTimer] return. *)
Record DEVICE_ANSWERS := {
  a_CreateDevice : HRESULT;
  a_dinput_device1 : Z;
  a_QueryInterface : HRESULT;
  a_temp : Z;
  a_SetCooperativeLevel : HRESULT;
  a_EnumObjects : HRESULT;
  a_objects : list DIDEVICEOBJECTINSTANCE;
  a_SetDataFormat : HRESULT;
  a_SetProperty_RANGE : HRESULT;
  a_SetProperty_DEADZONE : HRESULT;
  a_SetProperty_BUFFERSIZE : HRESULT;
  a_CreateEvent : HANDLE;
  a_SetEventNotification : HRESULT;
  a_CreateWaitableTimer : HANDLE
}.

(** The value a callback returns to the enumeration. *)
Inductive DIENUM := DIENUM_CONTINUE | DIENUM_STOP.

(** The first entry assertion of [joystick_enum_callback]:
    [joydx_num_joysticks > 0 && joydx_num_joysticks < MAX_JOYSTICKS-1]. *)
Definition ASSERT_num_joysticks (d : DRIVER) : bool :=
  (joydx_num_joysticks d >? 0)
  && (joydx_num_joysticks d <? MAX_JOYSTICKS - 1).

(** The second one: [!JOYSTICK_WAKER (joydx_num_joysticks)]. *)
Definition ASSERT_no_waker (d : DRIVER) : option bool :=
  w ← JOYSTICK_WAKER (joydx_num_joysticks d) d; Some (w =? NULL).

(** The code after the label [Error]. *)
Definition Error (dinput_device : LPDIRECTINPUTDEVICE2) (d : DRIVER)
  : option (DRIVER * DIENUM) :=
  let n := joydx_num_joysticks d in
  w ← JOYSTICK_WAKER n d;
  d ← (if negb (w =? NULL)
       then set_JOYSTICK_WAKER n NULL (CloseHandle w d)
       else Some d);
  let d := if negb (dinput_device =? NULL) then Release dinput_device d
           else d in
  Some (d, DIENUM_CONTINUE).

(** The callback as a release build runs it ([ASSERT] expands to nothing).
    [a] holds the answers of the backend for the controller at hand. *)
Definition joystick_enum_callback (a : DEVICE_ANSWERS) (d : DRIVER)
  : option (DRIVER * DIENUM) :=
  let n := joydx_num_joysticks d in
  let dinput_device := NULL in
  d ← set_joystick n zero_joystick d;
  (* create the DirectInput joystick device *)
  let hr := a_CreateDevice a in
  if FAILED hr then Error dinput_device d else
  let d := referenced (a_dinput_device1 a) d in
  (* query the DirectInputDevice2 interface *)
  let hr := a_QueryInterface a in
  let d := if FAILED hr then d else referenced (a_temp a) d in
  let d := Release (a_dinput_device1 a) d in
  if FAILED hr then Error dinput_device d else
  let dinput_device := a_temp a in
  (* set cooperative level *)
  let hr := a_SetCooperativeLevel a in
  if FAILED hr then Error dinput_device d else
  (* enumerate objects available on the device *)
  joy ← array_get (joydx_joystick d) n;
  can ← enum_objects (a_objects a) (caps_and_names joy);
  d ← set_joystick n (set_caps can joy) d;
  let hr := a_EnumObjects a in
  if FAILED hr then Error dinput_device d else
  (* set data format *)
  let hr := a_SetDataFormat a in
  if FAILED hr then Error dinput_device d else
  (* set the range of axes *)
  let hr := a_SetProperty_RANGE a in
  if FAILED hr then Error dinput_device d else
  (* set the dead zone of axes *)
  let hr := a_SetProperty_DEADZONE a in
  if FAILED hr then Error dinput_device d else
  (* set the buffer size *)
  let hr := a_SetProperty_BUFFERSIZE a in
  if FAILED hr then Error dinput_device d else
  (* fill in the joystick structure *)
  joy ← array_get (joydx_joystick d) n;
  joy ← fill_joystick_info_using_caps_and_names joy;
  d ← set_joystick n
        (set_gotten false (set_device dinput_device (set_num n joy))) d;
  (* create a thread event for this joystick *)
  d ← set_JOYSTICK_WAKER n (a_CreateEvent a) (created (a_CreateEvent a) d);
  let hr := a_SetEventNotification a in
  if FAILED hr then Error dinput_device d else
  if HRESULT_eqb hr DI_POLLEDDEVICE then
    w ← JOYSTICK_WAKER n d;
    let d := CloseHandle w d in
    d ← set_JOYSTICK_WAKER n (a_CreateWaitableTimer a)
          (created (a_CreateWaitableTimer a) d);
    w ← JOYSTICK_WAKER n d;
    if w =? NULL then Error dinput_device d else
    Some (set_joydx_num_joysticks (n + 1) d, DIENUM_CONTINUE)
  else
    Some (set_joydx_num_joysticks (n + 1) d, DIENUM_CONTINUE).

(** Modelled from the spec: "enumerate-attached-controllers
    (callback-style)".  The backend calls the callback once per attached
    controller, in turn, for as long as it answers DIENUM_CONTINUE. *)
Fixpoint IDirectInput_EnumDevices (attached : list DEVICE_ANSWERS)
    (d : DRIVER) : option DRIVER :=
  match attached with
  | [] => Some d
  | a :: rest =>
      '(d', r) ← joystick_enum_callback a d;
      match r with
      | DIENUM_CONTINUE => IDirectInput_EnumDevices rest d'
      | DIENUM_STOP => Some d'
      end
  end.

(** What the system answers to [joydx_init]. *)
Record SYSTEM_ANSWERS := {
  _dx_ver : Z;
  a_DirectInputCreate : HRESULT;
  a_joystick_dinput : Z;
  a_EnumDevices : HRESULT;
  a_attached : list DEVICE_ANSWERS;
  a_STOP_EVENT : HANDLE;
  a_beginthread : HANDLE
}.

(** [joydx_init]; the second component is the value returned. *)
Definition joydx_init (a : SYSTEM_ANSWERS) (d : DRIVER)
  : option (DRIVER * bool) :=
  (* the DirectInput joystick interface is not part of DirectX 3 *)
  if _dx_ver a <? 1280 then Some (d, false) else
  (* get the DirectInput interface *)
  let hr := a_DirectInputCreate a in
  if FAILED hr then Some (d, false) else
  let d := referenced (a_joystick_dinput a)
             (set_joystick_dinput (a_joystick_dinput a) d) in
  (* enumerate the joysticks attached to the system *)
  d ← IDirectInput_EnumDevices (a_attached a) d;
  let hr := a_EnumDevices a in
  if FAILED hr then Some (Release (joystick_dinput d) d, false) else
  if joydx_num_joysticks d =? 0 then Some (d, false) else
  (* acquire the devices: a call on the window thread, no driver state *)
  (* create the dedicated thread stopping event *)
  l ← array_set (joydx_thread_wakers d) 0 (a_STOP_EVENT a);
  let d := set_joydx_thread_wakers l (created (a_STOP_EVENT a) d) in
  (* start the background thread *)
  Some (set_joydx_thread (a_beginthread a) d, true).

(** ** The public facade *)

Definition joydx_get_num_joysticks (d : DRIVER) : Z := joydx_num_joysticks d.

(** [joydx_get_joystick (num)]: the handle returned is the address of
    [joydx_joystick[num]], here the index [num]. *)
Definition joydx_get_joystick (num : Z) (d : DRIVER) : option DRIVER :=
  joy ← array_get (joydx_joystick d) num;
  set_joystick num
    (set_gotten true (set_es (_al_event_source_init (es (parent joy))) joy)) d.

(** [joydx_release_joystick (&joydx_joystick[num])]. *)
Definition joydx_release_joystick (num : Z) (d : DRIVER) : option DRIVER :=
  joy ← array_get (joydx_joystick d) num;
  set_joystick num
    (set_es (_al_event_source_free (es (parent (set_gotten false joy))))
       (set_gotten false joy)) d.

(** [joydx_get_state (&joydx_joystick[num], ret_state)]: the copy. *)
Definition joydx_get_state (num : Z) (d : DRIVER) : option AL_JOYSTATE :=
  joy ← array_get (joydx_joystick d) num; Some (joystate joy).

(** ** The background thread *)

(** One round of the loop of [joydx_thread_proc].  [result] is the value of
    [WaitForMultipleObjects]; [hr] and [pending] are the answer of the
    backend should the round call [update_joystick].  The second component
    is [false] when the loop is left. *)
Definition joydx_thread_proc_round (result : Z) (hr : HRESULT)
    (pending : list DIDEVICEOBJECTDATA) (d : DRIVER)
  : option (DRIVER * bool) :=
  if result =? WAIT_OBJECT_0 then Some (d, false) (* thread suicide *)
  else
    let num := int_of_DWORD (result - WAIT_OBJECT_0 - 1) in
    if (num <? 0) || (num >=? joydx_num_joysticks d) then Some (d, true)
    else
      joy ← array_get (joydx_joystick d) num;
      if gotten joy then
        '(joy', scheduled) ← update_joystick joy hr pending;
        d' ← set_joystick num joy' d;
        Some (if scheduled : bool
              then set_acquire_scheduled (S (acquire_scheduled d')) d'
              else d', true)
      else Some (d, true).

(** What may happen to a running driver, one atomic step at a time: the
    primary thread takes or releases a device, the background thread runs
    one round (both under [joydx_thread_cs]), or the framework side of the
    event source of a device changes (queues are registered or unregistered,
    slots are handed back, time passes). *)
Inductive STEP :=
  | StepTake (num : Z)
  | StepRelease (num : Z)
  | StepRound (result : Z) (hr : HRESULT) (pending : list DIDEVICEOBJECTDATA)
  | StepFramework (num : Z) (needs : EVENT_TYPE → bool) (free : nat).

Definition framework (needs : EVENT_TYPE → bool) (free : nat)
    (e : AL_EVENT_SOURCE) : AL_EVENT_SOURCE :=
  {| es_needs := needs; es_free := free; es_emitted := es_emitted e;
     es_clock := es_clock e; es_clock_reads := es_clock_reads e |}.

Definition step (s : STEP) (d : DRIVER) : option DRIVER :=
  match s with
  | StepTake num => joydx_get_joystick num d
  | StepRelease num => joydx_release_joystick num d
  | StepRound result hr pending =>
      '(d', _) ← joydx_thread_proc_round result hr pending d; Some d'
  | StepFramework num needs free =>
      joy ← array_get (joydx_joystick d) num;
      set_joystick num (set_es (framework needs free (es (parent joy))) joy) d
  end.

Fixpoint run (l : list STEP) (d : DRIVER) : option DRIVER :=
  match l with
  | [] => Some d
  | s :: rest => d' ← step s d; run rest d'
  end.

(** ** The layout as the specification words it *)

(** The display name, or the canonical default when it is absent. *)
Definition named (name : option string) (default : string) : string :=
  match name with Some s => s | None => default end.

(** A canonical axis contributes its name when it is present. *)
Definition present (have : bool) (name : option string) (default : string)
  : list string := if have then [named name default] else [].

(** The present axes of a group form one stick named "stick"; no axis, no
    stick. *)
Definition axes_stick (axes : list string) : list (string * list string) :=
  match axes with [] => [] | _ => [("stick"%string, axes)] end.

(** The sticks in the order of the specification: (X, Y, Z), (RX, RY, RZ),
    one stick with one axis per slider, one stick with the axes
    "left/right" and "up/down" per hat. *)
Definition spec_sticks (can : CAPS_AND_NAMES) : list (string * list string) :=
  axes_stick (present (have_x can) (name_x can) "X"
              ++ present (have_y can) (name_y can) "Y"
              ++ present (have_z can) (name_z can) "Z")
  ++ axes_stick (present (have_rx can) (name_rx can) "RX"
                 ++ present (have_ry can) (name_ry can) "RY"
                 ++ present (have_rz can) (name_rz can) "RZ")
  ++ map (λ n, (named n "slider", [""%string]))
       (take (Z.to_nat (num_sliders can)) (name_slider can))
  ++ map (λ n, (named n "hat", ["left/right"%string; "up/down"%string]))
       (take (Z.to_nat (num_povs can)) (name_pov can)).

(** The buttons in discovery order, "B1" to "B32" by default. *)
Definition spec_buttons (can : CAPS_AND_NAMES) : list string :=
  zip_with named (take (Z.to_nat (num_buttons can)) (name_button can))
    default_name_button.

Definition b2z (b : bool) : Z := if b then 1 else 0.

(** The number of sticks the canonical axes take. *)
Definition spec_axis_sticks (can : CAPS_AND_NAMES) : Z :=
  b2z (have_x can || have_y can || have_z can)
  + b2z (have_rx can || have_ry can || have_rz can).

(** What the record publishes: the first [num_sticks] sticks, each with its
    name and its first [num_axes] axis names, and the first [num_buttons]
    button names. *)
Definition published_sticks (i : JOYSTICK_INFO)
  : list (option string * list (option string)) :=
  map (λ s, (stick_name s, take (Z.to_nat (num_axes s)) (stick_axis s)))
    (take (Z.to_nat (num_sticks i)) (info_stick i)).

Definition published_buttons (i : JOYSTICK_INFO) : list (option string) :=
  take (Z.to_nat (info_num_buttons i)) (info_button i).

Definition lift_stick (s : string * list string)
  : option string * list (option string) := (Some s.1, map Some s.2).

(** The capability maps [object_enum_callback] can build: the counters stay
    within the arrays of the structure. *)
Definition caps_wf (can : CAPS_AND_NAMES) : Prop :=
  (0 ≤ num_sliders can ≤ MAX_SLIDERS
   ∧ length (name_slider can) = Z.to_nat MAX_SLIDERS)
  ∧ (0 ≤ num_povs can ≤ MAX_POVS
     ∧ length (name_pov can) = Z.to_nat MAX_POVS)
  ∧ (0 ≤ num_buttons can ≤ MAX_BUTTONS
     ∧ length (name_button can) = Z.to_nat MAX_BUTTONS).

(** The mapping table the layout order gives: a canonical axis is at the
    slot counted by the present axes before it in its group, slider [k] is
    axis 0 of its own stick, hat [k] is its own stick; the sliders come after
    the axis sticks, the hats after the sliders. *)
Definition mapping_ok (can : CAPS_AND_NAMES) (joy : AL_JOYSTICK_DIRECTX)
  : Prop :=
  let first := b2z (have_x can || have_y can || have_z can) in
  (have_x can = true → x_mapping joy = {| m_stick := 0; m_axis := 0 |})
  ∧ (have_y can = true →
     y_mapping joy = {| m_stick := 0; m_axis := b2z (have_x can) |})
  ∧ (have_z can = true →
     z_mapping joy
     = {| m_stick := 0; m_axis := b2z (have_x can) + b2z (have_y can) |})
  ∧ (have_rx can = true →
     rx_mapping joy = {| m_stick := first; m_axis := 0 |})
  ∧ (have_ry can = true →
     ry_mapping joy = {| m_stick := first; m_axis := b2z (have_rx can) |})
  ∧ (have_rz can = true →
     rz_mapping joy
     = {| m_stick := first;
          m_axis := b2z (have_rx can) + b2z (have_ry can) |})
  ∧ take (Z.to_nat (num_sliders can)) (slider_mapping joy)
    = map (λ k, {| m_stick := spec_axis_sticks can + k; m_axis := 0 |})
        (seqZ 0 (num_sliders can))
  ∧ take (Z.to_nat (num_povs can)) (pov_mapping_stick joy)
    = map (λ k, spec_axis_sticks can + num_sliders can + k)
        (seqZ 0 (num_povs can)).


(** ** Event emission as the specification words it *)

(** A state change that asks for an event: the published event types with
    their fields. *)
Inductive CHANGE :=
  | AxisMoved (stick axis : Z) (pos : spec_float)
  | ButtonDown (button : Z)
  | ButtonUp (button : Z).

Definition change_type (c : CHANGE) : EVENT_TYPE :=
  match c with
  | AxisMoved _ _ _ => AL_EVENT_JOYSTICK_AXIS
  | ButtonDown _ => AL_EVENT_JOYSTICK_BUTTON_DOWN
  | ButtonUp _ => AL_EVENT_JOYSTICK_BUTTON_UP
  end.

(** The event of a change, stamped with the time [now]. *)
Definition event_of (c : CHANGE) (now : spec_float) : AL_EVENT :=
  match c with
  | AxisMoved stick axis pos =>
      {| ev_type := AL_EVENT_JOYSTICK_AXIS; ev_timestamp := now;
         ev_stick := stick; ev_axis := axis; ev_pos := pos; ev_button := 0 |}
  | ButtonDown button =>
      {| ev_type := AL_EVENT_JOYSTICK_BUTTON_DOWN; ev_timestamp := now;
         ev_stick := 0; ev_axis := 0; ev_pos := float_lit 0;
         ev_button := button |}
  | ButtonUp button =>
      {| ev_type := AL_EVENT_JOYSTICK_BUTTON_UP; ev_timestamp := now;
         ev_stick := 0; ev_axis := 0; ev_pos := float_lit 0;
         ev_button := button |}
  end.

(** "If the event source reports that no subscriber wants this event type,
    nothing is emitted.  Otherwise an event slot is obtained from the event
    source (which may fail if the queue is full [...])". *)
Definition emit_change (e : AL_EVENT_SOURCE) (c : CHANGE) : AL_EVENT_SOURCE :=
  if es_needs e (change_type c) then
    match es_free e with
    | O => e
    | S free' =>
        {| es_needs := es_needs e; es_free := free';
           es_emitted :=
             es_emitted e ++ [event_of c (es_clock e (es_clock_reads e))];
           es_clock := es_clock e;
           es_clock_reads := S (es_clock_reads e) |}
    end
  else e.

Definition emit_changes (e : AL_EVENT_SOURCE) (l : list CHANGE)
  : AL_EVENT_SOURCE := foldl emit_change e l.

(** The changes in turn, each stamped with the next clock value. *)
Fixpoint stamp (clock : nat → spec_float) (k : nat) (l : list CHANGE)
  : list AL_EVENT :=
  match l with
  | [] => []
  | c :: l' => event_of c (clock k) :: stamp clock (S k) l'
  end.

(** The events a source delivers of the changes [l]: those of a type it
    needs, for as long as it has slots. *)
Definition delivered (e : AL_EVENT_SOURCE) (l : list CHANGE) : list AL_EVENT :=
  stamp (es_clock e) (es_clock_reads e)
    (take (es_free e) (filter (λ c, es_needs e (change_type c) = true) l)).

(** ** Well-formed records *)

(** The generic record after the layout builder: the counters stay within
    the arrays. *)
Definition info_wfb (i : JOYSTICK_INFO) : bool :=
  (length (info_stick i) =? Z.to_nat _AL_MAX_JOYSTICK_STICKS)%nat
  && (0 <=? num_sticks i) && (num_sticks i <=? _AL_MAX_JOYSTICK_STICKS)
  && forallb (λ s, num_axes s <=? _AL_MAX_JOYSTICK_AXES) (info_stick i)
  && (0 <=? info_num_buttons i)
  && (info_num_buttons i <=? _AL_MAX_JOYSTICK_BUTTONS).

(** The snapshot has the declared array sizes. *)
Definition state_wfb (st : AL_JOYSTATE) : bool :=
  (length (state_stick st) =? Z.to_nat _AL_MAX_JOYSTICK_STICKS)%nat
  && forallb (λ a, (length a =? Z.to_nat _AL_MAX_JOYSTICK_AXES)%nat)
       (state_stick st)
  && (length (state_button st) =? Z.to_nat _AL_MAX_JOYSTICK_BUTTONS)%nat.

Definition joy_wf (joy : AL_JOYSTICK_DIRECTX) : Prop :=
  info_wfb (info (parent joy)) && state_wfb (joystate joy) = true.

(** What the sticks part leaves behind, in one tuple. *)
Definition sticks_view (joy : AL_JOYSTICK_DIRECTX) :=
  (published_sticks (info (parent joy)),
   (x_mapping joy, y_mapping joy, z_mapping joy),
   (rx_mapping joy, ry_mapping joy, rz_mapping joy),
   take (Z.to_nat (num_sliders (caps_and_names joy))) (slider_mapping joy),
   take (Z.to_nat (num_povs (caps_and_names joy))) (pov_mapping_stick joy),
   caps_and_names joy,
   info_button (info (parent joy)),
   info_wfb (info (parent joy)) && state_wfb (joystate joy)).

Definition spec_sticks_view (can : CAPS_AND_NAMES) :=
  let first := b2z (have_x can || have_y can || have_z can) in
  let at_ (have : bool) (s a : Z) :=
    if have then {| m_stick := s; m_axis := a |} else zero_mapping in
  (map lift_stick (spec_sticks can),
   (at_ (have_x can) 0 0,
    at_ (have_y can) 0 (b2z (have_x can)),
    at_ (have_z can) 0 (b2z (have_x can) + b2z (have_y can))),
   (at_ (have_rx can) first 0,
    at_ (have_ry can) first (b2z (have_rx can)),
    at_ (have_rz can) first (b2z (have_rx can) + b2z (have_ry can))),
   map (λ k, {| m_stick := spec_axis_sticks can + k; m_axis := 0 |})
     (seqZ 0 (num_sliders can)),
   map (λ k, spec_axis_sticks can + num_sliders can + k)
     (seqZ 0 (num_povs can)),
   can,
   replicate (Z.to_nat _AL_MAX_JOYSTICK_BUTTONS) (@None string),
   true).

(** Every axis position of the snapshot is in [-1.0, +1.0]. *)
Definition snapshot_in_unit (st : AL_JOYSTATE) : bool :=
  forallb (forallb in_unit) (state_stick st).

(** Every button intensity of the snapshot is 0 or 32767. *)
Definition buttons_0_or_32767 (st : AL_JOYSTATE) : bool :=
  forallb (λ v, (v =? 0) || (v =? 32767)) (state_button st).

(** [p] holds of the [n] integers from [lo] on. *)
Fixpoint range_all (n : nat) (lo : Z) (p : Z → bool) : bool :=
  match n with
  | O => true
  | S k => p lo && range_all k (lo + 1) p
  end.

(** The mapping table: the mapping of the raw object at offset [ofs] when
    it is one of the six canonical axes or one of the two sliders. *)
Definition axis_object (joy : AL_JOYSTICK_DIRECTX) (ofs : Z)
  : option AXIS_MAPPING :=
  if ofs =? DIJOFS_X then Some (x_mapping joy)
  else if ofs =? DIJOFS_Y then Some (y_mapping joy)
  else if ofs =? DIJOFS_Z then Some (z_mapping joy)
  else if ofs =? DIJOFS_RX then Some (rx_mapping joy)
  else if ofs =? DIJOFS_RY then Some (ry_mapping joy)
  else if ofs =? DIJOFS_RZ then Some (rz_mapping joy)
  else if ofs =? DIJOFS_SLIDER 0 then array_get (slider_mapping joy) 0
  else if ofs =? DIJOFS_SLIDER 1 then array_get (slider_mapping joy) 1
  else None.

(** The stick of the hat at offset [ofs], when it is one of the four
    hats. *)
Definition hat_object (joy : AL_JOYSTICK_DIRECTX) (ofs : Z) : option Z :=
  if ofs =? DIJOFS_POV 0 then array_get (pov_mapping_stick joy) 0
  else if ofs =? DIJOFS_POV 1 then array_get (pov_mapping_stick joy) 1
  else if ofs =? DIJOFS_POV 2 then array_get (pov_mapping_stick joy) 2
  else if ofs =? DIJOFS_POV 3 then array_get (pov_mapping_stick joy) 3
  else None.

(** The mapping resolves to a (stick, axis) of the schema. *)
Definition in_schema (joy : AL_JOYSTICK_DIRECTX) (m : AXIS_MAPPING) : Prop :=
  0 ≤ m_stick m < num_sticks (info (parent joy))
  ∧ ∃ st, array_get (info_stick (info (parent joy))) (m_stick m) = Some st
          ∧ 0 ≤ m_axis m < num_axes st.

(** ** The hat rule *)

(** The decision rule as the specification words it. *)
Definition spec_hat_x (raw : Z) : Z :=
  if (9000 <? raw) && (raw <? 27000) then 1
  else if ((0 <? raw) && (raw <? 9000)) || ((27000 <? raw) && (raw <? 36000))
  then -1
  else 0.

Definition spec_hat_y (raw : Z) : Z :=
  if ((0 <=? raw) && (raw <=? 36000)) && ((raw <=? 9000) || (27000 <=? raw))
  then -1
  else if (9000 <? raw) && (raw <? 27000) then 1
  else 0.

(** The rule the driver follows. *)
Definition hat_x (raw : Z) : Z :=
  if (18000 <? raw) && (raw <? 36000) then -1
  else if (0 <? raw) && (raw <? 18000) then 1
  else 0.

Definition hat_y (raw : Z) : Z :=
  if ((27000 <? raw) && (raw <=? 36000)) || ((0 <=? raw) && (raw <? 9000))
  then -1
  else if (9000 <? raw) && (raw <? 27000) then 1
  else 0.

(** The changes a hat delta asks events for: an axis whose new value
    differs from the stored one. *)
Definition hat_changes (stick : Z) (old_p0 old_p1 p0 p1 : spec_float)
  : list CHANGE :=
  (if fne old_p0 p0 then [AxisMoved stick 0 p0] else [])
  ++ (if fne old_p1 p1 then [AxisMoved stick 1 p1] else []).

(** ** Button deltas *)

(** The button a raw offset stands for and the state a raw value carries. *)
Definition button_of (item : DIDEVICEOBJECTDATA) : Z :=
  dwOfs item - DIJOFS_BUTTON 0.

Definition pressed (item : DIDEVICEOBJECTDATA) : bool :=
  negb (Z.land (dwData item) 128 =? 0).

(** The intensity of a pressed and of a released button. *)
Definition intensity (down : bool) : Z := if down then 32767 else 0.

Definition button_change (item : DIDEVICEOBJECTDATA) : CHANGE :=
  if pressed item then ButtonDown (button_of item)
  else ButtonUp (button_of item).

(** The state the last delta of button [k] in the sequence carries, if
    there is one. *)
Fixpoint last_delta (k : Z) (buffer : list DIDEVICEOBJECTDATA) : option bool :=
  match buffer with
  | [] => None
  | item :: rest =>
      match last_delta k rest with
      | Some p => Some p
      | None => if button_of item =? k then Some (pressed item) else None
      end
  end.

(** A delta of a button of the schema. *)
Definition button_delta (joy : AL_JOYSTICK_DIRECTX)
    (item : DIDEVICEOBJECTDATA) : Prop :=
  0 ≤ button_of item < info_num_buttons (info (parent joy)).

(** ** The driver table *)

(** The table and the wakers have their declared sizes and the device count
    is a count of table entries. *)
Definition driver_wfb (d : DRIVER) : bool :=
  (length (joydx_joystick d) =? Z.to_nat MAX_JOYSTICKS)%nat
  && (length (joydx_thread_wakers d) =? Z.to_nat (1 + MAX_JOYSTICKS))%nat
  && (0 <=? joydx_num_joysticks d)
  && (joydx_num_joysticks d <=? MAX_JOYSTICKS).

(** The set-up of a controller fails: one of the calls the callback checks
    reports an error, or the device must be polled and no timer could be
    created. *)
Definition setup_fails (a : DEVICE_ANSWERS) : bool :=
  FAILED (a_CreateDevice a) || FAILED (a_QueryInterface a)
  || FAILED (a_SetCooperativeLevel a) || FAILED (a_EnumObjects a)
  || FAILED (a_SetDataFormat a) || FAILED (a_SetProperty_RANGE a)
  || FAILED (a_SetProperty_DEADZONE a) || FAILED (a_SetProperty_BUFFERSIZE a)
  || FAILED (a_SetEventNotification a)
  || (HRESULT_eqb (a_SetEventNotification a) DI_POLLEDDEVICE
      && (a_CreateWaitableTimer a =? NULL)).

(** The driver in the middle of the set-up of a controller that started in
    state [d]: the count and the other table entries are those of [d], the
    entry at hand is [joy], the waker cell at hand holds [w] and the
    resources held are those of [d] plus the handle [w] and the reference
    [dev], when they are not null. *)
Definition mid_setup (d : DRIVER) (dev w : Z) (joy : AL_JOYSTICK_DIRECTX)
    (dk : DRIVER) : Prop :=
  let n := joydx_num_joysticks d in
  joydx_num_joysticks dk = n
  ∧ joydx_joystick dk = <[Z.to_nat n := joy]> (joydx_joystick d)
  ∧ joydx_thread_wakers dk = <[Z.to_nat (1 + n) := w]> (joydx_thread_wakers d)
  ∧ open_handles dk
    = (if w =? NULL then open_handles d else w :: open_handles d)
  ∧ open_references dk
    = (if dev =? NULL then open_references d else dev :: open_references d).

(** Device [h] is released and its snapshot and emitted events are those of
    [joy0]. *)
Definition quiet (h : Z) (joy0 : AL_JOYSTICK_DIRECTX) (d : DRIVER) : Prop :=
  ∃ joy, array_get (joydx_joystick d) h = Some joy
         ∧ gotten joy = false
         ∧ joystate joy = joystate joy0
         ∧ es_emitted (es (parent joy)) = es_emitted (es (parent joy0)).

(** ** Example devices *)

(** The device record [joystick_enum_callback] builds for a controller with
    the objects [objs]: the zeroed record, the capability map
    [object_enum_callback] collects, the layout. *)
Definition enumerated (objs : list DIDEVICEOBJECTINSTANCE)
  : AL_JOYSTICK_DIRECTX :=
  default zero_joystick
    (can ← enum_objects objs zero_caps;
     fill_joystick_info_using_caps_and_names (set_caps can zero_joystick)).

(** The device once taken and registered with a queue that wants every
    event and has [free] slots; the clock ticks once per read. *)
Definition subscribed (free : nat) (joy : AL_JOYSTICK_DIRECTX)
  : AL_JOYSTICK_DIRECTX :=
  set_gotten true
    (set_es {| es_needs := λ _, true; es_free := free; es_emitted := [];
               es_clock := λ k, double_of_int (Z.of_nat k);
               es_clock_reads := O |} joy).

Definition object (t : GUIDTYPE) : DIDEVICEOBJECTINSTANCE :=
  {| guidType := t; tszName := None |}.

(** Scenario 1 of the specification: a pad with X, Y and four buttons. *)
Definition pad : AL_JOYSTICK_DIRECTX :=
  enumerated [object GUID_XAxis; object GUID_YAxis; object GUID_Button;
              object GUID_Button; object GUID_Button; object GUID_Button].

(** Scenario 2: a device with one hat. *)
Definition hat_device : AL_JOYSTICK_DIRECTX := enumerated [object GUID_POV].

(** The capability map of the pad. *)
Definition pad_caps : CAPS_AND_NAMES := caps_and_names pad.

(** Scenario 3: a device with one slider named "Throttle". *)
Definition throttle : AL_JOYSTICK_DIRECTX :=
  enumerated [{| guidType := GUID_Slider; tszName := Some "Throttle"%string |}].

(** A controller like the pad whose set-up succeeds at every step. *)
Definition good_controller : DEVICE_ANSWERS := {|
  a_CreateDevice := DI_OK; a_dinput_device1 := 1;
  a_QueryInterface := DI_OK; a_temp := 2;
  a_SetCooperativeLevel := DI_OK;
  a_EnumObjects := DI_OK;
  a_objects := [object GUID_XAxis; object GUID_YAxis; object GUID_Button;
                object GUID_Button; object GUID_Button; object GUID_Button];
  a_SetDataFormat := DI_OK;
  a_SetProperty_RANGE := DI_OK;
  a_SetProperty_DEADZONE := DI_OK;
  a_SetProperty_BUFFERSIZE := DI_OK;
  a_CreateEvent := 3;
  a_SetEventNotification := DI_OK;
  a_CreateWaitableTimer := NULL
|}.

(** The same controller refusing the cooperative level. *)
Definition bad_controller : DEVICE_ANSWERS := {|
  a_CreateDevice := DI_OK; a_dinput_device1 := 1;
  a_QueryInterface := DI_OK; a_temp := 2;
  a_SetCooperativeLevel := DIERR_OTHER;
  a_EnumObjects := DI_OK;
  a_objects := [];
  a_SetDataFormat := DI_OK;
  a_SetProperty_RANGE := DI_OK;
  a_SetProperty_DEADZONE := DI_OK;
  a_SetProperty_BUFFERSIZE := DI_OK;
  a_CreateEvent := 3;
  a_SetEventNotification := DI_OK;
  a_CreateWaitableTimer := NULL
|}.

(** The driver after the enumeration of one good controller, the device
    taken and registered with a queue. *)
Definition one_pad_driver : DRIVER :=
  default initial_driver
    (d ← IDirectInput_EnumDevices [good_controller] initial_driver;
     d ← joydx_get_joystick 0 d;
     step (StepFramework 0 (λ _, true) 10%nat) d).

(** A press and a release of button 0, a press of button 2. *)
Definition button_burst : list DIDEVICEOBJECTDATA :=
  [{| dwOfs := DIJOFS_BUTTON 0; dwData := 128 |};
   {| dwOfs := DIJOFS_BUTTON 0; dwData := 0 |};
   {| dwOfs := DIJOFS_BUTTON 2; dwData := 128 |}].

(** The driver once the pad is released, and what happens next: the
    framework registers a queue, the thread is woken for the pad with a
    delta of X pending, the pad is released once more. *)
Definition released_pad_driver : DRIVER :=
  default initial_driver (joydx_release_joystick 0 one_pad_driver).

Definition later_steps : list STEP :=
  [StepFramework 0 (λ _, true) 5%nat;
   StepRound 1 DI_OK [{| dwOfs := DIJOFS_X; dwData := 32767 |}];
   StepRelease 0].

Definition later_pad_driver : DRIVER :=
  default initial_driver (run later_steps released_pad_driver).
(** * The rest of the driver *)

(** ** The object enumeration, described *)

Definition GUIDTYPE_eqb (a b : GUIDTYPE) : bool :=
  match a, b with
  | GUID_XAxis, GUID_XAxis | GUID_YAxis, GUID_YAxis | GUID_ZAxis, GUID_ZAxis
  | GUID_RxAxis, GUID_RxAxis | GUID_RyAxis, GUID_RyAxis
  | GUID_RzAxis, GUID_RzAxis | GUID_Slider, GUID_Slider
  | GUID_POV, GUID_POV | GUID_Button, GUID_Button
  | GUID_Unknown, GUID_Unknown => true
  | _, _ => false
  end.

(** The objects of type [t] among [objs], by their names, in the order of the
    enumeration. *)
Fixpoint names_of (t : GUIDTYPE) (objs : list DIDEVICEOBJECTINSTANCE)
  : list (option string) :=
  match objs with
  | [] => []
  | o :: rest =>
      if GUIDTYPE_eqb (guidType o) t then tszName o :: names_of t rest
      else names_of t rest
  end.

(** The array of [max] name cells that holds the names [seen] in turn: the
    names past the array are dropped, the cells past the names are null. *)
Definition name_cells (max : Z) (seen : list (option string))
  : list (option string) :=
  take (Z.to_nat max) (seen ++ replicate (Z.to_nat max) None).

(** The capability map that records the objects seen so far, [seen t] being
    the names of those of type [t]: an axis is present when one was seen and
    has the name of the first one; sliders, hats and buttons are counted up
    to the size of their array and their names are kept in turn. *)
Definition caps_of (seen : GUIDTYPE → list (option string)) : CAPS_AND_NAMES :=
  let have t := if seen t is [] then false else true in
  let first t := if seen t is nm :: _ then nm else None in
  let count max t := Z.min (Z.of_nat (length (seen t))) max in
  {| have_x := have GUID_XAxis; name_x := first GUID_XAxis;
     have_y := have GUID_YAxis; name_y := first GUID_YAxis;
     have_z := have GUID_ZAxis; name_z := first GUID_ZAxis;
     have_rx := have GUID_RxAxis; name_rx := first GUID_RxAxis;
     have_ry := have GUID_RyAxis; name_ry := first GUID_RyAxis;
     have_rz := have GUID_RzAxis; name_rz := first GUID_RzAxis;
     num_sliders := count MAX_SLIDERS GUID_Slider;
     name_slider := name_cells MAX_SLIDERS (seen GUID_Slider);
     num_povs := count MAX_POVS GUID_POV;
     name_pov := name_cells MAX_POVS (seen GUID_POV);
     num_buttons := count MAX_BUTTONS GUID_Button;
     name_button := name_cells MAX_BUTTONS (seen GUID_Button) |}.

(** What the capability map says of a canonical axis of which the objects
    named [seen] were reported: absent, or present with the name of the
    first one. *)
Definition axis_seen (seen : list (option string)) : bool * option string :=
  match seen with [] => (false, None) | nm :: _ => (true, nm) end.

(** ** The layout, decided *)

(** [in_schema], decided. *)
Definition in_schemab (joy : AL_JOYSTICK_DIRECTX) (m : AXIS_MAPPING) : bool :=
  (0 <=? m_stick m) && (m_stick m <? num_sticks (info (parent joy)))
  && match array_get (info_stick (info (parent joy))) (m_stick m) with
     | Some st => (0 <=? m_axis m) && (m_axis m <? num_axes st)
     | None => false
     end.

(** Stick [s] is a stick of the schema with the two axes of a hat. *)
Definition hat_stickb (joy : AL_JOYSTICK_DIRECTX) (s : Z) : bool :=
  (0 <=? s) && (s <? num_sticks (info (parent joy)))
  && match array_get (info_stick (info (parent joy))) s with
     | Some st => num_axes st =? 2
     | None => false
     end.

(** The mapping table agrees with the schema: the mapping of every object
    the capability map has resolves inside the schema, the stick of every
    hat is a stick with two axes, and the sticks are as many as the axis
    groups, the sliders and the hats together. *)
Definition layout_okb (joy : AL_JOYSTICK_DIRECTX) : bool :=
  let can := caps_and_names joy in
  (num_sticks (info (parent joy))
   =? spec_axis_sticks can + num_sliders can + num_povs can)
  && implb (have_x can) (in_schemab joy (x_mapping joy))
  && implb (have_y can) (in_schemab joy (y_mapping joy))
  && implb (have_z can) (in_schemab joy (z_mapping joy))
  && implb (have_rx can) (in_schemab joy (rx_mapping joy))
  && implb (have_ry can) (in_schemab joy (ry_mapping joy))
  && implb (have_rz can) (in_schemab joy (rz_mapping joy))
  && forallb (in_schemab joy)
       (take (Z.to_nat (num_sliders can)) (slider_mapping joy))
  && forallb (hat_stickb joy)
       (take (Z.to_nat (num_povs can)) (pov_mapping_stick joy))
  && (length (slider_mapping joy) =? Z.to_nat MAX_SLIDERS)%nat
  && (length (pov_mapping_stick joy) =? Z.to_nat MAX_POVS)%nat.

(** ** Drains *)

(** The device records the driver works on: the generic record and the
    snapshot are well formed, the two mapping arrays have their declared
    sizes and so has the capability map. *)
Definition device_wf (joy : AL_JOYSTICK_DIRECTX) : Prop :=
  joy_wf joy
  ∧ length (slider_mapping joy) = Z.to_nat MAX_SLIDERS
  ∧ length (pov_mapping_stick joy) = Z.to_nat MAX_POVS
  ∧ caps_wf (caps_and_names joy).

(** An item that, when it is the delta of an axis or of a slider, carries a
    value of the calibrated range. *)
Definition calibrated (joy : AL_JOYSTICK_DIRECTX) (item : DIDEVICEOBJECTDATA)
  : Prop :=
  is_Some (axis_object joy (int_of_DWORD (dwOfs item))) →
  -32767 ≤ int_of_DWORD (dwData item) ≤ 32767.

(** [joy'] is [joy] with another snapshot and with the event source after
    the emission of the changes [cs]; every other member is the same. *)
Definition drained (cs : list CHANGE) (joy joy' : AL_JOYSTICK_DIRECTX) : Prop :=
  joy' = set_es (emit_changes (es (parent joy)) cs)
           (set_joystate (joystate joy') joy).

(** An item the dispatch has no case for: its offset, as the [int] the
    [switch] sees, is negative, is not a multiple of four below the buttons,
    or is past the buttons of the schema. *)
Definition unknown_offset (joy : AL_JOYSTICK_DIRECTX)
    (item : DIDEVICEOBJECTDATA) : Prop :=
  let ofs := int_of_DWORD (dwOfs item) in
  ofs < 0
  ∨ (0 ≤ ofs < DIJOFS_BUTTON0 ∧ ofs mod 4 ≠ 0)
  ∨ DIJOFS_BUTTON (info_num_buttons (info (parent joy))) ≤ ofs.

(** ** Shutdown *)

(** [FREE (x)]: the string is freed, if there is one, and the pointer is
    null afterwards. *)
Definition FREE (x : option string) : option string :=
  match x with Some _ => None | None => None end.

(** [for (k=0; k<max; k++) FREE (name[k])]. *)
Definition FREE_all (max : Z) (name : list (option string))
  : option (list (option string)) :=
  for_loop (Z.to_nat max) 0
    (λ k l, x ← array_get l k; array_set l k (FREE x)) name.

(** [FREE (can->name_x); ...; FREE (can->name_rz);]. *)
Definition FREE_axis_names (can : CAPS_AND_NAMES) : CAPS_AND_NAMES :=
  {| have_x := have_x can; name_x := FREE (name_x can);
     have_y := have_y can; name_y := FREE (name_y can);
     have_z := have_z can; name_z := FREE (name_z can);
     have_rx := have_rx can; name_rx := FREE (name_rx can);
     have_ry := have_ry can; name_ry := FREE (name_ry can);
     have_rz := have_rz can; name_rz := FREE (name_rz can);
     num_sliders := num_sliders can; name_slider := name_slider can;
     num_povs := num_povs can; name_pov := name_pov can;
     num_buttons := num_buttons can; name_button := name_button can |}.

Definition free_caps_and_names_strings (can : CAPS_AND_NAMES)
  : option CAPS_AND_NAMES :=
  let can := FREE_axis_names can in
  l ← FREE_all MAX_SLIDERS (name_slider can);
  let can := set_sliders (num_sliders can) l can in
  l ← FREE_all MAX_POVS (name_pov can);
  let can := set_povs (num_povs can) l can in
  l ← FREE_all MAX_BUTTONS (name_button can);
  Some (set_buttons (num_buttons can) l can).

(** One round of the loop of [joydx_exit] that destroys the devices. *)
Definition destroy_device (i : Z) (d : DRIVER) : option DRIVER :=
  joy ← array_get (joydx_joystick d) i;
  (* IDirectInputDevice2_SetEventNotification (device, NULL): no driver
     state *)
  let d := Release (device joy) d in
  can ← free_caps_and_names_strings (caps_and_names joy);
  d ← set_joystick i (set_caps can joy) d;
  w ← JOYSTICK_WAKER i d;
  set_JOYSTICK_WAKER i NULL (CloseHandle w d).

(** [joydx_exit], as a release build runs it.  The thread has left its loop
    when [WaitForSingleObject] returns. *)
Definition joydx_exit (d : DRIVER) : option DRIVER :=
  (* stop the thread *)
  let d := set_joydx_thread NULL d in
  (* free thread resources *)
  stop ← array_get (joydx_thread_wakers d) 0;
  l ← array_set (joydx_thread_wakers d) 0 NULL;
  let d := set_joydx_thread_wakers l (CloseHandle stop d) in
  (* unacquire the devices: a call on the window thread, no driver state *)
  (* destroy the devices *)
  d ← for_loop (Z.to_nat (joydx_num_joysticks d)) 0 destroy_device d;
  (* destroy the DirectInput interface *)
  let d := set_joystick_dinput NULL (Release (joystick_dinput d) d) in
  Some (set_joydx_num_joysticks 0 d).

(** ** Acquisition *)

(** The devices of the table in turn, from 0 to the count: the loop of
    [_al_win_joystick_dinput_acquire] and of
    [_al_win_joystick_dinput_unacquire], with the device pointers the
    backend is called on, in the order of the calls. *)
Definition each_device (d : DRIVER) : option (list LPDIRECTINPUTDEVICE2) :=
  for_loop (Z.to_nat (joydx_num_joysticks d)) 0
    (λ i calls, joy ← array_get (joydx_joystick d) i;
                Some (calls ++ [device joy])) [].

(** [_al_win_joystick_dinput_acquire]: the device pointers
    [IDirectInputDevice2_Acquire] is called on and the value returned; a
    failure of the call is traced and nothing else. *)
Definition _al_win_joystick_dinput_acquire (d : DRIVER)
  : option (list LPDIRECTINPUTDEVICE2 * Z) :=
  calls ← (if negb (joystick_dinput d =? NULL) then each_device d
           else Some []);
  Some (calls, 0).

(** [_al_win_joystick_dinput_unacquire], with the device pointers
    [IDirectInputDevice2_Unacquire] is called on. *)
Definition _al_win_joystick_dinput_unacquire (d : DRIVER)
  : option (list LPDIRECTINPUTDEVICE2 * Z) :=
  calls ← (if negb (joystick_dinput d =? NULL) then each_device d
           else Some []);
  Some (calls, 0).

(** ** The thread loop *)

(** One wake-up of the thread: the value [WaitForMultipleObjects] returns
    and the answer of the backend to the drain that may follow. *)
Record WAKEUP := {
  wake_result : Z;
  wake_hr : HRESULT;
  wake_pending : list DIDEVICEOBJECTDATA
}.

(** [joydx_thread_proc] over the wake-ups the thread gets, in turn.  The
    second component is [false] when the thread has left the loop and
    [true] when it waits for the next wake-up. *)
Fixpoint joydx_thread_proc (wakeups : list WAKEUP) (d : DRIVER)
  : option (DRIVER * bool) :=
  match wakeups with
  | [] => Some (d, true)
  | w :: rest =>
      '(d', continue) ← joydx_thread_proc_round (wake_result w) (wake_hr w)
                          (wake_pending w) d;
      if continue : bool then joydx_thread_proc rest d' else Some (d', false)
  end.

(** ** The running driver *)

(** The wake handle the callback leaves for a controller it has set up: the
    event, or the timer when the device must be polled. *)
Definition waker_of (a : DEVICE_ANSWERS) : HANDLE :=
  if HRESULT_eqb (a_SetEventNotification a) DI_POLLEDDEVICE
  then a_CreateWaitableTimer a else a_CreateEvent a.

(** The table and the wakers have their declared sizes and every
    enumerated device record is well formed. *)
Definition driver_ok (d : DRIVER) : Prop :=
  driver_wfb d = true
  ∧ ∀ k joy, 0 ≤ k < joydx_num_joysticks d →
             array_get (joydx_joystick d) k = Some joy → device_wf joy.

(** What the driver answers for: the handles in the cells of the wakers it
    uses (the stop event and one waker per enumerated device) and the
    interface pointers of DirectInput and of the enumerated devices; null
    ones are nothing to answer for. *)
Definition held_handles (d : DRIVER) : list HANDLE :=
  filter (λ h, h ≠ NULL)
    (take (Z.to_nat (1 + joydx_num_joysticks d)) (joydx_thread_wakers d)).

Definition held_references (d : DRIVER) : list Z :=
  filter (λ p, p ≠ NULL)
    (joystick_dinput d
     :: map device (take (Z.to_nat (joydx_num_joysticks d)) (joydx_joystick d))).

(** The resources that are open are those the driver answers for, each as
    often as it is held. *)
Definition balanced (d : DRIVER) : Prop :=
  open_handles d ≡ₚ held_handles d ∧ open_references d ≡ₚ held_references d.

(** The waker cells of the devices that are not enumerated are null. *)
Definition spare_wakers_null (d : DRIVER) : Prop :=
  ∀ k, joydx_num_joysticks d ≤ k < MAX_JOYSTICKS →
       JOYSTICK_WAKER k d = Some NULL.

(** A step that addresses an enumerated device, when it addresses one. *)
Definition valid_step (d : DRIVER) (s : STEP) : Prop :=
  match s with
  | StepTake num | StepRelease num | StepFramework num _ _ =>
      0 ≤ num < joydx_num_joysticks d
  | StepRound _ _ _ => True
  end.

(** What a step of the running driver leaves alone: everything but the
    records of the table, and of these the device pointers. *)
Definition same_but_table (d d' : DRIVER) : Prop :=
  joystick_dinput d' = joystick_dinput d
  ∧ joydx_num_joysticks d' = joydx_num_joysticks d
  ∧ joydx_thread d' = joydx_thread d
  ∧ joydx_thread_wakers d' = joydx_thread_wakers d
  ∧ open_handles d' = open_handles d
  ∧ open_references d' = open_references d
  ∧ map device (joydx_joystick d') = map device (joydx_joystick d).

(** The driver while the controllers are enumerated and afterwards: it is
    in order, the waker cells past the enumerated devices are null and the
    open resources are those it answers for. *)
Definition enum_inv (d : DRIVER) : Prop :=
  driver_ok d ∧ spare_wakers_null d ∧ balanced d.

(** The record the callback leaves in the table for the controller [a] it
    sets up as device [n]. *)
Definition device_record (n : Z) (a : DEVICE_ANSWERS) : AL_JOYSTICK_DIRECTX :=
  set_gotten false (set_device (a_temp a) (set_num n (enumerated (a_objects a)))).

(** The controllers of a list whose set-up succeeds. *)
Definition set_up (attached : list DEVICE_ANSWERS) : list DEVICE_ANSWERS :=
  filter (λ a, setup_fails a = false) attached.

(** The members of the driver the enumeration callback has no business
    with. *)
Definition outside_enumeration (d : DRIVER) : Z * HANDLE * nat :=
  (joystick_dinput d, joydx_thread d, acquire_scheduled d).

(** Every name pointer of the capability map is null. *)
Definition names_all_null (can : CAPS_AND_NAMES) : bool :=
  forallb (λ x, if x is None then true else false)
    ([name_x can; name_y can; name_z can; name_rx can; name_ry can;
      name_rz can] ++ name_slider can ++ name_pov can ++ name_button can).

(** ** More example devices *)

(** A flight stick that must be polled: X, Y, a twist axis, a slider named
    "Throttle", a hat and two buttons. *)
Definition polled_controller : DEVICE_ANSWERS := {|
  a_CreateDevice := DI_OK; a_dinput_device1 := 11;
  a_QueryInterface := DI_OK; a_temp := 12;
  a_SetCooperativeLevel := DI_OK;
  a_EnumObjects := DI_OK;
  a_objects := [object GUID_XAxis; object GUID_YAxis; object GUID_RzAxis;
                {| guidType := GUID_Slider; tszName := Some "Throttle"%string |};
                object GUID_POV; object GUID_Button; object GUID_Button];
  a_SetDataFormat := DI_OK;
  a_SetProperty_RANGE := DI_OK;
  a_SetProperty_DEADZONE := DI_OK;
  a_SetProperty_BUFFERSIZE := DI_OK;
  a_CreateEvent := 13;
  a_SetEventNotification := DI_POLLEDDEVICE;
  a_CreateWaitableTimer := 14
|}.

Definition flight_stick : AL_JOYSTICK_DIRECTX :=
  enumerated (a_objects polled_controller).

Definition flight_caps : CAPS_AND_NAMES := caps_and_names flight_stick.

(** A system with DirectX 8 and three controllers attached: the pad, a
    controller that refuses the cooperative level and the flight stick. *)
Definition three_controllers : SYSTEM_ANSWERS := {|
  _dx_ver := 2048;
  a_DirectInputCreate := DI_OK; a_joystick_dinput := 9;
  a_EnumDevices := DI_OK;
  a_attached := [good_controller; bad_controller; polled_controller];
  a_STOP_EVENT := 4; a_beginthread := 5
|}.

(** The same system with the refusing controller alone. *)
Definition no_usable_controller : SYSTEM_ANSWERS := {|
  _dx_ver := 2048;
  a_DirectInputCreate := DI_OK; a_joystick_dinput := 9;
  a_EnumDevices := DI_OK;
  a_attached := [bad_controller];
  a_STOP_EVENT := 4; a_beginthread := 5
|}.

(** The driver after [joydx_init] on the three controllers. *)
Definition started_driver : DRIVER :=
  default initial_driver (fst <$> joydx_init three_controllers initial_driver).

(** Deltas of the flight stick: X at full deflection, the slider at rest,
    the hat pushed up and to the right, button 0 pressed. *)
Definition flight_burst : list DIDEVICEOBJECTDATA :=
  [{| dwOfs := DIJOFS_X; dwData := 32767 |};
   {| dwOfs := DIJOFS_SLIDER 0; dwData := DWORD_of_int (-32767) |};
   {| dwOfs := DIJOFS_POV 0; dwData := 4500 |};
   {| dwOfs := DIJOFS_BUTTON 0; dwData := 128 |}].

(** Items the dispatch has no case for: an offset inside an axis, one past
    the buttons and one that is negative as an [int]. *)
Definition stray_items : list DIDEVICEOBJECTDATA :=
  [{| dwOfs := 2; dwData := 1 |};
   {| dwOfs := 200; dwData := 128 |};
   {| dwOfs := 2 ^ 32 - 4; dwData := 7 |}].

(** A session of the started driver: the flight stick (device 1) is taken
    and registered with a queue, the thread is woken for it with the burst,
    then with a lost device, then by a failed wait, and the flight stick is
    released. *)
Definition session : list STEP :=
  [StepTake 1;
   StepFramework 1 (λ _, true) 10%nat;
   StepRound 2 DI_OK flight_burst;
   StepRound 2 DIERR_INPUTLOST [];
   StepRound (2 ^ 32 - 1) DI_OK flight_burst;
   StepRelease 1].

(** The started driver with the flight stick taken and registered. *)
Definition running_driver : DRIVER :=
  default initial_driver
    (run [StepTake 1; StepFramework 1 (λ _, true) 10%nat] started_driver).

(** ** The button branch of the dispatch *)

(** The twelve offsets the [switch] of [update_joystick] has a case for: the
    six axes, the two sliders and the four hats.  An item with any other
    offset takes the [default] branch, the one of the buttons. *)
Definition case_label (ofs : Z) : bool :=
  existsb (Z.eqb ofs)
    [DIJOFS_X; DIJOFS_Y; DIJOFS_Z; DIJOFS_RX; DIJOFS_RY; DIJOFS_RZ;
     DIJOFS_SLIDER 0; DIJOFS_SLIDER 1;
     DIJOFS_POV 0; DIJOFS_POV 1; DIJOFS_POV 2; DIJOFS_POV 3].

(** The button an offset of the [default] branch stands for:
    [(dwOfs - DIJOFS_BUTTON0) / (DIJOFS_BUTTON1 - DIJOFS_BUTTON0)]. *)
Definition button_index (ofs : Z) : Z :=
  (ofs - DIJOFS_BUTTON0) ÷ (DIJOFS_BUTTON1 - DIJOFS_BUTTON0).

(** A button delta whose index is outside the schema of the device. *)
Definition button_outside_schema (joy : AL_JOYSTICK_DIRECTX)
    (item : DIDEVICEOBJECTDATA) : Prop :=
  let ofs := int_of_DWORD (dwOfs item) in
  case_label ofs = false
  ∧ ¬ (0 ≤ button_index ofs < info_num_buttons (info (parent joy))).

(** Button deltas for button 10, for the index -1 and for an index that is
    negative because the offset is, as an [int]. *)
Definition stray_buttons : list DIDEVICEOBJECTDATA :=
  [{| dwOfs := DIJOFS_BUTTON 10; dwData := 128 |};
   {| dwOfs := DIJOFS_BUTTON0 - 1; dwData := 128 |};
   {| dwOfs := 2 ^ 32 - 1; dwData := 128 |}].

(** ** Failures the callback does not check *)

(** A controller like the pad for which [CreateEvent] fails: it returns
    null, and the backend accepts the null handle. *)
Definition eventless_controller : DEVICE_ANSWERS := {|
  a_CreateDevice := DI_OK; a_dinput_device1 := 1;
  a_QueryInterface := DI_OK; a_temp := 2;
  a_SetCooperativeLevel := DI_OK;
  a_EnumObjects := DI_OK;
  a_objects := [object GUID_XAxis; object GUID_YAxis; object GUID_Button;
                object GUID_Button; object GUID_Button; object GUID_Button];
  a_SetDataFormat := DI_OK;
  a_SetProperty_RANGE := DI_OK;
  a_SetProperty_DEADZONE := DI_OK;
  a_SetProperty_BUFFERSIZE := DI_OK;
  a_CreateEvent := NULL;
  a_SetEventNotification := DI_OK;
  a_CreateWaitableTimer := NULL
|}.

(** A throttle whose slider has a name and whose data format cannot be
    set: the set-up fails after the objects were enumerated. *)
Definition formatless_controller : DEVICE_ANSWERS := {|
  a_CreateDevice := DI_OK; a_dinput_device1 := 1;
  a_QueryInterface := DI_OK; a_temp := 2;
  a_SetCooperativeLevel := DI_OK;
  a_EnumObjects := DI_OK;
  a_objects := [{| guidType := GUID_Slider;
                   tszName := Some "Throttle"%string |}];
  a_SetDataFormat := DIERR_OTHER;
  a_SetProperty_RANGE := DI_OK;
  a_SetProperty_DEADZONE := DI_OK;
  a_SetProperty_BUFFERSIZE := DI_OK;
  a_CreateEvent := 3;
  a_SetEventNotification := DI_OK;
  a_CreateWaitableTimer := NULL
|}.

(** A system whose only controller is the one without an event. *)
Definition eventless_system : SYSTEM_ANSWERS := {|
  _dx_ver := 2048; a_DirectInputCreate := DI_OK;
  a_joystick_dinput := 9; a_EnumDevices := DI_OK;
  a_attached := [eventless_controller];
  a_STOP_EVENT := 4; a_beginthread := 5 |}.

(** ** Hat sticks *)

(** The sticks of the hats the device has: the sticks the layout builder
    entered for them into [pov_mapping_stick]. *)
Definition hat_sticks (joy : AL_JOYSTICK_DIRECTX) : list Z :=
  take (Z.to_nat (num_povs (caps_and_names joy))) (pov_mapping_stick joy).

(** A position of a hat axis: -1.0, 0.0 or +1.0. *)
Definition tri_valued (p : spec_float) : Prop :=
  p = float_lit (-1) ∨ p = float_lit 0 ∨ p = float_lit 1.

(** Both axes of every hat stick of the device hold such a position. *)
Definition hat_axes_tri_valued (joy : AL_JOYSTICK_DIRECTX) : Prop :=
  ∀ s, s ∈ hat_sticks joy →
       ∃ p0 p1,
         get_axis_pos s 0 (joystate joy) = Some p0
         ∧ get_axis_pos s 1 (joystate joy) = Some p1
         ∧ tri_valued p0 ∧ tri_valued p1.

(** The item is a delta of an object the device has: an axis the capability
    map has, a slider or a hat it counts.  The items of the [default]
    branch pass, the dispatch checks them itself. *)
Definition own_object (can : CAPS_AND_NAMES) (item : DIDEVICEOBJECTDATA)
  : bool :=
  let ofs := int_of_DWORD (dwOfs item) in
  if ofs =? DIJOFS_X then have_x can
  else if ofs =? DIJOFS_Y then have_y can
  else if ofs =? DIJOFS_Z then have_z can
  else if ofs =? DIJOFS_RX then have_rx can
  else if ofs =? DIJOFS_RY then have_ry can
  else if ofs =? DIJOFS_RZ then have_rz can
  else if ofs =? DIJOFS_SLIDER 0 then 0 <? num_sliders can
  else if ofs =? DIJOFS_SLIDER 1 then 1 <? num_sliders can
  else if ofs =? DIJOFS_POV 0 then 0 <? num_povs can
  else if ofs =? DIJOFS_POV 1 then 1 <? num_povs can
  else if ofs =? DIJOFS_POV 2 then 2 <? num_povs can
  else if ofs =? DIJOFS_POV 3 then 3 <? num_povs can
  else true.

(** The deltas of a round of the thread are deltas of objects of the device
    the thread is woken for. *)
Definition own_deltas (d : DRIVER) (s : STEP) : bool :=
  match s with
  | StepRound result hr pending =>
      let num := int_of_DWORD (result - WAIT_OBJECT_0 - 1) in
      if (num <? 0) || (num >=? joydx_num_joysticks d) then true
      else
        match array_get (joydx_joystick d) num with
        | Some joy => forallb (own_object (caps_and_names joy)) pending
        | None => true
        end
  | _ => true
  end.

(** The mapping points to a stick that is not a hat stick. *)
Definition apart_from_hats (joy : AL_JOYSTICK_DIRECTX) (m : AXIS_MAPPING)
  : bool :=
  forallb (λ s, negb (m_stick m =? s)) (hat_sticks joy).

(** The axes and the sliders the device has are mapped to sticks that are
    not hat sticks. *)
Definition hats_apartb (joy : AL_JOYSTICK_DIRECTX) : bool :=
  let can := caps_and_names joy in
  implb (have_x can) (apart_from_hats joy (x_mapping joy))
  && implb (have_y can) (apart_from_hats joy (y_mapping joy))
  && implb (have_z can) (apart_from_hats joy (z_mapping joy))
  && implb (have_rx can) (apart_from_hats joy (rx_mapping joy))
  && implb (have_ry can) (apart_from_hats joy (ry_mapping joy))
  && implb (have_rz can) (apart_from_hats joy (rz_mapping joy))
  && forallb (apart_from_hats joy)
       (take (Z.to_nat (num_sliders can)) (slider_mapping joy)).

(** A device record whose layout keeps the hats apart and whose hat axes
    hold -1.0, 0.0 or +1.0. *)
Definition hat_device_ok (joy : AL_JOYSTICK_DIRECTX) : Prop :=
  device_wf joy ∧ layout_okb joy = true ∧ hats_apartb joy = true
  ∧ hat_axes_tri_valued joy.

(** The driver [d], reached from [d1]: it is in order, counts the same
    devices, and every device has the capability map it had in [d1] and is
    as [hat_device_ok] says. *)
Definition hats_inv (d1 d : DRIVER) : Prop :=
  driver_ok d
  ∧ joydx_num_joysticks d = joydx_num_joysticks d1
  ∧ ∀ k joy, 0 ≤ k < joydx_num_joysticks d →
             array_get (joydx_joystick d) k = Some joy →
             ∃ joy1, array_get (joydx_joystick d1) k = Some joy1
                     ∧ caps_and_names joy = caps_and_names joy1
                     ∧ hat_device_ok joy.

(** * Properties *)

(** ** Arrays *)

Lemma array_get_Some {A} (a : list A) (i : Z) (x : A) :
  array_get a i = Some x ↔ 0 ≤ i ∧ a !! Z.to_nat i = Some x.
Proof.
  unfold array_get. destruct (Z.leb_spec 0 i); split.
  - done.
  - by intros [_ H1].
  - discriminate.
  - intros [H1 _]. lia.
Qed.

Lemma array_get_in {A} (a : list A) (i : Z) :
  0 ≤ i < Z.of_nat (length a) → ∃ x, array_get a i = Some x.
Proof.
  intros Hi. destruct (lookup_lt_is_Some_2 a (Z.to_nat i)) as [x Hx]; [lia |].
  exists x. apply array_get_Some. split; [lia | done].
Qed.

Lemma array_set_in {A} (a : list A) (i : Z) (v : A) :
  0 ≤ i < Z.of_nat (length a) →
  array_set a i v = Some (<[Z.to_nat i := v]> a).
Proof.
  intros Hi. unfold array_set.
  destruct (Z.leb_spec 0 i); [| lia].
  destruct (Z.ltb_spec i (Z.of_nat (length a))); [done | lia].
Qed.

Lemma array_set_out {A} (a : list A) (i : Z) (v : A) :
  ¬ (0 ≤ i < Z.of_nat (length a)) → array_set a i v = None.
Proof.
  intros Hi. unfold array_set.
  destruct (Z.leb_spec 0 i); [| done].
  destruct (Z.ltb_spec i (Z.of_nat (length a))); [lia | done].
Qed.

Lemma array_set_Some {A} (a a' : list A) (i : Z) (v : A) :
  array_set a i v = Some a' →
  0 ≤ i < Z.of_nat (length a) ∧ a' = <[Z.to_nat i := v]> a.
Proof.
  intros H. destruct (decide (0 ≤ i < Z.of_nat (length a))) as [Hi | Hi].
  - rewrite array_set_in in H by done. by inversion H.
  - rewrite array_set_out in H by done. discriminate.
Qed.

Lemma array_get_set_eq {A} (a : list A) (i : Z) (v : A) :
  0 ≤ i < Z.of_nat (length a) →
  array_get (<[Z.to_nat i := v]> a) i = Some v.
Proof.
  intros Hi. apply array_get_Some. split; [lia |].
  apply list_lookup_insert_eq. lia.
Qed.

Lemma OR_named (name : option string) (default : string) :
  OR name default = Some (named name default).
Proof. by destruct name. Qed.

(** ** The layout builder *)

(** The sticks, by cases on the shape of the capability map: the six flags,
    at most two sliders and at most four hats; the names stay arbitrary. *)
Lemma fill_sticks_view (can : CAPS_AND_NAMES) :
  caps_wf can →
  sticks_view <$> fill_sticks (set_caps can zero_joystick)
  = Some (spec_sticks_view can).
Proof.
  intros ((Hs & Hls) & (Hp & Hlp) & _).
  destruct can as [hx nx hy ny hz nz hrx nrx hry nry hrz nrz ns ls np lp nb lb].
  cbn in Hs, Hls, Hp, Hlp.
  destruct ls as [|s0 [|s1 [|]]]; try discriminate.
  destruct lp as [|p0 [|p1 [|p2 [|p3 [|]]]]]; try discriminate.
  assert (ns = 0 ∨ ns = 1 ∨ ns = 2) as Hns
    by (unfold MAX_SLIDERS in Hs; lia).
  assert (np = 0 ∨ np = 1 ∨ np = 2 ∨ np = 3 ∨ np = 4) as Hnp
    by (unfold MAX_POVS in Hp; lia).
  clear Hs Hp Hls Hlp.
  destruct Hns as [-> | [-> | ->]];
    destruct Hnp as [-> | [-> | [-> | [-> | ->]]]];
    destruct hx, hy, hz, hrx, hry, hrz;
    (cbv -[OR named]; rewrite ?OR_named; reflexivity).
Qed.

Lemma fill_sticks_spec (can : CAPS_AND_NAMES) :
  caps_wf can →
  ∃ joy', fill_sticks (set_caps can zero_joystick) = Some joy'
    ∧ published_sticks (info (parent joy')) = map lift_stick (spec_sticks can)
    ∧ mapping_ok can joy'
    ∧ caps_and_names joy' = can
    ∧ info_button (info (parent joy'))
      = replicate (Z.to_nat _AL_MAX_JOYSTICK_BUTTONS) None
    ∧ joy_wf joy'.
Proof.
  intros Hwf. pose proof (fill_sticks_view can Hwf) as Hv.
  destruct (fill_sticks (set_caps can zero_joystick)) as [joy' |];
    [| discriminate].
  exists joy'. split; [done |].
  unfold sticks_view, spec_sticks_view in Hv. cbn [fmap option_fmap option_map] in Hv.
  injection Hv as Hpub Hx Hy Hz Hrx Hry Hrz Hsl Hpov Hcaps Hbut Hjoy.
  rewrite Hcaps in Hsl, Hpov.
  split; [done |]. split; [| done].
  unfold mapping_ok. rewrite Hx, Hy, Hz, Hrx, Hry, Hrz, Hsl, Hpov.
  repeat split; by intros ->.
Qed.

Lemma fill_button_round (can : CAPS_AND_NAMES) (j : nat)
    (joy : AL_JOYSTICK_DIRECTX) (nm : option string) (df : string) :
  name_button can !! j = Some nm →
  default_name_button !! j = Some df →
  (j < length (info_button (info (parent joy))))%nat →
  fill_button can (Z.of_nat j) joy
  = Some (set_info
            (set_info_button
               (<[j := Some (named nm df)]> (info_button (info (parent joy))))
               (info (parent joy))) joy).
Proof.
  intros Hnm Hdf Hj. unfold fill_button.
  assert (array_get (name_button can) (Z.of_nat j) = Some nm) as ->
    by (apply array_get_Some; rewrite Nat2Z.id; split; [lia | done]).
  assert (array_get default_name_button (Z.of_nat j) = Some df) as ->
    by (apply array_get_Some; rewrite Nat2Z.id; split; [lia | done]).
  cbn [mbind option_bind]. rewrite array_set_in by lia.
  cbn [mbind option_bind]. by rewrite Nat2Z.id, OR_named.
Qed.

(** The button loop started at [j] names the buttons [j] to [j + n - 1] and
    leaves the other cells alone. *)
Lemma fill_button_loop (can : CAPS_AND_NAMES) (n : nat) :
  ∀ (j : nat) (joy : AL_JOYSTICK_DIRECTX),
    length (name_button can) = Z.to_nat MAX_BUTTONS →
    length (info_button (info (parent joy)))
    = Z.to_nat _AL_MAX_JOYSTICK_BUTTONS →
    (j + n ≤ 32)%nat →
    ∃ l, for_loop n (Z.of_nat j) (fill_button can) joy
         = Some (set_info (set_info_button l (info (parent joy))) joy)
       ∧ length l = Z.to_nat _AL_MAX_JOYSTICK_BUTTONS
       ∧ ∀ i : nat,
           l !! i =
           if decide (j ≤ i < j + n)%nat
           then nm ← name_button can !! i;
                df ← default_name_button !! i; Some (Some (named nm df))
           else info_button (info (parent joy)) !! i.
Proof.
  induction n as [|n IH]; intros j joy Hnames Hlen Hj.
  - exists (info_button (info (parent joy))).
    split; [by destruct joy as [[[] ? ?]] |].
    split; [done |]. intros i. case_decide; [lia | done].
  - destruct (lookup_lt_is_Some_2 (name_button can) j) as [nm Hnm];
      [rewrite Hnames; unfold MAX_BUTTONS; lia |].
    destruct (lookup_lt_is_Some_2 default_name_button j) as [df Hdf];
      [cbn; lia |].
    cbn [for_loop].
    rewrite (fill_button_round can j joy nm df Hnm Hdf)
      by (rewrite Hlen; unfold _AL_MAX_JOYSTICK_BUTTONS; lia).
    cbn [mbind option_bind].
    set (joy1 := set_info _ joy).
    destruct (IH (S j) joy1 Hnames) as (l & Hrun & Hl & Hlook).
    { subst joy1. cbn. by rewrite length_insert. }
    { lia. }
    exists l. split; [| split; [done |]].
    + replace (Z.of_nat j + 1) with (Z.of_nat (S j)) by lia. rewrite Hrun.
      reflexivity.
    + intros i. rewrite Hlook. subst joy1. cbn.
      destruct (decide (i = j)) as [-> | Hne].
      * rewrite list_lookup_insert_eq
          by (rewrite Hlen; unfold _AL_MAX_JOYSTICK_BUTTONS; lia).
        case_decide; [lia |]. case_decide; [| lia].
        by rewrite Hnm, Hdf.
      * rewrite list_lookup_insert_ne by done.
        repeat case_decide; try lia; done.
Qed.

Lemma fill_buttons_spec (joy : AL_JOYSTICK_DIRECTX) :
  caps_wf (caps_and_names joy) →
  length (info_button (info (parent joy)))
  = Z.to_nat _AL_MAX_JOYSTICK_BUTTONS →
  ∃ l, fill_buttons joy
       = Some (set_info
                 (set_info_num_buttons (num_buttons (caps_and_names joy))
                    (set_info_button l (info (parent joy)))) joy)
     ∧ take (Z.to_nat (num_buttons (caps_and_names joy))) l
       = map Some (spec_buttons (caps_and_names joy)).
Proof.
  intros (_ & _ & Hb & Hlb) Hlen. unfold fill_buttons.
  destruct (fill_button_loop (caps_and_names joy)
              (Z.to_nat (num_buttons (caps_and_names joy))) 0 joy Hlb Hlen)
    as (l & Hrun & Hl & Hlook); [unfold MAX_BUTTONS in Hb; lia |].
  exists l. change (Z.of_nat 0) with 0 in Hrun. rewrite Hrun.
  split; [reflexivity |].
  apply list_eq. intros i. rewrite list_lookup_fmap. unfold spec_buttons.
  rewrite lookup_zip_with. destruct (decide (i < Z.to_nat (num_buttons (caps_and_names joy)))%nat) as [Hi | Hi].
  - rewrite !lookup_take_lt by done. rewrite Hlook.
    case_decide; [| lia].
    destruct (name_button (caps_and_names joy) !! i) as [nm |]; [| done].
    cbn. by destruct (default_name_button !! i).
  - rewrite !lookup_take_ge by lia. done.
Qed.

(** C1: the layout builder is a total function of the capability map.  On
    the zeroed device record that holds the map it returns a record that
    publishes the sticks of the specification in its order ((X, Y, Z) and
    (RX, RY, RZ) as sticks named "stick" with the present axes in canonical
    order and no hole, then one one-axis stick per slider, then one stick
    with the axes "left/right" and "up/down" per hat), the buttons in
    discovery order, every absent name replaced by its default, and whose
    mapping table points at these slots. *)
Theorem layout_builder_total_and_ordered (can : CAPS_AND_NAMES) :
  caps_wf can →
  ∃ joy',
    fill_joystick_info_using_caps_and_names (set_caps can zero_joystick)
    = Some joy'
    ∧ published_sticks (info (parent joy')) = map lift_stick (spec_sticks can)
    ∧ published_buttons (info (parent joy')) = map Some (spec_buttons can)
    ∧ mapping_ok can joy'.
Proof.
  intros Hwf.
  destruct (fill_sticks_spec can Hwf)
    as (joy1 & Hs & Hpub & Hmap & Hcaps & Hbut & _).
  destruct (fill_buttons_spec joy1) as (l & Hb & Hl).
  { by rewrite Hcaps. }
  { rewrite Hbut. by rewrite length_replicate. }
  rewrite Hcaps in Hb, Hl.
  eexists. split.
  { unfold fill_joystick_info_using_caps_and_names. rewrite Hs.
    cbn [mbind option_bind]. exact Hb. }
  split; [exact Hpub |]. split; [exact Hl |]. exact Hmap.
Qed.

(** ** Event emission *)

Lemma set_es_same (joy : AL_JOYSTICK_DIRECTX) : set_es (es (parent joy)) joy = joy.
Proof. by destruct joy as [[] ? ? ? ? ? ? ? ? ? ? ? ?]. Qed.

Lemma generate_axis_event_emit (joy : AL_JOYSTICK_DIRECTX) (stick axis : Z)
    (pos : spec_float) :
  generate_axis_event joy stick axis pos
  = set_es (emit_change (es (parent joy)) (AxisMoved stick axis pos)) joy.
Proof.
  unfold generate_axis_event, emit_change,
    _al_event_source_needs_to_generate_event,
    _al_event_source_get_unused_event. cbn [change_type].
  destruct (es_needs (es (parent joy)) AL_EVENT_JOYSTICK_AXIS);
    cbn [negb]; [| by rewrite set_es_same].
  destruct (es_free (es (parent joy))) eqn:Hf; [by rewrite set_es_same |].
  unfold al_current_time, _al_event_source_emit_event. cbn. by rewrite Hf.
Qed.

Lemma generate_button_event_emit (joy : AL_JOYSTICK_DIRECTX) (button : Z)
    (down : bool) :
  generate_button_event joy button
    (if down then AL_EVENT_JOYSTICK_BUTTON_DOWN
     else AL_EVENT_JOYSTICK_BUTTON_UP)
  = set_es (emit_change (es (parent joy))
              (if down then ButtonDown button else ButtonUp button)) joy.
Proof.
  unfold generate_button_event, emit_change,
    _al_event_source_needs_to_generate_event,
    _al_event_source_get_unused_event.
  destruct down; cbn [change_type];
    (destruct (es_needs (es (parent joy)) _);
     cbn [negb]; [| by rewrite set_es_same];
     destruct (es_free (es (parent joy))) eqn:Hf; [by rewrite set_es_same |];
     unfold al_current_time, _al_event_source_emit_event; cbn;
     by rewrite Hf).
Qed.

Lemma emit_changes_frame (l : list CHANGE) :
  ∀ e, es_needs (emit_changes e l) = es_needs e
       ∧ es_clock (emit_changes e l) = es_clock e.
Proof.
  induction l as [|c l IH]; intros e; [done |].
  change (emit_changes e (c :: l)) with (emit_changes (emit_change e c) l).
  destruct (IH (emit_change e c)) as [-> ->].
  unfold emit_change. destruct (es_needs e (change_type c)); [| done].
  by destruct (es_free e).
Qed.

(** What a source has emitted after a list of changes: what it had, then
    the changes it needs, for as long as it has slots. *)
Lemma emit_changes_delivered (l : list CHANGE) :
  ∀ e, es_emitted (emit_changes e l) = es_emitted e ++ delivered e l.
Proof.
  induction l as [|c l IH]; intros e.
  - unfold delivered. cbn. rewrite take_nil. cbn. by rewrite app_nil_r.
  - change (emit_changes e (c :: l)) with (emit_changes (emit_change e c) l).
    rewrite IH. unfold delivered. rewrite filter_cons. unfold emit_change.
    destruct (es_needs e (change_type c)) eqn:Hn.
    + rewrite decide_True by done.
      destruct (es_free e) as [|free'] eqn:Hf.
      * rewrite Hf. cbn. by rewrite !take_0.
      * cbn. by rewrite <- app_assoc.
    + rewrite decide_False by (by intros ?). done.
Qed.

Lemma filter_all {A} (P : A → Prop) `{!∀ x, Decision (P x)} (l : list A) :
  Forall P l → filter P l = l.
Proof.
  induction 1 as [|x l Hx _ IH]; [done |].
  rewrite filter_cons, decide_True by done. by rewrite IH.
Qed.

Lemma delivered_all (e : AL_EVENT_SOURCE) (l : list CHANGE) :
  Forall (λ c, es_needs e (change_type c) = true) l →
  (length l ≤ es_free e)%nat →
  delivered e l = stamp (es_clock e) (es_clock_reads e) l.
Proof.
  intros Hall Hfree. unfold delivered.
  rewrite filter_all by done. by rewrite take_ge.
Qed.

Lemma delivered_none (e : AL_EVENT_SOURCE) (l : list CHANGE) :
  es_free e = O → delivered e l = [].
Proof. intros Hf. unfold delivered. by rewrite Hf, take_0. Qed.

Lemma length_stamp (clock : nat → spec_float) (l : list CHANGE) :
  ∀ k, length (stamp clock k l) = length l.
Proof. induction l as [|c l IH]; intros k; cbn; [done | by rewrite IH]. Qed.

(** ** Well-formed records *)

Lemma forallb_Forall {A} (f : A → bool) (l : list A) :
  forallb f l = true ↔ Forall (λ x, f x = true) l.
Proof.
  induction l as [|x l IH]; cbn; [by split |].
  rewrite andb_true_iff, Forall_cons, IH. done.
Qed.

Lemma info_wf_inv (i : JOYSTICK_INFO) :
  info_wfb i = true →
  length (info_stick i) = 8%nat
  ∧ 0 ≤ num_sticks i ≤ 8
  ∧ Forall (λ s, num_axes s ≤ 3) (info_stick i)
  ∧ 0 ≤ info_num_buttons i ≤ 32.
Proof.
  unfold info_wfb. rewrite !andb_true_iff, forallb_Forall.
  intros [[[[[H1 H2] H3] H4] H5] H6].
  apply Nat.eqb_eq in H1. apply Z.leb_le in H2, H3, H5, H6.
  unfold _AL_MAX_JOYSTICK_STICKS, _AL_MAX_JOYSTICK_BUTTONS in *.
  repeat split; try done; try lia.
  eapply Forall_impl; [exact H4 |]. intros s Hs. by apply Z.leb_le in Hs.
Qed.

Lemma state_wf_inv (st : AL_JOYSTATE) :
  state_wfb st = true →
  length (state_stick st) = 8%nat
  ∧ Forall (λ a, length a = 3%nat) (state_stick st)
  ∧ length (state_button st) = 32%nat.
Proof.
  unfold state_wfb. rewrite !andb_true_iff, forallb_Forall.
  intros [[H1 H2] H3]. apply Nat.eqb_eq in H1, H3.
  repeat split; try done.
  eapply Forall_impl; [exact H2 |]. intros a Ha. by apply Nat.eqb_eq in Ha.
Qed.

Lemma state_wf_intro (st : AL_JOYSTATE) :
  length (state_stick st) = 8%nat →
  Forall (λ a, length a = 3%nat) (state_stick st) →
  length (state_button st) = 32%nat →
  state_wfb st = true.
Proof.
  intros H1 H2 H3. unfold state_wfb.
  rewrite !andb_true_iff, forallb_Forall. repeat split.
  - by apply Nat.eqb_eq.
  - eapply Forall_impl; [exact H2 |]. intros a Ha. by apply Nat.eqb_eq.
  - by apply Nat.eqb_eq.
Qed.

Lemma joy_wf_inv (joy : AL_JOYSTICK_DIRECTX) :
  joy_wf joy →
  info_wfb (info (parent joy)) = true ∧ state_wfb (joystate joy) = true.
Proof. unfold joy_wf. by rewrite andb_true_iff. Qed.

(** ** The snapshot *)

(** A write inside the arrays succeeds, is read back, keeps the sizes and
    leaves the buttons alone. *)
Lemma set_axis_pos_in (st : AL_JOYSTATE) (stick axis : Z) (pos : spec_float) :
  state_wfb st = true → 0 ≤ stick < 8 → 0 ≤ axis < 3 →
  ∃ st', set_axis_pos stick axis pos st = Some st'
    ∧ get_axis_pos stick axis st' = Some pos
    ∧ state_wfb st' = true
    ∧ state_button st' = state_button st
    ∧ (in_unit pos = true →
       snapshot_in_unit st = true → snapshot_in_unit st' = true).
Proof.
  intros Hwf Hs Ha. destruct (state_wf_inv st Hwf) as (Hl & Hax & Hb).
  destruct (lookup_lt_is_Some_2 (state_stick st) (Z.to_nat stick)) as [axes Haxes];
    [lia |].
  assert (length axes = 3%nat) as Hlen
    by (eapply (proj1 (Forall_lookup _ _) Hax); exact Haxes).
  unfold set_axis_pos.
  assert (array_get (state_stick st) stick = Some axes) as ->
    by (apply array_get_Some; split; [lia | done]).
  cbn [mbind option_bind]. rewrite array_set_in by lia.
  cbn [mbind option_bind]. rewrite array_set_in by lia.
  cbn [mbind option_bind]. eexists. split; [reflexivity |].
  split; [| split; [| split; [done |]]].
  - unfold get_axis_pos. cbn [state_stick].
    rewrite array_get_set_eq by lia. cbn [mbind option_bind].
    apply array_get_set_eq. lia.
  - apply state_wf_intro; cbn [state_stick state_button].
    + by rewrite length_insert.
    + apply Forall_insert; [done |]. by rewrite length_insert.
    + done.
  - intros Hpos. unfold snapshot_in_unit. cbn [state_stick].
    rewrite !forallb_Forall. intros Hall. apply Forall_insert; [done |].
    rewrite forallb_Forall. apply Forall_insert; [| done].
    rewrite <- forallb_Forall.
    eapply (proj1 (Forall_lookup _ _) Hall). exact Haxes.
Qed.

(** The other cells of the snapshot keep their value. *)
Lemma set_axis_pos_other (st st' : AL_JOYSTATE) (stick axis s a : Z)
    (pos : spec_float) :
  set_axis_pos stick axis pos st = Some st' →
  (s, a) ≠ (stick, axis) → 0 ≤ s → 0 ≤ a →
  get_axis_pos s a st' = get_axis_pos s a st.
Proof.
  unfold set_axis_pos, get_axis_pos. intros H Hne Hs Ha.
  destruct (array_get (state_stick st) stick) as [axes |] eqn:Haxes;
    [| discriminate].
  cbn [mbind option_bind] in H.
  destruct (array_set axes axis pos) as [axes' |] eqn:Haxes'; [| discriminate].
  cbn [mbind option_bind] in H.
  destruct (array_set (state_stick st) stick axes') as [l |] eqn:Hl;
    [| discriminate].
  cbn [mbind option_bind] in H. injection H as <-. cbn [state_stick].
  apply array_set_Some in Hl as [Hin ->].
  apply array_set_Some in Haxes' as [Hin' ->].
  apply array_get_Some in Haxes as [_ Haxes].
  unfold array_get. destruct (Z.leb_spec 0 s); [| lia].
  destruct (decide (s = stick)) as [-> | Hs'].
  - rewrite list_lookup_insert_eq by lia. rewrite Haxes.
    cbn [mbind option_bind]. destruct (Z.leb_spec 0 a); [| lia].
    rewrite list_lookup_insert_ne; [done |]. intros Heq.
    apply Hne. f_equal. lia.
  - rewrite list_lookup_insert_ne by lia. done.
Qed.

(** ** Axis positions *)

Lemma range_all_spec (p : Z → bool) (n : nat) :
  ∀ lo, range_all n lo p = true →
        ∀ v, lo ≤ v < lo + Z.of_nat n → p v = true.
Proof.
  induction n as [|n IH]; intros lo Hall v Hv; [lia |].
  cbn [range_all] in Hall. apply andb_true_iff in Hall as [Hlo Hrest].
  destruct (decide (v = lo)) as [-> | Hne]; [done |].
  apply (IH (lo + 1) Hrest). lia.
Qed.

(** The sign of a float only shows in the sign of the rounded result, so
    the negative half of the calibrated range mirrors the positive one. *)

Lemma SFopp_involutive (x : spec_float) : SFopp (SFopp x) = x.
Proof. destruct x; cbn; by rewrite ?negb_involutive. Qed.

Lemma binary_round_aux_sign (prec emax : Z) (sx : bool) (m e : Z) (l : location) :
  binary_round_aux prec emax sx m e l
  = (if sx then SFopp (binary_round_aux prec emax false m e l)
     else binary_round_aux prec emax false m e l).
Proof.
  destruct sx; [| reflexivity]. unfold binary_round_aux.
  destruct (shr_fexp prec emax m e l) as [mrs' e'].
  destruct (shr_fexp prec emax _ e' loc_Exact) as [mrs'' e''].
  destruct (shr_m mrs''); [reflexivity | | reflexivity].
  by destruct (e'' <=? emax - prec).
Qed.

Lemma binary_round_sign (prec emax : Z) (sx : bool) (m : positive) (e : Z) :
  binary_round prec emax sx m e
  = (if sx then SFopp (binary_round prec emax false m e)
     else binary_round prec emax false m e).
Proof.
  unfold binary_round. destruct (shl_align _ _ _) as [mz ez].
  apply binary_round_aux_sign.
Qed.

Lemma float_of_double_opp (d : spec_float) :
  float_of_double (SFopp d) = SFopp (float_of_double d).
Proof.
  destruct d as [s | s | | s m e]; try reflexivity. cbn [SFopp float_of_double].
  rewrite (binary_round_sign _ _ (negb s)), (binary_round_sign _ _ s).
  destruct s; cbn [negb]; [| reflexivity].
  by rewrite SFopp_involutive.
Qed.

Lemma double_of_int_opp (v : Z) :
  v ≠ 0 → double_of_int (- v) = SFopp (double_of_int v).
Proof.
  intros Hv. destruct v as [| p | p]; [done | |].
  - change (binary_round 53 1024 true p 0
            = SFopp (binary_round 53 1024 false p 0)).
    by rewrite (binary_round_sign _ _ true).
  - change (binary_round 53 1024 false p 0
            = SFopp (binary_round 53 1024 true p 0)).
    by rewrite (binary_round_sign _ _ true), SFopp_involutive.
Qed.

Lemma ddiv_opp (x : spec_float) (sy : bool) (my : positive) (ey : Z) :
  ddiv (SFopp x) (S754_finite sy my ey)
  = SFopp (ddiv x (S754_finite sy my ey)).
Proof.
  destruct x as [s | s | | s m e]; try reflexivity.
  - unfold ddiv. cbn. by destruct s, sy.
  - unfold ddiv. cbn. by destruct s, sy.
  - unfold ddiv. cbn [SFopp SFdiv].
    destruct (SFdiv_core_binary 53 1024 _ e _ ey) as [[mz ez] lz].
    rewrite (binary_round_aux_sign _ _ (xorb (negb s) sy)),
      (binary_round_aux_sign _ _ (xorb s sy)).
    destruct s, sy; cbn [negb xorb]; try reflexivity;
      by rewrite SFopp_involutive.
Qed.

Lemma SFcompare_opp (x y : spec_float) :
  SFcompare (SFopp x) (SFopp y) = SFcompare y x.
Proof.
  destruct x as [sx | sx | | sx mx ex], y as [sy | sy | | sy my ey];
    try reflexivity; try (by destruct sx); try (by destruct sy);
    try (by destruct sx, sy).
  cbn [SFopp SFcompare].
  destruct sx, sy; cbn [negb]; try reflexivity;
    rewrite (Z.compare_antisym ex ey);
    destruct (ex ?= ey); cbn [CompOpp]; try reflexivity;
    first [ by rewrite (Pos.compare_cont_antisym my mx Eq)
          | by rewrite (Pos.compare_cont_antisym mx my Eq) ].
Qed.

Lemma in_unit_opp (x : spec_float) : in_unit (SFopp x) = in_unit x.
Proof.
  unfold in_unit, SFleb.
  change (float_lit (-1)) with (SFopp (float_lit 1)).
  rewrite SFcompare_opp.
  replace (SFcompare (SFopp x) (float_lit 1))
    with (SFcompare (SFopp x) (SFopp (SFopp (float_lit 1)))) by reflexivity.
  rewrite SFcompare_opp. apply andb_comm.
Qed.

(** Every raw value from 0 to 32767 divides to a float of [-1.0, +1.0]: the
    32768 values are tried one by one. *)
Lemma positive_range_in_unit :
  range_all (Z.to_nat 32768) 0
    (λ raw, in_unit (float_of_double
                       (ddiv (double_of_int raw) (double_of_int 32767))))
  = true.
Proof. vm_cast_no_check (eq_refl true). Qed.

Lemma calibrated_range_in_unit (raw : Z) :
  -32767 ≤ raw ≤ 32767 →
  in_unit (float_of_double (ddiv (double_of_int raw) (double_of_int 32767)))
  = true.
Proof.
  intros Hraw. destruct (Z.le_gt_cases 0 raw) as [Hpos | Hneg].
  - apply (range_all_spec _ _ _ positive_range_in_unit raw). lia.
  - replace raw with (- - raw) by lia.
    rewrite double_of_int_opp by lia.
    change (double_of_int 32767)
      with (S754_finite false 9006924376834048 (-38)).
    rewrite ddiv_opp, float_of_double_opp, in_unit_opp.
    apply (range_all_spec _ _ _ positive_range_in_unit (- raw)). lia.
Qed.

Lemma int_of_DWORD_range (v : Z) :
  - 2 ^ 31 ≤ int_of_DWORD v < 2 ^ 31.
Proof.
  unfold int_of_DWORD. pose proof (Z.mod_pos_bound v (2 ^ 32)).
  destruct (Z.ltb_spec (v mod 2 ^ 32) (2 ^ 31)); lia.
Qed.

Lemma int_of_DWORD_small (v : Z) :
  0 ≤ v < 2 ^ 31 → int_of_DWORD v = v.
Proof.
  intros Hv. unfold int_of_DWORD. rewrite Z.mod_small by lia.
  destruct (Z.ltb_spec v (2 ^ 31)); lia.
Qed.

Lemma axis_pos_in_unit (value : Z) :
  -32767 ≤ int_of_DWORD value ≤ 32767 → in_unit (axis_pos value) = true.
Proof.
  intros Hv. by apply calibrated_range_in_unit.
Qed.

(** The dispatch routes the six axes and the two sliders through
    [handle_axis_event] with their mapping. *)
Lemma dispatch_item_axis (joy : AL_JOYSTICK_DIRECTX)
    (item : DIDEVICEOBJECTDATA) (m : AXIS_MAPPING) :
  axis_object joy (int_of_DWORD (dwOfs item)) = Some m →
  dispatch_item item joy = handle_axis_event joy m (dwData item).
Proof.
  unfold axis_object, dispatch_item.
  repeat (match goal with
          | |- context [?a =? ?b] => destruct (a =? b)
          end;
          [first [by intros [= ->] | by intros -> ] |]).
  discriminate.
Qed.

(** C2: an axis delta (X, Y, Z, RX, RY, RZ or a slider) whose mapping
    resolves inside the schema is routed to [handle_axis_event], which stores
    [pos = raw / 32767.0] (the double division rounded to a float) at that
    (stick, axis) of the snapshot and hands an axis event with that position
    to the event source, which delivers it when it needs axis events and has
    a slot; for a raw value of the calibrated range [-32767, +32767] the
    position is in [-1.0, +1.0], and a snapshot whose positions are all in
    [-1.0, +1.0] stays so. *)
Theorem handle_axis_stores_and_emits (joy : AL_JOYSTICK_DIRECTX)
    (item : DIDEVICEOBJECTDATA) (m : AXIS_MAPPING) :
  joy_wf joy →
  axis_object joy (int_of_DWORD (dwOfs item)) = Some m →
  in_schema joy m →
  let value := dwData item in
  ∃ joy',
    dispatch_item item joy = Some joy'
    ∧ handle_axis_event joy m value = Some joy'
    ∧ axis_pos value
      = float_of_double (ddiv (double_of_int (int_of_DWORD value))
                              (double_of_int 32767))
    ∧ get_axis_pos (m_stick m) (m_axis m) (joystate joy')
      = Some (axis_pos value)
    ∧ es_emitted (es (parent joy'))
      = es_emitted (es (parent joy))
        ++ delivered (es (parent joy))
             [AxisMoved (m_stick m) (m_axis m) (axis_pos value)]
    ∧ (es_needs (es (parent joy)) AL_EVENT_JOYSTICK_AXIS = true →
       (0 < es_free (es (parent joy)))%nat →
       es_emitted (es (parent joy'))
       = es_emitted (es (parent joy))
         ++ [event_of (AxisMoved (m_stick m) (m_axis m) (axis_pos value))
               (es_clock (es (parent joy))
                  (es_clock_reads (es (parent joy))))])
    ∧ (-32767 ≤ int_of_DWORD value ≤ 32767 →
       in_unit (axis_pos value) = true
       ∧ (snapshot_in_unit (joystate joy) = true →
          snapshot_in_unit (joystate joy') = true)).
Proof.
  intros Hwf Hobj (Hs & st & Hst & Ha) value.
  destruct (joy_wf_inv joy Hwf) as [Hi Hstate].
  destruct (info_wf_inv _ Hi) as (Hl & Hn & Hax & _).
  assert (num_axes st ≤ 3) as Hst3.
  { apply array_get_Some in Hst as [_ Hst].
    eapply (proj1 (Forall_lookup _ _) Hax). exact Hst. }
  destruct (set_axis_pos_in (joystate joy) (m_stick m) (m_axis m)
              (axis_pos value) Hstate) as (js & Hset & Hget & _ & _ & Hunit);
    [lia | lia |].
  exists (generate_axis_event (set_joystate js joy) (m_stick m) (m_axis m)
            (axis_pos value)).
  assert (es_emitted (es (parent (generate_axis_event (set_joystate js joy)
            (m_stick m) (m_axis m) (axis_pos value))))
          = es_emitted (es (parent joy))
            ++ delivered (es (parent joy))
                 [AxisMoved (m_stick m) (m_axis m) (axis_pos value)]) as Hem.
  { rewrite generate_axis_event_emit. cbn [set_es parent es set_joystate].
    apply (emit_changes_delivered [_]). }
  assert (handle_axis_event joy m value
          = Some (generate_axis_event (set_joystate js joy) (m_stick m)
                    (m_axis m) (axis_pos value))) as Hrun.
  { unfold handle_axis_event.
    destruct (Z.ltb_spec (m_stick m) 0); [lia |].
    destruct (Z.geb_spec (m_stick m) (num_sticks (info (parent joy))));
      [lia |].
    cbn [orb]. rewrite Hst. cbn [mbind option_bind].
    destruct (Z.ltb_spec (m_axis m) 0); [lia |].
    destruct (Z.geb_spec (m_axis m) (num_axes st)); [lia |].
    cbn [orb]. rewrite Hset. reflexivity. }
  split; [by rewrite (dispatch_item_axis joy item m Hobj) |].
  split; [exact Hrun |]. split; [reflexivity |].
  split; [| split; [exact Hem | split]].
  - rewrite generate_axis_event_emit. exact Hget.
  - intros Hneeds Hfree. rewrite Hem. f_equal.
    rewrite delivered_all; [done | | cbn; lia].
    by constructor.
  - intros Hraw. split; [by apply axis_pos_in_unit |].
    intros Hsnap. rewrite generate_axis_event_emit.
    cbn [set_es joystate set_joystate]. apply Hunit; [| done].
    by apply axis_pos_in_unit.
Qed.

(** ** Hats *)

Lemma pov_p0_hat_x (raw : Z) : pov_p0 raw = float_lit (hat_x raw).
Proof.
  unfold pov_p0, hat_x, JOY_POVBACKWARD, JOY_POVFORWARD_WRAP, JOY_POVFORWARD.
  rewrite !Z.gtb_ltb.
  destruct (18000 <? raw), (raw <? 36000), (0 <? raw), (raw <? 18000);
    reflexivity.
Qed.

Lemma pov_p1_hat_y (raw : Z) : pov_p1 raw = float_lit (hat_y raw).
Proof.
  unfold pov_p1, hat_y, JOY_POVLEFT, JOY_POVFORWARD_WRAP, JOY_POVFORWARD,
    JOY_POVRIGHT.
  rewrite !Z.gtb_ltb, Z.geb_leb.
  destruct (27000 <? raw), (raw <=? 36000), (0 <=? raw), (raw <? 9000),
    (9000 <? raw), (raw <? 27000); reflexivity.
Qed.

Lemma hat_x_values (raw : Z) : hat_x raw = -1 ∨ hat_x raw = 0 ∨ hat_x raw = 1.
Proof. unfold hat_x. repeat case_match; auto. Qed.

Lemma hat_y_values (raw : Z) : hat_y raw = -1 ∨ hat_y raw = 0 ∨ hat_y raw = 1.
Proof. unfold hat_y. repeat case_match; auto. Qed.

Lemma hat_centered (raw : Z) :
  ¬ (0 ≤ raw ≤ 36000) → hat_x raw = 0 ∧ hat_y raw = 0.
Proof.
  intros Hraw. unfold hat_x, hat_y.
  destruct (Z.ltb_spec 18000 raw), (Z.ltb_spec raw 36000),
    (Z.ltb_spec 0 raw), (Z.ltb_spec raw 18000),
    (Z.ltb_spec 27000 raw), (Z.leb_spec raw 36000),
    (Z.leb_spec 0 raw), (Z.ltb_spec raw 9000),
    (Z.ltb_spec 9000 raw), (Z.ltb_spec raw 27000); cbn; lia.
Qed.

(** What [handle_pov_event] does on a stick of the schema. *)
Lemma handle_pov_event_in (joy : AL_JOYSTICK_DIRECTX) (stick _value : Z) :
  joy_wf joy →
  0 ≤ stick < num_sticks (info (parent joy)) →
  ∃ old_p0 old_p1 js,
    get_axis_pos stick 0 (joystate joy) = Some old_p0
    ∧ get_axis_pos stick 1 (joystate joy) = Some old_p1
    ∧ get_axis_pos stick 0 js = Some (pov_p0 (int_of_DWORD _value))
    ∧ get_axis_pos stick 1 js = Some (pov_p1 (int_of_DWORD _value))
    ∧ state_wfb js = true
    ∧ state_button js = state_button (joystate joy)
    ∧ handle_pov_event joy stick _value
      = Some (set_es
                (emit_changes (es (parent joy))
                   (hat_changes stick old_p0 old_p1
                      (pov_p0 (int_of_DWORD _value))
                      (pov_p1 (int_of_DWORD _value))))
                (set_joystate js joy)).
Proof.
  intros Hwf Hs. destruct (joy_wf_inv joy Hwf) as [Hi Hstate].
  destruct (info_wf_inv _ Hi) as (_ & Hn & _ & _).
  destruct (state_wf_inv _ Hstate) as (Hl & Hax & _).
  destruct (lookup_lt_is_Some_2 (state_stick (joystate joy)) (Z.to_nat stick))
    as [axes Haxes]; [lia |].
  assert (length axes = 3%nat) as Hlen
    by (eapply (proj1 (Forall_lookup _ _) Hax); exact Haxes).
  assert (array_get (state_stick (joystate joy)) stick = Some axes) as Hget
    by (apply array_get_Some; split; [lia | done]).
  destruct (array_get_in axes 0) as [old_p0 H0]; [lia |].
  destruct (array_get_in axes 1) as [old_p1 H1]; [lia |].
  destruct (set_axis_pos_in (joystate joy) stick 0
              (pov_p0 (int_of_DWORD _value)) Hstate)
    as (js0 & Hset0 & Hget0 & Hwf0 & Hb0 & _); [lia | lia |].
  destruct (set_axis_pos_in js0 stick 1
              (pov_p1 (int_of_DWORD _value)) Hwf0)
    as (js & Hset1 & Hget1 & Hwf1 & Hb1 & _); [lia | lia |].
  exists old_p0, old_p1, js.
  assert (get_axis_pos stick 0 (joystate joy) = Some old_p0) as Hold0
    by (unfold get_axis_pos; by rewrite Hget).
  assert (get_axis_pos stick 1 (joystate joy) = Some old_p1) as Hold1
    by (unfold get_axis_pos; by rewrite Hget).
  split; [done |]. split; [done |]. split.
  { rewrite (set_axis_pos_other js0 js stick 1 stick 0 _ Hset1);
      [done | congruence | lia | lia]. }
  split; [done |]. split; [done |]. split; [congruence |].
  unfold handle_pov_event.
  destruct (Z.ltb_spec stick 0); [lia |].
  destruct (Z.geb_spec stick (num_sticks (info (parent joy)))); [lia |].
  cbn [orb]. rewrite Hold0, Hold1. cbn [mbind option_bind].
  rewrite Hset0. cbn [mbind option_bind]. rewrite Hset1.
  cbn [mbind option_bind]. f_equal. unfold hat_changes.
  rewrite !generate_axis_event_emit.
  destruct (fne old_p0 _), (fne old_p1 _); try reflexivity.
  exact (eq_sym (set_es_same (set_joystate js joy))).
Qed.

(** The dispatch routes the four hats through [handle_pov_event] with
    their stick. *)
Lemma dispatch_item_pov (joy : AL_JOYSTICK_DIRECTX)
    (item : DIDEVICEOBJECTDATA) (stick : Z) :
  hat_object joy (int_of_DWORD (dwOfs item)) = Some stick →
  dispatch_item item joy = handle_pov_event joy stick (dwData item).
Proof.
  unfold hat_object, dispatch_item.
  unfold DIJOFS_X, DIJOFS_Y, DIJOFS_Z, DIJOFS_RX, DIJOFS_RY, DIJOFS_RZ,
    DIJOFS_SLIDER, DIJOFS_POV.
  generalize (int_of_DWORD (dwOfs item)). intros ofs Hobj.
  repeat (match goal with
          | H : context [?a =? ?b] |- _ => destruct (Z.eqb_spec a b)
          | |- context [?a =? ?b] => destruct (Z.eqb_spec a b)
          end);
    try lia; try discriminate; by rewrite Hobj.
Qed.

(** C4: a hat delta asks for an axis event exactly for the axes whose new
    value differs from the value stored in the snapshot: nothing is emitted
    for an axis that kept its value, and an axis that changed has one event
    with the new value handed to the event source (axis 0 first), which
    delivers it when it needs axis events and has a slot. *)
Theorem hat_events_on_edges_only (joy : AL_JOYSTICK_DIRECTX)
    (item : DIDEVICEOBJECTDATA) (stick : Z) :
  joy_wf joy →
  hat_object joy (int_of_DWORD (dwOfs item)) = Some stick →
  0 ≤ stick < num_sticks (info (parent joy)) →
  let p0 := pov_p0 (int_of_DWORD (dwData item)) in
  let p1 := pov_p1 (int_of_DWORD (dwData item)) in
  ∃ old_p0 old_p1 joy',
    get_axis_pos stick 0 (joystate joy) = Some old_p0
    ∧ get_axis_pos stick 1 (joystate joy) = Some old_p1
    ∧ dispatch_item item joy = Some joy'
    ∧ handle_pov_event joy stick (dwData item) = Some joy'
    ∧ es_emitted (es (parent joy'))
      = es_emitted (es (parent joy))
        ++ delivered (es (parent joy))
             ((if fne old_p0 p0 then [AxisMoved stick 0 p0] else [])
              ++ (if fne old_p1 p1 then [AxisMoved stick 1 p1] else []))
    ∧ (fne old_p0 p0 = false → fne old_p1 p1 = false →
       es (parent joy') = es (parent joy))
    ∧ (es_needs (es (parent joy)) AL_EVENT_JOYSTICK_AXIS = true →
       (2 ≤ es_free (es (parent joy)))%nat →
       es_emitted (es (parent joy'))
       = es_emitted (es (parent joy))
         ++ stamp (es_clock (es (parent joy)))
              (es_clock_reads (es (parent joy)))
              ((if fne old_p0 p0 then [AxisMoved stick 0 p0] else [])
               ++ (if fne old_p1 p1 then [AxisMoved stick 1 p1] else []))).
Proof.
  intros Hwf Hobj Hs p0 p1.
  destruct (handle_pov_event_in joy stick (dwData item) Hwf Hs)
    as (old_p0 & old_p1 & js & Hold0 & Hold1 & _ & _ & _ & _ & Hrun).
  exists old_p0, old_p1. eexists.
  split; [done |]. split; [done |].
  split; [rewrite (dispatch_item_pov joy item stick Hobj); exact Hrun |].
  split; [exact Hrun |].
  cbn [set_es parent es set_joystate]. fold p0 p1. unfold hat_changes.
  split; [apply emit_changes_delivered |]. split.
  - intros -> ->. reflexivity.
  - intros Hneeds Hfree. rewrite emit_changes_delivered. f_equal.
    apply delivered_all.
    + destruct (fne old_p0 p0), (fne old_p1 p1); repeat constructor; done.
    + destruct (fne old_p0 p0), (fne old_p1 p1); cbn; lia.
Qed.

(** ** Buttons *)

(** The bounds test of [handle_button_event] never holds: the index would
    have to be negative and at least [num_buttons] at once. *)
Lemma handle_button_event_guard_dead (joy : AL_JOYSTICK_DIRECTX) (button : Z) :
  0 ≤ info_num_buttons (info (parent joy)) →
  (button <? 0) && (button >=? info_num_buttons (info (parent joy))) = false.
Proof.
  intros Hn. destruct (Z.ltb_spec button 0); [| done].
  destruct (Z.geb_spec button (info_num_buttons (info (parent joy))));
    [lia | done].
Qed.

(** What [handle_button_event] does on an index inside the array. *)
Lemma handle_button_event_in (joy : AL_JOYSTICK_DIRECTX) (button : Z)
    (down : bool) :
  joy_wf joy → 0 ≤ button < 32 →
  handle_button_event joy button down
  = Some (set_es
            (emit_change (es (parent joy))
               (if down then ButtonDown button else ButtonUp button))
            (set_joystate
               {| state_stick := state_stick (joystate joy);
                  state_button :=
                    <[Z.to_nat button := intensity down]>
                      (state_button (joystate joy)) |} joy)).
Proof.
  intros Hwf Hb. destruct (joy_wf_inv joy Hwf) as [Hi Hstate].
  destruct (info_wf_inv _ Hi) as (_ & _ & _ & Hn).
  destruct (state_wf_inv _ Hstate) as (_ & _ & Hl).
  unfold handle_button_event.
  rewrite handle_button_event_guard_dead by lia.
  unfold set_button. rewrite !array_set_in by lia.
  destruct down; cbn [mbind option_bind intensity];
    [rewrite (generate_button_event_emit _ button true)
    | rewrite (generate_button_event_emit _ button false)]; reflexivity.
Qed.

(** A raw offset of a button of the schema is routed to
    [handle_button_event] with the index of the button. *)
Lemma dispatch_item_button (joy : AL_JOYSTICK_DIRECTX)
    (item : DIDEVICEOBJECTDATA) :
  joy_wf joy → button_delta joy item →
  dispatch_item item joy
  = handle_button_event joy (button_of item) (pressed item).
Proof.
  intros Hwf Hitem. destruct (joy_wf_inv joy Hwf) as [Hi _].
  destruct (info_wf_inv _ Hi) as (_ & _ & _ & Hn).
  unfold button_delta, button_of, DIJOFS_BUTTON in *.
  unfold dispatch_item.
  rewrite int_of_DWORD_small by lia.
  unfold DIJOFS_X, DIJOFS_Y, DIJOFS_Z, DIJOFS_RX, DIJOFS_RY, DIJOFS_RZ,
    DIJOFS_SLIDER, DIJOFS_POV, DIJOFS_BUTTON0, DIJOFS_BUTTON1, DIJOFS_BUTTON.
  repeat (match goal with
          | |- context [?a =? ?b] =>
              destruct (Z.eqb_spec a b); [lia |]
          end).
  destruct (Z.geb_spec (dwOfs item) (48 + 0)); [| lia].
  destruct (Z.ltb_spec (dwOfs item)
              (48 + info_num_buttons (info (parent joy)))); [| lia].
  cbn [andb]. f_equal.
  change (48 + 1 - (48 + 0)) with 1. rewrite Z.quot_1_r. lia.
Qed.

(** A raw offset past the buttons of the schema is ignored by the
    dispatch. *)
Lemma dispatch_item_past_buttons (joy : AL_JOYSTICK_DIRECTX)
    (item : DIDEVICEOBJECTDATA) :
  DIJOFS_BUTTON (info_num_buttons (info (parent joy))) ≤ dwOfs item < 2 ^ 31 →
  0 ≤ info_num_buttons (info (parent joy)) →
  dispatch_item item joy = Some joy.
Proof.
  intros Hitem Hn. unfold DIJOFS_BUTTON in Hitem. unfold dispatch_item.
  rewrite int_of_DWORD_small by lia.
  unfold DIJOFS_X, DIJOFS_Y, DIJOFS_Z, DIJOFS_RX, DIJOFS_RY, DIJOFS_RZ,
    DIJOFS_SLIDER, DIJOFS_POV, DIJOFS_BUTTON0, DIJOFS_BUTTON1, DIJOFS_BUTTON.
  repeat (match goal with
          | |- context [?a =? ?b] =>
              destruct (Z.eqb_spec a b); [lia |]
          end).
  destruct (Z.ltb_spec (dwOfs item)
              (48 + info_num_buttons (info (parent joy)))); [lia |].
  by rewrite andb_false_r.
Qed.

Lemma joy_wf_button_step (joy : AL_JOYSTICK_DIRECTX) (e : AL_EVENT_SOURCE)
    (button v : Z) :
  joy_wf joy →
  joy_wf (set_es e
            (set_joystate
               {| state_stick := state_stick (joystate joy);
                  state_button :=
                    <[Z.to_nat button := v]> (state_button (joystate joy)) |}
               joy)).
Proof.
  intros Hwf. destruct (joy_wf_inv joy Hwf) as [Hi Hstate].
  destruct (state_wf_inv _ Hstate) as (H1 & H2 & H3).
  unfold joy_wf. cbn [set_es parent info joystate set_joystate].
  rewrite Hi. cbn [andb]. apply state_wf_intro; cbn; [done | done |].
  by rewrite length_insert.
Qed.

(** The drain of a sequence of button deltas, by induction on the
    sequence. *)
Lemma dispatch_button_deltas (buffer : list DIDEVICEOBJECTDATA) :
  ∀ joy : AL_JOYSTICK_DIRECTX,
    joy_wf joy →
    Forall (button_delta joy) buffer →
    ∃ joy',
      dispatch_items buffer joy = Some joy'
      ∧ info (parent joy') = info (parent joy)
      ∧ es (parent joy')
        = emit_changes (es (parent joy)) (map button_change buffer)
      ∧ state_stick (joystate joy') = state_stick (joystate joy)
      ∧ length (state_button (joystate joy')) = 32%nat
      ∧ ∀ k : nat,
          state_button (joystate joy') !! k
          = match last_delta (Z.of_nat k) buffer with
            | Some p => Some (intensity p)
            | None => state_button (joystate joy) !! k
            end.
Proof.
  induction buffer as [|item rest IH]; intros joy Hwf Hall.
  - exists joy. destruct (joy_wf_inv joy Hwf) as [_ Hstate].
    destruct (state_wf_inv _ Hstate) as (_ & _ & Hl). by repeat split.
  - apply Forall_cons in Hall as [Hitem Hrest].
    destruct (joy_wf_inv joy Hwf) as [Hi Hstate].
    destruct (info_wf_inv _ Hi) as (_ & _ & _ & Hn).
    destruct (state_wf_inv _ Hstate) as (_ & _ & Hl).
    pose proof Hitem as Hrange. unfold button_delta in Hrange.
    cbn [dispatch_items]. rewrite dispatch_item_button by done.
    rewrite handle_button_event_in by (done || lia).
    cbn [mbind option_bind].
    set (joy1 := set_es _ _).
    destruct (IH joy1) as (joy' & Hrun & Hinfo & Hes & Hst & Hlen & Hbut).
    { subst joy1. by apply joy_wf_button_step. }
    { exact Hrest. }
    exists joy'. split; [exact Hrun |]. split; [by rewrite Hinfo |].
    split.
    { rewrite Hes. subst joy1. cbn [set_es parent es map emit_changes foldl].
      unfold button_change at 2. by destruct (pressed item). }
    split; [by rewrite Hst |]. split; [done |].
    intros k. rewrite Hbut. cbn [last_delta].
    destruct (last_delta (Z.of_nat k) rest); [done |].
    subst joy1. cbn [set_es joystate set_joystate state_button].
    destruct (Z.eqb_spec (button_of item) (Z.of_nat k)) as [Heq | Hne].
    + rewrite Heq, Nat2Z.id. apply list_lookup_insert_eq. lia.
    + apply list_lookup_insert_ne. lia.
Qed.

Lemma stamp_button_types (clock : nat → spec_float)
    (buffer : list DIDEVICEOBJECTDATA) :
  ∀ k, Forall (λ e, ev_type e = AL_EVENT_JOYSTICK_BUTTON_DOWN
                    ∨ ev_type e = AL_EVENT_JOYSTICK_BUTTON_UP)
         (stamp clock k (map button_change buffer)).
Proof.
  induction buffer as [|item rest IH]; intros k; cbn; constructor; [| done].
  unfold button_change. destruct (pressed item); cbn; auto.
Qed.

(** C6: a sequence of at most 10 button deltas, each of a button of the
    schema, drained while the source needs both button events and has a slot
    for each: every button ends at 32767 if its last delta was a press and
    at 0 if it was a release (a button without a delta keeps its intensity),
    so the intensities stay 0 or 32767, and the source has emitted, after
    what it had, exactly one BUTTON_DOWN or BUTTON_UP event per delta, in
    the order of the deltas. *)
Theorem button_deltas_round_trip (joy : AL_JOYSTICK_DIRECTX) (hr : HRESULT)
    (buffer : list DIDEVICEOBJECTDATA) :
  joy_wf joy →
  hr = DI_OK ∨ hr = DI_BUFFEROVERFLOW →
  (length buffer ≤ 10)%nat →
  Forall (button_delta joy) buffer →
  es_needs (es (parent joy)) AL_EVENT_JOYSTICK_BUTTON_DOWN = true →
  es_needs (es (parent joy)) AL_EVENT_JOYSTICK_BUTTON_UP = true →
  (length buffer ≤ es_free (es (parent joy)))%nat →
  ∃ joy',
    update_joystick joy hr buffer = Some (joy', false)
    ∧ (∀ k : Z, 0 ≤ k < 32 →
         array_get (state_button (joystate joy')) k
         = match last_delta k buffer with
           | Some down => Some (if down then 32767 else 0)
           | None => array_get (state_button (joystate joy)) k
           end)
    ∧ (buttons_0_or_32767 (joystate joy) = true →
       buttons_0_or_32767 (joystate joy') = true)
    ∧ es_emitted (es (parent joy'))
      = es_emitted (es (parent joy))
        ++ stamp (es_clock (es (parent joy)))
             (es_clock_reads (es (parent joy))) (map button_change buffer)
    ∧ length (stamp (es_clock (es (parent joy)))
                (es_clock_reads (es (parent joy))) (map button_change buffer))
      = length buffer
    ∧ Forall (λ e, ev_type e = AL_EVENT_JOYSTICK_BUTTON_DOWN
                   ∨ ev_type e = AL_EVENT_JOYSTICK_BUTTON_UP)
        (stamp (es_clock (es (parent joy)))
           (es_clock_reads (es (parent joy))) (map button_change buffer)).
Proof.
  intros Hwf Hhr Hlen Hall Hdown Hup Hfree.
  destruct (dispatch_button_deltas buffer joy Hwf Hall)
    as (joy' & Hrun & Hinfo & Hes & Hst & Hl & Hbut).
  assert (∀ k : Z, 0 ≤ k < 32 →
            array_get (state_button (joystate joy')) k
            = match last_delta k buffer with
              | Some down => Some (if down then 32767 else 0)
              | None => array_get (state_button (joystate joy)) k
              end) as Hfinal.
  { intros k Hk. unfold array_get. destruct (Z.leb_spec 0 k); [| lia].
    rewrite Hbut, Z2Nat.id by lia. done. }
  assert (update_joystick joy hr buffer
          = Some (if buffer is [] then joy else joy', false)) as Hupd.
  { unfold update_joystick, IDirectInputDevice2_GetDeviceData.
    rewrite take_ge by (unfold DEVICE_BUFFER_SIZE; lia).
    destruct Hhr as [-> | ->]; cbn [HRESULT_eqb negb andb];
      (destruct buffer; [done | by rewrite Hrun]). }
  assert ((if buffer is [] then joy else joy') = joy') as Hsame.
  { destruct buffer; [| done]. cbn in Hrun. by injection Hrun. }
  rewrite Hsame in Hupd. exists joy'. split; [exact Hupd |].
  split; [exact Hfinal |]. split; [| split; [| split]].
  - unfold buttons_0_or_32767. rewrite !forallb_Forall.
    intros Hold. apply Forall_lookup. intros k v Hv.
    rewrite Hbut in Hv. destruct (last_delta (Z.of_nat k) buffer) as [[] |].
    + injection Hv as <-. reflexivity.
    + injection Hv as <-. reflexivity.
    + eapply (proj1 (Forall_lookup _ _) Hold). exact Hv.
  - rewrite Hes, emit_changes_delivered. f_equal.
    apply delivered_all; [| by rewrite length_map].
    apply Forall_map. apply Forall_true. intros item.
    unfold button_change. by destruct (pressed item).
  - by rewrite length_stamp, length_map.
  - apply stamp_button_types.
Qed.

(** ** A full queue *)




(** The bounds test of [handle_button_event] itself is no defence: the pad
    of scenario 1 has four buttons, yet the function called with index 10
    does not return early, writes 32767 into cell 10 of the snapshot, which
    held 0, and emits a BUTTON_DOWN event for button 10; with index -1 it
    writes before the array.  The function is static and its only call, in
    the dispatch, is guarded. *)
Remark handle_button_event_misses_bounds :
  info_num_buttons (info (parent pad)) = 4
  ∧ array_get (state_button (joystate (subscribed 10 pad))) 10 = Some 0
  ∧ (∃ joy',
       handle_button_event (subscribed 10 pad) 10 true = Some joy'
       ∧ array_get (state_button (joystate joy')) 10 = Some 32767
       ∧ es_emitted (es (parent joy'))
         = [event_of (ButtonDown 10) (double_of_int 0)])
  ∧ handle_button_event (subscribed 10 pad) (-1) true = None.
Proof.
  split; [reflexivity |]. split; [reflexivity |]. split; [| reflexivity].
  eexists. split; [reflexivity |]. split; reflexivity.
Qed.

(** ** The background thread and the facade *)

Lemma set_joystick_Some (n : Z) (joy : AL_JOYSTICK_DIRECTX) (d d' : DRIVER) :
  set_joystick n joy d = Some d' →
  0 ≤ n < Z.of_nat (length (joydx_joystick d))
  ∧ d' = set_joydx_joystick (<[Z.to_nat n := joy]> (joydx_joystick d)) d.
Proof.
  unfold set_joystick. intros H.
  destruct (array_set (joydx_joystick d) n joy) as [l |] eqn:Hl;
    [| discriminate].
  apply array_set_Some in Hl as [Hn ->]. cbn in H. by injection H as <-.
Qed.

Lemma set_joystick_lookup (n h : Z) (joy : AL_JOYSTICK_DIRECTX)
    (d d' : DRIVER) :
  set_joystick n joy d = Some d' → 0 ≤ h →
  array_get (joydx_joystick d') h
  = if decide (n = h) then Some joy else array_get (joydx_joystick d) h.
Proof.
  intros H Hh. apply set_joystick_Some in H as [Hn ->].
  cbn [joydx_joystick set_joydx_joystick]. unfold array_get.
  destruct (Z.leb_spec 0 h); [| lia]. case_decide as Heq.
  - subst h. apply list_lookup_insert_eq. lia.
  - apply list_lookup_insert_ne. lia.
Qed.

(** A round for a device that is not gotten changes nothing, whatever the
    backend would answer. *)
Lemma round_not_gotten (result : Z) (hr : HRESULT)
    (pending : list DIDEVICEOBJECTDATA) (d : DRIVER)
    (joy : AL_JOYSTICK_DIRECTX) :
  array_get (joydx_joystick d)
    (int_of_DWORD (result - WAIT_OBJECT_0 - 1)) = Some joy →
  gotten joy = false →
  fst <$> joydx_thread_proc_round result hr pending d = Some d.
Proof.
  intros Hjoy Hg. unfold joydx_thread_proc_round.
  destruct (result =? WAIT_OBJECT_0); [done |].
  destruct (_ || _); [done |]. rewrite Hjoy. cbn [mbind option_bind].
  by rewrite Hg.
Qed.

(** Every step but taking the device keeps a released device quiet. *)
Lemma step_quiet (s : STEP) (h : Z) (joy0 : AL_JOYSTICK_DIRECTX)
    (d d' : DRIVER) :
  quiet h joy0 d → s ≠ StepTake h → step s d = Some d' → quiet h joy0 d'.
Proof.
  intros (joy & Hjoy & Hg & Hst & Hem) Hs Hstep.
  assert (0 ≤ h) as Hh by (apply array_get_Some in Hjoy; lia).
  destruct s as [n | n | result hr pending | n needs free]; cbn [step] in Hstep.
  - (* another device is taken *)
    assert (n ≠ h) as Hn by congruence.
    unfold joydx_get_joystick in Hstep.
    destruct (array_get (joydx_joystick d) n) as [joyn |]; [| discriminate].
    cbn [mbind option_bind] in Hstep.
    exists joy. rewrite (set_joystick_lookup _ h _ _ _ Hstep Hh).
    by rewrite decide_False.
  - (* a device is released *)
    unfold joydx_release_joystick in Hstep.
    destruct (array_get (joydx_joystick d) n) as [joyn |] eqn:Hn;
      [| discriminate].
    cbn [mbind option_bind] in Hstep.
    unfold quiet. rewrite (set_joystick_lookup _ h _ _ _ Hstep Hh).
    case_decide as Heq.
    + subst n. rewrite Hjoy in Hn. injection Hn as <-.
      eexists. split; [reflexivity |]. by repeat split.
    + exists joy. by repeat split.
  - (* a round of the background thread *)
    unfold joydx_thread_proc_round in Hstep.
    destruct (result =? WAIT_OBJECT_0).
    { cbn in Hstep. injection Hstep as <-. by exists joy. }
    set (n := int_of_DWORD (result - WAIT_OBJECT_0 - 1)) in Hstep.
    destruct (_ || _).
    { cbn in Hstep. injection Hstep as <-. by exists joy. }
    destruct (array_get (joydx_joystick d) n) as [joyn |] eqn:Hn;
      [| discriminate].
    cbn [mbind option_bind] in Hstep.
    destruct (gotten joyn) eqn:Hgn.
    + assert (n ≠ h) as Hne by (intros ->; congruence).
      destruct (update_joystick joyn hr pending) as [[joyn' scheduled] |];
        [| discriminate].
      cbn [mbind option_bind] in Hstep.
      destruct (set_joystick n joyn' d) as [d1 |] eqn:Hd1; [| discriminate].
      cbn [mbind option_bind] in Hstep. injection Hstep as <-.
      exists joy. split; [| done].
      assert (array_get (joydx_joystick d1) h = Some joy) as Hd1h.
      { rewrite (set_joystick_lookup _ h _ _ _ Hd1 Hh).
        by rewrite decide_False. }
      by destruct scheduled.
    + cbn in Hstep. injection Hstep as <-. by exists joy.
  - (* the framework side of an event source changes *)
    destruct (array_get (joydx_joystick d) n) as [joyn |] eqn:Hn;
      [| discriminate].
    cbn [mbind option_bind] in Hstep.
    unfold quiet. rewrite (set_joystick_lookup _ h _ _ _ Hstep Hh).
    case_decide as Heq.
    + subst n. rewrite Hjoy in Hn. injection Hn as <-.
      eexists. split; [reflexivity |]. by repeat split.
    + exists joy. by repeat split.
Qed.

Lemma run_quiet (steps : list STEP) (h : Z) (joy0 : AL_JOYSTICK_DIRECTX) :
  ∀ d d', quiet h joy0 d →
          Forall (λ s, s ≠ StepTake h) steps →
          run steps d = Some d' → quiet h joy0 d'.
Proof.
  induction steps as [|s steps IH]; intros d d' Hq Hall Hrun.
  - cbn in Hrun. by injection Hrun as <-.
  - apply Forall_cons in Hall as [Hs Hall]. cbn [run] in Hrun.
    destruct (step s d) as [d1 |] eqn:Hstep; [| discriminate].
    cbn [mbind option_bind] in Hrun.
    eapply IH; [| exact Hall | exact Hrun].
    eapply step_quiet; [exact Hq | exact Hs | exact Hstep].
Qed.

(** C5: once device [h] is released, whatever the primary thread, the
    background thread and the framework do next, short of taking device [h]
    again, the device stays not gotten, its snapshot is the one it had at
    the release and its event source has emitted nothing more; a round of
    the background thread woken for device [h] returns the driver as it was
    and does not look at the answer of the backend ([update_joystick] is not
    called). *)
Theorem released_device_emits_nothing (d d1 d2 : DRIVER) (h : Z)
    (steps : list STEP) :
  joydx_release_joystick h d = Some d1 →
  Forall (λ s, s ≠ StepTake h) steps →
  run steps d1 = Some d2 →
  ∃ joy1 joy2,
    array_get (joydx_joystick d1) h = Some joy1
    ∧ array_get (joydx_joystick d2) h = Some joy2
    ∧ gotten joy2 = false
    ∧ joystate joy2 = joystate joy1
    ∧ es_emitted (es (parent joy2)) = es_emitted (es (parent joy1))
    ∧ ∀ result hr pending,
        int_of_DWORD (result - WAIT_OBJECT_0 - 1) = h →
        fst <$> joydx_thread_proc_round result hr pending d2 = Some d2.
Proof.
  intros Hrel Hall Hrun. unfold joydx_release_joystick in Hrel.
  destruct (array_get (joydx_joystick d) h) as [joy |] eqn:Hjoy;
    [| discriminate].
  cbn [mbind option_bind] in Hrel.
  assert (0 ≤ h) as Hh by (apply array_get_Some in Hjoy; lia).
  pose proof (set_joystick_lookup _ h _ _ _ Hrel Hh) as Hd1.
  rewrite decide_True in Hd1 by done.
  set (joy1 := set_es _ _) in Hd1.
  assert (quiet h joy1 d1) as Hq by (exists joy1; by repeat split).
  destruct (run_quiet steps h joy1 d1 d2 Hq Hall Hrun)
    as (joy2 & Hjoy2 & Hg & Hst & Hem).
  exists joy1, joy2. repeat split; try done.
  intros result hr pending Hres.
  apply (round_not_gotten result hr pending d2 joy2); [by rewrite Hres | done].
Qed.

(** ** Enumeration *)

Lemma zero_caps_wf : caps_wf zero_caps.
Proof. repeat split; by vm_compute. Qed.

(** [object_enum_callback] keeps the counters within the arrays. *)
Lemma object_enum_callback_wf (o : DIDEVICEOBJECTINSTANCE)
    (can : CAPS_AND_NAMES) :
  caps_wf can →
  ∃ can', object_enum_callback o can = Some can' ∧ caps_wf can'.
Proof.
  intros Hwf.
  unfold object_enum_callback, caps_wf, MAX_SLIDERS, MAX_POVS, MAX_BUTTONS
    in *.
  destruct Hwf as ((Hs & Hls) & (Hp & Hlp) & (Hb & Hlb)).
  destruct (guidType o).
  1-6: (eexists; split; [reflexivity |];
        case_match; repeat split; cbn; try done; lia).
  - destruct (Z.ltb_spec (num_sliders can) 2).
    + rewrite array_set_in by lia. eexists. split; [reflexivity |].
      repeat split; cbn; rewrite ?length_insert; try done; lia.
    + eexists. split; [reflexivity |]. repeat split; (done || lia).
  - destruct (Z.ltb_spec (num_povs can) 4).
    + rewrite array_set_in by lia. eexists. split; [reflexivity |].
      repeat split; cbn; rewrite ?length_insert; try done; lia.
    + eexists. split; [reflexivity |]. repeat split; (done || lia).
  - destruct (Z.ltb_spec (num_buttons can) 32).
    + rewrite array_set_in by lia. eexists. split; [reflexivity |].
      repeat split; cbn; rewrite ?length_insert; try done; lia.
    + eexists. split; [reflexivity |]. repeat split; (done || lia).
  - eexists. split; [reflexivity |]. repeat split; (done || lia).
Qed.

Lemma enum_objects_wf (objs : list DIDEVICEOBJECTINSTANCE) :
  ∀ can, caps_wf can →
         ∃ can', enum_objects objs can = Some can' ∧ caps_wf can'.
Proof.
  induction objs as [|o objs IH]; intros can Hwf; [by exists can |].
  destruct (object_enum_callback_wf o can Hwf) as (can1 & H1 & Hwf1).
  destruct (IH can1 Hwf1) as (can' & H' & Hwf').
  exists can'. split; [| done]. cbn [enum_objects]. by rewrite H1.
Qed.

(** The layout builder returns on every capability map the enumeration
    builds, and the record it returns is well formed. *)
Lemma fill_joystick_info_wf (can : CAPS_AND_NAMES) :
  caps_wf can →
  ∃ joy', fill_joystick_info_using_caps_and_names
            (set_caps can zero_joystick) = Some joy'
          ∧ joy_wf joy'.
Proof.
  intros Hwf.
  destruct (fill_sticks_spec can Hwf)
    as (joy1 & Hs & _ & _ & Hcaps & Hbut & Hjoy).
  destruct (fill_buttons_spec joy1) as (l & Hb & _).
  { by rewrite Hcaps. }
  { rewrite Hbut. by rewrite length_replicate. }
  eexists. split.
  { unfold fill_joystick_info_using_caps_and_names. rewrite Hs.
    cbn [mbind option_bind]. exact Hb. }
  destruct Hwf as (_ & _ & Hnb & _). unfold MAX_BUTTONS in Hnb.
  unfold joy_wf, info_wfb in *.
  cbn [set_info parent info joystate set_info_num_buttons set_info_button
       num_sticks info_stick info_num_buttons].
  rewrite Hcaps. rewrite !andb_true_iff in *.
  destruct Hjoy as [[[[[[H1 H2] H3] H4] _] _] H5].
  repeat split; try done; apply Z.leb_le;
    unfold _AL_MAX_JOYSTICK_BUTTONS; lia.
Qed.

Lemma fill_joystick_info_total (can : CAPS_AND_NAMES) :
  caps_wf can →
  is_Some (fill_joystick_info_using_caps_and_names
             (set_caps can zero_joystick)).
Proof.
  intros Hwf. destruct (fill_joystick_info_wf can Hwf) as (joy' & -> & _).
  by eexists.
Qed.

Lemma driver_wf_inv (d : DRIVER) :
  driver_wfb d = true →
  length (joydx_joystick d) = 8%nat
  ∧ length (joydx_thread_wakers d) = 9%nat
  ∧ 0 ≤ joydx_num_joysticks d ≤ 8.
Proof.
  unfold driver_wfb. rewrite !andb_true_iff.
  intros [[[H1 H2] H3] H4]. apply Nat.eqb_eq in H1, H2.
  apply Z.leb_le in H3, H4. unfold MAX_JOYSTICKS in *. by repeat split.
Qed.

Lemma remove_one_head (x : Z) (l : list Z) : remove_one x (x :: l) = l.
Proof. cbn. by rewrite Z.eqb_refl. Qed.

(** What the code after [Error] does when the waker cell holds [w]. *)
Lemma Error_spec (dev w : Z) (d : DRIVER) :
  JOYSTICK_WAKER (joydx_num_joysticks d) d = Some w →
  0 ≤ joydx_num_joysticks d →
  (1 + joydx_num_joysticks d < Z.of_nat (length (joydx_thread_wakers d))) →
  Error dev d
  = Some (Release dev
            (if w =? NULL then d
             else set_joydx_thread_wakers
                    (<[Z.to_nat (1 + joydx_num_joysticks d) := NULL]>
                       (joydx_thread_wakers d)) (CloseHandle w d)),
          DIENUM_CONTINUE).
Proof.
  intros Hw Hn Hlen. unfold Error. rewrite Hw. cbn [mbind option_bind].
  destruct (w =? NULL) eqn:Hnull; cbn [negb mbind option_bind].
  - unfold Release. by destruct (dev =? NULL).
  - unfold set_JOYSTICK_WAKER.
    assert (joydx_thread_wakers (CloseHandle w d) = joydx_thread_wakers d)
      as Hsame by (unfold CloseHandle; by destruct (w =? NULL)).
    rewrite Hsame, array_set_in by lia. cbn [mbind option_bind].
    unfold Release. by destruct (dev =? NULL).
Qed.

(** ** A controller whose set-up fails *)

Section Setup.
Variable d : DRIVER.
Hypothesis Hwf : driver_wfb d = true.
Hypothesis Hroom : joydx_num_joysticks d < MAX_JOYSTICKS.
Hypothesis Hwaker : JOYSTICK_WAKER (joydx_num_joysticks d) d = Some NULL.

Let n := joydx_num_joysticks d.

Lemma setup_bounds :
  0 ≤ n < 8
  ∧ length (joydx_joystick d) = 8%nat
  ∧ length (joydx_thread_wakers d) = 9%nat
  ∧ joydx_thread_wakers d !! Z.to_nat (1 + n) = Some NULL.
Proof.
  destruct (driver_wf_inv d Hwf) as (H1 & H2 & H3).
  unfold MAX_JOYSTICKS in Hroom. repeat split; try done; try lia.
  unfold JOYSTICK_WAKER in Hwaker.
  by apply array_get_Some in Hwaker as [_ ?].
Qed.

Lemma mid_set_joystick (dev w : Z) (joy joy' : AL_JOYSTICK_DIRECTX)
    (dk : DRIVER) :
  mid_setup d dev w joy dk →
  ∃ dk', set_joystick n joy' dk = Some dk' ∧ mid_setup d dev w joy' dk'.
Proof.
  destruct setup_bounds as (Hn & Hl & _).
  intros (H1 & H2 & H3 & H4 & H5). fold n in H2, H3.
  unfold set_joystick. rewrite array_set_in
    by (rewrite H2, length_insert; lia).
  eexists. split; [reflexivity |].
  repeat split; cbn; try done. fold n.
  by rewrite H2, list_insert_insert_eq.
Qed.

Lemma mid_array_get (dev w : Z) (joy : AL_JOYSTICK_DIRECTX) (dk : DRIVER) :
  mid_setup d dev w joy dk → array_get (joydx_joystick dk) n = Some joy.
Proof.
  destruct setup_bounds as (Hn & Hl & _).
  intros (_ & H2 & _). fold n in H2. rewrite H2.
  apply array_get_set_eq. lia.
Qed.

Lemma mid_waker (dev w : Z) (joy : AL_JOYSTICK_DIRECTX) (dk : DRIVER) :
  mid_setup d dev w joy dk → JOYSTICK_WAKER n dk = Some w.
Proof.
  destruct setup_bounds as (Hn & _ & Hl & _).
  intros (_ & _ & H3 & _). fold n in H3. unfold JOYSTICK_WAKER.
  rewrite H3. apply array_get_set_eq. lia.
Qed.

Lemma mid_initial : mid_setup d NULL NULL zero_joystick
                      (set_joydx_joystick
                         (<[Z.to_nat n := zero_joystick]> (joydx_joystick d))
                         d).
Proof.
  destruct setup_bounds as (Hn & _ & _ & Hw).
  repeat split; cbn; try done. fold n. by rewrite list_insert_id.
Qed.

(** From [CreateDevice] to the release of the first interface. *)
Lemma mid_query (dev1 temp : Z) (ok : bool) (joy : AL_JOYSTICK_DIRECTX)
    (dk : DRIVER) :
  mid_setup d NULL NULL joy dk →
  mid_setup d (if ok then temp else NULL) NULL joy
    (Release dev1
       (if ok then referenced temp (referenced dev1 dk)
        else referenced dev1 dk)).
Proof.
  intros (H1 & H2 & H3 & H4 & H5).
  change (NULL =? NULL) with true in H5. cbn iota in H5.
  unfold Release, referenced, NULL in *.
  destruct ok, (Z.eqb_spec dev1 0), (Z.eqb_spec temp 0);
    repeat split; cbn; rewrite ?H5; try done;
    rewrite ?Z.eqb_refl; try done;
    repeat (case_match; try done; try lia).
  all: try (match goal with H : (_ =? _) = true |- _ =>
              apply Z.eqb_eq in H; subst end; done).
Qed.

(** The event is created and stored in the waker cell. *)
Lemma mid_created (dev h : Z) (joy : AL_JOYSTICK_DIRECTX) (dk : DRIVER) :
  mid_setup d dev NULL joy dk →
  ∃ dk', set_JOYSTICK_WAKER n h (created h dk) = Some dk'
         ∧ mid_setup d dev h joy dk'.
Proof.
  destruct setup_bounds as (Hn & _ & Hl & Hw).
  intros (H1 & H2 & H3 & H4 & H5). fold n in H2, H3.
  change (NULL =? NULL) with true in H4. cbn iota in H4.
  unfold set_JOYSTICK_WAKER, created.
  destruct (h =? NULL) eqn:Hh.
  - rewrite array_set_in by (rewrite H3, length_insert; lia).
    eexists. split; [reflexivity |].
    repeat split; cbn; rewrite ?Hh; try done. fold n.
    by rewrite H3, list_insert_insert_eq.
  - cbn [joydx_thread_wakers set_open_handles].
    rewrite array_set_in by (rewrite H3, length_insert; lia).
    eexists. split; [reflexivity |].
    repeat split; cbn; rewrite ?Hh, ?H4; try done. fold n.
    by rewrite H3, list_insert_insert_eq.
Qed.

(** The event is closed and replaced by the timer. *)
Lemma mid_timer (dev h t : Z) (joy : AL_JOYSTICK_DIRECTX) (dk : DRIVER) :
  mid_setup d dev h joy dk →
  ∃ dk', set_JOYSTICK_WAKER n t (created t (CloseHandle h dk)) = Some dk'
         ∧ mid_setup d dev t joy dk'.
Proof.
  destruct setup_bounds as (Hn & _ & Hl & Hw).
  intros (H1 & H2 & H3 & H4 & H5). fold n in H2, H3.
  unfold set_JOYSTICK_WAKER, created, CloseHandle.
  destruct (t =? NULL) eqn:Ht, (h =? NULL) eqn:Hh;
    cbn [joydx_thread_wakers set_open_handles];
    (rewrite array_set_in by (rewrite H3, length_insert; lia));
    (eexists; split; [reflexivity |]);
    repeat split; cbn; rewrite ?Ht, ?H3, ?H4, ?remove_one_head,
      ?list_insert_insert_eq; done.
Qed.

(** The code after [Error] gives back what the set-up took. *)
Lemma Error_discards (dev w : Z) (joy : AL_JOYSTICK_DIRECTX) (dk : DRIVER) :
  mid_setup d dev w joy dk →
  ∃ d', Error dev dk = Some (d', DIENUM_CONTINUE)
        ∧ mid_setup d NULL NULL joy d'.
Proof.
  destruct setup_bounds as (Hn & _ & Hl & Hw).
  intros Hmid. pose proof (mid_waker _ _ _ _ Hmid) as Hwk.
  destruct Hmid as (H1 & H2 & H3 & H4 & H5). fold n in H2, H3.
  unfold n in Hwk. rewrite <- H1 in Hwk.
  rewrite (Error_spec dev w dk Hwk)
    by (rewrite ?H1, ?H3, ?length_insert; fold n; lia).
  eexists. split; [reflexivity |]. rewrite H1. fold n.
  unfold Release, CloseHandle, NULL in *.
  destruct (Z.eqb_spec dev 0), (Z.eqb_spec w 0);
    repeat split; cbn; rewrite ?H3, ?H4, ?H5, ?remove_one_head,
      ?list_insert_insert_eq; subst; try done.
Qed.

Lemma mid_discarded (joy : AL_JOYSTICK_DIRECTX) (d' : DRIVER) :
  mid_setup d NULL NULL joy d' →
  joydx_num_joysticks d' = joydx_num_joysticks d
  ∧ joydx_thread_wakers d' = joydx_thread_wakers d
  ∧ open_handles d' = open_handles d
  ∧ open_references d' = open_references d
  ∧ ∀ k, k ≠ joydx_num_joysticks d →
         array_get (joydx_joystick d') k = array_get (joydx_joystick d) k.
Proof.
  destruct setup_bounds as (Hn & _ & Hl & Hw).
  intros (H1 & H2 & H3 & H4 & H5). fold n in H2, H3.
  repeat split; try done.
  - rewrite H3. by apply list_insert_id.
  - intros k Hk. rewrite H2. unfold array_get.
    destruct (Z.leb_spec 0 k); [| done].
    apply list_lookup_insert_ne. fold n in Hk. lia.
Qed.
End Setup.

(** The callback on a controller whose set-up fails: it answers
    DIENUM_CONTINUE and leaves the driver as it was but for the table entry
    it worked in. *)
Lemma joystick_enum_callback_fails (a : DEVICE_ANSWERS) (d : DRIVER) :
  driver_wfb d = true →
  joydx_num_joysticks d < MAX_JOYSTICKS →
  JOYSTICK_WAKER (joydx_num_joysticks d) d = Some NULL →
  setup_fails a = true →
  ∃ d' joy, joystick_enum_callback a d = Some (d', DIENUM_CONTINUE)
            ∧ mid_setup d NULL NULL joy d'.
Proof.
  intros Hwf Hroom Hwaker Hfail.
  destruct (setup_bounds d Hwf Hroom Hwaker) as (Hn & Hlt & Hlw & _).
  pose proof (Error_discards d Hwf Hroom Hwaker) as Herr.
  unfold joystick_enum_callback. cbv zeta.
  pose proof (mid_initial d Hwf Hroom Hwaker) as M0.
  set (d0 := set_joydx_joystick _ d) in *.
  assert (set_joystick (joydx_num_joysticks d) zero_joystick d = Some d0)
    as -> by (unfold set_joystick; by rewrite array_set_in by lia).
  cbn [mbind option_bind].
  unfold setup_fails in Hfail.
  destruct (FAILED (a_CreateDevice a)) eqn:F1.
  { destruct (Herr _ _ _ _ M0) as (d' & He & Hm). eauto. }
  destruct (FAILED (a_QueryInterface a)) eqn:F2.
  { pose proof (mid_query d (a_dinput_device1 a) (a_temp a) false _ _ M0) as M1.
    destruct (Herr _ _ _ _ M1) as (d' & He & Hm). eauto. }
  pose proof (mid_query d (a_dinput_device1 a) (a_temp a) true _ _ M0) as M1.
  cbv iota in M1. set (d1 := Release _ _) in *.
  destruct (FAILED (a_SetCooperativeLevel a)) eqn:F3.
  { destruct (Herr _ _ _ _ M1) as (d' & He & Hm). eauto. }
  rewrite (mid_array_get d Hwf Hroom Hwaker _ _ _ _ M1).
  cbn [mbind option_bind].
  destruct (enum_objects_wf (a_objects a) zero_caps zero_caps_wf)
    as (can & Hcan & Hcanwf).
  change (caps_and_names zero_joystick) with zero_caps. rewrite Hcan.
  cbn [mbind option_bind].
  destruct (mid_set_joystick d Hwf Hroom Hwaker _ _ _
              (set_caps can zero_joystick) _ M1) as (d2 & Hd2 & M2).
  rewrite Hd2. cbn [mbind option_bind].
  destruct (FAILED (a_EnumObjects a)) eqn:F4.
  { destruct (Herr _ _ _ _ M2) as (d' & He & Hm). eauto. }
  destruct (FAILED (a_SetDataFormat a)) eqn:F5.
  { destruct (Herr _ _ _ _ M2) as (d' & He & Hm). eauto. }
  destruct (FAILED (a_SetProperty_RANGE a)) eqn:F6.
  { destruct (Herr _ _ _ _ M2) as (d' & He & Hm). eauto. }
  destruct (FAILED (a_SetProperty_DEADZONE a)) eqn:F7.
  { destruct (Herr _ _ _ _ M2) as (d' & He & Hm). eauto. }
  destruct (FAILED (a_SetProperty_BUFFERSIZE a)) eqn:F8.
  { destruct (Herr _ _ _ _ M2) as (d' & He & Hm). eauto. }
  rewrite (mid_array_get d Hwf Hroom Hwaker _ _ _ _ M2).
  cbn [mbind option_bind].
  destruct (fill_joystick_info_total can Hcanwf) as [joyf Hfill].
  rewrite Hfill. cbn [mbind option_bind].
  destruct (mid_set_joystick d Hwf Hroom Hwaker _ _ _
              (set_gotten false
                 (set_device (a_temp a)
                    (set_num (joydx_num_joysticks d) joyf))) _ M2)
    as (d3 & Hd3 & M3).
  rewrite Hd3. cbn [mbind option_bind].
  destruct (mid_created d Hwf Hroom Hwaker _ (a_CreateEvent a) _ _ M3)
    as (d4 & Hd4 & M4).
  rewrite Hd4. cbn [mbind option_bind].
  destruct (FAILED (a_SetEventNotification a)) eqn:F9.
  { destruct (Herr _ _ _ _ M4) as (d' & He & Hm). eauto. }
  cbn [orb] in Hfail. apply andb_true_iff in Hfail as [Hpolled Htimer].
  rewrite Hpolled.
  rewrite (mid_waker d Hwf Hroom Hwaker _ _ _ _ M4).
  cbn [mbind option_bind].
  destruct (mid_timer d Hwf Hroom Hwaker _ _ (a_CreateWaitableTimer a) _ _ M4)
    as (d5 & Hd5 & M5).
  rewrite Hd5. cbn [mbind option_bind].
  rewrite (mid_waker d Hwf Hroom Hwaker _ _ _ _ M5).
  cbn [mbind option_bind]. rewrite Htimer.
  destruct (Herr _ _ _ _ M5) as (d' & He & Hm). eauto.
Qed.

(** The failures the callback checks.  When the set-up of a controller
    fails at one of them, the callback closes the wake handle it created and
    gives the waker cell its null value back, releases the interface it
    obtained, does not count the device, leaves the other table entries
    alone and answers DIENUM_CONTINUE, so the enumeration goes on with the
    controllers that are left. *)
Lemma failed_device_is_discarded (a : DEVICE_ANSWERS)
    (rest : list DEVICE_ANSWERS) (d : DRIVER) :
  driver_wfb d = true →
  joydx_num_joysticks d < MAX_JOYSTICKS →
  JOYSTICK_WAKER (joydx_num_joysticks d) d = Some NULL →
  setup_fails a = true →
  ∃ d',
    joystick_enum_callback a d = Some (d', DIENUM_CONTINUE)
    ∧ joydx_num_joysticks d' = joydx_num_joysticks d
    ∧ joydx_thread_wakers d' = joydx_thread_wakers d
    ∧ open_handles d' = open_handles d
    ∧ open_references d' = open_references d
    ∧ (∀ k, k ≠ joydx_num_joysticks d →
            array_get (joydx_joystick d') k = array_get (joydx_joystick d) k)
    ∧ IDirectInput_EnumDevices (a :: rest) d
      = IDirectInput_EnumDevices rest d'.
Proof.
  intros Hwf Hroom Hwaker Hfail.
  destruct (joystick_enum_callback_fails a d Hwf Hroom Hwaker Hfail)
    as (d' & joy & Hrun & Hmid).
  destruct (mid_discarded d Hwf Hroom Hwaker joy d' Hmid)
    as (H1 & H2 & H3 & H4 & H5).
  exists d'. repeat split; try done.
  cbn [IDirectInput_EnumDevices]. by rewrite Hrun.
Qed.

(** ** The defects *)

(** C10, the defect: the enumeration starts with a device count of 0, so
    the entry assertion [joydx_num_joysticks > 0 && joydx_num_joysticks <
    MAX_JOYSTICKS-1] is false at the first call of the callback; of the
    counts 0 to 8 it holds for 1 to 6 only.  It does not stop a release
    build: eight controllers fill the table, and with a ninth the callback
    writes entry 8 of the 8-entry table (undefined behaviour, for which the
    model has no value), also when run from [joydx_init]. *)
Theorem enum_callback_assertion_fails :
  ASSERT_num_joysticks initial_driver = false
  ∧ map (λ n, ASSERT_num_joysticks (set_joydx_num_joysticks n initial_driver))
      [0; 1; 2; 3; 4; 5; 6; 7; 8]
    = [false; true; true; true; true; true; true; false; false]
  ∧ joydx_num_joysticks
    <$> IDirectInput_EnumDevices (replicate 8 good_controller) initial_driver
    = Some 8
  ∧ IDirectInput_EnumDevices (replicate 9 good_controller) initial_driver
    = None
  ∧ joydx_init
      {| _dx_ver := 2048; a_DirectInputCreate := DI_OK;
         a_joystick_dinput := 9; a_EnumDevices := DI_OK;
         a_attached := replicate 9 good_controller;
         a_STOP_EVENT := 4; a_beginthread := 5 |} initial_driver
    = None.
Proof. repeat split; vm_compute; reflexivity. Qed.

(** C3 as the specification words it fails on the code.  At 4500
    (up-right) the driver stores x = +1 where the rule of the specification
    gives -1, and at 9000 (right) it stores y = 0 where the rule gives -1.
    And the hat axes do not hold -1.0, 0.0 or +1.0 in every case: on the
    device that has a hat and no X axis, whose hat stick is stick 0, a delta
    at the offset of X goes through the zeroed X mapping to stick 0, axis 0
    and leaves 16000 / 32767.0 in the left/right axis of the hat. *)
Lemma spec_hat_rule_counterexample :
  ((joy' ← handle_pov_event (subscribed 10 hat_device) 0 4500;
    get_axis_pos 0 0 (joystate joy')) = Some (float_lit 1)
   ∧ spec_hat_x 4500 = -1
   ∧ (joy' ← handle_pov_event (subscribed 10 hat_device) 0 9000;
      get_axis_pos 0 1 (joystate joy')) = Some (float_lit 0)
   ∧ spec_hat_y 9000 = -1
   ∧ float_lit 1 ≠ float_lit (-1)
   ∧ float_lit 0 ≠ float_lit (-1))
  ∧ (have_x (caps_and_names hat_device) = false
     ∧ hat_sticks (subscribed 10 hat_device) = [0]
     ∧ (joy' ← dispatch_item {| dwOfs := DIJOFS_X; dwData := 16000 |}
                 (subscribed 10 hat_device);
        get_axis_pos 0 0 (joystate joy')) = Some (axis_pos 16000)
     ∧ ¬ tri_valued (axis_pos 16000)).
Proof.
  split; [repeat split; vm_compute; (reflexivity || discriminate) |].
  split; [reflexivity |]. split; [reflexivity |].
  split; [vm_compute; reflexivity |].
  unfold tri_valued. vm_compute. intros [H | [H | H]]; discriminate.
Qed.

(** ** The scenarios of the specification *)

(** Scenario 1: one stick "stick" with the axes "X" and "Y", the buttons
    "B1" to "B4"; the delta (X, +32767) gives the axis event (stick 0,
    axis 0, position 1.0) and the snapshot 1.0. *)
Example scenario_pad :
  published_sticks (info (parent pad))
  = [(Some "stick", [Some "X"; Some "Y"])]%string
  ∧ published_buttons (info (parent pad))
    = [Some "B1"; Some "B2"; Some "B3"; Some "B4"]%string
  ∧ (joy' ← dispatch_item {| dwOfs := DIJOFS_X; dwData := 32767 |}
              (subscribed 10 pad);
     Some (get_axis_pos 0 0 (joystate joy'), es_emitted (es (parent joy'))))
    = Some (Some (float_lit 1),
            [event_of (AxisMoved 0 0 (float_lit 1)) (double_of_int 0)]).
Proof. repeat split; vm_compute; reflexivity. Qed.

(** Scenario 2: one hat, a stick with the axes "left/right" and "up/down";
    the deltas 0, 9000, 18000, 27000, centered leave (0, 0) and emit an
    event at every change of an axis. *)
Example scenario_hat :
  published_sticks (info (parent hat_device))
  = [(Some "hat", [Some "left/right"; Some "up/down"])]%string
  ∧ (joy' ← dispatch_items
              [{| dwOfs := DIJOFS_POV 0; dwData := 0 |};
               {| dwOfs := DIJOFS_POV 0; dwData := 9000 |};
               {| dwOfs := DIJOFS_POV 0; dwData := 18000 |};
               {| dwOfs := DIJOFS_POV 0; dwData := 27000 |};
               {| dwOfs := DIJOFS_POV 0; dwData := 2 ^ 32 - 1 |}]
              (subscribed 10 hat_device);
     Some (get_axis_pos 0 0 (joystate joy'), get_axis_pos 0 1 (joystate joy'),
           map (λ e, (ev_axis e, ev_pos e)) (es_emitted (es (parent joy')))))
    = Some (Some (float_lit 0), Some (float_lit 0),
            [(1, float_lit (-1));
             (0, float_lit 1); (1, float_lit 0);
             (0, float_lit 0); (1, float_lit 1);
             (0, float_lit (-1)); (1, float_lit 0);
             (0, float_lit 0)]).
Proof. repeat split; vm_compute; reflexivity. Qed.

(** Scenario 3: one slider named "Throttle", a stick "Throttle" with one
    axis ""; the delta (SLIDER0, -32767) gives the position -1.0. *)
Example scenario_slider :
  published_sticks (info (parent throttle)) = [(Some "Throttle", [Some ""])]%string
  ∧ (joy' ← dispatch_item
              {| dwOfs := DIJOFS_SLIDER 0; dwData := DWORD_of_int (-32767) |}
              (subscribed 10 throttle);
     get_axis_pos 0 0 (joystate joy')) = Some (float_lit (-1)).
Proof. repeat split; vm_compute; reflexivity. Qed.

(** ** The theorems at work *)

(** A closed goal that evaluates to true facts. *)
Ltac by_evaluation :=
  vm_compute; repeat split;
  first [reflexivity | discriminate | intro; discriminate].

(** C1 on the capability map of the pad. *)
Lemma layout_builder_total_and_ordered_witness :
  caps_wf pad_caps
  ∧ ∃ joy',
      fill_joystick_info_using_caps_and_names (set_caps pad_caps zero_joystick)
      = Some joy'
      ∧ published_sticks (info (parent joy'))
        = map lift_stick (spec_sticks pad_caps)
      ∧ published_buttons (info (parent joy'))
        = map Some (spec_buttons pad_caps)
      ∧ mapping_ok pad_caps joy'.
Proof.
  assert (caps_wf pad_caps) as Hwf by by_evaluation.
  split; [exact Hwf |].
  exact (layout_builder_total_and_ordered pad_caps Hwf).
Defined.

(** C2 on the X axis of the pad at full deflection. *)
Lemma handle_axis_stores_and_emits_witness :
  joy_wf (subscribed 10 pad)
  ∧ in_schema (subscribed 10 pad) (x_mapping pad)
  ∧ ∃ joy',
      dispatch_item {| dwOfs := DIJOFS_X; dwData := 32767 |}
        (subscribed 10 pad) = Some joy'
      ∧ get_axis_pos 0 0 (joystate joy') = Some (axis_pos 32767).
Proof.
  assert (in_schema (subscribed 10 pad) (x_mapping pad)) as Hin.
  { split; [by_evaluation |]. eexists. split; by_evaluation. }
  pose proof (handle_axis_stores_and_emits (subscribed 10 pad)
                {| dwOfs := DIJOFS_X; dwData := 32767 |} (x_mapping pad)
                ltac:(by_evaluation) ltac:(by_evaluation) Hin) as H.
  split; [by_evaluation |]. split; [exact Hin |].
  destruct H as (joy' & Hrun & _ & _ & Hget & _).
  exists joy'. split; [exact Hrun | exact Hget].
Defined.

(** C4 on the hat at 4500. *)
Lemma hat_events_on_edges_only_witness :
  joy_wf (subscribed 10 hat_device)
  ∧ ∃ old_p0 old_p1 joy',
      get_axis_pos 0 0 (joystate (subscribed 10 hat_device)) = Some old_p0
      ∧ get_axis_pos 0 1 (joystate (subscribed 10 hat_device)) = Some old_p1
      ∧ dispatch_item {| dwOfs := DIJOFS_POV 0; dwData := 4500 |}
          (subscribed 10 hat_device) = Some joy'.
Proof.
  pose proof (hat_events_on_edges_only (subscribed 10 hat_device)
                {| dwOfs := DIJOFS_POV 0; dwData := 4500 |} 0
                ltac:(by_evaluation) ltac:(by_evaluation)
                ltac:(by_evaluation)) as H.
  split; [by_evaluation |].
  destruct H as (old_p0 & old_p1 & joy' & H0 & H1 & Hrun & _).
  exists old_p0, old_p1, joy'. split; [exact H0 |]. split; [exact H1 |].
  exact Hrun.
Defined.

(** C5 on the driver with one pad, released. *)
Lemma released_device_emits_nothing_witness :
  joydx_release_joystick 0 one_pad_driver = Some released_pad_driver
  ∧ run later_steps released_pad_driver = Some later_pad_driver
  ∧ ∃ joy1 joy2,
      array_get (joydx_joystick released_pad_driver) 0 = Some joy1
      ∧ array_get (joydx_joystick later_pad_driver) 0 = Some joy2
      ∧ gotten joy2 = false
      ∧ joystate joy2 = joystate joy1
      ∧ es_emitted (es (parent joy2)) = es_emitted (es (parent joy1)).
Proof.
  pose proof (released_device_emits_nothing one_pad_driver
                released_pad_driver later_pad_driver 0 later_steps
                ltac:(by_evaluation)
                ltac:(repeat constructor; discriminate)
                ltac:(by_evaluation)) as H.
  split; [by_evaluation |]. split; [by_evaluation |].
  destruct H as (joy1 & joy2 & H1 & H2 & H3 & H4 & H5 & _).
  exists joy1, joy2.
  split; [exact H1 |]. split; [exact H2 |]. split; [exact H3 |].
  split; [exact H4 | exact H5].
Defined.

(** C6 on the pad: button 0 pressed and released, button 2 pressed. *)
Lemma button_deltas_round_trip_witness :
  joy_wf (subscribed 10 pad)
  ∧ Forall (button_delta (subscribed 10 pad)) button_burst
  ∧ ∃ joy',
      update_joystick (subscribed 10 pad) DI_OK button_burst
      = Some (joy', false)
      ∧ es_emitted (es (parent joy'))
        = es_emitted (es (parent (subscribed 10 pad)))
          ++ stamp (es_clock (es (parent (subscribed 10 pad))))
               (es_clock_reads (es (parent (subscribed 10 pad))))
               (map button_change button_burst).
Proof.
  pose proof (button_deltas_round_trip (subscribed 10 pad) DI_OK button_burst
                ltac:(by_evaluation)
                (or_introl eq_refl)
                ltac:(vm_compute; lia)
                ltac:(repeat constructor; by_evaluation)
                ltac:(by_evaluation)
                ltac:(by_evaluation)
                ltac:(vm_compute; lia)) as H.
  split; [by_evaluation |].
  split; [repeat constructor; by_evaluation |].
  destruct H as (joy' & Hrun & _ & _ & Hem & _).
  exists joy'. split; [exact Hrun | exact Hem].
Defined.

(** A checked failure on the driver before the enumeration: a controller
    that refuses the cooperative level, followed by a good one. *)
Lemma failed_device_is_discarded_witness :
  driver_wfb initial_driver = true
  ∧ setup_fails bad_controller = true
  ∧ ∃ d',
      joystick_enum_callback bad_controller initial_driver
      = Some (d', DIENUM_CONTINUE)
      ∧ joydx_num_joysticks d' = joydx_num_joysticks initial_driver
      ∧ open_handles d' = open_handles initial_driver
      ∧ open_references d' = open_references initial_driver
      ∧ IDirectInput_EnumDevices [bad_controller; good_controller]
          initial_driver
        = IDirectInput_EnumDevices [good_controller] d'.
Proof.
  split; [by_evaluation |]. split; [by_evaluation |].
  destruct (failed_device_is_discarded bad_controller [good_controller]
              initial_driver eq_refl)
    as (d' & Hrun & Hn & _ & Hh & Hr & _ & Hgo);
    [by_evaluation | by_evaluation | by_evaluation |].
  exists d'. split; [exact Hrun |]. split; [exact Hn |].
  split; [exact Hh |]. split; [exact Hr | exact Hgo].
Defined.

(** ** The object enumeration *)

Lemma name_cells_length (max : Z) (seen : list (option string)) :
  length (name_cells max seen) = Z.to_nat max.
Proof.
  unfold name_cells. rewrite length_take, length_app, length_replicate. lia.
Qed.

Lemma name_cells_snoc (max : Z) (seen : list (option string))
    (nm : option string) :
  name_cells max (seen ++ [nm])
  = if decide (Z.of_nat (length seen) < max)
    then <[length seen := nm]> (name_cells max seen)
    else name_cells max seen.
Proof.
  unfold name_cells. apply list_eq. intros i.
  case_decide as Hlt.
  - destruct (decide (i = length seen)) as [-> | Hne].
    + rewrite list_lookup_insert_eq
        by (rewrite length_take, length_app, length_replicate; lia).
      rewrite lookup_take_lt by lia.
      rewrite <- app_assoc. rewrite lookup_app_r by lia.
      by rewrite Nat.sub_diag.
    + rewrite list_lookup_insert_ne by done.
      destruct (decide (i < Z.to_nat max)%nat) as [Hi | Hi].
      * rewrite !lookup_take_lt by done.
        destruct (decide (i < length seen)%nat) as [Hs | Hs].
        -- rewrite <- app_assoc. by rewrite !lookup_app_l by done.
        -- rewrite (lookup_app_r (seen ++ [nm]))
             by (rewrite length_app; cbn [length]; lia).
           rewrite (lookup_app_r seen) by lia.
           rewrite !lookup_replicate_2
             by (rewrite ?length_app; cbn [length]; lia).
           done.
      * by rewrite !lookup_take_ge by lia.
  - destruct (decide (i < Z.to_nat max)%nat) as [Hi | Hi].
    + rewrite !lookup_take_lt by done. rewrite <- app_assoc.
      by rewrite !lookup_app_l by lia.
    + by rewrite !lookup_take_ge by lia.
Qed.

Lemma caps_of_ext (f g : GUIDTYPE → list (option string)) :
  (∀ t, f t = g t) → caps_of f = caps_of g.
Proof.
  intros H. unfold caps_of.
  by rewrite (H GUID_XAxis), (H GUID_YAxis), (H GUID_ZAxis), (H GUID_RxAxis),
    (H GUID_RyAxis), (H GUID_RzAxis), (H GUID_Slider), (H GUID_POV),
    (H GUID_Button).
Qed.

Lemma zero_caps_of : zero_caps = caps_of (λ _, []).
Proof. reflexivity. Qed.

(** One object more: the capability map records it. *)
Lemma object_enum_callback_caps_of (o : DIDEVICEOBJECTINSTANCE)
    (seen : GUIDTYPE → list (option string)) :
  object_enum_callback o (caps_of seen)
  = Some (caps_of (λ t, seen t ++ names_of t [o])).
Proof.
  destruct o as [t nm]. unfold object_enum_callback.
  cbn [guidType tszName names_of].
  destruct t; cbn [GUIDTYPE_eqb].
  1-6: (unfold caps_of; cbn [have_x have_y have_z have_rx have_ry have_rz];
        rewrite ?app_nil_r;
        match goal with
        | |- context [?f ?t ++ [_]] => destruct (f t); reflexivity
        end).
  4: { cbv [caps_of GUIDTYPE_eqb]. by rewrite !app_nil_r. }
  all: cbn [num_sliders num_povs num_buttons name_slider name_pov name_button
            caps_of].
  all: match goal with
       | |- context [array_set (name_cells ?m ?l)] =>
           destruct (Z.ltb_spec (Z.min (Z.of_nat (length l)) m) m) as [Hlt | Hge];
           [rewrite array_set_in by (rewrite name_cells_length; lia);
            cbn [mbind option_bind] |];
           f_equal; cbv [caps_of GUIDTYPE_eqb set_sliders set_povs set_buttons];
           cbn [have_x have_y have_z have_rx have_ry have_rz name_x name_y
                name_z name_rx name_ry name_rz num_sliders num_povs num_buttons
                name_slider name_pov name_button];
           rewrite ?app_nil_r, name_cells_snoc, length_app;
           cbn [length]; case_decide; try lia
       end.
  all: f_equal; try lia.
  all: f_equal; lia.
Qed.

Lemma names_of_cons (t : GUIDTYPE) (o : DIDEVICEOBJECTINSTANCE)
    (objs : list DIDEVICEOBJECTINSTANCE) :
  names_of t (o :: objs) = names_of t [o] ++ names_of t objs.
Proof. cbn. by destruct (GUIDTYPE_eqb (guidType o) t). Qed.

(** The whole enumeration: the capability map records every object. *)
Lemma enum_objects_caps_of (objs : list DIDEVICEOBJECTINSTANCE) :
  ∀ seen, enum_objects objs (caps_of seen)
          = Some (caps_of (λ t, seen t ++ names_of t objs)).
Proof.
  induction objs as [|o objs IH]; intros seen.
  - cbn. f_equal. apply caps_of_ext. intros t. by rewrite app_nil_r.
  - cbn [enum_objects]. rewrite object_enum_callback_caps_of.
    cbn [mbind option_bind]. rewrite IH. f_equal. apply caps_of_ext.
    intros t. by rewrite (names_of_cons t o objs), app_assoc.
Qed.

Lemma enum_objects_zero (objs : list DIDEVICEOBJECTINSTANCE) :
  enum_objects objs zero_caps = Some (caps_of (λ t, names_of t objs)).
Proof. rewrite zero_caps_of. by rewrite enum_objects_caps_of. Qed.

(** X1: whatever objects a device reports, and however many, the object
    enumeration runs to its end without writing outside the name arrays of
    the capability map, and the counters it leaves are within the limits:
    at most 2 sliders, 4 hats and 32 buttons. *)
Theorem enum_objects_within_limits (objs : list DIDEVICEOBJECTINSTANCE) :
  ∃ can,
    enum_objects objs zero_caps = Some can
    ∧ 0 ≤ num_sliders can ≤ MAX_SLIDERS
    ∧ 0 ≤ num_povs can ≤ MAX_POVS
    ∧ 0 ≤ num_buttons can ≤ MAX_BUTTONS
    ∧ length (name_slider can) = Z.to_nat MAX_SLIDERS
    ∧ length (name_pov can) = Z.to_nat MAX_POVS
    ∧ length (name_button can) = Z.to_nat MAX_BUTTONS.
Proof.
  destruct (enum_objects_wf objs zero_caps zero_caps_wf)
    as (can & Hrun & (Hs & Hls) & (Hp & Hlp) & Hb & Hlb).
  by exists can.
Qed.

(** X2: sliders, hats and buttons are recorded in discovery order.  The
    counter of a kind is the number of objects of the kind, capped at the
    size of the array; the name array holds the names of the first objects
    in the order of the enumeration and null in the cells left; objects past
    the cap are dropped. *)
Theorem enum_objects_discovery_order (objs : list DIDEVICEOBJECTINSTANCE) :
  ∃ can,
    enum_objects objs zero_caps = Some can
    ∧ num_sliders can
      = Z.min (Z.of_nat (length (names_of GUID_Slider objs))) MAX_SLIDERS
    ∧ name_slider can
      = take 2 (names_of GUID_Slider objs ++ replicate 2 None)
    ∧ num_povs can
      = Z.min (Z.of_nat (length (names_of GUID_POV objs))) MAX_POVS
    ∧ name_pov can = take 4 (names_of GUID_POV objs ++ replicate 4 None)
    ∧ num_buttons can
      = Z.min (Z.of_nat (length (names_of GUID_Button objs))) MAX_BUTTONS
    ∧ name_button can
      = take 32 (names_of GUID_Button objs ++ replicate 32 None).
Proof.
  eexists. split; [apply enum_objects_zero |]. repeat split.
Qed.

(** X3: of several objects of one canonical axis type the first one wins:
    the axis is present exactly when an object of its type was reported, and
    its name is the name of the first such object; later ones change
    nothing. *)
Theorem enum_objects_first_axis_wins (objs : list DIDEVICEOBJECTINSTANCE) :
  ∃ can,
    enum_objects objs zero_caps = Some can
    ∧ (have_x can, name_x can) = axis_seen (names_of GUID_XAxis objs)
    ∧ (have_y can, name_y can) = axis_seen (names_of GUID_YAxis objs)
    ∧ (have_z can, name_z can) = axis_seen (names_of GUID_ZAxis objs)
    ∧ (have_rx can, name_rx can) = axis_seen (names_of GUID_RxAxis objs)
    ∧ (have_ry can, name_ry can) = axis_seen (names_of GUID_RyAxis objs)
    ∧ (have_rz can, name_rz can) = axis_seen (names_of GUID_RzAxis objs).
Proof.
  eexists. split; [apply enum_objects_zero |].
  cbn [caps_of have_x have_y have_z have_rx have_ry have_rz name_x name_y
       name_z name_rx name_ry name_rz].
  repeat split;
    match goal with |- context [axis_seen ?l] => by destruct l end.
Qed.

(** ** The layout and its mapping table *)

Lemma in_schemab_spec (joy : AL_JOYSTICK_DIRECTX) (m : AXIS_MAPPING) :
  in_schemab joy m = true ↔ in_schema joy m.
Proof.
  unfold in_schemab, in_schema. split.
  - intros H. apply andb_prop in H as [H Hst]. apply andb_prop in H as [H1 H2].
    destruct (array_get _ _) as [st |]; [| discriminate].
    apply andb_prop in Hst as [H3 H4]. split; [lia |]. exists st. split; [done | lia].
  - intros (H1 & st & -> & H2).
    repeat (apply andb_true_intro; split); lia.
Qed.

(** The checks on the sticks part, by cases on the shape of the capability
    map. *)
Lemma fill_sticks_layout (can : CAPS_AND_NAMES) :
  caps_wf can →
  layout_okb <$> fill_sticks (set_caps can zero_joystick) = Some true.
Proof.
  intros ((Hs & Hls) & (Hp & Hlp) & _).
  destruct can as [hx nx hy ny hz nz hrx nrx hry nry hrz nrz ns ls np lp nb lb].
  cbn in Hs, Hls, Hp, Hlp.
  destruct ls as [|s0 [|s1 [|]]]; try discriminate.
  destruct lp as [|p0 [|p1 [|p2 [|p3 [|]]]]]; try discriminate.
  assert (ns = 0 ∨ ns = 1 ∨ ns = 2) as Hns
    by (unfold MAX_SLIDERS in Hs; lia).
  assert (np = 0 ∨ np = 1 ∨ np = 2 ∨ np = 3 ∨ np = 4) as Hnp
    by (unfold MAX_POVS in Hp; lia).
  clear Hs Hp Hls Hlp.
  destruct Hns as [-> | [-> | ->]];
    destruct Hnp as [-> | [-> | [-> | [-> | ->]]]];
    destruct hx, hy, hz, hrx, hry, hrz; vm_compute; reflexivity.
Qed.

Lemma implb_true (a b : bool) : implb a b = true → a = true → b = true.
Proof. by destruct a, b. Qed.

Lemma forallb_take_lookup {A} (f : A → bool) (l : list A) (n k : Z) :
  forallb f (take (Z.to_nat n) l) = true →
  (Z.to_nat n ≤ length l)%nat →
  0 ≤ k < n →
  ∃ x, array_get l k = Some x ∧ f x = true.
Proof.
  intros Hall Hlen Hk.
  destruct (lookup_lt_is_Some_2 l (Z.to_nat k)) as [x Hx]; [lia |].
  exists x. split; [apply array_get_Some; split; [lia | done] |].
  apply forallb_Forall in Hall.
  eapply (proj1 (Forall_lookup _ _) Hall (Z.to_nat k)).
  rewrite lookup_take_lt by lia. done.
Qed.

(** What the layout builder leaves behind, with the checks of [layout_okb]
    on the final record. *)
Lemma fill_joystick_info_layout (can : CAPS_AND_NAMES) :
  caps_wf can →
  ∃ joy', fill_joystick_info_using_caps_and_names (set_caps can zero_joystick)
          = Some joy'
          ∧ joy_wf joy'
          ∧ layout_okb joy' = true
          ∧ caps_and_names joy' = can
          ∧ info_num_buttons (info (parent joy')) = num_buttons can.
Proof.
  intros Hwf.
  destruct (fill_sticks_spec can Hwf)
    as (joy1 & Hs & _ & _ & Hcaps & Hbut & Hjoy).
  pose proof (fill_sticks_layout can Hwf) as Hok. rewrite Hs in Hok.
  injection Hok as Hok.
  destruct (fill_buttons_spec joy1) as (l & Hb & Hl).
  { by rewrite Hcaps. }
  { rewrite Hbut. by rewrite length_replicate. }
  eexists. split.
  { unfold fill_joystick_info_using_caps_and_names. rewrite Hs.
    cbn [mbind option_bind]. exact Hb. }
  split; [| split; [exact Hok | split; [exact Hcaps | by rewrite <- Hcaps]]].
  destruct Hwf as (_ & _ & Hnb & _). unfold MAX_BUTTONS in Hnb.
  apply joy_wf_inv in Hjoy as [Hi Hst]. unfold joy_wf.
  apply andb_true_intro. split; [| exact Hst].
  apply info_wf_inv in Hi as (H1 & H2 & H3 & H4).
  unfold info_wfb. cbn. rewrite Hcaps.
  unfold _AL_MAX_JOYSTICK_STICKS, _AL_MAX_JOYSTICK_AXES,
    _AL_MAX_JOYSTICK_BUTTONS.
  repeat (apply andb_true_intro; split); try lia.
  - rewrite H1. done.
  - apply forallb_Forall. eapply Forall_impl; [exact H3 |].
    intros st Hle. cbn beta in Hle. lia.
Qed.

(** X4: the layout builder leaves a record whose mapping table and schema
    agree.  The sticks are as many as the axis groups, the sliders and the
    hats together, the buttons as many as the capability map counts; the
    mapping of every axis and slider the device has resolves to a stick and
    an axis inside the schema, and the stick of every hat is a stick of the
    schema with two axes.  So the bounds checks of the handlers let every
    object of the device through. *)
Theorem layout_mappings_in_schema (can : CAPS_AND_NAMES) :
  caps_wf can →
  ∃ joy',
    fill_joystick_info_using_caps_and_names (set_caps can zero_joystick)
    = Some joy'
    ∧ joy_wf joy'
    ∧ num_sticks (info (parent joy'))
      = spec_axis_sticks can + num_sliders can + num_povs can
    ∧ info_num_buttons (info (parent joy')) = num_buttons can
    ∧ (have_x can = true → in_schema joy' (x_mapping joy'))
    ∧ (have_y can = true → in_schema joy' (y_mapping joy'))
    ∧ (have_z can = true → in_schema joy' (z_mapping joy'))
    ∧ (have_rx can = true → in_schema joy' (rx_mapping joy'))
    ∧ (have_ry can = true → in_schema joy' (ry_mapping joy'))
    ∧ (have_rz can = true → in_schema joy' (rz_mapping joy'))
    ∧ (∀ k, 0 ≤ k < num_sliders can →
         ∃ m, array_get (slider_mapping joy') k = Some m ∧ in_schema joy' m)
    ∧ (∀ k, 0 ≤ k < num_povs can →
         ∃ s st, array_get (pov_mapping_stick joy') k = Some s
                 ∧ 0 ≤ s < num_sticks (info (parent joy'))
                 ∧ array_get (info_stick (info (parent joy'))) s = Some st
                 ∧ num_axes st = 2).
Proof.
  intros Hwf.
  destruct (fill_joystick_info_layout can Hwf)
    as (joy' & Hrun & Hjoy & Hok & Hcaps & Hnb).
  exists joy'. split; [exact Hrun |]. split; [exact Hjoy |].
  unfold layout_okb in Hok. rewrite Hcaps in Hok.
  repeat (apply andb_prop in Hok as [Hok ?]).
  repeat match goal with
         | H : (_ =? _)%nat = true |- _ => apply Nat.eqb_eq in H
         end.
  split; [lia |]. split; [exact Hnb |].
  destruct Hwf as ((Hs & _) & (Hp & _) & _).
  unfold MAX_SLIDERS, MAX_POVS in *.
  do 6 (split; [intros Hh; apply in_schemab_spec; by eapply implb_true |]).
  split.
  - intros k Hk.
    destruct (forallb_take_lookup (in_schemab joy') (slider_mapping joy')
                (num_sliders can) k) as (m & Hm & Hin); [done | lia | done |].
    exists m. split; [done |]. by apply in_schemab_spec.
  - intros k Hk.
    destruct (forallb_take_lookup (hat_stickb joy') (pov_mapping_stick joy')
                (num_povs can) k) as (s & Hs' & Hin); [done | lia | done |].
    unfold hat_stickb in Hin.
    apply andb_prop in Hin as [Hin Hst]. apply andb_prop in Hin as [? ?].
    destruct (array_get (info_stick (info (parent joy'))) s) as [st |] eqn:Hst';
      [| discriminate].
    exists s, st. repeat split; try done; lia.
Qed.

(** The layout builder in two steps, with what the first one leaves. *)
Lemma fill_joystick_info_steps (can : CAPS_AND_NAMES) :
  caps_wf can →
  ∃ joy1 l,
    fill_sticks (set_caps can zero_joystick) = Some joy1
    ∧ sticks_view joy1 = spec_sticks_view can
    ∧ fill_joystick_info_using_caps_and_names (set_caps can zero_joystick)
      = Some (set_info
                (set_info_num_buttons (num_buttons can)
                   (set_info_button l (info (parent joy1)))) joy1).
Proof.
  intros Hwf. pose proof (fill_sticks_view can Hwf) as Hv.
  destruct (fill_sticks_spec can Hwf)
    as (joy1 & Hs & _ & _ & Hcaps & Hbut & _).
  rewrite Hs in Hv. cbn [fmap option_fmap option_map] in Hv.
  apply (inj Some) in Hv.
  destruct (fill_buttons_spec joy1) as (l & Hb & _).
  { by rewrite Hcaps. }
  { rewrite Hbut. by rewrite length_replicate. }
  exists joy1, l. split; [exact Hs |]. split; [exact Hv |].
  unfold fill_joystick_info_using_caps_and_names. rewrite Hs.
  cbn [mbind option_bind]. rewrite Hb. by rewrite Hcaps.
Qed.

(** X5: an axis the device does not have keeps the mapping of the zeroed
    record, stick 0 and axis 0: the layout builder writes the mapping of the
    present axes only. *)
Theorem absent_axis_keeps_zero_mapping (can : CAPS_AND_NAMES) :
  caps_wf can →
  ∃ joy',
    fill_joystick_info_using_caps_and_names (set_caps can zero_joystick)
    = Some joy'
    ∧ (have_x can = false → x_mapping joy' = zero_mapping)
    ∧ (have_y can = false → y_mapping joy' = zero_mapping)
    ∧ (have_z can = false → z_mapping joy' = zero_mapping)
    ∧ (have_rx can = false → rx_mapping joy' = zero_mapping)
    ∧ (have_ry can = false → ry_mapping joy' = zero_mapping)
    ∧ (have_rz can = false → rz_mapping joy' = zero_mapping).
Proof.
  intros Hwf.
  destruct (fill_joystick_info_steps can Hwf) as (joy1 & l & _ & Hv & Hrun).
  eexists. split; [exact Hrun |].
  unfold sticks_view, spec_sticks_view in Hv.
  injection Hv as Hpub Hx Hy Hz Hrx Hry Hrz Hsl Hpov Hcaps Hbut Hjoy.
  cbn [set_info x_mapping y_mapping z_mapping rx_mapping ry_mapping rz_mapping].
  rewrite Hx, Hy, Hz, Hrx, Hry, Hrz.
  repeat split; by intros ->.
Qed.

(** ** The handlers and the drain *)

Lemma set_joystate_same (joy : AL_JOYSTICK_DIRECTX) :
  set_joystate (joystate joy) joy = joy.
Proof. by destruct joy. Qed.

(** Writing the value a cell holds leaves the snapshot as it is. *)
Lemma set_axis_pos_same (st : AL_JOYSTATE) (stick axis : Z) (pos : spec_float) :
  get_axis_pos stick axis st = Some pos →
  set_axis_pos stick axis pos st = Some st.
Proof.
  unfold get_axis_pos, set_axis_pos.
  destruct (array_get (state_stick st) stick) as [axes |] eqn:Haxes;
    [| discriminate].
  cbn [mbind option_bind]. intros Hget.
  apply array_get_Some in Haxes as [Hs Haxes].
  apply array_get_Some in Hget as [Ha Hget].
  pose proof (lookup_lt_Some _ _ _ Haxes).
  pose proof (lookup_lt_Some _ _ _ Hget).
  rewrite array_set_in by lia. cbn [mbind option_bind].
  rewrite array_set_in by lia. cbn [mbind option_bind].
  rewrite (list_insert_id axes) by done.
  rewrite (list_insert_id (state_stick st)) by done.
  by destruct st.
Qed.

Lemma fne_pov_same (raw : Z) :
  fne (pov_p0 raw) (pov_p0 raw) = false ∧ fne (pov_p1 raw) (pov_p1 raw) = false.
Proof.
  rewrite pov_p0_hat_x, pov_p1_hat_y.
  destruct (hat_x_values raw) as [-> | [-> | ->]],
    (hat_y_values raw) as [-> | [-> | ->]]; by vm_compute.
Qed.

(** X6: the bounds checks of the axis and hat handlers work.  A delta
    whose mapping does not resolve inside the schema (the stick is not a
    stick of the schema, or the axis is not an axis of that stick) is
    ignored by [handle_axis_event], and a hat delta for a stick outside the
    schema is ignored by [handle_pov_event]: the record comes back as it
    was, nothing is written and nothing is emitted. *)
Theorem handlers_ignore_outside_schema (joy : AL_JOYSTICK_DIRECTX) :
  joy_wf joy →
  (∀ (m : AXIS_MAPPING) (value : Z),
     ¬ in_schema joy m → handle_axis_event joy m value = Some joy)
  ∧ (∀ stick _value : Z,
       ¬ (0 ≤ stick < num_sticks (info (parent joy))) →
       handle_pov_event joy stick _value = Some joy).
Proof.
  intros Hwf. destruct (joy_wf_inv joy Hwf) as [Hi _].
  destruct (info_wf_inv _ Hi) as (Hlen & Hn & _ & _). split.
  - intros m value Hout. unfold handle_axis_event.
    destruct (Z.ltb_spec (m_stick m) 0); [done |].
    destruct (Z.geb_spec (m_stick m) (num_sticks (info (parent joy))));
      [done |].
    cbn [orb].
    destruct (array_get_in (info_stick (info (parent joy))) (m_stick m))
      as [st Hst]; [lia |].
    rewrite Hst. cbn [mbind option_bind].
    destruct (Z.ltb_spec (m_axis m) 0); [done |].
    destruct (Z.geb_spec (m_axis m) (num_axes st)); [done |].
    exfalso. apply Hout. split; [lia |]. exists st. split; [done | lia].
  - intros stick _value Hout. unfold handle_pov_event.
    destruct (Z.ltb_spec stick 0); [done |].
    destruct (Z.geb_spec stick (num_sticks (info (parent joy)))); [done |].
    lia.
Qed.

(** X7: a hat delta that repeats the last one is a no-op.  After
    [handle_pov_event] has handled a value for a hat stick, handling the
    same value again returns the record unchanged: both axes already hold
    the values of the rule, so no event is generated. *)
Theorem repeated_hat_delta_is_noop (joy : AL_JOYSTICK_DIRECTX)
    (stick _value : Z) :
  joy_wf joy →
  0 ≤ stick < num_sticks (info (parent joy)) →
  ∃ joy1,
    handle_pov_event joy stick _value = Some joy1
    ∧ handle_pov_event joy1 stick _value = Some joy1.
Proof.
  intros Hwf Hs.
  destruct (handle_pov_event_in joy stick _value Hwf Hs)
    as (old_p0 & old_p1 & js & _ & _ & Hp0 & Hp1 & _ & _ & Hrun).
  eexists. split; [exact Hrun |].
  unfold handle_pov_event.
  cbn [set_es set_joystate parent info joystate].
  destruct (Z.ltb_spec stick 0); [lia |].
  destruct (Z.geb_spec stick (num_sticks (info (parent joy)))); [lia |].
  cbn [orb]. rewrite Hp0, Hp1. cbn [mbind option_bind].
  rewrite (set_axis_pos_same js stick 0 _ Hp0). cbn [mbind option_bind].
  rewrite (set_axis_pos_same js stick 1 _ Hp1). cbn [mbind option_bind].
  destruct (fne_pov_same (int_of_DWORD _value)) as [-> ->].
  reflexivity.
Qed.

Lemma drained_refl (joy : AL_JOYSTICK_DIRECTX) : drained [] joy joy.
Proof. unfold drained. by destruct joy as [[? ? ?] ? ? ? ? ? ? ? ? ? ? ? ?]. Qed.

Lemma drained_intro (cs : list CHANGE) (joy : AL_JOYSTICK_DIRECTX)
    (js : AL_JOYSTATE) :
  drained cs joy (set_es (emit_changes (es (parent joy)) cs)
                    (set_joystate js joy)).
Proof. reflexivity. Qed.

Lemma emit_changes_app (e : AL_EVENT_SOURCE) (l1 l2 : list CHANGE) :
  emit_changes e (l1 ++ l2) = emit_changes (emit_changes e l1) l2.
Proof. unfold emit_changes. apply foldl_app. Qed.

Lemma drained_trans (cs1 cs2 : list CHANGE) (joy joy1 joy2 : AL_JOYSTICK_DIRECTX) :
  drained cs1 joy joy1 → drained cs2 joy1 joy2 →
  drained (cs1 ++ cs2) joy joy2.
Proof.
  unfold drained. intros H1 H2. rewrite H2 at 1. rewrite H1 at 1 2.
  rewrite emit_changes_app. reflexivity.
Qed.

(** What a drain leaves alone. *)
Lemma drained_frame (cs : list CHANGE) (joy joy' : AL_JOYSTICK_DIRECTX) :
  drained cs joy joy' →
  info (parent joy') = info (parent joy)
  ∧ num (parent joy') = num (parent joy)
  ∧ caps_and_names joy' = caps_and_names joy
  ∧ gotten joy' = gotten joy
  ∧ device joy' = device joy
  ∧ (x_mapping joy', y_mapping joy', z_mapping joy')
    = (x_mapping joy, y_mapping joy, z_mapping joy)
  ∧ (rx_mapping joy', ry_mapping joy', rz_mapping joy')
    = (rx_mapping joy, ry_mapping joy, rz_mapping joy)
  ∧ slider_mapping joy' = slider_mapping joy
  ∧ pov_mapping_stick joy' = pov_mapping_stick joy
  ∧ es (parent joy') = emit_changes (es (parent joy)) cs.
Proof. unfold drained. intros ->. cbn. by repeat split. Qed.

Lemma device_wf_drained (cs : list CHANGE) (joy joy' : AL_JOYSTICK_DIRECTX) :
  device_wf joy → drained cs joy joy' → state_wfb (joystate joy') = true →
  device_wf joy'.
Proof.
  intros (Hwf & Hs & Hp & Hc) Hd Hst.
  destruct (drained_frame cs joy joy' Hd)
    as (Hi & _ & Hcaps & _ & _ & _ & _ & Hsl & Hpov & _).
  destruct (joy_wf_inv joy Hwf) as [Hinfo _].
  split; [| split; [by rewrite Hsl | split; [by rewrite Hpov |
    by rewrite Hcaps]]].
  unfold joy_wf. by rewrite Hi, Hinfo, Hst.
Qed.

Lemma calibrated_drained (cs : list CHANGE) (joy joy' : AL_JOYSTICK_DIRECTX)
    (item : DIDEVICEOBJECTDATA) :
  drained cs joy joy' → calibrated joy item → calibrated joy' item.
Proof. unfold drained. intros -> H. exact H. Qed.

(** The three handlers. *)
Lemma handle_axis_event_drained (joy : AL_JOYSTICK_DIRECTX) (m : AXIS_MAPPING)
    (value : Z) :
  joy_wf joy →
  ∃ joy' cs,
    handle_axis_event joy m value = Some joy'
    ∧ drained cs joy joy' ∧ (length cs ≤ 1)%nat
    ∧ state_wfb (joystate joy') = true
    ∧ state_button (joystate joy') = state_button (joystate joy)
    ∧ (-32767 ≤ int_of_DWORD value ≤ 32767 →
       snapshot_in_unit (joystate joy) = true →
       snapshot_in_unit (joystate joy') = true).
Proof.
  intros Hwf. destruct (joy_wf_inv joy Hwf) as [Hi Hstate].
  destruct (info_wf_inv _ Hi) as (Hlen & Hn & Hax & _).
  unfold handle_axis_event.
  destruct (Z.ltb_spec (m_stick m) 0);
    [exists joy, []; cbn [orb length];
     repeat split; [apply drained_refl | lia | done | done] |].
  destruct (Z.geb_spec (m_stick m) (num_sticks (info (parent joy))));
    [exists joy, []; cbn [orb length];
     repeat split; [apply drained_refl | lia | done | done] |].
  cbn [orb].
  destruct (array_get_in (info_stick (info (parent joy))) (m_stick m))
    as [st Hst]; [lia |].
  rewrite Hst. cbn [mbind option_bind].
  destruct (Z.ltb_spec (m_axis m) 0);
    [exists joy, []; cbn [orb length];
     repeat split; [apply drained_refl | lia | done | done] |].
  destruct (Z.geb_spec (m_axis m) (num_axes st));
    [exists joy, []; cbn [orb length];
     repeat split; [apply drained_refl | lia | done | done] |].
  cbn [orb].
  assert (num_axes st ≤ 3) as Hst3.
  { apply array_get_Some in Hst as [_ Hst].
    exact (proj1 (Forall_lookup _ _) Hax _ _ Hst). }
  destruct (set_axis_pos_in (joystate joy) (m_stick m) (m_axis m)
              (axis_pos value) Hstate)
    as (js & Hset & _ & Hwf' & Hb & Hunit); [lia | lia |].
  rewrite Hset. cbn [mbind option_bind]. rewrite generate_axis_event_emit.
  eexists _, [AxisMoved (m_stick m) (m_axis m) (axis_pos value)].
  split; [reflexivity |].
  split; [apply drained_intro |]. split; [cbn; lia |].
  split; [exact Hwf' |]. split; [exact Hb |].
  intros Hv. apply Hunit. by apply axis_pos_in_unit.
Qed.

Lemma pov_in_unit (raw : Z) :
  in_unit (pov_p0 raw) = true ∧ in_unit (pov_p1 raw) = true.
Proof.
  rewrite pov_p0_hat_x, pov_p1_hat_y.
  destruct (hat_x_values raw) as [-> | [-> | ->]],
    (hat_y_values raw) as [-> | [-> | ->]]; by vm_compute.
Qed.

Lemma length_hat_changes (stick : Z) (a b c d : spec_float) :
  (length (hat_changes stick a b c d) ≤ 2)%nat.
Proof. unfold hat_changes. destruct (fne a c), (fne b d); cbn; lia. Qed.

Lemma handle_pov_event_drained (joy : AL_JOYSTICK_DIRECTX) (stick _value : Z) :
  joy_wf joy →
  ∃ joy' cs,
    handle_pov_event joy stick _value = Some joy'
    ∧ drained cs joy joy' ∧ (length cs ≤ 2)%nat
    ∧ state_wfb (joystate joy') = true
    ∧ state_button (joystate joy') = state_button (joystate joy)
    ∧ (snapshot_in_unit (joystate joy) = true →
       snapshot_in_unit (joystate joy') = true).
Proof.
  intros Hwf.
  destruct (decide (0 ≤ stick < num_sticks (info (parent joy)))) as [Hs | Hs].
  - destruct (joy_wf_inv joy Hwf) as [Hi Hstate].
    destruct (info_wf_inv _ Hi) as (_ & Hn & _ & _).
    destruct (handle_pov_event_in joy stick _value Hwf Hs)
      as (old_p0 & old_p1 & js & _ & _ & _ & _ & _ & _ & Hrun).
    (* the snapshot written, once more, for the range of its axes *)
    destruct (set_axis_pos_in (joystate joy) stick 0
                (pov_p0 (int_of_DWORD _value)) Hstate)
      as (js0 & Hset0 & _ & Hwf0 & Hb0 & Hu0); [lia | lia |].
    destruct (set_axis_pos_in js0 stick 1
                (pov_p1 (int_of_DWORD _value)) Hwf0)
      as (js1 & Hset1 & _ & Hwf1 & Hb1 & Hu1); [lia | lia |].
    assert (js = js1) as ->.
    { revert Hrun. unfold handle_pov_event.
      destruct (Z.ltb_spec stick 0); [lia |].
      destruct (Z.geb_spec stick (num_sticks (info (parent joy)))); [lia |].
      cbn [orb].
      destruct (get_axis_pos stick 0 (joystate joy)); [| discriminate].
      destruct (get_axis_pos stick 1 (joystate joy)); [| discriminate].
      cbn [mbind option_bind]. rewrite Hset0. cbn [mbind option_bind].
      rewrite Hset1. cbn [mbind option_bind]. intros Heq.
      injection Heq as Heq. apply (f_equal joystate) in Heq.
      revert Heq. rewrite !generate_axis_event_emit.
      destruct (fne _ _), (fne _ _); cbn; by intros ->. }
    rewrite Hrun. eexists _, _. split; [reflexivity |].
    split; [apply drained_intro |]. split; [apply length_hat_changes |].
    split; [exact Hwf1 |]. split; [cbn; by rewrite Hb1, Hb0 |].
    intros Hu. apply Hu1; [apply pov_in_unit |].
    apply Hu0; [apply pov_in_unit | exact Hu].
  - exists joy, []. unfold handle_pov_event.
    destruct (Z.ltb_spec stick 0);
      destruct (Z.geb_spec stick (num_sticks (info (parent joy))));
      try lia; cbn [orb length];
      (split; [done |]); (split; [apply drained_refl |]);
      (split; [lia |]); destruct (joy_wf_inv joy Hwf); done.
Qed.

Lemma buttons_insert (l : list Z) (k : nat) (down : bool) :
  forallb (λ v, (v =? 0) || (v =? 32767)) l = true →
  forallb (λ v, (v =? 0) || (v =? 32767)) (<[k := intensity down]> l) = true.
Proof.
  rewrite !forallb_Forall. intros H.
  destruct (decide (k < length l)%nat).
  - apply Forall_insert; [done |]. by destruct down.
  - by rewrite list_insert_ge by lia.
Qed.

Lemma handle_button_event_drained (joy : AL_JOYSTICK_DIRECTX) (button : Z)
    (down : bool) :
  joy_wf joy → 0 ≤ button < 32 →
  ∃ joy' cs,
    handle_button_event joy button down = Some joy'
    ∧ drained cs joy joy' ∧ (length cs ≤ 1)%nat
    ∧ state_wfb (joystate joy') = true
    ∧ state_stick (joystate joy') = state_stick (joystate joy)
    ∧ (buttons_0_or_32767 (joystate joy) = true →
       buttons_0_or_32767 (joystate joy') = true).
Proof.
  intros Hwf Hb. rewrite (handle_button_event_in joy button down Hwf Hb).
  eexists _, [if down then ButtonDown button else ButtonUp button].
  split; [reflexivity |].
  split; [reflexivity |]. split; [cbn; lia |].
  destruct (joy_wf_inv _ (joy_wf_button_step joy (es (parent joy)) button
                            (intensity down) Hwf)) as [_ Hst].
  split; [exact Hst |]. split; [done |].
  unfold buttons_0_or_32767. cbn. apply buttons_insert.
Qed.

(** One item of the buffer, whatever it holds. *)
Lemma dispatch_item_drained (item : DIDEVICEOBJECTDATA)
    (joy : AL_JOYSTICK_DIRECTX) :
  device_wf joy →
  ∃ joy' cs,
    dispatch_item item joy = Some joy'
    ∧ drained cs joy joy' ∧ (length cs ≤ 2)%nat
    ∧ state_wfb (joystate joy') = true
    ∧ (buttons_0_or_32767 (joystate joy) = true →
       buttons_0_or_32767 (joystate joy') = true)
    ∧ (calibrated joy item →
       snapshot_in_unit (joystate joy) = true →
       snapshot_in_unit (joystate joy') = true).
Proof.
  intros (Hwf & Hsl & Hpov & _).
  destruct (joy_wf_inv joy Hwf) as [Hi Hstate].
  destruct (info_wf_inv _ Hi) as (_ & _ & _ & Hn).
  unfold MAX_SLIDERS in Hsl. unfold MAX_POVS in Hpov.
  destruct (array_get_in (slider_mapping joy) 0) as [m0 Hm0]; [lia |].
  destruct (array_get_in (slider_mapping joy) 1) as [m1 Hm1]; [lia |].
  destruct (array_get_in (pov_mapping_stick joy) 0) as [s0 Hs0]; [lia |].
  destruct (array_get_in (pov_mapping_stick joy) 1) as [s1 Hs1]; [lia |].
  destruct (array_get_in (pov_mapping_stick joy) 2) as [s2 Hs2]; [lia |].
  destruct (array_get_in (pov_mapping_stick joy) 3) as [s3 Hs3]; [lia |].
  unfold dispatch_item, calibrated, axis_object.
  rewrite Hm0, Hm1, Hs0, Hs1, Hs2, Hs3. cbn [mbind option_bind].
  generalize (int_of_DWORD (dwOfs item)). intros ofs.
  unfold DIJOFS_X, DIJOFS_Y, DIJOFS_Z, DIJOFS_RX, DIJOFS_RY, DIJOFS_RZ,
    DIJOFS_SLIDER, DIJOFS_POV, DIJOFS_BUTTON0, DIJOFS_BUTTON1, DIJOFS_BUTTON.
  repeat (match goal with
          | |- context [?a =? ?b] => is_var a; destruct (Z.eqb_spec a b)
          end);
    try lia.
  (* the axes and the sliders *)
  1-8: match goal with
       | |- context [handle_axis_event _ ?m ?v] =>
           destruct (handle_axis_event_drained joy m v Hwf)
             as (joy' & cs & Hrun & Hd & Hlen & Hst & Hb & Hu);
           exists joy', cs; split; [exact Hrun |];
           split; [exact Hd |]; split; [lia |]; split; [exact Hst |];
           split; [unfold buttons_0_or_32767; by rewrite Hb |];
           intros Hcal; apply Hu; apply Hcal; by eexists
       end.
  (* the hats *)
  1-4: match goal with
       | |- context [handle_pov_event _ ?s ?v] =>
           destruct (handle_pov_event_drained joy s v Hwf)
             as (joy' & cs & Hrun & Hd & Hlen & Hst & Hb & Hu);
           exists joy', cs; split; [exact Hrun |];
           split; [exact Hd |]; split; [lia |]; split; [exact Hst |];
           split; [unfold buttons_0_or_32767; by rewrite Hb |];
           intros _; exact Hu
       end.
  (* the buttons and the rest *)
  destruct (Z.geb_spec ofs (48 + 0)) as [Hge | Hlt];
    [destruct (Z.ltb_spec ofs (48 + info_num_buttons (info (parent joy))))
       as [Hlt | Hge'] |];
    cbn [andb].
  - change (48 + 1 - (48 + 0)) with 1. rewrite Z.quot_1_r.
    destruct (handle_button_event_drained joy (ofs - (48 + 0))
                (negb (Z.land (dwData item) 128 =? 0)) Hwf)
      as (joy' & cs & Hrun & Hd & Hlen & Hst & Hsame & Hb); [lia |].
    exists joy', cs. split; [exact Hrun |].
    split; [exact Hd |]. split; [lia |]. split; [exact Hst |].
    split; [exact Hb |]. intros _. unfold snapshot_in_unit. by rewrite Hsame.
  - exists joy, []. split; [done |]. split; [apply drained_refl |].
    split; [cbn; lia |]. done.
  - exists joy, []. split; [done |]. split; [apply drained_refl |].
    split; [cbn; lia |]. done.
Qed.

(** The whole buffer. *)
Lemma dispatch_items_drained (buffer : list DIDEVICEOBJECTDATA) :
  ∀ joy,
    device_wf joy →
    ∃ joy' cs,
      dispatch_items buffer joy = Some joy'
      ∧ drained cs joy joy' ∧ (length cs ≤ 2 * length buffer)%nat
      ∧ state_wfb (joystate joy') = true
      ∧ (buttons_0_or_32767 (joystate joy) = true →
         buttons_0_or_32767 (joystate joy') = true)
      ∧ (Forall (calibrated joy) buffer →
         snapshot_in_unit (joystate joy) = true →
         snapshot_in_unit (joystate joy') = true).
Proof.
  induction buffer as [|item buffer IH]; intros joy Hwf.
  - exists joy, []. split; [done |]. split; [apply drained_refl |].
    split; [cbn; lia |]. destruct Hwf as (Hwf & _).
    by destruct (joy_wf_inv joy Hwf).
  - destruct (dispatch_item_drained item joy Hwf)
      as (joy1 & cs1 & Hrun1 & Hd1 & Hlen1 & Hst1 & Hb1 & Hu1).
    destruct (IH joy1 (device_wf_drained cs1 joy joy1 Hwf Hd1 Hst1))
      as (joy2 & cs2 & Hrun2 & Hd2 & Hlen2 & Hst2 & Hb2 & Hu2).
    exists joy2, (cs1 ++ cs2). cbn [dispatch_items]. rewrite Hrun1.
    cbn [mbind option_bind]. split; [exact Hrun2 |].
    split; [by eapply drained_trans |].
    split; [rewrite length_app; cbn [length]; lia |].
    split; [exact Hst2 |]. split; [by intros ?; apply Hb2, Hb1 |].
    intros Hcal Hu. apply Forall_cons in Hcal as [Hc Hcal].
    apply Hu2; [| by apply Hu1].
    eapply Forall_impl; [exact Hcal |]. intros it.
    by apply calibrated_drained with cs1.
Qed.

(** The drain of a device, whatever the backend answers. *)
Lemma update_joystick_drained (joy : AL_JOYSTICK_DIRECTX) (hr : HRESULT)
    (pending : list DIDEVICEOBJECTDATA) :
  device_wf joy →
  ∃ joy' scheduled cs,
    update_joystick joy hr pending = Some (joy', scheduled)
    ∧ drained cs joy joy'
    ∧ (length cs ≤ 2 * length (take 10 pending))%nat
    ∧ device_wf joy'
    ∧ (buttons_0_or_32767 (joystate joy) = true →
       buttons_0_or_32767 (joystate joy') = true)
    ∧ (Forall (calibrated joy) (take 10 pending) →
       snapshot_in_unit (joystate joy) = true →
       snapshot_in_unit (joystate joy') = true).
Proof.
  intros Hwf. unfold update_joystick, IDirectInputDevice2_GetDeviceData.
  change (Z.to_nat DEVICE_BUFFER_SIZE) with 10%nat.
  assert (∀ b : bool, ∃ (joy' : AL_JOYSTICK_DIRECTX) (scheduled : bool) cs,
            Some (joy, b) = Some (joy', scheduled)
            ∧ drained cs joy joy'
            ∧ (length cs ≤ 2 * length (take 10 pending))%nat
            ∧ device_wf joy'
            ∧ (buttons_0_or_32767 (joystate joy) = true →
               buttons_0_or_32767 (joystate joy') = true)
            ∧ (Forall (calibrated joy) (take 10 pending) →
               snapshot_in_unit (joystate joy) = true →
               snapshot_in_unit (joystate joy') = true)) as Hsame.
  { intros b. exists joy, b, []. split; [done |].
    split; [apply drained_refl |]. split; [cbn; lia |]. done. }
  destruct (negb (HRESULT_eqb hr DI_OK) && negb (HRESULT_eqb hr DI_BUFFEROVERFLOW)).
  { destruct (HRESULT_eqb hr DIERR_NOTACQUIRED || HRESULT_eqb hr DIERR_INPUTLOST);
      apply Hsame. }
  destruct (take 10 pending) as [|item buffer] eqn:Hbuf; [apply Hsame |].
  cbn [length].
  destruct (dispatch_items_drained (item :: buffer) joy Hwf)
    as (joy' & cs & Hrun & Hd & Hlen & Hst & Hb & Hu).
  exists joy', false, cs. rewrite Hrun. cbn [mbind option_bind].
  split; [done |]. split; [exact Hd |]. split; [exact Hlen |].
  split; [by eapply device_wf_drained |]. done.
Qed.

(** The slots and the clock of a source after a list of changes. *)
Lemma emit_changes_account (cs : list CHANGE) :
  ∀ e, ∃ new,
    es_emitted (emit_changes e cs) = es_emitted e ++ new
    ∧ (length new ≤ length cs)%nat
    ∧ (es_free (emit_changes e cs) + length new = es_free e)%nat
    ∧ es_clock_reads (emit_changes e cs)
      = (es_clock_reads e + length new)%nat.
Proof.
  induction cs as [|c cs IH]; intros e.
  - exists []. cbn. rewrite app_nil_r. repeat split; lia.
  - change (emit_changes e (c :: cs)) with (emit_changes (emit_change e c) cs).
    destruct (IH (emit_change e c)) as (new & Hem & Hlen & Hfree & Hreads).
    rewrite Hem, Hreads. unfold emit_change in *.
    destruct (es_needs e (change_type c));
      [destruct (es_free e) as [|free'] eqn:Hf |].
    + exists new. cbn [length]. rewrite Hf in Hfree. repeat split; try done; lia.
    + eexists (_ :: new). cbn [es_emitted es_free es_clock_reads] in *.
      rewrite <- app_assoc. cbn [length]. repeat split; try done; lia.
    + exists new. cbn [length]. repeat split; try done; lia.
Qed.

Lemma emit_changes_unneeded (cs : list CHANGE) (e : AL_EVENT_SOURCE) :
  (∀ t, es_needs e t = false) → emit_changes e cs = e.
Proof.
  intros Hn. induction cs as [|c cs IH]; [done |].
  change (emit_changes e (c :: cs)) with (emit_changes (emit_change e c) cs).
  unfold emit_change. by rewrite Hn.
Qed.

(** X8: the drain of a well-formed device record never faults and never
    touches the schema.  Whatever result code and whatever items the backend
    hands over, [update_joystick] returns (no array is accessed outside its
    bounds) a record that is well formed again and differs from the old one
    in the snapshot and the event source only: the schema, the capability
    map, the mapping table, the device pointer, the number and the taken
    flag are the same. *)
Theorem update_joystick_safe_schema_frozen (joy : AL_JOYSTICK_DIRECTX)
    (hr : HRESULT) (pending : list DIDEVICEOBJECTDATA) :
  device_wf joy →
  ∃ joy' scheduled,
    update_joystick joy hr pending = Some (joy', scheduled)
    ∧ device_wf joy'
    ∧ info (parent joy') = info (parent joy)
    ∧ num (parent joy') = num (parent joy)
    ∧ caps_and_names joy' = caps_and_names joy
    ∧ gotten joy' = gotten joy
    ∧ device joy' = device joy
    ∧ (x_mapping joy', y_mapping joy', z_mapping joy')
      = (x_mapping joy, y_mapping joy, z_mapping joy)
    ∧ (rx_mapping joy', ry_mapping joy', rz_mapping joy')
      = (rx_mapping joy, ry_mapping joy, rz_mapping joy)
    ∧ slider_mapping joy' = slider_mapping joy
    ∧ pov_mapping_stick joy' = pov_mapping_stick joy.
Proof.
  intros Hwf.
  destruct (update_joystick_drained joy hr pending Hwf)
    as (joy' & scheduled & cs & Hrun & Hd & _ & Hwf' & _).
  exists joy', scheduled. split; [exact Hrun |]. split; [exact Hwf' |].
  destruct (drained_frame cs joy joy' Hd)
    as (H1 & H2 & H3 & H4 & H5 & H6 & H7 & H8 & H9 & _).
  done.
Qed.

(** X9: the ranges of the snapshot survive a drain.  The button intensities
    stay 0 or 32767 whatever the buffer holds; the axis positions stay in
    [-1.0, +1.0] when the deltas of the axes and sliders in the buffer carry
    values of the calibrated range -32767 .. 32767 (a hat writes -1, 0 or +1
    whatever its value). *)
Theorem update_joystick_keeps_ranges (joy : AL_JOYSTICK_DIRECTX)
    (hr : HRESULT) (pending : list DIDEVICEOBJECTDATA) :
  device_wf joy →
  ∃ joy' scheduled,
    update_joystick joy hr pending = Some (joy', scheduled)
    ∧ (buttons_0_or_32767 (joystate joy) = true →
       buttons_0_or_32767 (joystate joy') = true)
    ∧ (Forall (calibrated joy) (take 10 pending) →
       snapshot_in_unit (joystate joy) = true →
       snapshot_in_unit (joystate joy') = true).
Proof.
  intros Hwf.
  destruct (update_joystick_drained joy hr pending Hwf)
    as (joy' & scheduled & cs & Hrun & _ & _ & _ & Hb & Hu).
  by exists joy', scheduled.
Qed.

(** X10: the events of a drain.  A drain only appends to the events of the
    source: at most two per item of the buffer (so at most twenty), never
    more than the source had slots; each event takes one slot and one
    reading of the clock, and the subscriptions are not touched.  A source
    no queue listens to is left as it was. *)
Theorem update_joystick_event_accounting (joy : AL_JOYSTICK_DIRECTX)
    (hr : HRESULT) (pending : list DIDEVICEOBJECTDATA) :
  device_wf joy →
  ∃ joy' scheduled new,
    update_joystick joy hr pending = Some (joy', scheduled)
    ∧ es_emitted (es (parent joy')) = es_emitted (es (parent joy)) ++ new
    ∧ (length new ≤ 2 * length (take 10 pending))%nat
    ∧ (length new ≤ 20)%nat
    ∧ (es_free (es (parent joy')) + length new
       = es_free (es (parent joy)))%nat
    ∧ es_clock_reads (es (parent joy'))
      = (es_clock_reads (es (parent joy)) + length new)%nat
    ∧ es_needs (es (parent joy')) = es_needs (es (parent joy))
    ∧ ((∀ t, es_needs (es (parent joy)) t = false) →
       es (parent joy') = es (parent joy)).
Proof.
  intros Hwf.
  destruct (update_joystick_drained joy hr pending Hwf)
    as (joy' & scheduled & cs & Hrun & Hd & Hlen & _).
  destruct (drained_frame cs joy joy' Hd)
    as (_ & _ & _ & _ & _ & _ & _ & _ & _ & Hes).
  destruct (emit_changes_account cs (es (parent joy)))
    as (new & Hem & Hn & Hfree & Hreads).
  exists joy', scheduled, new. split; [exact Hrun |]. rewrite Hes.
  assert (length (take 10 pending) ≤ 10)%nat
    by (rewrite length_take; lia).
  split; [exact Hem |]. split; [lia |]. split; [lia |].
  split; [exact Hfree |]. split; [exact Hreads |].
  split; [by destruct (emit_changes_frame cs (es (parent joy))) |].
  intros Hneeds. by apply emit_changes_unneeded.
Qed.

Lemma dispatch_item_unknown (item : DIDEVICEOBJECTDATA)
    (joy : AL_JOYSTICK_DIRECTX) :
  0 ≤ info_num_buttons (info (parent joy)) →
  unknown_offset joy item → dispatch_item item joy = Some joy.
Proof.
  unfold unknown_offset, dispatch_item.
  generalize (int_of_DWORD (dwOfs item)). intros ofs Hn Hofs.
  unfold DIJOFS_X, DIJOFS_Y, DIJOFS_Z, DIJOFS_RX, DIJOFS_RY, DIJOFS_RZ,
    DIJOFS_SLIDER, DIJOFS_POV, DIJOFS_BUTTON0, DIJOFS_BUTTON1, DIJOFS_BUTTON
    in *.
  repeat (match goal with
          | |- context [?a =? ?b] =>
              is_var a; destruct (Z.eqb_spec a b);
              [subst; destruct Hofs as [? | [[? Hm] | ?]];
               [lia | by exfalso; apply Hm | lia] |]
          end).
  destruct (Z.geb_spec ofs (48 + 0));
    destruct (Z.ltb_spec ofs (48 + info_num_buttons (info (parent joy))));
    cbn [andb]; try done; lia.
Qed.

(** X11: items the dispatch has no case for are dropped.  When every item
    of the buffer has an offset that is negative as an [int], is not a
    multiple of four below the button offsets, or lies past the buttons of
    the schema, the drain leaves the device record as it was: no snapshot
    cell is written and no event is emitted. *)
Theorem update_joystick_drops_unknown_items (joy : AL_JOYSTICK_DIRECTX)
    (hr : HRESULT) (pending : list DIDEVICEOBJECTDATA) :
  0 ≤ info_num_buttons (info (parent joy)) →
  Forall (unknown_offset joy) pending →
  ∃ scheduled, update_joystick joy hr pending = Some (joy, scheduled).
Proof.
  intros Hn Hall. unfold update_joystick, IDirectInputDevice2_GetDeviceData.
  destruct (negb (HRESULT_eqb hr DI_OK) && negb (HRESULT_eqb hr DI_BUFFEROVERFLOW)).
  { destruct (HRESULT_eqb hr DIERR_NOTACQUIRED || HRESULT_eqb hr DIERR_INPUTLOST);
      by eexists. }
  assert (Forall (unknown_offset joy) (take (Z.to_nat DEVICE_BUFFER_SIZE) pending))
    as Hbuf by (by apply Forall_take).
  destruct (take (Z.to_nat DEVICE_BUFFER_SIZE) pending) as [|item buffer];
    [by eexists |].
  cbn [length]. exists false.
  assert (dispatch_items (item :: buffer) joy = Some joy) as ->; [| done].
  induction Hbuf as [|it l Hit _ IH]; [done |].
  cbn [dispatch_items]. rewrite dispatch_item_unknown by done.
  exact IH.
Qed.

(** ** The thread and the users of the table *)

Lemma set_joydx_joystick_same (d : DRIVER) :
  set_joydx_joystick (joydx_joystick d) d = d.
Proof. by destruct d. Qed.

Lemma set_joystick_same (n : Z) (joy : AL_JOYSTICK_DIRECTX) (d : DRIVER) :
  array_get (joydx_joystick d) n = Some joy → set_joystick n joy d = Some d.
Proof.
  intros Hget. apply array_get_Some in Hget as [Hn Hget].
  pose proof (lookup_lt_Some _ _ _ Hget).
  unfold set_joystick. rewrite array_set_in by lia. cbn [mbind option_bind].
  rewrite list_insert_id by done. by rewrite set_joydx_joystick_same.
Qed.

(** A table entry is replaced by a record that is as good. *)
Lemma driver_ok_set_joystick (n : Z) (joy : AL_JOYSTICK_DIRECTX) (d d' : DRIVER) :
  driver_ok d → device_wf joy → set_joystick n joy d = Some d' →
  driver_ok d'.
Proof.
  intros (Hwf & Hall) Hjoy Hset.
  pose proof (set_joystick_lookup n) as Hlook.
  apply set_joystick_Some in Hset as Hd. destruct Hd as (Hn & ->). split.
  - unfold driver_wfb in *. cbn. by rewrite length_insert.
  - intros k joy' Hk Hget. cbn [joydx_num_joysticks set_joydx_joystick] in Hk.
    rewrite (Hlook k joy d _ Hset) in Hget by lia.
    case_decide; [by injection Hget as <- | by eapply Hall].
Qed.

Lemma same_but_table_refl (d : DRIVER) : same_but_table d d.
Proof. by repeat split. Qed.

Lemma same_but_table_trans (d1 d2 d3 : DRIVER) :
  same_but_table d1 d2 → same_but_table d2 d3 → same_but_table d1 d3.
Proof.
  intros (H1 & H2 & H3 & H4 & H5 & H6 & H7) (G1 & G2 & G3 & G4 & G5 & G6 & G7).
  repeat split; congruence.
Qed.

(** A table entry replaced by a record with the same device pointer. *)
Lemma same_but_table_set_joystick (n : Z) (joy joy' : AL_JOYSTICK_DIRECTX)
    (d d' : DRIVER) :
  array_get (joydx_joystick d) n = Some joy → device joy' = device joy →
  set_joystick n joy' d = Some d' →
  same_but_table d d'
  ∧ ∀ k, k ≠ n → array_get (joydx_joystick d') k = array_get (joydx_joystick d) k.
Proof.
  intros Hget Hdev Hset. apply set_joystick_Some in Hset as (Hn & ->).
  apply array_get_Some in Hget as [_ Hget]. split.
  - repeat split. cbn. rewrite list_fmap_insert, Hdev.
    apply list_insert_id. by rewrite list_lookup_fmap, Hget.
  - intros k Hk. cbn. unfold array_get. destruct (0 <=? k) eqn:Hk0; [| done].
    apply list_lookup_insert_ne. lia.
Qed.

Lemma driver_ok_lookup (d : DRIVER) (k : Z) :
  driver_ok d → 0 ≤ k < joydx_num_joysticks d →
  ∃ joy, array_get (joydx_joystick d) k = Some joy ∧ device_wf joy.
Proof.
  intros (Hwf & Hall) Hk. destruct (driver_wf_inv d Hwf) as (Hl & _ & Hn).
  destruct (array_get_in (joydx_joystick d) k) as [joy Hjoy]; [lia |].
  exists joy. split; [done |]. by eapply Hall.
Qed.

Lemma driver_ok_acquire_scheduled (n : nat) (d : DRIVER) :
  driver_ok d → driver_ok (set_acquire_scheduled n d).
Proof. intros (Hwf & Hall). by split. Qed.

(** One round of the thread on a driver that is in order. *)
Lemma thread_round_ok (result : Z) (hr : HRESULT)
    (pending : list DIDEVICEOBJECTDATA) (d : DRIVER) :
  driver_ok d →
  ∃ d' continue,
    joydx_thread_proc_round result hr pending d = Some (d', continue)
    ∧ (continue = false ↔ result = WAIT_OBJECT_0)
    ∧ driver_ok d'
    ∧ same_but_table d d'
    ∧ (∀ k, k ≠ int_of_DWORD (result - WAIT_OBJECT_0 - 1) →
            array_get (joydx_joystick d') k = array_get (joydx_joystick d) k)
    ∧ (result = WAIT_OBJECT_0
       ∨ ¬ (0 ≤ int_of_DWORD (result - WAIT_OBJECT_0 - 1)
            < joydx_num_joysticks d) → d' = d).
Proof.
  intros Hok. unfold joydx_thread_proc_round.
  destruct (Z.eqb_spec result WAIT_OBJECT_0) as [Hstop | Hgo].
  { exists d, false. split; [done |]. split; [done |]. split; [exact Hok |].
    split; [apply same_but_table_refl |]. done. }
  set (num := int_of_DWORD (result - WAIT_OBJECT_0 - 1)).
  assert (∃ d' continue,
            Some (d, true) = Some (d', continue)
            ∧ (continue = false ↔ result = WAIT_OBJECT_0)
            ∧ driver_ok d' ∧ same_but_table d d'
            ∧ (∀ k, k ≠ num →
                 array_get (joydx_joystick d') k = array_get (joydx_joystick d) k)
            ∧ (result = WAIT_OBJECT_0
               ∨ ¬ (0 ≤ num < joydx_num_joysticks d) → d' = d)) as Hsame.
  { exists d, true. split; [done |]. split; [by split |].
    split; [exact Hok |]. split; [apply same_but_table_refl |]. done. }
  destruct (Z.ltb_spec num 0); [exact Hsame |].
  destruct (Z.geb_spec num (joydx_num_joysticks d)); [exact Hsame |].
  cbn [orb].
  destruct (driver_ok_lookup d num Hok) as (joy & Hjoy & Hwf); [lia |].
  rewrite Hjoy. cbn [mbind option_bind].
  destruct (gotten joy); [| exact Hsame].
  destruct (update_joystick_drained joy hr pending Hwf)
    as (joy' & scheduled & cs & Hrun & Hd & _ & Hwf' & _).
  rewrite Hrun. cbn [mbind option_bind].
  destruct (set_joystick num joy' d) as [d1 |] eqn:Hset.
  2: { exfalso. apply array_get_Some in Hjoy as [? Hjoy].
       pose proof (lookup_lt_Some _ _ _ Hjoy).
       unfold set_joystick in Hset. by rewrite array_set_in in Hset by lia. }
  cbn [mbind option_bind].
  destruct (drained_frame cs joy joy' Hd) as (_ & _ & _ & _ & Hdev & _).
  destruct (same_but_table_set_joystick num joy joy' d d1 Hjoy Hdev Hset)
    as (Hsb & Hother).
  pose proof (driver_ok_set_joystick num joy' d d1 Hok Hwf' Hset) as Hok1.
  eexists _, true. split; [reflexivity |].
  split; [by split |].
  destruct scheduled.
  - split; [by apply driver_ok_acquire_scheduled |].
    split; [exact Hsb |]. split; [exact Hother |].
    intros [? | ?]; [done | lia].
  - split; [exact Hok1 |]. split; [exact Hsb |]. split; [exact Hother |].
    intros [? | ?]; [done | lia].
Qed.

(** X12: one round of the background thread on a driver that is in order
    never faults, whatever wake-up value the wait returns and whatever the
    backend answers to the drain.  The loop is left exactly on the stop
    event.  The round touches the record of the device it was woken for and
    nothing else: the other table entries, the count, the wakers and the
    resources are the same, and a wake-up value that is neither the stop
    event nor an enumerated device (a failed or abandoned wait) changes
    nothing at all. *)
Theorem thread_round_is_safe_and_local (result : Z) (hr : HRESULT)
    (pending : list DIDEVICEOBJECTDATA) (d : DRIVER) :
  driver_ok d →
  ∃ d' continue,
    joydx_thread_proc_round result hr pending d = Some (d', continue)
    ∧ (continue = false ↔ result = WAIT_OBJECT_0)
    ∧ driver_ok d'
    ∧ joydx_num_joysticks d' = joydx_num_joysticks d
    ∧ joydx_thread_wakers d' = joydx_thread_wakers d
    ∧ open_handles d' = open_handles d
    ∧ open_references d' = open_references d
    ∧ (∀ k, k ≠ int_of_DWORD (result - WAIT_OBJECT_0 - 1) →
            array_get (joydx_joystick d') k = array_get (joydx_joystick d) k)
    ∧ (result = WAIT_OBJECT_0
       ∨ ¬ (0 ≤ int_of_DWORD (result - WAIT_OBJECT_0 - 1)
            < joydx_num_joysticks d) → d' = d).
Proof.
  intros Hok.
  destruct (thread_round_ok result hr pending d Hok)
    as (d' & c & Hrun & Hc & Hok' & (_ & Hn & _ & Hw & Hh & Hr & _) & Hother
        & Hsame).
  exists d', c. by repeat (split; [done |]).
Qed.

(** X13: a drain that fails leaves the driver as it was, and a device that
    is lost or not acquired is re-acquired.  When the thread is woken for a
    taken device and the backend answers the read of the buffer with an
    error, no record changes; exactly when the error is "not acquired" or
    "input lost" one call of the acquire function is scheduled on the window
    thread. *)
Theorem failed_drain_schedules_reacquire (result : Z) (hr : HRESULT)
    (pending : list DIDEVICEOBJECTDATA) (d : DRIVER) :
  let num := int_of_DWORD (result - WAIT_OBJECT_0 - 1) in
  result ≠ WAIT_OBJECT_0 →
  0 ≤ num < joydx_num_joysticks d →
  gotten <$> array_get (joydx_joystick d) num = Some true →
  hr ≠ DI_OK → hr ≠ DI_BUFFEROVERFLOW →
  joydx_thread_proc_round result hr pending d
  = Some (match hr with
          | DIERR_NOTACQUIRED | DIERR_INPUTLOST =>
              set_acquire_scheduled (S (acquire_scheduled d)) d
          | _ => d
          end, true).
Proof.
  intros num Hgo Hnum Hgot Hok Hover. unfold joydx_thread_proc_round.
  destruct (Z.eqb_spec result WAIT_OBJECT_0); [done |]. fold num.
  destruct (Z.ltb_spec num 0); [lia |].
  destruct (Z.geb_spec num (joydx_num_joysticks d)); [lia |].
  cbn [orb].
  destruct (array_get (joydx_joystick d) num) as [joy |] eqn:Hjoy;
    [| discriminate].
  injection Hgot as Hgot.
  cbn [mbind option_bind]. rewrite Hgot.
  unfold update_joystick.
  destruct hr; try done; cbn [HRESULT_eqb negb andb orb mbind option_bind];
    by rewrite (set_joystick_same num joy d Hjoy).
Qed.

Lemma device_wf_facade (g : bool) (e : AL_EVENT_SOURCE)
    (joy : AL_JOYSTICK_DIRECTX) :
  device_wf joy → device_wf (set_gotten g (set_es e joy)).
Proof. intros H. exact H. Qed.

Lemma set_joystick_total (num : Z) (joy joy' : AL_JOYSTICK_DIRECTX) (d : DRIVER) :
  array_get (joydx_joystick d) num = Some joy →
  ∃ d', set_joystick num joy' d = Some d'.
Proof.
  intros Hjoy. apply array_get_Some in Hjoy as [? Hjoy].
  pose proof (lookup_lt_Some _ _ _ Hjoy).
  unfold set_joystick. rewrite array_set_in by lia. by eexists.
Qed.

(** A step of the primary thread or of the framework on an enumerated
    device: only its record changes, and only in the taken flag and the
    event source. *)
Lemma facade_step_ok (num : Z) (d : DRIVER)
    (f : AL_JOYSTICK_DIRECTX → AL_JOYSTICK_DIRECTX) :
  driver_ok d → 0 ≤ num < joydx_num_joysticks d →
  (∀ joy, ∃ g e, f joy = set_gotten g (set_es e joy)) →
  ∃ joy d',
    array_get (joydx_joystick d) num = Some joy
    ∧ set_joystick num (f joy) d = Some d'
    ∧ driver_ok d' ∧ same_but_table d d'
    ∧ ∀ k, k ≠ num →
           array_get (joydx_joystick d') k = array_get (joydx_joystick d) k.
Proof.
  intros Hok Hnum Hf.
  destruct (driver_ok_lookup d num Hok Hnum) as (joy & Hjoy & Hwf).
  destruct (set_joystick_total num joy (f joy) d Hjoy) as [d' Hset].
  destruct (Hf joy) as (g & e & Hfj).
  exists joy, d'. split; [done |]. split; [done |].
  split.
  { eapply driver_ok_set_joystick; [exact Hok | | exact Hset].
    rewrite Hfj. by apply device_wf_facade. }
  eapply same_but_table_set_joystick; [exact Hjoy | | exact Hset].
  by rewrite Hfj.
Qed.

Lemma step_ok (s : STEP) (d : DRIVER) :
  driver_ok d → valid_step d s →
  ∃ d', step s d = Some d' ∧ driver_ok d' ∧ same_but_table d d'.
Proof.
  intros Hok Hvalid. destruct s as [num | num | result hr pending | num needs free];
    cbn [step valid_step] in *.
  - destruct (facade_step_ok num d
                (λ joy, set_gotten true
                          (set_es (_al_event_source_init (es (parent joy))) joy))
                Hok Hvalid) as (joy & d' & Hjoy & Hset & Hok' & Hsb & _);
      [by eexists _, _ |].
    exists d'. unfold joydx_get_joystick. rewrite Hjoy. by cbn.
  - destruct (facade_step_ok num d
                (λ joy, set_es (_al_event_source_free
                                  (es (parent (set_gotten false joy))))
                          (set_gotten false joy))
                Hok Hvalid) as (joy & d' & Hjoy & Hset & Hok' & Hsb & _);
      [by eexists false, _ |].
    exists d'. unfold joydx_release_joystick. rewrite Hjoy. by cbn.
  - destruct (thread_round_ok result hr pending d Hok)
      as (d' & c & Hrun & _ & Hok' & Hsb & _).
    exists d'. rewrite Hrun. by cbn.
  - destruct (facade_step_ok num d
                (λ joy, set_es (framework needs free (es (parent joy))) joy)
                Hok Hvalid) as (joy & d' & Hjoy & Hset & Hok' & Hsb & _).
    { intros joy. exists (gotten joy), (framework needs free (es (parent joy))).
      by destruct joy. }
    exists d'. rewrite Hjoy. by cbn.
Qed.

Lemma run_ok (steps : list STEP) :
  ∀ d, driver_ok d → Forall (valid_step d) steps →
       ∃ d', run steps d = Some d' ∧ driver_ok d' ∧ same_but_table d d'.
Proof.
  induction steps as [|s steps IH]; intros d Hok Hvalid.
  - exists d. split; [done |]. split; [done |]. apply same_but_table_refl.
  - apply Forall_cons in Hvalid as [Hs Hvalid].
    destruct (step_ok s d Hok Hs) as (d1 & Hstep & Hok1 & Hsb1).
    destruct (IH d1 Hok1) as (d2 & Hrun & Hok2 & Hsb2).
    { eapply Forall_impl; [exact Hvalid |]. intros s'.
      destruct Hsb1 as (_ & Hn & _). unfold valid_step. by rewrite Hn. }
    exists d2. cbn [run]. rewrite Hstep. cbn [mbind option_bind].
    split; [exact Hrun |]. split; [exact Hok2 |].
    by eapply same_but_table_trans.
Qed.

(** X14: a running driver never faults.  From a driver that is in order,
    any interleaving of takes and releases of enumerated devices, rounds of
    the background thread with any wake-up value and any answer of the
    backend, and changes of the framework to the event sources runs to its
    end, every step inside the bounds of every array, and leaves a driver
    that is in order, with the same device count, wakers, DirectInput
    pointer, device pointers and open resources. *)
Theorem running_driver_never_faults (steps : list STEP) (d : DRIVER) :
  driver_ok d →
  Forall (valid_step d) steps →
  ∃ d',
    run steps d = Some d'
    ∧ driver_ok d'
    ∧ joydx_num_joysticks d' = joydx_num_joysticks d
    ∧ joydx_thread_wakers d' = joydx_thread_wakers d
    ∧ joystick_dinput d' = joystick_dinput d
    ∧ map device (joydx_joystick d') = map device (joydx_joystick d)
    ∧ open_handles d' = open_handles d
    ∧ open_references d' = open_references d.
Proof.
  intros Hok Hvalid.
  destruct (run_ok steps d Hok Hvalid)
    as (d' & Hrun & Hok' & H1 & H2 & H3 & H4 & H5 & H6 & H7).
  exists d'. by repeat (split; [done |]).
Qed.

(** X15: taking a device and releasing it gives the device back as it was
    but for its event source.  On an entry of the device table that is not
    taken the take succeeds, sets the taken flag and initialises the event
    source; the release that follows clears the flag and tears the source
    down.  The schema, the mapping table, the device pointer and the
    snapshot are not touched by either (the state read after the take is the
    one the device had before), no other device changes, and the rest of the
    driver is the same. *)
Theorem take_then_release (num : Z) (d : DRIVER) :
  gotten <$> array_get (joydx_joystick d) num = Some false →
  ∃ joy d1 d2,
    array_get (joydx_joystick d) num = Some joy
    ∧ joydx_get_joystick num d = Some d1
    ∧ gotten <$> array_get (joydx_joystick d1) num = Some true
    ∧ joydx_get_state num d1 = Some (joystate joy)
    ∧ joydx_release_joystick num d1 = Some d2
    ∧ array_get (joydx_joystick d2) num
      = Some (set_es (_al_event_source_free (es (parent joy))) joy)
    ∧ (∀ k, k ≠ num →
            array_get (joydx_joystick d2) k = array_get (joydx_joystick d) k)
    ∧ same_but_table d d2.
Proof.
  intros Hnot.
  assert (∃ joy, array_get (joydx_joystick d) num = Some joy
                 ∧ gotten joy = false) as (joy & Hjoy & Hfree).
  { destruct (array_get (joydx_joystick d) num) as [joy |]; [| discriminate].
    exists joy. split; [done |]. by injection Hnot. }
  clear Hnot.
  assert (0 ≤ num) as Hnum by (apply array_get_Some in Hjoy; lia).
  set (joy1 := set_gotten true
                 (set_es (_al_event_source_init (es (parent joy))) joy)).
  destruct (set_joystick_total num joy joy1 d Hjoy) as [d1 Htake].
  pose proof (set_joystick_lookup num num joy1 d d1 Htake) as Hget1.
  rewrite decide_True in Hget1 by done. specialize (Hget1 Hnum).
  set (joy2 := set_es (_al_event_source_free
                         (es (parent (set_gotten false joy1))))
                 (set_gotten false joy1)).
  destruct (set_joystick_total num joy1 joy2 d1 Hget1) as [d2 Hrel].
  pose proof (set_joystick_lookup num num joy2 d1 d2 Hrel Hnum) as Hget2.
  rewrite decide_True in Hget2 by done.
  destruct (same_but_table_set_joystick num joy joy1 d d1 Hjoy eq_refl Htake)
    as (Hsb1 & Ho1).
  destruct (same_but_table_set_joystick num joy1 joy2 d1 d2 Hget1 eq_refl Hrel)
    as (Hsb2 & Ho2).
  exists joy, d1, d2. split; [exact Hjoy |].
  split; [unfold joydx_get_joystick; by rewrite Hjoy |].
  split; [by rewrite Hget1 |].
  split; [unfold joydx_get_state; by rewrite Hget1 |].
  split; [unfold joydx_release_joystick; by rewrite Hget1 |].
  split; [rewrite Hget2; subst joy2 joy1; destruct joy as [[] ? ? ? ? ? ? ? ? ? ? ? ?];
          cbn in Hfree; by subst |].
  split; [intros k Hk; by rewrite Ho2, Ho1 |].
  by eapply same_but_table_trans.
Qed.

(** X16: the thread leaves its loop at the stop event and nowhere else.
    On a driver that is in order the thread handles the wake-ups in turn
    without a fault and goes on waiting as long as none of them is the stop
    event; at the stop event it leaves the loop at once, the driver being
    as the wake-ups before it left it, and the wake-ups that come later are
    not handled. *)
Theorem thread_stops_at_stop_event (before after : list WAKEUP)
    (stop : WAKEUP) (d : DRIVER) :
  driver_ok d →
  Forall (λ w, wake_result w ≠ WAIT_OBJECT_0) before →
  wake_result stop = WAIT_OBJECT_0 →
  ∃ d',
    joydx_thread_proc before d = Some (d', true)
    ∧ joydx_thread_proc (before ++ stop :: after) d = Some (d', false)
    ∧ driver_ok d'.
Proof.
  intros Hok Hbefore Hstop. revert d Hok.
  induction Hbefore as [|w before Hw _ IH]; intros d Hok.
  - exists d. split; [done |]. split; [| done].
    cbn [app joydx_thread_proc]. unfold joydx_thread_proc_round.
    rewrite Hstop. by cbn.
  - destruct (thread_round_ok (wake_result w) (wake_hr w) (wake_pending w) d Hok)
      as (d1 & c & Hrun & Hc & Hok1 & _).
    destruct c; [| by destruct (proj1 Hc eq_refl)].
    destruct (IH d1 Hok1) as (d' & H1 & H2 & Hok').
    exists d'. cbn [app joydx_thread_proc]. rewrite Hrun.
    cbn [mbind option_bind]. split; [exact H1 |]. split; [exact H2 | exact Hok'].
Qed.

(** ** The device enumeration *)

(** The record built for any list of objects is well formed. *)
Lemma enumerated_spec (objs : list DIDEVICEOBJECTINSTANCE) :
  ∃ can,
    enum_objects objs zero_caps = Some can
    ∧ caps_wf can
    ∧ fill_joystick_info_using_caps_and_names (set_caps can zero_joystick)
      = Some (enumerated objs)
    ∧ device_wf (enumerated objs).
Proof.
  destruct (enum_objects_wf objs zero_caps zero_caps_wf) as (can & Hcan & Hwf).
  destruct (fill_joystick_info_layout can Hwf)
    as (joy & Hfill & Hjoy & Hok & Hcaps & _).
  exists can. split; [done |]. split; [done |].
  assert (enumerated objs = joy) as ->.
  { unfold enumerated. rewrite Hcan. cbn [mbind option_bind]. by rewrite Hfill. }
  split; [done |]. split; [done |].
  unfold layout_okb in Hok.
  apply andb_prop in Hok as [Hok Hp]. apply andb_prop in Hok as [_ Hs].
  apply Nat.eqb_eq in Hp, Hs. by rewrite Hcaps.
Qed.

Lemma device_wf_record (n : Z) (a : DEVICE_ANSWERS) :
  device_wf (device_record n a).
Proof.
  destruct (enumerated_spec (a_objects a)) as (_ & _ & _ & _ & H). exact H.
Qed.

(** The callback on a controller whose set-up succeeds, up to the
    increment of the count. *)
Lemma joystick_enum_callback_succeeds (a : DEVICE_ANSWERS) (d : DRIVER) :
  driver_wfb d = true →
  joydx_num_joysticks d < MAX_JOYSTICKS →
  JOYSTICK_WAKER (joydx_num_joysticks d) d = Some NULL →
  setup_fails a = false →
  ∃ dk,
    joystick_enum_callback a d
    = Some (set_joydx_num_joysticks (joydx_num_joysticks d + 1) dk,
            DIENUM_CONTINUE)
    ∧ mid_setup d (a_temp a) (waker_of a)
        (device_record (joydx_num_joysticks d) a) dk.
Proof.
  intros Hwf Hroom Hwaker Hgood.
  destruct (setup_bounds d Hwf Hroom Hwaker) as (Hn & Hlt & Hlw & _).
  unfold joystick_enum_callback. cbv zeta.
  pose proof (mid_initial d Hwf Hroom Hwaker) as M0.
  set (d0 := set_joydx_joystick _ d) in *.
  assert (set_joystick (joydx_num_joysticks d) zero_joystick d = Some d0)
    as -> by (unfold set_joystick; by rewrite array_set_in by lia).
  cbn [mbind option_bind].
  unfold setup_fails in Hgood.
  repeat (apply orb_false_elim in Hgood as [Hgood ?]).
  repeat match goal with
         | H : FAILED _ = false |- _ => rewrite H; clear H
         end.
  pose proof (mid_query d (a_dinput_device1 a) (a_temp a) true _ _ M0) as M1.
  cbv iota in M1. set (d1 := Release _ _) in *.
  rewrite (mid_array_get d Hwf Hroom Hwaker _ _ _ _ M1).
  cbn [mbind option_bind].
  destruct (enumerated_spec (a_objects a)) as (can & Hcan & Hcanwf & Hfill & _).
  change (caps_and_names zero_joystick) with zero_caps. rewrite Hcan.
  cbn [mbind option_bind].
  destruct (mid_set_joystick d Hwf Hroom Hwaker _ _ _
              (set_caps can zero_joystick) _ M1) as (d2 & Hd2 & M2).
  rewrite Hd2. cbn [mbind option_bind].
  rewrite (mid_array_get d Hwf Hroom Hwaker _ _ _ _ M2).
  cbn [mbind option_bind]. rewrite Hfill. cbn [mbind option_bind].
  destruct (mid_set_joystick d Hwf Hroom Hwaker _ _ _
              (device_record (joydx_num_joysticks d) a) _ M2)
    as (d3 & Hd3 & M3).
  unfold device_record in Hd3 at 1. rewrite Hd3. cbn [mbind option_bind].
  destruct (mid_created d Hwf Hroom Hwaker _ (a_CreateEvent a) _ _ M3)
    as (d4 & Hd4 & M4).
  rewrite Hd4. cbn [mbind option_bind]. unfold waker_of.
  destruct (HRESULT_eqb (a_SetEventNotification a) DI_POLLEDDEVICE) eqn:Hpolled.
  - rewrite (mid_waker d Hwf Hroom Hwaker _ _ _ _ M4).
    cbn [mbind option_bind].
    destruct (mid_timer d Hwf Hroom Hwaker _ _ (a_CreateWaitableTimer a) _ _ M4)
      as (d5 & Hd5 & M5).
    rewrite Hd5. cbn [mbind option_bind].
    rewrite (mid_waker d Hwf Hroom Hwaker _ _ _ _ M5).
    cbn [mbind option_bind].
    match goal with
    | H : _ && _ = false |- _ => cbn [andb] in H; rewrite H
    end.
    by exists d5.
  - by exists d4.
Qed.

Lemma outside_set_joystick (n : Z) (joy : AL_JOYSTICK_DIRECTX) (d d' : DRIVER) :
  set_joystick n joy d = Some d' →
  outside_enumeration d' = outside_enumeration d.
Proof. intros H. by apply set_joystick_Some in H as [_ ->]. Qed.

Lemma outside_set_JOYSTICK_WAKER (n : Z) (h : HANDLE) (d d' : DRIVER) :
  set_JOYSTICK_WAKER n h d = Some d' →
  outside_enumeration d' = outside_enumeration d.
Proof.
  unfold set_JOYSTICK_WAKER. destruct (array_set _ _ _); [| discriminate].
  cbn. by intros [= <-].
Qed.

Lemma outside_resources (p : Z) (d : DRIVER) :
  outside_enumeration (referenced p d) = outside_enumeration d
  ∧ outside_enumeration (Release p d) = outside_enumeration d
  ∧ outside_enumeration (created p d) = outside_enumeration d
  ∧ outside_enumeration (CloseHandle p d) = outside_enumeration d.
Proof.
  unfold referenced, Release, created, CloseHandle.
  by destruct (p =? NULL).
Qed.

Lemma outside_Error (dev : Z) (d d' : DRIVER) (r : DIENUM) :
  Error dev d = Some (d', r) →
  outside_enumeration d' = outside_enumeration d.
Proof.
  unfold Error. destruct (JOYSTICK_WAKER _ d) as [w |]; [| discriminate].
  cbn [mbind option_bind].
  destruct (negb (w =? NULL)).
  - destruct (set_JOYSTICK_WAKER _ _ _) as [d1 |] eqn:E; [| discriminate].
    apply outside_set_JOYSTICK_WAKER in E.
    destruct (outside_resources w d) as (_ & _ & _ & Hc). rewrite Hc in E.
    cbn [mbind option_bind]. intros [= <- _].
    destruct (negb (dev =? NULL)); [| done].
    destruct (outside_resources dev d1) as (_ & Hr & _). by rewrite Hr.
  - cbn [mbind option_bind]. intros [= <- _].
    destruct (negb (dev =? NULL)); [| done].
    by destruct (outside_resources dev d) as (_ & -> & _).
Qed.

(** The callback leaves the DirectInput pointer, the thread handle and the
    scheduled calls alone. *)
Lemma joystick_enum_callback_outside (a : DEVICE_ANSWERS) (d d' : DRIVER)
    (r : DIENUM) :
  joystick_enum_callback a d = Some (d', r) →
  outside_enumeration d' = outside_enumeration d.
Proof.
  unfold joystick_enum_callback. cbv zeta. intros H.
  repeat match type of H with
         | mbind _ ?x = Some _ =>
             let E := fresh "E" in
             destruct x eqn:E; [| discriminate H]; cbn [mbind option_bind] in H
         | (if ?b then _ else _) = Some _ => destruct b eqn:?
         end.
  all: repeat match goal with
         | E : set_joystick _ _ _ = Some _ |- _ =>
             apply outside_set_joystick in E
         | E : set_JOYSTICK_WAKER _ _ _ = Some _ |- _ =>
             apply outside_set_JOYSTICK_WAKER in E
         | E : Error _ _ = Some _ |- _ => apply outside_Error in E
         | E : Some _ = Some _ |- _ => injection E as <- <-
         end.
  all: repeat match goal with
         | E : context [outside_enumeration (referenced ?p ?d)] |- _ =>
             rewrite (proj1 (outside_resources p d)) in E
         | E : context [outside_enumeration (Release ?p ?d)] |- _ =>
             rewrite (proj1 (proj2 (outside_resources p d))) in E
         | E : context [outside_enumeration (created ?p ?d)] |- _ =>
             rewrite (proj1 (proj2 (proj2 (outside_resources p d)))) in E
         | E : context [outside_enumeration (CloseHandle ?p ?d)] |- _ =>
             rewrite (proj2 (proj2 (proj2 (outside_resources p d)))) in E
         end.
  all: try (unfold outside_enumeration in *; cbn in *; congruence).
Qed.

Lemma filter_nonnull_one (x : Z) :
  filter (λ h, h ≠ NULL) [x] = if x =? NULL then [] else [x].
Proof.
  rewrite filter_cons, filter_nil.
  destruct (Z.eqb_spec x NULL); case_decide; done.
Qed.

Lemma take_S_insert {A} (l : list A) (i : nat) (x : A) :
  (i < length l)%nat → take (S i) (<[i := x]> l) = take i l ++ [x].
Proof.
  intros Hi. rewrite (take_S_r _ _ x) by (by apply list_lookup_insert_eq).
  by rewrite take_insert_ge by lia.
Qed.

(** One call of the callback keeps the driver in order. *)
Lemma joystick_enum_callback_inv (a : DEVICE_ANSWERS) (d : DRIVER) :
  enum_inv d →
  joydx_num_joysticks d < MAX_JOYSTICKS →
  ∃ d',
    joystick_enum_callback a d = Some (d', DIENUM_CONTINUE)
    ∧ enum_inv d'
    ∧ joydx_num_joysticks d'
      = joydx_num_joysticks d + (if setup_fails a then 0 else 1)
    ∧ outside_enumeration d' = outside_enumeration d
    ∧ array_get (joydx_thread_wakers d') 0 = array_get (joydx_thread_wakers d) 0
    ∧ (∀ k, 0 ≤ k < joydx_num_joysticks d →
            array_get (joydx_joystick d') k = array_get (joydx_joystick d) k
            ∧ JOYSTICK_WAKER k d' = JOYSTICK_WAKER k d)
    ∧ (setup_fails a = false →
       array_get (joydx_joystick d') (joydx_num_joysticks d)
       = Some (device_record (joydx_num_joysticks d) a)
       ∧ JOYSTICK_WAKER (joydx_num_joysticks d) d' = Some (waker_of a)).
Proof.
  intros ((Hwf & Hall) & Hspare & (Hbh & Hbr)) Hroom.
  destruct (driver_wf_inv d Hwf) as (Hlt & Hlw & Hn).
  assert (JOYSTICK_WAKER (joydx_num_joysticks d) d = Some NULL) as Hwaker
    by (apply Hspare; lia).
  unfold MAX_JOYSTICKS in Hroom.
  set (n := joydx_num_joysticks d) in *.
  assert (joydx_thread_wakers d !! S (Z.to_nat n) = Some NULL) as Hw.
  { unfold JOYSTICK_WAKER in Hwaker. apply array_get_Some in Hwaker as [_ Hw].
    by replace (Z.to_nat (1 + n)) with (S (Z.to_nat n)) in Hw by lia. }
  assert (∀ (l : list Z) (x : Z) k, 0 ≤ k < 1 + n →
            array_get (<[Z.to_nat (1 + n) := x]> l) k = array_get l k) as Hlow.
  { intros l x k Hk. unfold array_get. destruct (0 <=? k); [| done].
    apply list_lookup_insert_ne. lia. }
  assert (∀ (joy : AL_JOYSTICK_DIRECTX) k, 0 ≤ k < n →
            array_get (<[Z.to_nat n := joy]> (joydx_joystick d)) k
            = array_get (joydx_joystick d) k) as Hlowt.
  { intros joy k Hk. unfold array_get. destruct (0 <=? k); [| done].
    apply list_lookup_insert_ne. lia. }
  destruct (setup_fails a) eqn:Hfail.
  - destruct (joystick_enum_callback_fails a d Hwf) as (d' & joy & Hrun & M);
      [done | done | done |].
    pose proof (joystick_enum_callback_outside a d d' _ Hrun) as Hout.
    destruct M as (M1 & M2 & M3 & M4 & M5). fold n in M1, M2, M3.
    change (NULL =? NULL) with true in M4, M5. cbv iota in M4, M5.
    assert (joydx_thread_wakers d' = joydx_thread_wakers d) as Hwk.
    { rewrite M3. apply list_insert_id.
      by replace (Z.to_nat (1 + n)) with (S (Z.to_nat n)) by lia. }
    exists d'. split; [exact Hrun |].
    split; [| split; [lia | split; [exact Hout | split; [by rewrite Hwk |
      split; [| done]]]]].
    + split; [split |].
      * unfold driver_wfb. rewrite M1, M2, Hwk, length_insert.
        exact Hwf.
      * intros k joy' Hk. rewrite M1 in Hk. rewrite M2, Hlowt by lia.
        by apply Hall.
      * split.
        -- intros k Hk. unfold JOYSTICK_WAKER. rewrite Hwk. apply Hspare.
           rewrite M1 in Hk. exact Hk.
        -- split.
           ++ unfold held_handles. by rewrite M4, M1, Hwk.
           ++ unfold held_references. injection Hout as -> _ _.
              by rewrite M5, M1, M2, take_insert_ge.
    + intros k Hk. unfold JOYSTICK_WAKER. rewrite Hwk. split; [| done].
      rewrite M2. by apply Hlowt.
  - destruct (joystick_enum_callback_succeeds a d Hwf) as (dk & Hrun & M);
      [done | done | done |].
    pose proof (joystick_enum_callback_outside a d _ _ Hrun) as Hout.
    destruct M as (M1 & M2 & M3 & M4 & M5). fold n in Hrun, M1, M2, M3.
    set (d' := set_joydx_num_joysticks (n + 1) dk) in *.
    exists d'. split; [exact Hrun |].
    assert (Z.to_nat (1 + n) = S (Z.to_nat n)) as HS by lia.
    assert (Z.to_nat (n + 1) = S (Z.to_nat n)) as HS1 by lia.
    assert (Z.to_nat (1 + (n + 1)) = S (S (Z.to_nat n))) as HS2 by lia.
    split; [| split; [cbn; lia | split; [exact Hout | split; [| split]]]].
    + split; [split |].
      * unfold driver_wfb, MAX_JOYSTICKS. subst d'.
        cbn [set_joydx_num_joysticks joydx_joystick joydx_thread_wakers
             joydx_num_joysticks].
        rewrite M2, M3, !length_insert, Hlt, Hlw.
        repeat (apply andb_true_intro; split); try done; lia.
      * intros k joy' Hk. cbn in Hk |- *. rewrite M2.
        destruct (decide (k = n)) as [-> | Hne].
        -- rewrite array_get_set_eq by lia. intros [= <-].
           apply device_wf_record.
        -- rewrite Hlowt by lia. apply Hall. lia.
      * split.
        -- intros k Hk. unfold JOYSTICK_WAKER. cbn in Hk |- *. rewrite M3.
           unfold array_get. destruct (Z.leb_spec 0 (1 + k)); [| lia].
           rewrite list_lookup_insert_ne by lia.
           specialize (Hspare k). unfold JOYSTICK_WAKER, array_get in Hspare.
           destruct (Z.leb_spec 0 (1 + k)); [| lia].
           apply Hspare. fold n. unfold MAX_JOYSTICKS in *. lia.
        -- split.
           ++ unfold held_handles. cbn. rewrite M4, M3, HS, HS2.
              rewrite take_S_insert by lia. rewrite filter_app.
              unfold held_handles in Hbh. fold n in Hbh. rewrite HS in Hbh.
              rewrite filter_nonnull_one.
              destruct (waker_of a =? NULL).
              ** by rewrite app_nil_r.
              ** rewrite Hbh. apply Permutation_cons_append.
           ++ unfold held_references. injection Hout as Hdi _ _.
              subst d'.
              cbn [set_joydx_num_joysticks joystick_dinput joydx_num_joysticks
                   joydx_joystick open_references] in Hdi |- *.
              rewrite Hdi.
              rewrite M5, M2, HS1. rewrite take_S_insert by lia.
              rewrite fmap_app. cbn [fmap list_fmap].
              change (device (device_record n a)) with (a_temp a).
              unfold held_references in Hbr. fold n in Hbr.
              rewrite app_comm_cons, filter_app, filter_nonnull_one.
              destruct (a_temp a =? NULL).
              ** by rewrite app_nil_r.
              ** rewrite Hbr. apply Permutation_cons_append.
    + subst d'. cbn [set_joydx_num_joysticks joydx_thread_wakers].
      rewrite M3. apply Hlow. lia.
    + intros k Hk. unfold JOYSTICK_WAKER. subst d'.
      cbn [set_joydx_num_joysticks joydx_thread_wakers joydx_joystick].
      rewrite M2, M3. split; [by apply Hlowt | apply Hlow; lia].
    + intros _. unfold JOYSTICK_WAKER. subst d'.
      cbn [set_joydx_num_joysticks joydx_thread_wakers joydx_joystick].
      rewrite M2, M3. split; apply array_get_set_eq; lia.
Qed.

Lemma set_up_cons (a : DEVICE_ANSWERS) (attached : list DEVICE_ANSWERS) :
  set_up (a :: attached)
  = if setup_fails a then set_up attached else a :: set_up attached.
Proof.
  unfold set_up. rewrite filter_cons.
  destruct (setup_fails a); by case_decide.
Qed.

Lemma length_set_up (attached : list DEVICE_ANSWERS) :
  (length (set_up attached) ≤ length attached)%nat.
Proof. apply length_filter. Qed.

(** The enumeration of at most as many controllers as the table has room
    for. *)
Lemma IDirectInput_EnumDevices_inv (attached : list DEVICE_ANSWERS) :
  ∀ d,
    enum_inv d →
    joydx_num_joysticks d + Z.of_nat (length attached) ≤ MAX_JOYSTICKS →
    ∃ d',
      IDirectInput_EnumDevices attached d = Some d'
      ∧ enum_inv d'
      ∧ joydx_num_joysticks d'
        = joydx_num_joysticks d + Z.of_nat (length (set_up attached))
      ∧ outside_enumeration d' = outside_enumeration d
      ∧ array_get (joydx_thread_wakers d') 0
        = array_get (joydx_thread_wakers d) 0
      ∧ (∀ k, 0 ≤ k < joydx_num_joysticks d →
              array_get (joydx_joystick d') k = array_get (joydx_joystick d) k
              ∧ JOYSTICK_WAKER k d' = JOYSTICK_WAKER k d)
      ∧ (∀ (i : nat) a, set_up attached !! i = Some a →
           let k := joydx_num_joysticks d + Z.of_nat i in
           array_get (joydx_joystick d') k = Some (device_record k a)
           ∧ JOYSTICK_WAKER k d' = Some (waker_of a)).
Proof.
  induction attached as [|a attached IH]; intros d Hinv Hroom.
  - exists d. cbn. split; [done |]. split; [done |]. split; [lia |].
    by repeat split.
  - cbn [length] in Hroom.
    destruct (joystick_enum_callback_inv a d Hinv)
      as (d1 & Hrun & Hinv1 & Hn1 & Hout1 & Hstop1 & Hlow1 & Hnew1); [lia |].
    destruct (IH d1 Hinv1)
      as (d2 & Hrun2 & Hinv2 & Hn2 & Hout2 & Hstop2 & Hlow2 & Hnew2).
    { rewrite Hn1. destruct (setup_fails a); lia. }
    destruct Hinv as ((Hwf & _) & _).
    destruct (driver_wf_inv d Hwf) as (_ & _ & Hn).
    exists d2. cbn [IDirectInput_EnumDevices]. rewrite Hrun.
    cbn [mbind option_bind]. split; [exact Hrun2 |]. split; [exact Hinv2 |].
    rewrite set_up_cons.
    split; [rewrite Hn2, Hn1; destruct (setup_fails a); cbn [length]; lia |].
    split; [by rewrite Hout2 |]. split; [by rewrite Hstop2 |].
    split.
    { intros k Hk. destruct (Hlow1 k Hk) as [<- <-]. apply Hlow2.
      rewrite Hn1. destruct (setup_fails a); lia. }
    intros i a' Hi. cbv zeta.
    destruct (setup_fails a) eqn:Hfail.
    + rewrite Z.add_0_r in Hn1. rewrite <- Hn1. by apply Hnew2.
    + destruct i as [|i]; cbn in Hi.
      * injection Hi as <-. rewrite Z.add_0_r.
        destruct (Hnew1 eq_refl) as [<- <-]. apply Hlow2. lia.
      * replace (joydx_num_joysticks d + Z.of_nat (S i))
          with (joydx_num_joysticks d1 + Z.of_nat i) by lia.
        by apply Hnew2.
Qed.

Lemma enum_inv_initial : enum_inv initial_driver.
Proof.
  split; [split |].
  - done.
  - intros k joy Hk. cbn in Hk. lia.
  - split.
    + intros k Hk. cbn in Hk. unfold MAX_JOYSTICKS in Hk.
      assert (k = 0 ∨ k = 1 ∨ k = 2 ∨ k = 3 ∨ k = 4 ∨ k = 5 ∨ k = 6 ∨ k = 7)
        as Hcases by lia.
      by repeat destruct Hcases as [-> | Hcases]; subst.
    + by split.
Qed.


(** ** Shutdown *)

(** ** Shutdown *)

Lemma remove_one_elem (x : Z) (l : list Z) :
  x ∈ l → l ≡ₚ x :: remove_one x l.
Proof.
  induction l as [|y l IH]; intros Hin; [by apply elem_of_nil in Hin |].
  cbn [remove_one]. destruct (Z.eqb_spec x y) as [-> | Hne]; [done |].
  apply elem_of_cons in Hin as [-> | Hin]; [done |].
  rewrite (IH Hin) at 1. apply Permutation_swap.
Qed.

Lemma remove_one_perm (x : Z) (l m : list Z) :
  l ≡ₚ x :: m → remove_one x l ≡ₚ m.
Proof.
  intros Hp. apply (Permutation_cons_inv (a := x)).
  rewrite <- remove_one_elem; [done |].
  rewrite Hp. apply elem_of_cons. by left.
Qed.

(** Closing the handle, or releasing the reference, at the head of what is
    answered for. *)
Lemma release_head (x : Z) (open l rest : list Z) :
  open ≡ₚ filter (λ h, h ≠ NULL) (x :: l) ++ rest →
  (if x =? NULL then open else remove_one x open)
  ≡ₚ filter (λ h, h ≠ NULL) l ++ rest.
Proof.
  rewrite filter_cons. destruct (Z.eqb_spec x NULL) as [-> | Hne].
  - by rewrite decide_False by (by intros ?).
  - rewrite decide_True by done. apply remove_one_perm.
Qed.

Lemma FREE_all_loop (n : nat) :
  ∀ (i : nat) (l : list (option string)),
    (i + n ≤ length l)%nat →
    for_loop n (Z.of_nat i)
      (λ k l, x ← array_get l k; array_set l k (FREE x)) l
    = Some (take i l ++ replicate n None ++ drop (i + n) l).
Proof.
  induction n as [|n IH]; intros i l Hlen.
  - cbn. by rewrite Nat.add_0_r, take_drop.
  - cbn [for_loop].
    destruct (array_get_in l (Z.of_nat i)) as [x Hx]; [lia |].
    rewrite Hx. cbn [mbind option_bind]. rewrite array_set_in by lia.
    cbn [mbind option_bind]. rewrite Nat2Z.id.
    replace (Z.of_nat i + 1) with (Z.of_nat (S i)) by lia.
    rewrite IH by (rewrite length_insert; lia). f_equal.
    rewrite take_S_insert by lia. rewrite drop_insert_lt by lia.
    replace (FREE x) with (@None string) by (by destruct x).
    rewrite <- app_assoc. cbn [app replicate].
    by replace (S i + n)%nat with (i + S n)%nat by lia.
Qed.

Lemma FREE_all_total (max : Z) (name : list (option string)) :
  length name = Z.to_nat max →
  FREE_all max name = Some (replicate (Z.to_nat max) None).
Proof.
  intros Hlen. unfold FREE_all. rewrite (FREE_all_loop _ 0 name) by lia.
  cbn [take app]. rewrite drop_ge by (cbn; lia). by rewrite app_nil_r.
Qed.

Lemma free_caps_and_names_strings_total (can : CAPS_AND_NAMES) :
  caps_wf can →
  ∃ can', free_caps_and_names_strings can = Some can'
          ∧ names_all_null can' = true
          ∧ num_buttons can' = num_buttons can.
Proof.
  intros ((_ & Hs) & (_ & Hp) & (_ & Hb)). unfold free_caps_and_names_strings.
  cbv zeta. cbn [FREE_axis_names name_slider].
  rewrite FREE_all_total by done. cbn [mbind option_bind].
  cbn [set_sliders name_pov]. rewrite FREE_all_total by done.
  cbn [mbind option_bind]. cbn [set_povs name_button].
  rewrite FREE_all_total by done. cbn [mbind option_bind].
  eexists. split; [reflexivity |]. split; [| done].
  unfold names_all_null. cbn.
  by destruct (name_x can), (name_y can), (name_z can), (name_rx can),
    (name_ry can), (name_rz can).
Qed.

(** One device destroyed. *)
Lemma destroy_device_spec (i : nat) (d : DRIVER) (joy : AL_JOYSTICK_DIRECTX)
    (w : HANDLE) :
  joydx_joystick d !! i = Some joy →
  joydx_thread_wakers d !! S i = Some w →
  caps_wf (caps_and_names joy) →
  ∃ can d',
    destroy_device (Z.of_nat i) d = Some d'
    ∧ names_all_null can = true
    ∧ joydx_joystick d' = <[i := set_caps can joy]> (joydx_joystick d)
    ∧ joydx_thread_wakers d' = <[S i := NULL]> (joydx_thread_wakers d)
    ∧ open_references d'
      = (if device joy =? NULL then open_references d
         else remove_one (device joy) (open_references d))
    ∧ open_handles d'
      = (if w =? NULL then open_handles d else remove_one w (open_handles d))
    ∧ joydx_num_joysticks d' = joydx_num_joysticks d
    ∧ outside_enumeration d' = outside_enumeration d.
Proof.
  intros Hjoy Hw Hcaps.
  pose proof (lookup_lt_Some _ _ _ Hjoy) as Hi.
  pose proof (lookup_lt_Some _ _ _ Hw) as Hiw.
  destruct (free_caps_and_names_strings_total _ Hcaps) as (can & Hfree & Hnull & _).
  unfold destroy_device.
  assert (array_get (joydx_joystick d) (Z.of_nat i) = Some joy) as ->
    by (apply array_get_Some; rewrite Nat2Z.id; split; [lia | done]).
  cbn [mbind option_bind]. rewrite Hfree. cbn [mbind option_bind].
  unfold set_joystick, JOYSTICK_WAKER, set_JOYSTICK_WAKER.
  assert (∀ p, joydx_joystick (Release p d) = joydx_joystick d) as Ht
    by (intros p; unfold Release; by destruct (p =? NULL)).
  assert (∀ p, joydx_thread_wakers (Release p d) = joydx_thread_wakers d) as Hk
    by (intros p; unfold Release; by destruct (p =? NULL)).
  rewrite array_set_in by (rewrite Ht; lia). cbn [mbind option_bind].
  cbn [set_joydx_joystick joydx_thread_wakers]. rewrite Hk.
  replace (Z.to_nat (Z.of_nat i)) with i by lia.
  assert (array_get (joydx_thread_wakers d) (1 + Z.of_nat i) = Some w) as ->.
  { apply array_get_Some. split; [lia |].
    by replace (Z.to_nat (1 + Z.of_nat i)) with (S i) by lia. }
  cbn [mbind option_bind].
  assert (∀ h d0, joydx_thread_wakers (CloseHandle h d0) = joydx_thread_wakers d0)
    as Hc by (intros h d0; unfold CloseHandle; by destruct (h =? NULL)).
  rewrite array_set_in by (rewrite Hc; cbn; rewrite Hk; lia).
  cbn [mbind option_bind].
  replace (Z.to_nat (1 + Z.of_nat i)) with (S i) by lia.
  exists can. eexists. split; [reflexivity |]. split; [exact Hnull |].
  unfold CloseHandle, Release, outside_enumeration.
  destruct (w =? NULL), (device joy =? NULL); by cbn; rewrite ?Ht.
Qed.

(** The loop that destroys the devices [i] to [n - 1]. *)
Lemma destroy_devices_loop (m : nat) :
  ∀ (i : nat) (d : DRIVER),
    length (joydx_joystick d) = 8%nat →
    length (joydx_thread_wakers d) = 9%nat →
    (i + m ≤ 8)%nat →
    (∀ k joy, (i ≤ k < i + m)%nat → joydx_joystick d !! k = Some joy →
              caps_wf (caps_and_names joy)) →
    ∃ d',
      for_loop m (Z.of_nat i) destroy_device d = Some d'
      ∧ length (joydx_joystick d') = 8%nat
      ∧ length (joydx_thread_wakers d') = 9%nat
      ∧ joydx_num_joysticks d' = joydx_num_joysticks d
      ∧ outside_enumeration d' = outside_enumeration d
      ∧ (∀ k, (k < S i)%nat →
           joydx_thread_wakers d' !! k = joydx_thread_wakers d !! k)
      ∧ (∀ k, (S i ≤ k < S (i + m))%nat →
           joydx_thread_wakers d' !! k = Some NULL)
      ∧ (∀ k, (S (i + m) ≤ k)%nat →
           joydx_thread_wakers d' !! k = joydx_thread_wakers d !! k)
      ∧ (∀ k, (k < i)%nat → joydx_joystick d' !! k = joydx_joystick d !! k)
      ∧ (∀ k joy', (i ≤ k < i + m)%nat → joydx_joystick d' !! k = Some joy' →
           names_all_null (caps_and_names joy') = true)
      ∧ (∀ rest, open_handles d
                 ≡ₚ filter (λ h, h ≠ NULL)
                      (take m (drop (S i) (joydx_thread_wakers d))) ++ rest →
                 open_handles d' ≡ₚ rest)
      ∧ (∀ rest, open_references d
                 ≡ₚ filter (λ p, p ≠ NULL)
                      (map device (take m (drop i (joydx_joystick d)))) ++ rest →
                 open_references d' ≡ₚ rest).
Proof.
  induction m as [|m IH]; intros i d Ht Hw Him Hcaps.
  - exists d. cbn [for_loop]. split; [done |]. split; [done |].
    split; [done |]. split; [done |]. split; [done |]. split; [done |].
    split; [intros; lia |]. split; [done |]. split; [done |].
    split; [intros; lia |].
    split; intros rest; by rewrite take_0.
  - destruct (lookup_lt_is_Some_2 (joydx_joystick d) i) as [joy Hjoy]; [lia |].
    destruct (lookup_lt_is_Some_2 (joydx_thread_wakers d) (S i)) as [w Hwi];
      [lia |].
    destruct (destroy_device_spec i d joy w Hjoy Hwi)
      as (can & d1 & Hrun & Hnull & Ht1 & Hw1 & Hr1 & Hh1 & Hn1 & Ho1).
    { eapply (Hcaps i); [lia | done]. }
    destruct (IH (S i) d1)
      as (d' & Hrun' & Ht' & Hw' & Hn' & Ho' & Hlow & Hnul & Habove & Hbelow
          & Hnames & Hh' & Hr').
    { by rewrite Ht1, length_insert. }
    { by rewrite Hw1, length_insert. }
    { lia. }
    { intros k joy' Hk. rewrite Ht1, list_lookup_insert_ne by lia.
      apply Hcaps. lia. }
    exists d'. cbn [for_loop]. rewrite Hrun. cbn [mbind option_bind].
    replace (Z.of_nat i + 1) with (Z.of_nat (S i)) by lia.
    split; [exact Hrun' |]. split; [exact Ht' |]. split; [exact Hw' |].
    split; [congruence |]. split; [congruence |].
    split.
    { intros k Hk. rewrite Hlow by lia. rewrite Hw1.
      apply list_lookup_insert_ne. lia. }
    split.
    { intros k Hk. destruct (decide (k = S i)) as [-> | Hne].
      - rewrite Hlow by lia. rewrite Hw1. apply list_lookup_insert_eq.
        change (S i < length (joydx_thread_wakers d))%nat. lia.
      - apply Hnul. lia. }
    split.
    { intros k Hk. rewrite Habove by lia. rewrite Hw1.
      apply list_lookup_insert_ne. lia. }
    split.
    { intros k Hk. rewrite Hbelow by lia. rewrite Ht1.
      apply list_lookup_insert_ne. lia. }
    split.
    { intros k joy' Hk Hjoy'. destruct (decide (k = i)) as [-> | Hne].
      - rewrite Hbelow, Ht1, list_lookup_insert_eq in Hjoy' by lia.
        by injection Hjoy' as <-.
      - eapply Hnames; [| exact Hjoy']. lia. }
    split.
    + intros rest Hopen. apply Hh'. rewrite Hh1, Hw1.
      rewrite drop_insert_lt by lia.
      rewrite (drop_S _ _ _ Hwi) in Hopen. cbn [take] in Hopen.
      by apply release_head.
    + intros rest Hopen. apply Hr'. rewrite Hr1, Ht1.
      rewrite drop_insert_lt by lia.
      rewrite (drop_S _ _ _ Hjoy) in Hopen. cbn [take map] in Hopen.
      by apply release_head.
Qed.

Lemma array_get_nat {A} (l : list A) (k : nat) :
  array_get l (Z.of_nat k) = l !! k.
Proof.
  unfold array_get. destruct (Z.leb_spec 0 (Z.of_nat k)); [| lia].
  by rewrite Nat2Z.id.
Qed.

Lemma array_get_lookup {A} (l : list A) (k : Z) :
  0 ≤ k → array_get l k = l !! Z.to_nat k.
Proof. intros Hk. unfold array_get. by destruct (Z.leb_spec 0 k); [| lia]. Qed.

(** The shutdown of a driver that is in order and answers for what is
    open. *)
Lemma joydx_exit_spec (d : DRIVER) :
  driver_ok d → balanced d →
  ∃ d',
    joydx_exit d = Some d'
    ∧ open_handles d' = []
    ∧ open_references d' = []
    ∧ joydx_num_joysticks d' = 0
    ∧ joystick_dinput d' = NULL
    ∧ joydx_thread d' = NULL
    ∧ acquire_scheduled d' = acquire_scheduled d
    ∧ length (joydx_joystick d') = 8%nat
    ∧ length (joydx_thread_wakers d') = 9%nat
    ∧ (∀ k, (k ≤ Z.to_nat (joydx_num_joysticks d))%nat →
            joydx_thread_wakers d' !! k = Some NULL)
    ∧ (∀ k, (Z.to_nat (joydx_num_joysticks d) < k)%nat →
            joydx_thread_wakers d' !! k = joydx_thread_wakers d !! k)
    ∧ (∀ k joy', (k < Z.to_nat (joydx_num_joysticks d))%nat →
                 joydx_joystick d' !! k = Some joy' →
                 names_all_null (caps_and_names joy') = true).
Proof.
  intros (Hwf & Hall) (Hbh & Hbr).
  destruct (driver_wf_inv d Hwf) as (Hlt & Hlw & Hn).
  unfold joydx_exit.
  cbn [set_joydx_thread joydx_thread_wakers joydx_num_joysticks].
  destruct (joydx_thread_wakers d) as [|stop tl] eqn:Hwk; [discriminate |].
  change (array_get (stop :: tl) 0) with (Some stop).
  cbn [mbind option_bind].
  rewrite array_set_in by (cbn [length] in *; lia).
  cbn [mbind option_bind]. change (<[Z.to_nat 0 := NULL]> (stop :: tl))
    with (NULL :: tl).
  set (d1 := set_joydx_thread_wakers _ _).
  set (m := Z.to_nat (joydx_num_joysticks d)).
  assert (joydx_joystick d1 = joydx_joystick d) as Ht1
    by (subst d1; unfold CloseHandle; by destruct (stop =? NULL)).
  assert (joydx_thread_wakers d1 = NULL :: tl) as Hw1 by done.
  assert (joydx_num_joysticks d1 = joydx_num_joysticks d) as Hn1
    by (subst d1; unfold CloseHandle; by destruct (stop =? NULL)).
  assert (open_references d1 = open_references d) as Hr1
    by (subst d1; unfold CloseHandle; by destruct (stop =? NULL)).
  assert (open_handles d1
          = if stop =? NULL then open_handles d
            else remove_one stop (open_handles d)) as Hh1
    by (subst d1; unfold CloseHandle; by destruct (stop =? NULL)).
  assert (outside_enumeration d1 = (joystick_dinput d, NULL, acquire_scheduled d))
    as Ho1 by (subst d1; unfold CloseHandle; by destruct (stop =? NULL)).
  rewrite Hn1. fold m.
  destruct (destroy_devices_loop m 0 d1)
    as (d2 & Hrun & Ht2 & Hw2 & Hn2 & Ho2 & Hlow & Hnul & Habove & _ & Hnames
        & Hh2 & Hr2).
  { by rewrite Ht1. }
  { rewrite Hw1. exact Hlw. }
  { lia. }
  { intros k joy Hk Hjoy. rewrite Ht1 in Hjoy.
    destruct (Hall (Z.of_nat k) joy) as (_ & _ & _ & Hcaps); [lia | | done].
    by rewrite array_get_nat. }
  change (Z.of_nat 0) with 0 in Hrun. rewrite Hrun. cbn [mbind option_bind].
  eexists. split; [reflexivity |].
  rewrite Ho1 in Ho2. injection Ho2 as Hdi Hth Hacq.
  assert (open_handles d2 ≡ₚ []) as Hh.
  { apply Hh2. rewrite Hh1, Hw1. cbn [drop].
    apply (release_head stop _ (take m tl) []). rewrite app_nil_r, Hbh.
    unfold held_handles.
    replace (Z.to_nat (1 + joydx_num_joysticks d)) with (S m) by lia.
    by rewrite Hwk. }
  assert (open_references d2
          ≡ₚ filter (λ p, p ≠ NULL) [joystick_dinput d] ++ []) as Hr.
  { apply Hr2. rewrite Hr1, Ht1, Hbr. unfold held_references. fold m.
    cbn [drop]. rewrite app_nil_r, <- filter_app. apply filter_Permutation.
    apply Permutation_cons_append. }
  apply Permutation_nil_r in Hh.
  apply (release_head (joystick_dinput d) _ [] []) in Hr.
  rewrite filter_nil in Hr. apply Permutation_nil_r in Hr.
  unfold Release. rewrite Hdi.
  split; [by destruct (joystick_dinput d =? NULL) |].
  split; [unfold Release in Hr; by destruct (joystick_dinput d =? NULL) |].
  split; [by destruct (joystick_dinput d =? NULL) |].
  split; [by destruct (joystick_dinput d =? NULL) |].
  split; [by destruct (joystick_dinput d =? NULL) |].
  split; [by destruct (joystick_dinput d =? NULL) |].
  split; [by destruct (joystick_dinput d =? NULL) |].
  split; [by destruct (joystick_dinput d =? NULL) |].
  assert (∀ k, joydx_thread_wakers
                 (set_joydx_num_joysticks 0
                    (set_joystick_dinput NULL
                       (if joystick_dinput d =? NULL then d2
                        else set_open_references
                               (remove_one (joystick_dinput d)
                                  (open_references d2)) d2))) !! k
               = joydx_thread_wakers d2 !! k) as Hsamew
    by (intros k; by destruct (joystick_dinput d =? NULL)).
  assert (∀ k, joydx_joystick
                 (set_joydx_num_joysticks 0
                    (set_joystick_dinput NULL
                       (if joystick_dinput d =? NULL then d2
                        else set_open_references
                               (remove_one (joystick_dinput d)
                                  (open_references d2)) d2))) !! k
               = joydx_joystick d2 !! k) as Hsamet
    by (intros k; by destruct (joystick_dinput d =? NULL)).
  split; [| split].
  - intros k Hk. rewrite Hsamew. destruct k as [|k].
    + rewrite Hlow by lia. by rewrite Hw1.
    + apply Hnul. lia.
  - intros k Hk. rewrite Hsamew. rewrite Habove by lia. rewrite Hw1.
    destruct k; [lia | done].
  - intros k joy' Hk. rewrite Hsamet. apply Hnames. lia.
Qed.

(** ** Start-up and the life of the driver *)

(** ** Start-up *)

(** The driver once [DirectInputCreate] has handed out the interface. *)
Lemma enum_inv_dinput (p : Z) :
  enum_inv (referenced p (set_joystick_dinput p initial_driver)).
Proof.
  destruct enum_inv_initial as ((Hwf & _) & Hspare & _).
  unfold referenced. destruct (Z.eqb_spec p NULL) as [-> | Hp].
  - split; [split |]; [done | intros k joy Hk; cbn in Hk; lia |].
    split; [exact Hspare | by split].
  - split; [split |]; [done | intros k joy Hk; cbn in Hk; lia |].
    split; [exact Hspare |]. split; [done |].
    unfold held_references. cbn. by rewrite decide_True by done.
Qed.

(** The enumeration [joydx_init] runs. *)
Lemma joydx_init_enumeration (a : SYSTEM_ANSWERS) :
  (length (a_attached a) ≤ 8)%nat →
  ∃ d,
    IDirectInput_EnumDevices (a_attached a)
      (referenced (a_joystick_dinput a)
         (set_joystick_dinput (a_joystick_dinput a) initial_driver)) = Some d
    ∧ enum_inv d
    ∧ joydx_num_joysticks d = Z.of_nat (length (set_up (a_attached a)))
    ∧ outside_enumeration d = (a_joystick_dinput a, NULL, O)
    ∧ array_get (joydx_thread_wakers d) 0 = Some NULL.
Proof.
  intros Hlen.
  destruct (IDirectInput_EnumDevices_inv (a_attached a) _
              (enum_inv_dinput (a_joystick_dinput a)))
    as (d & Hrun & Hinv & Hn & Hout & Hstop & _).
  { unfold referenced, MAX_JOYSTICKS.
    destruct (a_joystick_dinput a =? NULL); cbn; lia. }
  exists d. split; [exact Hrun |]. split; [exact Hinv |].
  unfold referenced in Hn, Hout, Hstop.
  destruct (a_joystick_dinput a =? NULL); cbn in Hn, Hout, Hstop; by rewrite ?Hn.
Qed.

(** The driver after the start of the thread. *)
Lemma enum_inv_started (d : DRIVER) (stop thread : HANDLE) :
  enum_inv d →
  array_get (joydx_thread_wakers d) 0 = Some NULL →
  ∃ l,
    array_set (joydx_thread_wakers d) 0 stop = Some l
    ∧ enum_inv (set_joydx_thread thread
                  (set_joydx_thread_wakers l (created stop d))).
Proof.
  intros ((Hwf & Hall) & Hspare & (Hbh & Hbr)) Hstop.
  destruct (driver_wf_inv d Hwf) as (Hlt & Hlw & Hn).
  destruct (joydx_thread_wakers d) as [|w0 tl] eqn:Hwk; [discriminate |].
  injection Hstop as ->.
  rewrite array_set_in by (cbn [length] in *; lia).
  eexists. split; [reflexivity |].
  change (<[Z.to_nat 0 := stop]> (NULL :: tl)) with (stop :: tl).
  split; [split |]; [| | split; [| split]].
  - unfold driver_wfb, created in *. rewrite Hwk in Hwf.
    by destruct (stop =? NULL).
  - intros k joy Hk Hjoy. apply (Hall k joy).
    + unfold created in Hk. by destruct (stop =? NULL).
    + unfold created in Hjoy. by destruct (stop =? NULL).
  - intros k Hk. specialize (Hspare k). unfold JOYSTICK_WAKER in *.
    rewrite Hwk in Hspare. unfold created in *.
    assert (0 ≤ joydx_num_joysticks d) by lia.
    assert (joydx_num_joysticks d ≤ k < MAX_JOYSTICKS) as Hk'
      by (by destruct (stop =? NULL)).
    specialize (Hspare Hk'). cbn [joydx_thread_wakers set_joydx_thread
      set_joydx_thread_wakers].
    rewrite array_get_lookup in Hspare |- * by lia.
    destruct (Z.to_nat (1 + k)) eqn:Hk1; [lia | exact Hspare].
  - unfold held_handles in *. rewrite Hwk in Hbh.
    assert (Z.to_nat (1 + joydx_num_joysticks d)
            = S (Z.to_nat (joydx_num_joysticks d))) as HS by lia.
    rewrite HS in Hbh. cbn [take] in Hbh.
    rewrite filter_cons, decide_False in Hbh by (by intros ?).
    unfold created. destruct (Z.eqb_spec stop NULL) as [-> | Hne];
      cbn [set_joydx_thread set_joydx_thread_wakers open_handles
           set_open_handles joydx_num_joysticks joydx_thread_wakers];
      rewrite HS; cbn [take]; rewrite filter_cons.
    + by rewrite decide_False by (by intros ?).
    + rewrite decide_True by done. by rewrite Hbh.
  - unfold held_references, created in *. by destruct (stop =? NULL).
Qed.

(** [joydx_init] on the initial driver, case by case. *)
Lemma joydx_init_spec (a : SYSTEM_ANSWERS) :
  (length (a_attached a) ≤ 8)%nat →
  ∃ dE,
    IDirectInput_EnumDevices (a_attached a)
      (referenced (a_joystick_dinput a)
         (set_joystick_dinput (a_joystick_dinput a) initial_driver)) = Some dE
    ∧ enum_inv dE
    ∧ joydx_num_joysticks dE = Z.of_nat (length (set_up (a_attached a)))
    ∧ outside_enumeration dE = (a_joystick_dinput a, NULL, O)
    ∧ array_get (joydx_thread_wakers dE) 0 = Some NULL
    ∧ ∃ l,
        array_set (joydx_thread_wakers dE) 0 (a_STOP_EVENT a) = Some l
        ∧ enum_inv (set_joydx_thread (a_beginthread a)
                      (set_joydx_thread_wakers l (created (a_STOP_EVENT a) dE)))
        ∧ joydx_init a initial_driver
          = Some (if _dx_ver a <? 1280 then (initial_driver, false)
                  else if FAILED (a_DirectInputCreate a)
                  then (initial_driver, false)
                  else if FAILED (a_EnumDevices a)
                  then (Release (joystick_dinput dE) dE, false)
                  else if joydx_num_joysticks dE =? 0 then (dE, false)
                  else (set_joydx_thread (a_beginthread a)
                          (set_joydx_thread_wakers l
                             (created (a_STOP_EVENT a) dE)), true)).
Proof.
  intros Hlen.
  destruct (joydx_init_enumeration a Hlen)
    as (dE & Hrun & Hinv & Hn & Hout & Hstop).
  destruct (enum_inv_started dE (a_STOP_EVENT a) (a_beginthread a) Hinv Hstop)
    as (l & Hl & Hinv').
  exists dE. split; [exact Hrun |]. split; [exact Hinv |].
  split; [exact Hn |]. split; [exact Hout |]. split; [exact Hstop |].
  exists l. split; [exact Hl |]. split; [exact Hinv' |].
  unfold joydx_init. destruct (_dx_ver a <? 1280); [done |].
  destruct (FAILED (a_DirectInputCreate a)); [done |].
  rewrite Hrun. cbn [mbind option_bind].
  destruct (FAILED (a_EnumDevices a)); [done |].
  destruct (joydx_num_joysticks dE =? 0); [done |].
  rewrite Hl. by cbn [mbind option_bind].
Qed.

(** X18: what [joydx_init] returns and leaves.  With at most eight
    controllers attached, [joydx_init] on the initial driver returns true
    exactly when DirectX is recent enough, the DirectInput interface could
    be created, the enumeration reported no error and at least one
    controller could be set up.  The driver it leaves is then in order: the
    count is the number of controllers that were set up, the stop event is
    in cell 0 of the wakers, the thread is started, and the handles and
    references that are open are exactly those the driver holds in its
    wakers, its device records and its DirectInput pointer.  When DirectX is
    too old or DirectInput cannot be created, nothing is touched. *)
Theorem joydx_init_outcome (a : SYSTEM_ANSWERS) :
  (length (a_attached a) ≤ 8)%nat →
  ∃ d ok,
    joydx_init a initial_driver = Some (d, ok)
    ∧ (ok = true ↔
       1280 ≤ _dx_ver a
       ∧ FAILED (a_DirectInputCreate a) = false
       ∧ FAILED (a_EnumDevices a) = false
       ∧ set_up (a_attached a) ≠ [])
    ∧ (ok = true →
       driver_ok d
       ∧ balanced d
       ∧ joydx_get_num_joysticks d
         = Z.of_nat (length (set_up (a_attached a)))
       ∧ joystick_dinput d = a_joystick_dinput a
       ∧ joydx_thread d = a_beginthread a
       ∧ array_get (joydx_thread_wakers d) 0 = Some (a_STOP_EVENT a))
    ∧ (_dx_ver a < 1280 ∨ FAILED (a_DirectInputCreate a) = true →
       d = initial_driver).
Proof.
  intros Hlen.
  destruct (joydx_init_spec a Hlen)
    as (dE & _ & _ & Hn & Hout & _ & l & Hl & (Hok & _ & Hbal) & Hrun).
  rewrite Hrun. clear Hrun.
  assert ((joydx_num_joysticks dE =? 0) = true ↔ set_up (a_attached a) = [])
    as Hnone.
  { rewrite Z.eqb_eq, Hn. destruct (set_up (a_attached a)); cbn; split;
      (done || lia). }
  destruct (Z.ltb_spec (_dx_ver a) 1280) as [Hold | Hnew].
  { eexists _, _. split; [reflexivity |].
    split; [split; [done | lia] |]. split; done. }
  destruct (FAILED (a_DirectInputCreate a)) eqn:Hcreate.
  { eexists _, _. split; [reflexivity |].
    split; [split; [done | by intros (_ & ? & _)] |]. split; done. }
  destruct (FAILED (a_EnumDevices a)) eqn:Henum.
  { eexists _, _. split; [reflexivity |].
    split; [split; [done | by intros (_ & _ & ? & _)] |].
    split; [done |]. intros [? | ?]; [lia | done]. }
  destruct (joydx_num_joysticks dE =? 0) eqn:Hzero.
  { eexists _, _. split; [reflexivity |].
    split; [split; [done | intros (_ & _ & _ & Hne); exfalso; apply Hne;
                    by apply Hnone] |].
    split; [done |]. intros [? | ?]; [lia | done]. }
  eexists _, _. split; [reflexivity |].
  split.
  { split; [intros _ | done]. repeat split; try done.
    intros Hnil. apply Hnone in Hnil. congruence. }
  split; [| intros [? | ?]; [lia | done]].
  intros _. split; [exact Hok |]. split; [exact Hbal |].
  apply array_set_Some in Hl as [Hl0 ->].
  injection Hout as Hdi _ _.
  unfold joydx_get_num_joysticks, created.
  destruct (a_STOP_EVENT a =? NULL);
    (split; [exact Hn |]); (split; [exact Hdi |]); (split; [done |]);
    cbn [set_joydx_thread set_joydx_thread_wakers joydx_thread_wakers];
    by apply array_get_set_eq.
Qed.

(** X19: a start-up that finds no usable controller keeps the DirectInput
    interface.  When the interface was created, the enumeration reported no
    error and no controller could be set up, [joydx_init] returns false with
    the interface still referenced and [joystick_dinput] still pointing to
    it; no device is counted, no handle is open and no thread is started. *)
Theorem joydx_init_without_controller_keeps_dinput (a : SYSTEM_ANSWERS) :
  (length (a_attached a) ≤ 8)%nat →
  1280 ≤ _dx_ver a →
  FAILED (a_DirectInputCreate a) = false →
  a_joystick_dinput a ≠ NULL →
  FAILED (a_EnumDevices a) = false →
  set_up (a_attached a) = [] →
  ∃ d,
    joydx_init a initial_driver = Some (d, false)
    ∧ joystick_dinput d = a_joystick_dinput a
    ∧ open_references d = [a_joystick_dinput a]
    ∧ open_handles d = []
    ∧ joydx_get_num_joysticks d = 0
    ∧ joydx_thread d = NULL.
Proof.
  intros Hlen Hver Hcreate Hp Henum Hnone.
  destruct (joydx_init_spec a Hlen)
    as (dE & _ & (_ & _ & Hbh & Hbr) & Hn & Hout & Hstop & l & _ & _ & Hrun).
  rewrite Hrun, Hcreate, Henum. clear Hrun.
  destruct (Z.ltb_spec (_dx_ver a) 1280); [lia |].
  rewrite Hnone in Hn. cbn [length Z.of_nat] in Hn. rewrite Hn.
  change (0 =? 0) with true. cbv iota.
  exists dE. split; [done |]. injection Hout as Hdi Hth _.
  unfold held_handles, held_references in *. rewrite Hn, Hdi in *.
  change (Z.to_nat _) with 0%nat in Hbr. rewrite take_0 in Hbr.
  cbn [map] in Hbr.
  rewrite filter_cons, filter_nil, decide_True in Hbr by done.
  symmetry in Hbr. apply Permutation_length_1_inv in Hbr.
  change (Z.to_nat (1 + _)) with 1%nat in Hbh.
  destruct (joydx_thread_wakers dE) as [|w0 tl] eqn:Hwk; [discriminate |].
  injection Hstop as ->. cbn [take] in Hbh.
  rewrite filter_cons, decide_False in Hbh by (by intros ?).
  rewrite ?take_0, filter_nil in Hbh.
  apply Permutation_nil_r in Hbh.
  by repeat split.
Qed.

(** X20: the shutdown gives back everything the driver holds.  On a driver
    that is in order and whose open handles and references are those it
    answers for, [joydx_exit] runs to its end and leaves no handle and no
    reference open; the count is zero, the DirectInput pointer and the
    thread handle are null, the stop event and the waker of every device
    are null, and every name string of every device is freed. *)
Theorem joydx_exit_releases_everything (d : DRIVER) :
  driver_ok d →
  balanced d →
  ∃ d',
    joydx_exit d = Some d'
    ∧ open_handles d' = []
    ∧ open_references d' = []
    ∧ joydx_get_num_joysticks d' = 0
    ∧ joystick_dinput d' = NULL
    ∧ joydx_thread d' = NULL
    ∧ (∀ k, 0 ≤ k ≤ joydx_num_joysticks d →
            array_get (joydx_thread_wakers d') k = Some NULL)
    ∧ (∀ k joy', 0 ≤ k < joydx_num_joysticks d →
                 array_get (joydx_joystick d') k = Some joy' →
                 names_all_null (caps_and_names joy') = true).
Proof.
  intros Hok Hbal.
  destruct (joydx_exit_spec d Hok Hbal)
    as (d' & Hrun & Hh & Hr & Hn & Hdi & Hth & _ & _ & _ & Hw & _ & Hnames).
  exists d'. split; [exact Hrun |]. split; [exact Hh |]. split; [exact Hr |].
  split; [exact Hn |]. split; [exact Hdi |]. split; [exact Hth |]. split.
  - intros k Hk. rewrite array_get_lookup by lia. apply Hw. lia.
  - intros k joy' Hk. rewrite array_get_lookup by lia. apply Hnames. lia.
Qed.

Lemma balanced_same_but_table (d d' : DRIVER) :
  same_but_table d d' → balanced d → balanced d'.
Proof.
  intros (Hdi & Hn & _ & Hw & Hh & Hr & Hdev) (Hbh & Hbr).
  unfold balanced, held_handles, held_references in *.
  rewrite Hh, Hr, Hn, Hw, Hdi. split; [exact Hbh |].
  change (map device ?l) with (device <$> l) in *.
  by rewrite fmap_take, Hdev, <- fmap_take.
Qed.

(** X21: a whole life of the driver leaves nothing behind.  When
    [joydx_init] has succeeded on the initial driver (with at most eight
    controllers attached), any run of the driver (takes and releases of
    enumerated devices, rounds of the thread with any wake-up and any
    answer of the backend, framework changes) followed by
    [joydx_exit] goes through without a fault and ends with no handle
    and no reference open, no device counted, and the DirectInput pointer,
    the thread handle and all nine waker cells null: the static variables
    are back at their initial values but for the stale device records. *)
Theorem driver_life_cycle_leaves_nothing_open (a : SYSTEM_ANSWERS)
    (steps : list STEP) (d1 : DRIVER) :
  (length (a_attached a) ≤ 8)%nat →
  joydx_init a initial_driver = Some (d1, true) →
  Forall (valid_step d1) steps →
  ∃ d2 d3,
    run steps d1 = Some d2
    ∧ joydx_exit d2 = Some d3
    ∧ open_handles d3 = []
    ∧ open_references d3 = []
    ∧ joydx_num_joysticks d3 = joydx_num_joysticks initial_driver
    ∧ joystick_dinput d3 = joystick_dinput initial_driver
    ∧ joydx_thread d3 = joydx_thread initial_driver
    ∧ joydx_thread_wakers d3 = joydx_thread_wakers initial_driver
    ∧ length (joydx_joystick d3) = length (joydx_joystick initial_driver).
Proof.
  intros Hlen Hinit Hvalid.
  destruct (joydx_init_spec a Hlen)
    as (dE & _ & _ & _ & _ & _ & l & _ & Hinv & Hrun).
  rewrite Hinit in Hrun.
  assert (enum_inv d1) as (Hok1 & Hspare1 & Hbal1).
  { destruct (_dx_ver a <? 1280); [congruence |].
    destruct (FAILED (a_DirectInputCreate a)); [congruence |].
    destruct (FAILED (a_EnumDevices a)); [congruence |].
    destruct (joydx_num_joysticks dE =? 0); [congruence |].
    by injection Hrun as ->. }
  destruct (run_ok steps d1 Hok1 Hvalid) as (d2 & Hrun2 & Hok2 & Hsb).
  pose proof (balanced_same_but_table d1 d2 Hsb Hbal1) as Hbal2.
  destruct (joydx_exit_spec d2 Hok2 Hbal2)
    as (d3 & Hrun3 & Hh & Hr & Hn & Hdi & Hth & _ & Hlt & Hlw & Hw & Hw' & _).
  exists d2, d3. split; [exact Hrun2 |]. split; [exact Hrun3 |].
  split; [exact Hh |]. split; [exact Hr |]. split; [exact Hn |].
  split; [exact Hdi |]. split; [exact Hth |]. split; [| exact Hlt].
  destruct Hsb as (_ & Hn12 & _ & Hw12 & _).
  destruct Hok2 as (Hwf2 & _).
  destruct (driver_wf_inv d2 Hwf2) as (_ & Hlw2 & Hn2).
  apply list_eq. intros k.
  destruct (decide (k ≤ Z.to_nat (joydx_num_joysticks d2))%nat) as [Hk | Hk].
  - rewrite Hw by done. symmetry. apply lookup_replicate_2. unfold MAX_JOYSTICKS. lia.
  - rewrite Hw' by lia. rewrite Hw12.
    destruct (decide (k < 9)%nat) as [Hk9 | Hk9].
    + specialize (Hspare1 (Z.of_nat k - 1)).
      unfold JOYSTICK_WAKER, MAX_JOYSTICKS in Hspare1.
      rewrite array_get_lookup in Hspare1 by lia.
      replace (Z.to_nat (1 + (Z.of_nat k - 1))) with k in Hspare1 by lia.
      rewrite Hspare1 by lia. symmetry. apply lookup_replicate_2. unfold MAX_JOYSTICKS. lia.
    + rewrite lookup_ge_None_2 by (rewrite <- Hw12; lia).
      symmetry. apply lookup_ge_None_2. cbn [initial_driver joydx_thread_wakers].
      rewrite length_replicate. unfold MAX_JOYSTICKS. lia.
Qed.

(** ** Acquisition *)

Lemma each_device_loop (d : DRIVER) (m : nat) :
  ∀ (i : nat) (calls : list Z),
    (i + m ≤ length (joydx_joystick d))%nat →
    for_loop m (Z.of_nat i)
      (λ i calls, joy ← array_get (joydx_joystick d) i;
                  Some (calls ++ [device joy])) calls
    = Some (calls ++ map device (take m (drop i (joydx_joystick d)))).
Proof.
  induction m as [|m IH]; intros i calls Hlen.
  - cbn. by rewrite app_nil_r.
  - cbn [for_loop]. rewrite array_get_nat.
    destruct (lookup_lt_is_Some_2 (joydx_joystick d) i) as [joy Hjoy]; [lia |].
    rewrite Hjoy. cbn [mbind option_bind].
    replace (Z.of_nat i + 1) with (Z.of_nat (S i)) by lia.
    rewrite IH by lia. rewrite (drop_S _ _ _ Hjoy). cbn [take map].
    by rewrite <- app_assoc.
Qed.

Lemma joydx_exit_dinput (d d' : DRIVER) :
  joydx_exit d = Some d' → joystick_dinput d' = NULL.
Proof.
  unfold joydx_exit. intros H.
  repeat match type of H with
         | mbind _ ?x = Some _ =>
             destruct x; [| discriminate H]; cbn [mbind option_bind] in H
         end.
  by injection H as <-.
Qed.

(** X22: acquisition and release of the devices touch the enumerated
    devices and nothing else.  [_al_win_joystick_dinput_acquire] and
    [_al_win_joystick_dinput_unacquire] call the backend on the device
    pointer of every enumerated device, once each and in table order, and
    return 0; when the DirectInput pointer is null (before [joydx_init] and
    after [joydx_exit]) they call nothing, so a re-acquisition that was
    scheduled by the thread and runs after the shutdown touches no released
    device. *)
Theorem acquire_touches_enumerated_devices_only (d : DRIVER) :
  driver_wfb d = true →
  let devices :=
    if joystick_dinput d =? NULL then []
    else map device (take (Z.to_nat (joydx_num_joysticks d)) (joydx_joystick d))
  in
  _al_win_joystick_dinput_acquire d = Some (devices, 0)
  ∧ _al_win_joystick_dinput_unacquire d = Some (devices, 0)
  ∧ ∀ d', joydx_exit d = Some d' →
          _al_win_joystick_dinput_acquire d' = Some ([], 0)
          ∧ _al_win_joystick_dinput_unacquire d' = Some ([], 0).
Proof.
  intros Hwf devices. destruct (driver_wf_inv d Hwf) as (Hlt & _ & Hn).
  assert (each_device d
          = Some (map device
                    (take (Z.to_nat (joydx_num_joysticks d)) (joydx_joystick d))))
    as Heach.
  { unfold each_device. change 0 with (Z.of_nat 0).
    rewrite each_device_loop by (cbn; lia). by cbn. }
  unfold _al_win_joystick_dinput_acquire, _al_win_joystick_dinput_unacquire.
  subst devices. split; [| split].
  - destruct (joystick_dinput d =? NULL); cbn [negb]; by rewrite ?Heach.
  - destruct (joystick_dinput d =? NULL); cbn [negb]; by rewrite ?Heach.
  - intros d' Hexit. by rewrite (joydx_exit_dinput d d' Hexit).
Qed.

(** ** The further theorems at work *)

(** A closed permutation, decided. *)
Ltac by_decision :=
  match goal with |- ?P => apply (@bool_decide_unpack P _) end;
  vm_compute; exact I.

Lemma driver_ok_intro (d : DRIVER) :
  driver_wfb d = true →
  Forall device_wf
    (take (Z.to_nat (joydx_num_joysticks d)) (joydx_joystick d)) →
  driver_ok d.
Proof.
  intros Hwf Hall. split; [exact Hwf |]. intros k joy Hk Hjoy.
  rewrite array_get_lookup in Hjoy by lia.
  eapply (proj1 (Forall_lookup _ _) Hall (Z.to_nat k)).
  rewrite lookup_take_lt by lia. exact Hjoy.
Qed.

(** A closed driver that is in order. *)
Ltac driver_in_order :=
  apply driver_ok_intro; [by_evaluation | vm_compute; repeat constructor; by_evaluation].

(** X4 on the capability map of the flight stick. *)
Lemma layout_mappings_in_schema_witness :
  caps_wf flight_caps
  ∧ ∃ joy',
      fill_joystick_info_using_caps_and_names (set_caps flight_caps zero_joystick)
      = Some joy'
      ∧ num_sticks (info (parent joy')) = 4
      ∧ in_schema joy' (rz_mapping joy').
Proof.
  pose proof (layout_mappings_in_schema flight_caps ltac:(by_evaluation)) as H.
  split; [by_evaluation |].
  destruct H as (joy' & Hrun & _ & Hn & _ & _ & _ & _ & _ & _ & Hrz & _).
  exists joy'. split; [exact Hrun |]. split; [exact Hn |].
  apply Hrz. by_evaluation.
Defined.

(** X5 on the capability map of the flight stick, which has no Z axis. *)
Lemma absent_axis_keeps_zero_mapping_witness :
  caps_wf flight_caps
  ∧ have_z flight_caps = false
  ∧ ∃ joy',
      fill_joystick_info_using_caps_and_names (set_caps flight_caps zero_joystick)
      = Some joy'
      ∧ z_mapping joy' = zero_mapping.
Proof.
  pose proof (absent_axis_keeps_zero_mapping flight_caps ltac:(by_evaluation))
    as H.
  split; [by_evaluation |]. split; [by_evaluation |].
  destruct H as (joy' & Hrun & _ & _ & Hz & _).
  exists joy'. split; [exact Hrun |]. apply Hz. by_evaluation.
Defined.

(** X6 on the pad: a mapping to a third axis of its only stick, and a hat
    delta for a second stick. *)
Lemma handlers_ignore_outside_schema_witness :
  joy_wf (subscribed 10 pad)
  ∧ ¬ in_schema (subscribed 10 pad) {| m_stick := 0; m_axis := 2 |}
  ∧ handle_axis_event (subscribed 10 pad) {| m_stick := 0; m_axis := 2 |} 32767
    = Some (subscribed 10 pad)
  ∧ handle_pov_event (subscribed 10 pad) 1 4500 = Some (subscribed 10 pad).
Proof.
  assert (¬ in_schema (subscribed 10 pad) {| m_stick := 0; m_axis := 2 |})
    as Hout.
  { intros (_ & st & Hst & Hax). vm_compute in Hst. injection Hst as <-.
    vm_compute in Hax. destruct Hax as [_ Hax]. discriminate Hax. }
  pose proof (handlers_ignore_outside_schema (subscribed 10 pad)
                ltac:(by_evaluation)) as [Haxis Hpov].
  split; [by_evaluation |]. split; [exact Hout |].
  split; [exact (Haxis _ 32767 Hout) |].
  apply Hpov. vm_compute. intros [_ H]. discriminate H.
Defined.

(** X7 on the hat device: the hat pushed up and to the right, twice. *)
Lemma repeated_hat_delta_is_noop_witness :
  joy_wf (subscribed 10 hat_device)
  ∧ ∃ joy1,
      handle_pov_event (subscribed 10 hat_device) 0 4500 = Some joy1
      ∧ handle_pov_event joy1 0 4500 = Some joy1.
Proof.
  pose proof (repeated_hat_delta_is_noop (subscribed 10 hat_device) 0 4500
                ltac:(by_evaluation) ltac:(by_evaluation)) as H.
  split; [by_evaluation | exact H].
Defined.

(** X8 on the flight stick and its burst. *)
Lemma update_joystick_safe_schema_frozen_witness :
  device_wf (subscribed 10 flight_stick)
  ∧ ∃ joy' scheduled,
      update_joystick (subscribed 10 flight_stick) DI_OK flight_burst
      = Some (joy', scheduled)
      ∧ device_wf joy'
      ∧ info (parent joy') = info (parent (subscribed 10 flight_stick)).
Proof.
  pose proof (update_joystick_safe_schema_frozen (subscribed 10 flight_stick)
                DI_OK flight_burst ltac:(by_evaluation)) as H.
  split; [by_evaluation |].
  destruct H as (joy' & scheduled & Hrun & Hwf & Hinfo & _).
  exists joy', scheduled. split; [exact Hrun |]. split; [exact Hwf | exact Hinfo].
Defined.

(** X9 on the flight stick and its burst. *)
Lemma update_joystick_keeps_ranges_witness :
  device_wf (subscribed 10 flight_stick)
  ∧ Forall (calibrated (subscribed 10 flight_stick)) (take 10 flight_burst)
  ∧ ∃ joy' scheduled,
      update_joystick (subscribed 10 flight_stick) DI_OK flight_burst
      = Some (joy', scheduled)
      ∧ buttons_0_or_32767 (joystate joy') = true
      ∧ snapshot_in_unit (joystate joy') = true.
Proof.
  assert (Forall (calibrated (subscribed 10 flight_stick)) (take 10 flight_burst))
    as Hcal
    by (change (take 10 flight_burst) with flight_burst; unfold flight_burst;
        repeat (constructor; [unfold calibrated; intros _; by_evaluation |]);
        constructor).
  pose proof (update_joystick_keeps_ranges (subscribed 10 flight_stick)
                DI_OK flight_burst ltac:(by_evaluation)) as H.
  split; [by_evaluation |]. split; [exact Hcal |].
  destruct H as (joy' & scheduled & Hrun & Hb & Hu).
  exists joy', scheduled. split; [exact Hrun |].
  split; [apply Hb; by_evaluation | apply Hu; [exact Hcal | by_evaluation]].
Defined.

(** X10 on the flight stick and its burst. *)
Lemma update_joystick_event_accounting_witness :
  device_wf (subscribed 10 flight_stick)
  ∧ ∃ joy' scheduled new,
      update_joystick (subscribed 10 flight_stick) DI_OK flight_burst
      = Some (joy', scheduled)
      ∧ es_emitted (es (parent joy'))
        = es_emitted (es (parent (subscribed 10 flight_stick))) ++ new
      ∧ (length new ≤ 2 * length (take 10 flight_burst))%nat
      ∧ (es_free (es (parent joy')) + length new
         = es_free (es (parent (subscribed 10 flight_stick))))%nat.
Proof.
  pose proof (update_joystick_event_accounting (subscribed 10 flight_stick)
                DI_OK flight_burst ltac:(by_evaluation)) as H.
  split; [by_evaluation |].
  destruct H as (joy' & scheduled & new & Hrun & Hem & Hlen & _ & Hfree & _).
  exists joy', scheduled, new. split; [exact Hrun |]. split; [exact Hem |].
  split; [exact Hlen | exact Hfree].
Defined.

(** X11 on the flight stick and three stray items. *)
Lemma update_joystick_drops_unknown_items_witness :
  0 ≤ info_num_buttons (info (parent (subscribed 10 flight_stick)))
  ∧ Forall (unknown_offset (subscribed 10 flight_stick)) stray_items
  ∧ ∃ scheduled,
      update_joystick (subscribed 10 flight_stick) DI_OK stray_items
      = Some (subscribed 10 flight_stick, scheduled).
Proof.
  assert (Forall (unknown_offset (subscribed 10 flight_stick)) stray_items)
    as Hstray.
  { constructor; [right; left; by_evaluation |].
    constructor; [right; right; by_evaluation |].
    constructor; [left; by_evaluation | constructor]. }
  pose proof (update_joystick_drops_unknown_items (subscribed 10 flight_stick)
                DI_OK stray_items ltac:(by_evaluation) Hstray) as H.
  split; [by_evaluation |]. split; [exact Hstray | exact H].
Defined.

(** X12 on the running driver, woken for the flight stick. *)
Lemma thread_round_is_safe_and_local_witness :
  driver_ok running_driver
  ∧ ∃ d' continue,
      joydx_thread_proc_round 2 DI_OK flight_burst running_driver
      = Some (d', continue)
      ∧ driver_ok d'
      ∧ array_get (joydx_joystick d') 0
        = array_get (joydx_joystick running_driver) 0.
Proof.
  assert (driver_ok running_driver) as Hok by driver_in_order.
  pose proof (thread_round_is_safe_and_local 2 DI_OK flight_burst
                running_driver Hok) as H.
  split; [exact Hok |].
  destruct H as (d' & c & Hrun & _ & Hok' & _ & _ & _ & _ & Hother & _).
  exists d', c. split; [exact Hrun |]. split; [exact Hok' |].
  apply Hother. by_evaluation.
Defined.

(** X13 on the running driver: the flight stick is lost. *)
Lemma failed_drain_schedules_reacquire_witness :
  gotten <$> array_get (joydx_joystick running_driver) 1 = Some true
  ∧ joydx_thread_proc_round 2 DIERR_INPUTLOST flight_burst running_driver
    = Some (set_acquire_scheduled (S (acquire_scheduled running_driver))
              running_driver, true).
Proof.
  pose proof (failed_drain_schedules_reacquire 2 DIERR_INPUTLOST flight_burst
                running_driver
                ltac:(by_evaluation) ltac:(by_evaluation)
                ltac:(by_evaluation)
                ltac:(discriminate) ltac:(discriminate)) as H.
  split; [by_evaluation | exact H].
Defined.

(** X14 on the started driver and the session. *)
Lemma running_driver_never_faults_witness :
  driver_ok started_driver
  ∧ Forall (valid_step started_driver) session
  ∧ ∃ d',
      run session started_driver = Some d'
      ∧ driver_ok d'
      ∧ open_handles d' = open_handles started_driver.
Proof.
  assert (driver_ok started_driver) as Hok by driver_in_order.
  assert (Forall (valid_step started_driver) session) as Hvalid
    by (repeat constructor; by_evaluation).
  pose proof (running_driver_never_faults session started_driver Hok Hvalid)
    as H.
  split; [exact Hok |]. split; [exact Hvalid |].
  destruct H as (d' & Hrun & Hok' & _ & _ & _ & _ & Hh & _).
  exists d'. split; [exact Hrun |]. split; [exact Hok' | exact Hh].
Defined.

(** X15 on the pad of the started driver. *)
Lemma take_then_release_witness :
  gotten <$> array_get (joydx_joystick started_driver) 0 = Some false
  ∧ ∃ joy d1 d2,
      array_get (joydx_joystick started_driver) 0 = Some joy
      ∧ joydx_get_joystick 0 started_driver = Some d1
      ∧ joydx_get_state 0 d1 = Some (joystate joy)
      ∧ joydx_release_joystick 0 d1 = Some d2
      ∧ array_get (joydx_joystick d2) 0
        = Some (set_es (_al_event_source_free (es (parent joy))) joy).
Proof.
  pose proof (take_then_release 0 started_driver ltac:(by_evaluation)) as H.
  split; [by_evaluation |].
  destruct H as (joy & d1 & d2 & Hjoy & Htake & _ & Hstate & Hrel & Hback & _).
  exists joy, d1, d2. split; [exact Hjoy |]. split; [exact Htake |].
  split; [exact Hstate |]. split; [exact Hrel | exact Hback].
Defined.

(** X16 on the running driver: a burst, the stop event, another burst. *)
Lemma thread_stops_at_stop_event_witness :
  driver_ok running_driver
  ∧ ∃ d',
      joydx_thread_proc
        [{| wake_result := 2; wake_hr := DI_OK; wake_pending := flight_burst |}]
        running_driver = Some (d', true)
      ∧ joydx_thread_proc
          [{| wake_result := 2; wake_hr := DI_OK; wake_pending := flight_burst |};
           {| wake_result := WAIT_OBJECT_0; wake_hr := DI_OK;
              wake_pending := [] |};
           {| wake_result := 2; wake_hr := DI_OK; wake_pending := stray_items |}]
          running_driver = Some (d', false).
Proof.
  assert (driver_ok running_driver) as Hok by driver_in_order.
  pose proof (thread_stops_at_stop_event
                [{| wake_result := 2; wake_hr := DI_OK;
                    wake_pending := flight_burst |}]
                [{| wake_result := 2; wake_hr := DI_OK;
                    wake_pending := stray_items |}]
                {| wake_result := WAIT_OBJECT_0; wake_hr := DI_OK;
                   wake_pending := [] |}
                running_driver Hok
                ltac:(repeat constructor; discriminate) eq_refl) as H.
  split; [exact Hok |].
  destruct H as (d' & H1 & H2 & _). exists d'. split; [exact H1 | exact H2].
Defined.


(** X18 on the three controllers. *)
Lemma joydx_init_outcome_witness :
  (length (a_attached three_controllers) ≤ 8)%nat
  ∧ ∃ d,
      joydx_init three_controllers initial_driver = Some (d, true)
      ∧ driver_ok d
      ∧ balanced d
      ∧ joydx_get_num_joysticks d = 2.
Proof.
  pose proof (joydx_init_outcome three_controllers ltac:(vm_compute; lia)) as H.
  split; [vm_compute; lia |].
  destruct H as (d & ok & Hrun & Hiff & Hgood & _).
  assert (ok = true) as ->.
  { apply Hiff. split; [by_evaluation |]. split; [by_evaluation |].
    split; [by_evaluation |]. vm_compute. discriminate. }
  destruct (Hgood eq_refl) as (Hok & Hbal & Hn & _).
  exists d. split; [exact Hrun |]. split; [exact Hok |]. split; [exact Hbal |].
  exact Hn.
Defined.

(** X19 on the system whose only controller refuses the cooperative
    level. *)
Lemma joydx_init_without_controller_keeps_dinput_witness :
  set_up (a_attached no_usable_controller) = []
  ∧ ∃ d,
      joydx_init no_usable_controller initial_driver = Some (d, false)
      ∧ joystick_dinput d = 9
      ∧ open_references d = [9].
Proof.
  pose proof (joydx_init_without_controller_keeps_dinput no_usable_controller
                ltac:(vm_compute; lia) ltac:(by_evaluation)
                ltac:(by_evaluation) ltac:(discriminate)
                ltac:(by_evaluation) ltac:(by_evaluation)) as H.
  split; [by_evaluation |].
  destruct H as (d & Hrun & Hdi & Hr & _).
  exists d. split; [exact Hrun |]. split; [exact Hdi | exact Hr].
Defined.

(** X20 on the started driver. *)
Lemma joydx_exit_releases_everything_witness :
  driver_ok started_driver
  ∧ balanced started_driver
  ∧ ∃ d',
      joydx_exit started_driver = Some d'
      ∧ open_handles d' = []
      ∧ open_references d' = [].
Proof.
  assert (driver_ok started_driver) as Hok by driver_in_order.
  assert (balanced started_driver) as Hbal by (split; by_decision).
  pose proof (joydx_exit_releases_everything started_driver Hok Hbal) as H.
  split; [exact Hok |]. split; [exact Hbal |].
  destruct H as (d' & Hrun & Hh & Hr & _).
  exists d'. split; [exact Hrun |]. split; [exact Hh | exact Hr].
Defined.

(** X21 on the three controllers and the session. *)
Lemma driver_life_cycle_leaves_nothing_open_witness :
  joydx_init three_controllers initial_driver = Some (started_driver, true)
  ∧ Forall (valid_step started_driver) session
  ∧ ∃ d2 d3,
      run session started_driver = Some d2
      ∧ joydx_exit d2 = Some d3
      ∧ open_handles d3 = []
      ∧ open_references d3 = [].
Proof.
  assert (Forall (valid_step started_driver) session) as Hvalid
    by (repeat constructor; by_evaluation).
  pose proof (driver_life_cycle_leaves_nothing_open three_controllers session
                started_driver ltac:(vm_compute; lia) ltac:(by_evaluation)
                Hvalid) as H.
  split; [by_evaluation |]. split; [exact Hvalid |].
  destruct H as (d2 & d3 & Hrun & Hexit & Hh & Hr & _).
  exists d2, d3. split; [exact Hrun |]. split; [exact Hexit |].
  split; [exact Hh | exact Hr].
Defined.

(** X22 on the started driver. *)
Lemma acquire_touches_enumerated_devices_only_witness :
  driver_wfb started_driver = true
  ∧ _al_win_joystick_dinput_acquire started_driver = Some ([2; 12], 0).
Proof.
  pose proof (acquire_touches_enumerated_devices_only started_driver
                ltac:(by_evaluation)) as (H & _).
  split; [by_evaluation | exact H].
Defined.
(** ** Button deltas outside the schema *)

(** The [default] branch of the dispatch: the button handler is called for
    the indices of the schema and for no other. *)
Lemma dispatch_item_default (item : DIDEVICEOBJECTDATA)
    (joy : AL_JOYSTICK_DIRECTX) :
  let ofs := int_of_DWORD (dwOfs item) in
  case_label ofs = false →
  dispatch_item item joy
  = if decide (0 ≤ button_index ofs < info_num_buttons (info (parent joy)))
    then handle_button_event joy (button_index ofs)
           (negb (Z.land (dwData item) 128 =? 0))
    else Some joy.
Proof.
  unfold dispatch_item, case_label, button_index. cbn [existsb].
  generalize (int_of_DWORD (dwOfs item)). intros ofs Hcase.
  repeat (apply orb_false_elim in Hcase as [? Hcase]).
  repeat match goal with
         | H : (ofs =? ?b) = false |- _ => rewrite H; clear H
         end.
  unfold DIJOFS_BUTTON0, DIJOFS_BUTTON1, DIJOFS_BUTTON.
  change (48 + 1 - (48 + 0)) with 1. rewrite Z.quot_1_r.
  destruct (Z.geb_spec ofs (48 + 0));
    destruct (Z.ltb_spec ofs (48 + info_num_buttons (info (parent joy))));
    cbn [andb]; case_decide; try done; lia.
Qed.

(** C7: a button delta whose index is outside [0, num_buttons) of the
    schema of the device is silently ignored.  Such a delta takes the
    [default] branch of the dispatch, whose guard keeps it from
    [handle_button_event], and the record comes back as it was: the snapshot
    is unchanged and no event is emitted, for one such delta and for a
    buffer of them, whatever the record holds.  The handler is called for
    the indices of the schema and for no other. *)
Theorem out_of_schema_button_is_ignored (joy : AL_JOYSTICK_DIRECTX)
    (hr : HRESULT) (pending : list DIDEVICEOBJECTDATA) :
  Forall (button_outside_schema joy) pending →
  Forall (λ item, dispatch_item item joy = Some joy) pending
  ∧ (∃ scheduled, update_joystick joy hr pending = Some (joy, scheduled))
  ∧ ∀ item,
      let ofs := int_of_DWORD (dwOfs item) in
      case_label ofs = false →
      dispatch_item item joy ≠ Some joy →
      0 ≤ button_index ofs < info_num_buttons (info (parent joy))
      ∧ dispatch_item item joy
        = handle_button_event joy (button_index ofs)
            (negb (Z.land (dwData item) 128 =? 0)).
Proof.
  intros Hall.
  assert (Forall (λ item, dispatch_item item joy = Some joy) pending) as Hone.
  { eapply Forall_impl; [exact Hall |]. intros item [Hcase Hout].
    rewrite dispatch_item_default by exact Hcase. by case_decide. }
  split; [exact Hone |]. split.
  - unfold update_joystick, IDirectInputDevice2_GetDeviceData.
    destruct (negb (HRESULT_eqb hr DI_OK)
              && negb (HRESULT_eqb hr DI_BUFFEROVERFLOW)).
    { destruct (HRESULT_eqb hr DIERR_NOTACQUIRED
                || HRESULT_eqb hr DIERR_INPUTLOST); by eexists. }
    assert (Forall (λ item, dispatch_item item joy = Some joy)
              (take (Z.to_nat DEVICE_BUFFER_SIZE) pending)) as Hbuf
      by (by apply Forall_take).
    destruct (take (Z.to_nat DEVICE_BUFFER_SIZE) pending) as [|item buffer];
      [by eexists |].
    cbn [length]. exists false.
    assert (dispatch_items (item :: buffer) joy = Some joy) as ->; [| done].
    induction Hbuf as [|it l Hit _ IH]; [done |].
    cbn [dispatch_items]. rewrite Hit. exact IH.
  - intros item ofs Hcase Hrun. subst ofs.
    rewrite dispatch_item_default in Hrun |- * by exact Hcase.
    case_decide; [done | by destruct Hrun].
Qed.

(** C7 on the pad, which has four buttons: deltas for button 10, for the
    index -1 and for a negative offset. *)
Lemma out_of_schema_button_is_ignored_witness :
  Forall (button_outside_schema (subscribed 10 pad)) stray_buttons
  ∧ ∃ scheduled,
      update_joystick (subscribed 10 pad) DI_OK stray_buttons
      = Some (subscribed 10 pad, scheduled).
Proof.
  assert (Forall (button_outside_schema (subscribed 10 pad)) stray_buttons)
    as Hall
    by (unfold stray_buttons;
        repeat (constructor; [split; [reflexivity | by_decision] |]);
        constructor).
  split; [exact Hall |].
  exact (proj1 (proj2 (out_of_schema_button_is_ignored (subscribed 10 pad)
                         DI_OK stray_buttons Hall))).
Defined.

(** ** A failed [CreateEvent] *)

(** C8, the defect: the result of [CreateEvent] is not checked.  For a
    controller whose set-up succeeds at every other step and for which
    [CreateEvent] returns null, the callback does not go to [Error]: it
    counts the device, which takes entry 0 of the table with a null wake
    handle and its interface still referenced, and [joydx_init] returns true
    with that device and a null handle in cell 1 of the wakers.  The sibling
    [CreateWaitableTimer] is checked.  On a failure that is checked
    ([SetDataFormat] here) the handle and the interface are given back and
    the device is not counted, but the name duplicated while the objects
    were enumerated stays in the entry: it is not freed. *)
Theorem failed_create_event_is_counted :
  a_CreateEvent eventless_controller = NULL
  ∧ (∃ d,
       joystick_enum_callback eventless_controller initial_driver
       = Some (d, DIENUM_CONTINUE)
       ∧ joydx_num_joysticks d = 1
       ∧ JOYSTICK_WAKER 0 d = Some NULL
       ∧ device <$> array_get (joydx_joystick d) 0
         = Some (a_temp eventless_controller)
       ∧ open_references d = [a_temp eventless_controller])
  ∧ (∃ d,
       joydx_init eventless_system initial_driver = Some (d, true)
       ∧ joydx_get_num_joysticks d = 1
       ∧ array_get (joydx_thread_wakers d) 1 = Some NULL)
  ∧ (∃ d,
       joystick_enum_callback formatless_controller initial_driver
       = Some (d, DIENUM_CONTINUE)
       ∧ joydx_num_joysticks d = 0
       ∧ open_handles d = [] ∧ open_references d = []
       ∧ (name_slider ∘ caps_and_names) <$> array_get (joydx_joystick d) 0
         = Some [Some "Throttle"%string; None]).
Proof.
  split; [reflexivity |].
  split; [eexists; split; [vm_compute; reflexivity |]; by_evaluation |].
  split; [eexists; split; [vm_compute; reflexivity |]; by_evaluation |].
  eexists; split; [vm_compute; reflexivity |]; by_evaluation.
Qed.

(** ** Hat sticks *)

(** The layout keeps the hats apart and does not touch the snapshot, by
    cases on the shape of the capability map. *)
Lemma fill_sticks_hats (can : CAPS_AND_NAMES) :
  caps_wf can →
  (λ joy, (hats_apartb joy, joystate joy))
    <$> fill_sticks (set_caps can zero_joystick)
  = Some (true, zero_joystate).
Proof.
  intros ((Hs & Hls) & (Hp & Hlp) & _).
  destruct can as [hx nx hy ny hz nz hrx nrx hry nry hrz nrz ns ls np lp nb lb].
  cbn in Hs, Hls, Hp, Hlp.
  destruct ls as [|s0 [|s1 [|]]]; try discriminate.
  destruct lp as [|p0 [|p1 [|p2 [|p3 [|]]]]]; try discriminate.
  assert (ns = 0 ∨ ns = 1 ∨ ns = 2) as Hns
    by (unfold MAX_SLIDERS in Hs; lia).
  assert (np = 0 ∨ np = 1 ∨ np = 2 ∨ np = 3 ∨ np = 4) as Hnp
    by (unfold MAX_POVS in Hp; lia).
  clear Hs Hp Hls Hlp.
  destruct Hns as [-> | [-> | ->]];
    destruct Hnp as [-> | [-> | [-> | [-> | ->]]]];
    destruct hx, hy, hz, hrx, hry, hrz; vm_compute; reflexivity.
Qed.

(** The hat sticks of a laid out record are sticks of the schema. *)
Lemma hat_sticks_in_schema (joy : AL_JOYSTICK_DIRECTX) (s : Z) :
  layout_okb joy = true → s ∈ hat_sticks joy →
  0 ≤ s < num_sticks (info (parent joy)).
Proof.
  intros Hok Hs. unfold layout_okb in Hok.
  repeat (apply andb_prop in Hok as [Hok ?]).
  match goal with
  | H : forallb (hat_stickb joy) _ = true |- _ =>
      apply forallb_Forall in H;
      pose proof (proj1 (Forall_forall _ _) H s Hs) as Hhat
  end.
  unfold hat_stickb in Hhat.
  apply andb_prop in Hhat as [Hhat _]. apply andb_prop in Hhat as [? ?]. lia.
Qed.

(** The zeroed snapshot holds 0.0 in every axis. *)
Lemma zero_joystate_axis (s a : Z) :
  0 ≤ s < 8 → 0 ≤ a < 3 →
  get_axis_pos s a zero_joystate = Some (float_lit 0).
Proof.
  intros Hs Ha. unfold get_axis_pos, zero_joystate. cbn [state_stick].
  unfold array_get. destruct (Z.leb_spec 0 s); [| lia].
  rewrite lookup_replicate_2
    by (unfold _AL_MAX_JOYSTICK_STICKS, MAX_SLIDERS, MAX_POVS; lia).
  cbn [mbind option_bind]. destruct (Z.leb_spec 0 a); [| lia].
  rewrite lookup_replicate_2 by (unfold _AL_MAX_JOYSTICK_AXES; lia).
  reflexivity.
Qed.

Lemma hat_axes_zero (joy : AL_JOYSTICK_DIRECTX) :
  joy_wf joy → layout_okb joy = true → joystate joy = zero_joystate →
  hat_axes_tri_valued joy.
Proof.
  intros Hwf Hok Hz s Hs. destruct (joy_wf_inv joy Hwf) as [Hi _].
  destruct (info_wf_inv _ Hi) as (_ & Hn & _ & _).
  pose proof (hat_sticks_in_schema joy s Hok Hs).
  exists (float_lit 0), (float_lit 0). rewrite Hz.
  unfold _AL_MAX_JOYSTICK_STICKS, MAX_SLIDERS, MAX_POVS in Hn.
  rewrite !zero_joystate_axis by lia.
  split; [done |]. split; [done |]. unfold tri_valued. auto.
Qed.

(** What the layout builder leaves behind, for the hats. *)
Lemma fill_joystick_info_hats (can : CAPS_AND_NAMES) :
  caps_wf can →
  ∃ joy', fill_joystick_info_using_caps_and_names (set_caps can zero_joystick)
          = Some joy'
          ∧ caps_and_names joy' = can
          ∧ hat_device_ok joy'.
Proof.
  intros Hwf.
  destruct (fill_sticks_spec can Hwf)
    as (joy1 & Hs & _ & _ & Hcaps1 & Hbut & _).
  pose proof (fill_sticks_hats can Hwf) as Hh. rewrite Hs in Hh.
  injection Hh as Hapart Hstate.
  destruct (fill_buttons_spec joy1) as (l & Hb & _).
  { by rewrite Hcaps1. }
  { rewrite Hbut. by rewrite length_replicate. }
  destruct (fill_joystick_info_layout can Hwf)
    as (joy' & Hrun & Hjoy & Hok & Hcaps & _).
  assert (joy' = set_info
                   (set_info_num_buttons (num_buttons (caps_and_names joy1))
                      (set_info_button l (info (parent joy1)))) joy1) as Heq.
  { revert Hrun. unfold fill_joystick_info_using_caps_and_names.
    rewrite Hs. cbn [mbind option_bind]. rewrite Hb. by intros [= <-]. }
  exists joy'. split; [exact Hrun |]. split; [exact Hcaps |].
  assert (hats_apartb joy' = true) as Hap by (subst joy'; exact Hapart).
  assert (joystate joy' = zero_joystate) as Hst by (subst joy'; exact Hstate).
  split.
  { split; [exact Hjoy |]. unfold layout_okb in Hok.
    apply andb_prop in Hok as [Hok Hp]. apply andb_prop in Hok as [_ Hsl].
    apply Nat.eqb_eq in Hp, Hsl. by rewrite Hcaps. }
  split; [exact Hok |]. split; [exact Hap |]. by apply hat_axes_zero.
Qed.

(** The members [hat_device_ok] reads but for the snapshot are not touched
    by a drain. *)
Lemma hat_layout_drained (cs : list CHANGE) (joy joy' : AL_JOYSTICK_DIRECTX) :
  drained cs joy joy' →
  hat_sticks joy' = hat_sticks joy
  ∧ layout_okb joy' = layout_okb joy
  ∧ hats_apartb joy' = hats_apartb joy.
Proof. unfold drained. intros ->. by repeat split. Qed.

(** An axis delta writes to the stick of its mapping only. *)
Lemma handle_axis_event_elsewhere (joy joy' : AL_JOYSTICK_DIRECTX)
    (m : AXIS_MAPPING) (value s a : Z) :
  handle_axis_event joy m value = Some joy' →
  0 ≤ s → 0 ≤ a → s ≠ m_stick m →
  get_axis_pos s a (joystate joy') = get_axis_pos s a (joystate joy).
Proof.
  unfold handle_axis_event. intros Hrun Hs Ha Hne.
  destruct ((m_stick m <? 0) || (m_stick m >=? num_sticks (info (parent joy))));
    [by injection Hrun as <- |].
  destruct (array_get (info_stick (info (parent joy))) (m_stick m)) as [st |];
    [| discriminate].
  cbn [mbind option_bind] in Hrun.
  destruct ((m_axis m <? 0) || (m_axis m >=? num_axes st));
    [by injection Hrun as <- |].
  destruct (set_axis_pos (m_stick m) (m_axis m) (axis_pos value) (joystate joy))
    as [js |] eqn:Hset; [| discriminate].
  cbn [mbind option_bind] in Hrun. injection Hrun as <-.
  rewrite generate_axis_event_emit. cbn [set_es joystate set_joystate].
  eapply set_axis_pos_other; [exact Hset | congruence | done | done].
Qed.

(** A hat delta writes to its stick only. *)
Lemma handle_pov_event_elsewhere (joy joy' : AL_JOYSTICK_DIRECTX)
    (stick _value s a : Z) :
  handle_pov_event joy stick _value = Some joy' →
  0 ≤ s → 0 ≤ a → s ≠ stick →
  get_axis_pos s a (joystate joy') = get_axis_pos s a (joystate joy).
Proof.
  unfold handle_pov_event. intros Hrun Hs Ha Hne.
  destruct ((stick <? 0) || (stick >=? num_sticks (info (parent joy))));
    [by injection Hrun as <- |].
  destruct (get_axis_pos stick 0 (joystate joy)) as [old_p0 |];
    [| discriminate].
  destruct (get_axis_pos stick 1 (joystate joy)) as [old_p1 |];
    [| discriminate].
  cbn [mbind option_bind] in Hrun.
  destruct (set_axis_pos stick 0 _ (joystate joy)) as [js0 |] eqn:Hset0;
    [| discriminate].
  cbn [mbind option_bind] in Hrun.
  destruct (set_axis_pos stick 1 _ js0) as [js1 |] eqn:Hset1;
    [| discriminate].
  cbn [mbind option_bind] in Hrun. injection Hrun as <-.
  rewrite !generate_axis_event_emit.
  assert (∀ joy0 : AL_JOYSTICK_DIRECTX,
            joystate joy0 = js1 →
            get_axis_pos s a (joystate joy0)
            = get_axis_pos s a (joystate joy)) as Hjs.
  { intros joy0 ->.
    rewrite (set_axis_pos_other js0 js1 stick 1 s a _ Hset1)
      by (congruence || done).
    eapply set_axis_pos_other; [exact Hset0 | congruence | done | done]. }
  destruct (fne old_p0 _), (fne old_p1 _); by apply Hjs.
Qed.

Lemma tri_valued_pov (raw : Z) :
  tri_valued (pov_p0 raw) ∧ tri_valued (pov_p1 raw).
Proof.
  rewrite pov_p0_hat_x, pov_p1_hat_y. unfold tri_valued.
  destruct (hat_x_values raw) as [-> | [-> | ->]],
    (hat_y_values raw) as [-> | [-> | ->]]; auto.
Qed.

(** A hat delta on a hat stick keeps the hat axes at -1.0, 0.0 or +1.0. *)
Lemma handle_pov_event_hats (joy joy' : AL_JOYSTICK_DIRECTX)
    (cs : list CHANGE) (stick _value : Z) :
  joy_wf joy → layout_okb joy = true → stick ∈ hat_sticks joy →
  handle_pov_event joy stick _value = Some joy' → drained cs joy joy' →
  hat_axes_tri_valued joy → hat_axes_tri_valued joy'.
Proof.
  intros Hwf Hok Hstick Hrun Hd Htri s Hs.
  destruct (hat_layout_drained cs joy joy' Hd) as (Hsticks & _).
  rewrite Hsticks in Hs.
  pose proof (hat_sticks_in_schema joy s Hok Hs) as Hin.
  destruct (decide (s = stick)) as [-> | Hne].
  - destruct (handle_pov_event_in joy stick _value Hwf Hin)
      as (old_p0 & old_p1 & js & _ & _ & H0 & H1 & _ & _ & Hrun').
    rewrite Hrun' in Hrun. injection Hrun as <-.
    cbn [set_es joystate set_joystate]. eexists _, _.
    split; [exact H0 |]. split; [exact H1 |]. apply tri_valued_pov.
  - rewrite !(handle_pov_event_elsewhere joy joy' stick _value s _ Hrun)
      by (lia || done).
    by apply Htri.
Qed.

(** An axis or slider delta through a mapping that is apart from the hats
    leaves the hat axes alone. *)
Lemma handle_axis_event_hats (joy joy' : AL_JOYSTICK_DIRECTX)
    (cs : list CHANGE) (m : AXIS_MAPPING) (value : Z) :
  layout_okb joy = true → apart_from_hats joy m = true →
  handle_axis_event joy m value = Some joy' → drained cs joy joy' →
  hat_axes_tri_valued joy → hat_axes_tri_valued joy'.
Proof.
  intros Hok Hapart Hrun Hd Htri s Hs.
  destruct (hat_layout_drained cs joy joy' Hd) as (Hsticks & _).
  rewrite Hsticks in Hs.
  pose proof (hat_sticks_in_schema joy s Hok Hs) as Hin.
  unfold apart_from_hats in Hapart. apply forallb_Forall in Hapart.
  pose proof (proj1 (Forall_forall _ _) Hapart s Hs) as Hne.
  cbn beta in Hne. apply negb_true_iff, Z.eqb_neq in Hne.
  rewrite !(handle_axis_event_elsewhere joy joy' m value s _ Hrun)
    by (lia || done).
  by apply Htri.
Qed.

(** The hat axes read the sticks of the snapshot only. *)
Lemma hat_axes_same_sticks (joy joy' : AL_JOYSTICK_DIRECTX) :
  hat_sticks joy' = hat_sticks joy →
  state_stick (joystate joy') = state_stick (joystate joy) →
  hat_axes_tri_valued joy → hat_axes_tri_valued joy'.
Proof.
  intros Hs Hst Htri s Hin. rewrite Hs in Hin.
  unfold get_axis_pos. rewrite Hst. by apply Htri.
Qed.

Lemma hat_stick_of_hat (joy : AL_JOYSTICK_DIRECTX) (k s : Z) :
  0 ≤ k < num_povs (caps_and_names joy) →
  array_get (pov_mapping_stick joy) k = Some s → s ∈ hat_sticks joy.
Proof.
  intros Hk Hget. apply array_get_Some in Hget as [_ Hget].
  unfold hat_sticks. apply (list_elem_of_lookup_2 _ (Z.to_nat k)).
  rewrite lookup_take_lt by lia. exact Hget.
Qed.

Lemma slider_apart_from_hats (joy : AL_JOYSTICK_DIRECTX) (k : Z)
    (m : AXIS_MAPPING) :
  device_wf joy → hats_apartb joy = true →
  0 ≤ k < num_sliders (caps_and_names joy) →
  array_get (slider_mapping joy) k = Some m → apart_from_hats joy m = true.
Proof.
  intros (_ & Hl & _ & (Hs & _) & _) Hap Hk Hget. unfold hats_apartb in Hap.
  apply andb_prop in Hap as [_ Hap].
  destruct (forallb_take_lookup _ _ _ k Hap) as (m' & Hget' & Hm');
    [lia | lia |].
  rewrite Hget in Hget'. by injection Hget' as <-.
Qed.

(** One item of the buffer that is a delta of an object of the device. *)
Lemma dispatch_item_hats (item : DIDEVICEOBJECTDATA)
    (joy : AL_JOYSTICK_DIRECTX) :
  hat_device_ok joy → own_object (caps_and_names joy) item = true →
  ∃ joy' cs,
    dispatch_item item joy = Some joy' ∧ drained cs joy joy'
    ∧ hat_device_ok joy'.
Proof.
  intros (Hwf & Hok & Hap & Htri) Hown.
  destruct (dispatch_item_drained item joy Hwf)
    as (joy' & cs & Hrun & Hd & _ & Hst & _).
  exists joy', cs. split; [exact Hrun |]. split; [exact Hd |].
  destruct (hat_layout_drained cs joy joy' Hd) as (Hsticks & Hok' & Hap').
  split; [by eapply device_wf_drained |].
  split; [by rewrite Hok' |]. split; [by rewrite Hap' |].
  pose proof Hwf as (Hjoy & _ & _ & _ & (Hnp & _) & _).
  pose proof Hap as Hax. unfold hats_apartb in Hax.
  repeat (apply andb_prop in Hax as [Hax ?]).
  revert Hrun Hown. unfold dispatch_item, own_object.
  generalize (int_of_DWORD (dwOfs item)). intros ofs.
  repeat match goal with
         | |- context [ofs =? ?b] => destruct (ofs =? b)
         end.
  (* the axes *)
  1-6: intros Hrun Hown;
       match type of Hrun with
       | handle_axis_event _ ?m _ = _ =>
           match goal with
           | Himp : implb _ (apart_from_hats _ m) = true |- _ =>
               eapply handle_axis_event_hats;
                 [exact Hok | exact (implb_true _ _ Himp Hown)
                 | exact Hrun | exact Hd | exact Htri]
           end
       end.
  (* the sliders *)
  1-2: match goal with
       | |- context [array_get (slider_mapping _) ?k] =>
           destruct (array_get (slider_mapping joy) k) as [m |] eqn:Hm;
           [| discriminate]; cbn [mbind option_bind]; intros Hrun Hown;
           eapply handle_axis_event_hats;
             [exact Hok
             | eapply (slider_apart_from_hats joy k); [done | done | lia | done]
             | exact Hrun | exact Hd | exact Htri]
       end.
  (* the hats *)
  1-4: match goal with
       | |- context [array_get (pov_mapping_stick _) ?k] =>
           destruct (array_get (pov_mapping_stick joy) k) as [s |] eqn:Hs;
           [| discriminate]; cbn [mbind option_bind]; intros Hrun Hown;
           eapply handle_pov_event_hats;
             [exact Hjoy | exact Hok
             | eapply (hat_stick_of_hat joy k); [lia | done]
             | exact Hrun | exact Hd | exact Htri]
       end.
  (* the buttons and the rest *)
  destruct (joy_wf_inv joy Hjoy) as [Hi _].
  destruct (info_wf_inv _ Hi) as (_ & _ & _ & Hn).
  unfold DIJOFS_BUTTON0, DIJOFS_BUTTON1, DIJOFS_BUTTON.
  destruct (Z.geb_spec ofs (48 + 0));
    destruct (Z.ltb_spec ofs (48 + info_num_buttons (info (parent joy))));
    cbn [andb]; intros Hrun _.
  2-4: injection Hrun as <-; exact Htri.
  revert Hrun. change (48 + 1 - (48 + 0)) with 1. rewrite Z.quot_1_r.
  intros Hrun.
  destruct (handle_button_event_drained joy (ofs - (48 + 0))
              (negb (Z.land (dwData item) 128 =? 0)) Hjoy)
    as (joy2 & cs2 & Hrun2 & _ & _ & _ & Hsame & _); [lia |].
  rewrite Hrun2 in Hrun. injection Hrun as <-.
  by apply (hat_axes_same_sticks joy).
Qed.

(** The whole buffer. *)
Lemma dispatch_items_hats (buffer : list DIDEVICEOBJECTDATA) :
  ∀ joy,
    hat_device_ok joy →
    forallb (own_object (caps_and_names joy)) buffer = true →
    ∃ joy' cs,
      dispatch_items buffer joy = Some joy' ∧ drained cs joy joy'
      ∧ hat_device_ok joy'.
Proof.
  induction buffer as [|item buffer IH]; intros joy Hok Hown.
  - exists joy, []. split; [done |]. split; [apply drained_refl | done].
  - cbn [forallb] in Hown. apply andb_prop in Hown as [Hitem Hown].
    destruct (dispatch_item_hats item joy Hok Hitem)
      as (joy1 & cs1 & Hrun1 & Hd1 & Hok1).
    destruct (drained_frame cs1 joy joy1 Hd1) as (_ & _ & Hcaps & _).
    destruct (IH joy1 Hok1) as (joy2 & cs2 & Hrun2 & Hd2 & Hok2);
      [by rewrite Hcaps |].
    exists joy2, (cs1 ++ cs2). cbn [dispatch_items]. rewrite Hrun1.
    cbn [mbind option_bind]. split; [exact Hrun2 |].
    split; [by eapply drained_trans | exact Hok2].
Qed.

Lemma forallb_take {A} (f : A → bool) (n : nat) (l : list A) :
  forallb f l = true → forallb f (take n l) = true.
Proof. rewrite !forallb_Forall. apply Forall_take. Qed.

(** The drain of a device whose deltas are its own. *)
Lemma update_joystick_hats (joy : AL_JOYSTICK_DIRECTX) (hr : HRESULT)
    (pending : list DIDEVICEOBJECTDATA) :
  hat_device_ok joy →
  forallb (own_object (caps_and_names joy)) pending = true →
  ∃ joy' scheduled cs,
    update_joystick joy hr pending = Some (joy', scheduled)
    ∧ drained cs joy joy' ∧ hat_device_ok joy'.
Proof.
  intros Hok Hown. unfold update_joystick, IDirectInputDevice2_GetDeviceData.
  assert (∀ b : bool, ∃ (joy' : AL_JOYSTICK_DIRECTX) (scheduled : bool) cs,
            Some (joy, b) = Some (joy', scheduled)
            ∧ drained cs joy joy' ∧ hat_device_ok joy') as Hsame.
  { intros b. exists joy, b, []. split; [done |].
    split; [apply drained_refl | done]. }
  destruct (negb (HRESULT_eqb hr DI_OK) && negb (HRESULT_eqb hr DI_BUFFEROVERFLOW)).
  { destruct (HRESULT_eqb hr DIERR_NOTACQUIRED || HRESULT_eqb hr DIERR_INPUTLOST);
      apply Hsame. }
  apply (forallb_take _ (Z.to_nat DEVICE_BUFFER_SIZE)) in Hown.
  destruct (take (Z.to_nat DEVICE_BUFFER_SIZE) pending) as [|item buffer];
    [apply Hsame |].
  cbn [length].
  destruct (dispatch_items_hats (item :: buffer) joy Hok Hown)
    as (joy' & cs & Hrun & Hd & Hok').
  exists joy', false, cs. rewrite Hrun. by cbn [mbind option_bind].
Qed.

(** Where the entries of the table come from after a step: an entry is the
    one before the step, that one with another taken flag and event source,
    or what the drain of a round made of it. *)
Lemma step_entry (s : STEP) (d d' : DRIVER) (k : Z)
    (joy' : AL_JOYSTICK_DIRECTX) :
  step s d = Some d' → 0 ≤ k →
  array_get (joydx_joystick d') k = Some joy' →
  ∃ joy,
    array_get (joydx_joystick d) k = Some joy
    ∧ (joy' = joy
       ∨ (∃ g e, joy' = set_gotten g (set_es e joy))
       ∨ ∃ result hr pending scheduled,
           s = StepRound result hr pending
           ∧ k = int_of_DWORD (result - WAIT_OBJECT_0 - 1)
           ∧ 0 ≤ k < joydx_num_joysticks d
           ∧ update_joystick joy hr pending = Some (joy', scheduled)).
Proof.
  assert (∀ num (joy0 joy1 : AL_JOYSTICK_DIRECTX) d1,
            array_get (joydx_joystick d) num = Some joy0 →
            set_joystick num joy1 d = Some d1 → 0 ≤ k →
            array_get (joydx_joystick d1) k = Some joy' →
            (num = k ∧ joy' = joy1)
            ∨ array_get (joydx_joystick d) k = Some joy') as Hset.
  { intros num joy0 joy1 d1 Hget Hs Hk.
    rewrite (set_joystick_lookup num k joy1 d d1 Hs Hk).
    case_decide; [intros [= <-]; by left | by right]. }
  intros Hstep Hk Hget.
  destruct s as [num | num | result hr pending | num needs free];
    cbn [step] in Hstep.
  - unfold joydx_get_joystick in Hstep.
    destruct (array_get (joydx_joystick d) num) as [joy0 |] eqn:Hjoy0;
      [| discriminate].
    cbn [mbind option_bind] in Hstep.
    destruct (Hset _ _ _ _ Hjoy0 Hstep Hk Hget) as [[-> ->] | Hsame];
      [| by eauto].
    exists joy0. split; [done |]. right. left. by eexists _, _.
  - unfold joydx_release_joystick in Hstep.
    destruct (array_get (joydx_joystick d) num) as [joy0 |] eqn:Hjoy0;
      [| discriminate].
    cbn [mbind option_bind] in Hstep.
    destruct (Hset _ _ _ _ Hjoy0 Hstep Hk Hget) as [[-> ->] | Hsame];
      [| by eauto].
    exists joy0. split; [done |]. right. left.
    by exists false, (_al_event_source_free (es (parent joy0))).
  - unfold joydx_thread_proc_round in Hstep.
    destruct (result =? WAIT_OBJECT_0);
      [injection Hstep as <-; by eauto |].
    set (num := int_of_DWORD (result - WAIT_OBJECT_0 - 1)) in *.
    destruct (Z.ltb_spec num 0); [injection Hstep as <-; by eauto |].
    destruct (Z.geb_spec num (joydx_num_joysticks d));
      [injection Hstep as <-; by eauto |].
    cbn [orb] in Hstep.
    destruct (array_get (joydx_joystick d) num) as [joy0 |] eqn:Hjoy0;
      [| discriminate].
    cbn [mbind option_bind] in Hstep.
    destruct (gotten joy0); [| injection Hstep as <-; by eauto].
    destruct (update_joystick joy0 hr pending) as [[joy1 scheduled] |] eqn:Hup;
      [| discriminate].
    cbn [mbind option_bind] in Hstep.
    destruct (set_joystick num joy1 d) as [d1 |] eqn:Hd1; [| discriminate].
    cbn [mbind option_bind] in Hstep.
    assert (joydx_joystick d' = joydx_joystick d1) as Htable
      by (injection Hstep as <-; by destruct scheduled).
    rewrite Htable in Hget.
    destruct (Hset _ _ _ _ Hjoy0 Hd1 Hk Hget) as [[Hnum ->] | Hsame];
      [| by eauto].
    exists joy0. split; [by rewrite <- Hnum |]. right. right.
    exists result, hr, pending, scheduled.
    split; [done |]. split; [done |]. split; [lia | done].
  - destruct (array_get (joydx_joystick d) num) as [joy0 |] eqn:Hjoy0;
      [| discriminate].
    cbn [mbind option_bind] in Hstep.
    destruct (Hset _ _ _ _ Hjoy0 Hstep Hk Hget) as [[-> ->] | Hsame];
      [| by eauto].
    exists joy0. split; [done |]. right. left.
    exists (gotten joy0), (framework needs free (es (parent joy0))).
    by destruct joy0.
Qed.

Lemma hat_device_ok_facade (g : bool) (e : AL_EVENT_SOURCE)
    (joy : AL_JOYSTICK_DIRECTX) :
  hat_device_ok joy → hat_device_ok (set_gotten g (set_es e joy)).
Proof. intros H. exact H. Qed.

(** A step keeps the hats of every device in order when the deltas of a
    round are deltas of the device's own objects. *)
Lemma step_hats (s : STEP) (d1 d : DRIVER) :
  hats_inv d1 d → valid_step d1 s → own_deltas d1 s = true →
  ∃ d', step s d = Some d' ∧ hats_inv d1 d'.
Proof.
  intros (Hok & Hn & Hall) Hvalid Hown.
  destruct (step_ok s d Hok) as (d' & Hstep & Hok' & Hsb).
  { destruct s; cbn [valid_step] in *; by rewrite ?Hn. }
  exists d'. split; [exact Hstep |]. split; [exact Hok' |].
  destruct Hsb as (_ & Hn' & _). split; [congruence |].
  intros k joy' Hk Hget. rewrite Hn' in Hk.
  destruct (step_entry s d d' k joy' Hstep (proj1 Hk) Hget)
    as (joy & Hjoy & Hfrom).
  destruct (Hall k joy Hk Hjoy) as (joy1 & Hjoy1 & Hcaps & Hhat).
  exists joy1. split; [exact Hjoy1 |].
  destruct Hfrom as [-> | [(g & e & ->) | Hround]]; [done | done |].
  destruct Hround as (result & hr & pending & scheduled & -> & Hnum & _ & Hup).
  cbn [own_deltas] in Hown. rewrite <- Hnum in Hown.
  destruct (Z.ltb_spec k 0); [lia |].
  destruct (Z.geb_spec k (joydx_num_joysticks d1)); [lia |].
  cbn [orb] in Hown. rewrite Hjoy1, <- Hcaps in Hown.
  destruct (update_joystick_hats joy hr pending Hhat Hown)
    as (joy2 & scheduled2 & cs & Hup2 & Hd & Hhat2).
  rewrite Hup in Hup2. injection Hup2 as -> _.
  destruct (drained_frame cs joy joy2 Hd) as (_ & _ & Hcaps2 & _).
  split; [congruence | exact Hhat2].
Qed.

Lemma run_hats (steps : list STEP) (d1 : DRIVER) :
  ∀ d, hats_inv d1 d → Forall (valid_step d1) steps →
       forallb (own_deltas d1) steps = true →
       ∃ d', run steps d = Some d' ∧ hats_inv d1 d'.
Proof.
  induction steps as [|s steps IH]; intros d Hinv Hvalid Hown.
  - by exists d.
  - apply Forall_cons in Hvalid as [Hs Hvalid].
    cbn [forallb] in Hown. apply andb_prop in Hown as [Hos Hown].
    destruct (step_hats s d1 d Hinv Hs Hos) as (d2 & Hstep & Hinv2).
    destruct (IH d2 Hinv2 Hvalid Hown) as (d3 & Hrun & Hinv3).
    exists d3. cbn [run]. rewrite Hstep. by cbn [mbind option_bind].
Qed.

(** The record the callback leaves for a controller it sets up. *)
Lemma hat_device_ok_record (n : Z) (a : DEVICE_ANSWERS) :
  hat_device_ok (device_record n a).
Proof.
  destruct (enumerated_spec (a_objects a)) as (can & _ & Hwf & Hfill & _).
  destruct (fill_joystick_info_hats can Hwf) as (joy & Hfill' & _ & Hok).
  rewrite Hfill in Hfill'. injection Hfill' as <-. exact Hok.
Qed.

(** The driver [joydx_init] leaves when it succeeds. *)
Lemma joydx_init_hats (a : SYSTEM_ANSWERS) (d1 : DRIVER) :
  (length (a_attached a) ≤ 8)%nat →
  joydx_init a initial_driver = Some (d1, true) →
  hats_inv d1 d1.
Proof.
  intros Hlen Hinit.
  destruct (joydx_init_spec a Hlen)
    as (dE & Hrun & Hinv & Hn & _ & _ & l & Hl & Hinv' & Heq).
  rewrite Heq in Hinit.
  destruct (_dx_ver a <? 1280); [by injection Hinit |].
  destruct (FAILED (a_DirectInputCreate a)); [by injection Hinit |].
  destruct (FAILED (a_EnumDevices a)); [by injection Hinit |].
  destruct (joydx_num_joysticks dE =? 0); [by injection Hinit |].
  injection Hinit as <-.
  set (d0 := referenced (a_joystick_dinput a)
               (set_joystick_dinput (a_joystick_dinput a) initial_driver)) in *.
  assert (joydx_num_joysticks d0 = 0) as Hn0
    by (subst d0; unfold referenced; by destruct (_ =? _)).
  destruct (IDirectInput_EnumDevices_inv (a_attached a) d0
              (enum_inv_dinput (a_joystick_dinput a)))
    as (dE2 & Hrun2 & _ & _ & _ & _ & _ & Hnew);
    [rewrite Hn0; unfold MAX_JOYSTICKS; lia |].
  rewrite Hrun in Hrun2. injection Hrun2 as <-.
  set (d1 := set_joydx_thread _ _) in *.
  assert (joydx_joystick d1 = joydx_joystick dE
          ∧ joydx_num_joysticks d1 = joydx_num_joysticks dE) as [Ht Hc]
    by (subst d1; unfold created; by destruct (_ =? _)).
  split; [exact (proj1 Hinv') |]. split; [done |].
  intros k joy Hk Hget. exists joy. split; [done |]. split; [done |].
  rewrite Hc, Hn in Hk. rewrite Ht in Hget.
  destruct (lookup_lt_is_Some_2 (set_up (a_attached a)) (Z.to_nat k))
    as [a0 Ha0]; [lia |].
  destruct (Hnew (Z.to_nat k) a0 Ha0) as [Hent _]. cbv zeta in Hent.
  rewrite Hn0, Z.add_0_l, Z2Nat.id in Hent by lia.
  rewrite Hget in Hent. injection Hent as ->.
  apply hat_device_ok_record.
Qed.

(** What a hat delta of a hat of the device stores. *)
Lemma hat_delta_rule (joy : AL_JOYSTICK_DIRECTX)
    (item : DIDEVICEOBJECTDATA) (k : Z) :
  hat_device_ok joy →
  0 ≤ k < num_povs (caps_and_names joy) →
  int_of_DWORD (dwOfs item) = DIJOFS_POV k →
  let raw := int_of_DWORD (dwData item) in
  ∃ s joy',
    array_get (pov_mapping_stick joy) k = Some s
    ∧ s ∈ hat_sticks joy
    ∧ dispatch_item item joy = Some joy'
    ∧ handle_pov_event joy s (dwData item) = Some joy'
    ∧ get_axis_pos s 0 (joystate joy') = Some (float_lit (hat_x raw))
    ∧ get_axis_pos s 1 (joystate joy') = Some (float_lit (hat_y raw))
    ∧ hat_axes_tri_valued joy'.
Proof.
  intros Hhat Hk Hofs raw.
  pose proof Hhat as (Hwf & Hok & _ & _).
  pose proof Hwf as (Hjoy & _ & Hlp & _ & (Hnp & _) & _).
  unfold MAX_POVS in *.
  destruct (array_get_in (pov_mapping_stick joy) k) as [s Hs]; [lia |].
  pose proof (hat_stick_of_hat joy k s Hk Hs) as Hin.
  pose proof (hat_sticks_in_schema joy s Hok Hin) as Hschema.
  assert (hat_object joy (int_of_DWORD (dwOfs item)) = Some s) as Hobj.
  { rewrite Hofs. unfold hat_object, DIJOFS_POV.
    assert (k = 0 ∨ k = 1 ∨ k = 2 ∨ k = 3) as [-> | [-> | [-> | ->]]] by lia;
      exact Hs. }
  assert (own_object (caps_and_names joy) item = true) as Hown.
  { unfold own_object. rewrite Hofs.
    unfold DIJOFS_X, DIJOFS_Y, DIJOFS_Z, DIJOFS_RX, DIJOFS_RY, DIJOFS_RZ,
      DIJOFS_SLIDER, DIJOFS_POV.
    assert (k = 0 ∨ k = 1 ∨ k = 2 ∨ k = 3) as [-> | [-> | [-> | ->]]] by lia;
      cbn; apply Z.ltb_lt; lia. }
  destruct (dispatch_item_hats item joy Hhat Hown)
    as (joy' & cs & Hrun & _ & Hhat').
  destruct (handle_pov_event_in joy s (dwData item) Hjoy Hschema)
    as (old_p0 & old_p1 & js & _ & _ & H0 & H1 & _ & _ & Hrun').
  rewrite (dispatch_item_pov joy item s Hobj), Hrun' in Hrun.
  injection Hrun as <-. eexists s, _.
  split; [exact Hs |]. split; [exact Hin |].
  split; [rewrite (dispatch_item_pov joy item s Hobj); exact Hrun' |].
  split; [exact Hrun' |].
  cbn [set_es joystate set_joystate].
  rewrite H0, H1, pov_p0_hat_x, pov_p1_hat_y.
  split; [done |]. split; [done |]. by destruct Hhat' as (_ & _ & _ & ?).
Qed.

(** C3, as amended: the hat rule of the driver, and the hat axes at all
    times.  After a start-up that succeeded (at most eight controllers
    attached), whatever the primary thread, the framework and the background
    thread do next to the enumerated devices, the deltas of each round being
    deltas of objects the device woken has: both axes of every hat stick of
    every device hold -1.0, 0.0 or +1.0; and a delta of any of its hats,
    with any value, is routed to [handle_pov_event], which stores
    x = -1 if 18000 < raw < 36000, x = +1 if 0 < raw < 18000, else x = 0 in
    axis 0 and y = -1 if 27000 < raw <= 36000 or 0 <= raw < 9000, y = +1 if
    9000 < raw < 27000, else y = 0 in axis 1 of the stick of that hat; a
    value outside 0..36000 (the centered sentinel) yields (0, 0). *)
Theorem hat_rule_of_the_driver (a : SYSTEM_ANSWERS) (steps : list STEP)
    (d1 : DRIVER) :
  (length (a_attached a) ≤ 8)%nat →
  joydx_init a initial_driver = Some (d1, true) →
  Forall (valid_step d1) steps →
  forallb (own_deltas d1) steps = true →
  ∃ d2,
    run steps d1 = Some d2
    ∧ ∀ n joy,
        0 ≤ n < joydx_num_joysticks d2 →
        array_get (joydx_joystick d2) n = Some joy →
        hat_axes_tri_valued joy
        ∧ ∀ k item,
            0 ≤ k < num_povs (caps_and_names joy) →
            int_of_DWORD (dwOfs item) = DIJOFS_POV k →
            let raw := int_of_DWORD (dwData item) in
            ∃ s joy',
              array_get (pov_mapping_stick joy) k = Some s
              ∧ s ∈ hat_sticks joy
              ∧ dispatch_item item joy = Some joy'
              ∧ handle_pov_event joy s (dwData item) = Some joy'
              ∧ get_axis_pos s 0 (joystate joy')
                = Some (float_lit (hat_x raw))
              ∧ get_axis_pos s 1 (joystate joy')
                = Some (float_lit (hat_y raw))
              ∧ (hat_x raw = -1 ∨ hat_x raw = 0 ∨ hat_x raw = 1)
              ∧ (hat_y raw = -1 ∨ hat_y raw = 0 ∨ hat_y raw = 1)
              ∧ (¬ (0 ≤ raw ≤ 36000) → hat_x raw = 0 ∧ hat_y raw = 0)
              ∧ hat_axes_tri_valued joy'.
Proof.
  intros Hlen Hinit Hvalid Hown.
  pose proof (joydx_init_hats a d1 Hlen Hinit) as Hinv.
  destruct (run_hats steps d1 d1 Hinv Hvalid Hown) as (d2 & Hrun & Hinv2).
  exists d2. split; [exact Hrun |].
  intros n joy Hn Hget. destruct Hinv2 as (_ & _ & Hall).
  destruct (Hall n joy Hn Hget) as (_ & _ & _ & Hhat).
  split; [by destruct Hhat as (_ & _ & _ & ?) |].
  intros k item Hk Hofs raw.
  destruct (hat_delta_rule joy item k Hhat Hk Hofs)
    as (s & joy' & Hs & Hin & Hdisp & Hpov & H0 & H1 & Htri).
  exists s, joy'. split; [exact Hs |]. split; [exact Hin |].
  split; [exact Hdisp |]. split; [exact Hpov |].
  split; [exact H0 |]. split; [exact H1 |].
  split; [apply hat_x_values |]. split; [apply hat_y_values |].
  split; [apply hat_centered | exact Htri].
Qed.

(** C3, as amended, on the three controllers and the session, in which the
    flight stick is sent a burst with its hat pushed up and to the right. *)
Lemma hat_rule_of_the_driver_witness :
  joydx_init three_controllers initial_driver = Some (started_driver, true)
  ∧ Forall (valid_step started_driver) session
  ∧ forallb (own_deltas started_driver) session = true
  ∧ ∃ d2,
      run session started_driver = Some d2
      ∧ ∀ n joy,
          0 ≤ n < joydx_num_joysticks d2 →
          array_get (joydx_joystick d2) n = Some joy →
          hat_axes_tri_valued joy.
Proof.
  assert (Forall (valid_step started_driver) session) as Hvalid
    by (repeat constructor; by_evaluation).
  pose proof (hat_rule_of_the_driver three_controllers session
                started_driver ltac:(vm_compute; lia) ltac:(by_evaluation)
                Hvalid ltac:(by_evaluation)) as H.
  split; [by_evaluation |]. split; [exact Hvalid |].
  split; [by_evaluation |].
  destruct H as (d2 & Hrun & Hall). exists d2. split; [exact Hrun |].
  intros n joy Hn Hget. exact (proj1 (Hall n joy Hn Hget)).
Defined.
